(** * GNSS protocol core (libraries/GNSS/src/utility/gnss_core.c)

    A shallow embedding of the byte-driven NMEA / UBX protocol engine:
    the numeric field parsers, the framing state machine of
    [gnss_receive], the NMEA sentence processor, the UBX message
    processor and the fix correlator, followed by the properties proved
    about them.

    Conventions.
    - Every C integer is a [Z]; the wrap-around of a [uintN_t] is written
      out with [u8], [u16], [u32], a signed reinterpretation with [s8],
      [s16], [s32].
    - A [const uint8_t *] pointing at a NUL-terminated field is a
      [list Z] holding the bytes before the terminator; reading past the
      end yields the terminator 0 ([at_]).
    - Effects that leave the device record (host callbacks, the send
      routine, the retransmit timer) and the stores into [rx_data] are
      recorded, in order, in a list of [event]s returned next to the new
      device record. *)

From Stdlib Require Import ZArith List Bool Lia String Ascii.
From stdpp Require Import base list.
Import ListNotations.

Local Open Scope string_scope.
Local Open Scope list_scope.
Local Open Scope Z_scope.

(** ** Machine integers *)

Definition u8 (x : Z) : Z := x mod 256.
Definition u16 (x : Z) : Z := x mod 65536.
Definition u32 (x : Z) : Z := x mod 4294967296.

Definition s8 (x : Z) : Z := if u8 x <? 128 then u8 x else u8 x - 256.
Definition s16 (x : Z) : Z := if u16 x <? 32768 then u16 x else u16 x - 65536.
Definition s32 (x : Z) : Z :=
  if u32 x <? 2147483648 then u32 x else u32 x - 4294967296.

(** [x & m] used as a C truth value. *)
Definition test_mask (x m : Z) : bool := negb (Z.land x m =? 0).

(** [x &= ~m] *)
Definition clear_mask (m x : Z) : Z := Z.land x (Z.lnot m).

(** ** Characters and C strings *)

(** The code of a character literal; [chr ""] is the terminator. *)
Definition chr (s : string) : Z :=
  match s with
  | String a _ => Z.of_nat (nat_of_ascii a)
  | EmptyString => 0
  end.

Fixpoint bytes (s : string) : list Z :=
  match s with
  | String a rest => Z.of_nat (nat_of_ascii a) :: bytes rest
  | EmptyString => []
  end.

(** [data[i]] for a NUL-terminated [data]. *)
Definition at_ (data : list Z) (i : nat) : Z := nth i data 0.

(** The bytes of [data] before its first NUL. *)
Fixpoint c_string (data : list Z) : list Z :=
  match data with
  | c :: rest => if c =? 0 then [] else c :: c_string rest
  | [] => []
  end.

Fixpoint list_Z_eqb (a b : list Z) : bool :=
  match a, b with
  | [], [] => true
  | x :: a', y :: b' => (x =? y) && list_Z_eqb a' b'
  | _, _ => false
  end.

(** [!strcmp(data, literal)] *)
Definition strcmp_eq (data : list Z) (literal : string) : bool :=
  list_Z_eqb (c_string data) (bytes literal).

Definition is_digit (c : Z) : bool := (chr "0" <=? c) && (c <=? chr "9").

(** ** Numeric field parsers *)

Definition nmea_hex_ascii : list Z := bytes "0123456789ABCDEF".

Fixpoint nmea_isqrt_loop (fuel : nat) (n c g : Z) : Z :=
  match fuel with
  | O => g
  | S fuel' =>
      let g := if n <? u32 (g * g) then Z.lxor g c else g in
      let c := Z.shiftr c 1 in
      if c =? 0 then g else nmea_isqrt_loop fuel' n c (Z.lor g c)
  end.

(** The loop shifts [c] from 0x8000 down to 0: sixteen rounds. *)
Definition nmea_isqrt (n : Z) : Z := nmea_isqrt_loop 16 n 0x8000 0x8000.

Definition nmea_scale (i : Z) : Z :=
  nth (Z.to_nat i)
      [1; 10; 100; 1000; 10000; 100000; 1000000; 10000000; 100000000;
       1000000000] 0.

(** [while (digit(data[0])) { integer = integer * 10 + (data[0] - '0'); data++; }] *)
Fixpoint scan_digits (data : list Z) (integer : Z) : Z * list Z :=
  match data with
  | c :: rest =>
      if is_digit c then scan_digits rest (u32 (integer * 10 + (c - chr "0")))
      else (integer, data)
  | [] => (integer, [])
  end.

(** The fraction loop: digits beyond [scale] are consumed and dropped. *)
Fixpoint scan_fraction (data : list Z) (fraction digits scale : Z)
  : Z * Z * list Z :=
  match data with
  | c :: rest =>
      if is_digit c then
        if digits <? scale
        then scan_fraction rest (u32 (fraction * 10 + (c - chr "0")))
                           (digits + 1) scale
        else scan_fraction rest fraction digits scale
      else (fraction, digits, data)
  | [] => (fraction, digits, [])
  end.

Definition nmea_parse_unsigned (data : list Z) : option Z :=
  let '(integer, data) := scan_digits data 0 in
  if at_ data 0 =? 0 then Some integer else None.

Definition nmea_parse_fixed (data : list Z) (scale : Z) : option Z :=
  let '(integer, data) := scan_digits data 0 in
  let '(fraction, data) :=
    if at_ data 0 =? chr "." then
      let '(fraction, digits, data) := scan_fraction (tl data) 0 0 scale in
      if (at_ data 0 =? 0) && (digits <? scale)
      then (u32 (fraction * nmea_scale (scale - digits)), data)
      else (fraction, data)
    else (0, data) in
  if at_ data 0 =? 0
  then Some (u32 (integer * nmea_scale scale + fraction))
  else None.

Definition two_digits (data : list Z) : Z :=
  u32 ((at_ data 0 - chr "0") * 10 + (at_ data 1 - chr "0")).

Definition nmea_parse_latitude (data : list Z) : option Z :=
  if is_digit (at_ data 0) && is_digit (at_ data 1) then
    let degrees := two_digits data in
    let data := drop 2 data in
    if (degrees <? 90) && negb (at_ data 0 =? 0) then
      match nmea_parse_fixed data 7 with
      | Some minutes =>
          if minutes <? 600000000
          then Some (u32 (u32 (degrees * 10000000) + u32 ((minutes + 30) / 60)))
          else None
      | None => None
      end
    else None
  else None.

Definition nmea_parse_longitude (data : list Z) : option Z :=
  if is_digit (at_ data 0) && is_digit (at_ data 1) && is_digit (at_ data 2)
  then
    let degrees :=
      u32 ((at_ data 0 - chr "0") * 100 + (at_ data 1 - chr "0") * 10
           + (at_ data 2 - chr "0")) in
    let data := drop 3 data in
    if (degrees <? 180) && negb (at_ data 0 =? 0) then
      match nmea_parse_fixed data 7 with
      | Some minutes =>
          if minutes <? 600000000
          then Some (u32 (u32 (degrees * 10000000) + u32 ((minutes + 30) / 60)))
          else None
      | None => None
      end
    else None
  else None.

Definition nmea_parse_time (data : list Z) : option (Z * Z * Z * Z) :=
  if is_digit (at_ data 0) && is_digit (at_ data 1) then
    let hour := two_digits data in
    let data := drop 2 data in
    if (hour <? 24) && is_digit (at_ data 0) && is_digit (at_ data 1) then
      let minute := two_digits data in
      let data := drop 2 data in
      if (minute <? 60) && is_digit (at_ data 0) && is_digit (at_ data 1) then
        let second := two_digits data in
        let data := drop 2 data in
        (* A 60 is legal here for leap seconds. *)
        if second <=? 60 then
          let '(millis, data) :=
            if at_ data 0 =? chr "." then
              let '(millis, digits, data) := scan_fraction (tl data) 0 0 3 in
              if (at_ data 0 =? 0) && (digits <? 3)
              then (u32 (millis * nmea_scale (3 - digits)), data)
              else (millis, data)
            else (0, data) in
          if at_ data 0 =? 0 then Some (hour, minute, second, millis) else None
        else None
      else None
    else None
  else None.

(** ** Data model

    Modelled from the spec: the header gnss_api.h, which declares
    [utc_time_t], [gnss_location_t], [gnss_satellites_t] and the
    GNSS_LOCATION_*, GNSS_SATELLITES_* and GNSS_MODE_* constants, is not
    part of the sources.  The records below carry the fields that
    gnss_core.c reads and writes; the satellite table is capped at 32
    entries and a PRN is an 8-bit value (spec section 3).  The remaining
    records ([nmea_context_t], [ubx_context_t], [gnss_device_t]) follow
    the declarations at the top of gnss_core.c; the fields of
    [gnss_device_t] that only the transmit path uses (tx_data, tx_table,
    the send routine and its context, ubx.timeout) are left to the
    [event] trace. *)

Record utc_time_t : Type := {
  year : Z;
  month : Z;
  day : Z;
  hour : Z;
  minute : Z;
  second : Z;
  millis : Z
}.

Record gnss_location_t : Type := {
  time : utc_time_t;
  type : Z;
  mask : Z;
  quality : Z;
  numsv : Z;
  correction : Z;
  latitude : Z;
  longitude : Z;
  altitude : Z;
  separation : Z;
  speed : Z;
  course : Z;
  climb : Z;
  ehpe : Z;
  evpe : Z;
  pdop : Z;
  hdop : Z;
  vdop : Z
}.

Record gnss_satellite_info_t : Type := {
  prn : Z;
  sat_state : Z;
  snr : Z;
  elevation : Z;
  azimuth : Z
}.

Record gnss_satellites_t : Type := {
  count : Z;
  info : list gnss_satellite_info_t
}.

Record nmea_context_t : Type := {
  prefix : Z;
  sequence : Z;
  nmea_mask : Z;
  navigation : Z;
  status : Z;
  sv_in_view_sentences : Z;
  sv_in_view_count : Z;
  sv_in_view_index : Z;
  sv_used_count : Z;
  sv_used_mask : list Z;
  mtk_command : Z;
  mtk_status : Z
}.

Record ubx_context_t : Type := {
  ck_a : Z;
  ck_b : Z;
  message : Z;
  ubx_length : Z;
  week : Z;
  tow : Z;
  itow : Z
}.

Record gnss_device_t : Type := {
  mode : Z;
  state : Z;
  busy : Z;
  init : Z;
  seen : Z;
  expected : Z;
  checksum : Z;
  rx_count : Z;
  rx_offset : Z;
  rx_chunk : Z;
  table : option (list (list Z));
  rx_data : list Z;
  nmea : nmea_context_t;
  ubx : ubx_context_t;
  location : gnss_location_t;
  satellites : gnss_satellites_t;
  command : Z;
  location_callback : bool;
  satellites_callback : bool
}.

Definition set_year (v : Z) (r : utc_time_t) : utc_time_t :=
  {| year := v; month := month r; day := day r; hour := hour r; minute := minute r; second := second r; millis := millis r |}.
Definition set_month (v : Z) (r : utc_time_t) : utc_time_t :=
  {| year := year r; month := v; day := day r; hour := hour r; minute := minute r; second := second r; millis := millis r |}.
Definition set_day (v : Z) (r : utc_time_t) : utc_time_t :=
  {| year := year r; month := month r; day := v; hour := hour r; minute := minute r; second := second r; millis := millis r |}.
Definition set_hour (v : Z) (r : utc_time_t) : utc_time_t :=
  {| year := year r; month := month r; day := day r; hour := v; minute := minute r; second := second r; millis := millis r |}.
Definition set_minute (v : Z) (r : utc_time_t) : utc_time_t :=
  {| year := year r; month := month r; day := day r; hour := hour r; minute := v; second := second r; millis := millis r |}.
Definition set_second (v : Z) (r : utc_time_t) : utc_time_t :=
  {| year := year r; month := month r; day := day r; hour := hour r; minute := minute r; second := v; millis := millis r |}.
Definition set_millis (v : Z) (r : utc_time_t) : utc_time_t :=
  {| year := year r; month := month r; day := day r; hour := hour r; minute := minute r; second := second r; millis := v |}.

Definition set_time (v : utc_time_t) (r : gnss_location_t) : gnss_location_t :=
  {| time := v; type := type r; mask := mask r; quality := quality r; numsv := numsv r; correction := correction r; latitude := latitude r; longitude := longitude r; altitude := altitude r; separation := separation r; speed := speed r; course := course r; climb := climb r; ehpe := ehpe r; evpe := evpe r; pdop := pdop r; hdop := hdop r; vdop := vdop r |}.
Definition set_type (v : Z) (r : gnss_location_t) : gnss_location_t :=
  {| time := time r; type := v; mask := mask r; quality := quality r; numsv := numsv r; correction := correction r; latitude := latitude r; longitude := longitude r; altitude := altitude r; separation := separation r; speed := speed r; course := course r; climb := climb r; ehpe := ehpe r; evpe := evpe r; pdop := pdop r; hdop := hdop r; vdop := vdop r |}.
Definition set_mask (v : Z) (r : gnss_location_t) : gnss_location_t :=
  {| time := time r; type := type r; mask := v; quality := quality r; numsv := numsv r; correction := correction r; latitude := latitude r; longitude := longitude r; altitude := altitude r; separation := separation r; speed := speed r; course := course r; climb := climb r; ehpe := ehpe r; evpe := evpe r; pdop := pdop r; hdop := hdop r; vdop := vdop r |}.
Definition set_quality (v : Z) (r : gnss_location_t) : gnss_location_t :=
  {| time := time r; type := type r; mask := mask r; quality := v; numsv := numsv r; correction := correction r; latitude := latitude r; longitude := longitude r; altitude := altitude r; separation := separation r; speed := speed r; course := course r; climb := climb r; ehpe := ehpe r; evpe := evpe r; pdop := pdop r; hdop := hdop r; vdop := vdop r |}.
Definition set_numsv (v : Z) (r : gnss_location_t) : gnss_location_t :=
  {| time := time r; type := type r; mask := mask r; quality := quality r; numsv := v; correction := correction r; latitude := latitude r; longitude := longitude r; altitude := altitude r; separation := separation r; speed := speed r; course := course r; climb := climb r; ehpe := ehpe r; evpe := evpe r; pdop := pdop r; hdop := hdop r; vdop := vdop r |}.
Definition set_correction (v : Z) (r : gnss_location_t) : gnss_location_t :=
  {| time := time r; type := type r; mask := mask r; quality := quality r; numsv := numsv r; correction := v; latitude := latitude r; longitude := longitude r; altitude := altitude r; separation := separation r; speed := speed r; course := course r; climb := climb r; ehpe := ehpe r; evpe := evpe r; pdop := pdop r; hdop := hdop r; vdop := vdop r |}.
Definition set_latitude (v : Z) (r : gnss_location_t) : gnss_location_t :=
  {| time := time r; type := type r; mask := mask r; quality := quality r; numsv := numsv r; correction := correction r; latitude := v; longitude := longitude r; altitude := altitude r; separation := separation r; speed := speed r; course := course r; climb := climb r; ehpe := ehpe r; evpe := evpe r; pdop := pdop r; hdop := hdop r; vdop := vdop r |}.
Definition set_longitude (v : Z) (r : gnss_location_t) : gnss_location_t :=
  {| time := time r; type := type r; mask := mask r; quality := quality r; numsv := numsv r; correction := correction r; latitude := latitude r; longitude := v; altitude := altitude r; separation := separation r; speed := speed r; course := course r; climb := climb r; ehpe := ehpe r; evpe := evpe r; pdop := pdop r; hdop := hdop r; vdop := vdop r |}.
Definition set_altitude (v : Z) (r : gnss_location_t) : gnss_location_t :=
  {| time := time r; type := type r; mask := mask r; quality := quality r; numsv := numsv r; correction := correction r; latitude := latitude r; longitude := longitude r; altitude := v; separation := separation r; speed := speed r; course := course r; climb := climb r; ehpe := ehpe r; evpe := evpe r; pdop := pdop r; hdop := hdop r; vdop := vdop r |}.
Definition set_separation (v : Z) (r : gnss_location_t) : gnss_location_t :=
  {| time := time r; type := type r; mask := mask r; quality := quality r; numsv := numsv r; correction := correction r; latitude := latitude r; longitude := longitude r; altitude := altitude r; separation := v; speed := speed r; course := course r; climb := climb r; ehpe := ehpe r; evpe := evpe r; pdop := pdop r; hdop := hdop r; vdop := vdop r |}.
Definition set_speed (v : Z) (r : gnss_location_t) : gnss_location_t :=
  {| time := time r; type := type r; mask := mask r; quality := quality r; numsv := numsv r; correction := correction r; latitude := latitude r; longitude := longitude r; altitude := altitude r; separation := separation r; speed := v; course := course r; climb := climb r; ehpe := ehpe r; evpe := evpe r; pdop := pdop r; hdop := hdop r; vdop := vdop r |}.
Definition set_course (v : Z) (r : gnss_location_t) : gnss_location_t :=
  {| time := time r; type := type r; mask := mask r; quality := quality r; numsv := numsv r; correction := correction r; latitude := latitude r; longitude := longitude r; altitude := altitude r; separation := separation r; speed := speed r; course := v; climb := climb r; ehpe := ehpe r; evpe := evpe r; pdop := pdop r; hdop := hdop r; vdop := vdop r |}.
Definition set_climb (v : Z) (r : gnss_location_t) : gnss_location_t :=
  {| time := time r; type := type r; mask := mask r; quality := quality r; numsv := numsv r; correction := correction r; latitude := latitude r; longitude := longitude r; altitude := altitude r; separation := separation r; speed := speed r; course := course r; climb := v; ehpe := ehpe r; evpe := evpe r; pdop := pdop r; hdop := hdop r; vdop := vdop r |}.
Definition set_ehpe (v : Z) (r : gnss_location_t) : gnss_location_t :=
  {| time := time r; type := type r; mask := mask r; quality := quality r; numsv := numsv r; correction := correction r; latitude := latitude r; longitude := longitude r; altitude := altitude r; separation := separation r; speed := speed r; course := course r; climb := climb r; ehpe := v; evpe := evpe r; pdop := pdop r; hdop := hdop r; vdop := vdop r |}.
Definition set_evpe (v : Z) (r : gnss_location_t) : gnss_location_t :=
  {| time := time r; type := type r; mask := mask r; quality := quality r; numsv := numsv r; correction := correction r; latitude := latitude r; longitude := longitude r; altitude := altitude r; separation := separation r; speed := speed r; course := course r; climb := climb r; ehpe := ehpe r; evpe := v; pdop := pdop r; hdop := hdop r; vdop := vdop r |}.
Definition set_pdop (v : Z) (r : gnss_location_t) : gnss_location_t :=
  {| time := time r; type := type r; mask := mask r; quality := quality r; numsv := numsv r; correction := correction r; latitude := latitude r; longitude := longitude r; altitude := altitude r; separation := separation r; speed := speed r; course := course r; climb := climb r; ehpe := ehpe r; evpe := evpe r; pdop := v; hdop := hdop r; vdop := vdop r |}.
Definition set_hdop (v : Z) (r : gnss_location_t) : gnss_location_t :=
  {| time := time r; type := type r; mask := mask r; quality := quality r; numsv := numsv r; correction := correction r; latitude := latitude r; longitude := longitude r; altitude := altitude r; separation := separation r; speed := speed r; course := course r; climb := climb r; ehpe := ehpe r; evpe := evpe r; pdop := pdop r; hdop := v; vdop := vdop r |}.
Definition set_vdop (v : Z) (r : gnss_location_t) : gnss_location_t :=
  {| time := time r; type := type r; mask := mask r; quality := quality r; numsv := numsv r; correction := correction r; latitude := latitude r; longitude := longitude r; altitude := altitude r; separation := separation r; speed := speed r; course := course r; climb := climb r; ehpe := ehpe r; evpe := evpe r; pdop := pdop r; hdop := hdop r; vdop := v |}.

Definition set_prn (v : Z) (r : gnss_satellite_info_t) : gnss_satellite_info_t :=
  {| prn := v; sat_state := sat_state r; snr := snr r; elevation := elevation r; azimuth := azimuth r |}.
Definition set_sat_state (v : Z) (r : gnss_satellite_info_t) : gnss_satellite_info_t :=
  {| prn := prn r; sat_state := v; snr := snr r; elevation := elevation r; azimuth := azimuth r |}.
Definition set_snr (v : Z) (r : gnss_satellite_info_t) : gnss_satellite_info_t :=
  {| prn := prn r; sat_state := sat_state r; snr := v; elevation := elevation r; azimuth := azimuth r |}.
Definition set_elevation (v : Z) (r : gnss_satellite_info_t) : gnss_satellite_info_t :=
  {| prn := prn r; sat_state := sat_state r; snr := snr r; elevation := v; azimuth := azimuth r |}.
Definition set_azimuth (v : Z) (r : gnss_satellite_info_t) : gnss_satellite_info_t :=
  {| prn := prn r; sat_state := sat_state r; snr := snr r; elevation := elevation r; azimuth := v |}.

Definition set_count (v : Z) (r : gnss_satellites_t) : gnss_satellites_t :=
  {| count := v; info := info r |}.
Definition set_info (v : list gnss_satellite_info_t) (r : gnss_satellites_t) : gnss_satellites_t :=
  {| count := count r; info := v |}.

Definition set_prefix (v : Z) (r : nmea_context_t) : nmea_context_t :=
  {| prefix := v; sequence := sequence r; nmea_mask := nmea_mask r; navigation := navigation r; status := status r; sv_in_view_sentences := sv_in_view_sentences r; sv_in_view_count := sv_in_view_count r; sv_in_view_index := sv_in_view_index r; sv_used_count := sv_used_count r; sv_used_mask := sv_used_mask r; mtk_command := mtk_command r; mtk_status := mtk_status r |}.
Definition set_sequence (v : Z) (r : nmea_context_t) : nmea_context_t :=
  {| prefix := prefix r; sequence := v; nmea_mask := nmea_mask r; navigation := navigation r; status := status r; sv_in_view_sentences := sv_in_view_sentences r; sv_in_view_count := sv_in_view_count r; sv_in_view_index := sv_in_view_index r; sv_used_count := sv_used_count r; sv_used_mask := sv_used_mask r; mtk_command := mtk_command r; mtk_status := mtk_status r |}.
Definition set_nmea_mask (v : Z) (r : nmea_context_t) : nmea_context_t :=
  {| prefix := prefix r; sequence := sequence r; nmea_mask := v; navigation := navigation r; status := status r; sv_in_view_sentences := sv_in_view_sentences r; sv_in_view_count := sv_in_view_count r; sv_in_view_index := sv_in_view_index r; sv_used_count := sv_used_count r; sv_used_mask := sv_used_mask r; mtk_command := mtk_command r; mtk_status := mtk_status r |}.
Definition set_navigation (v : Z) (r : nmea_context_t) : nmea_context_t :=
  {| prefix := prefix r; sequence := sequence r; nmea_mask := nmea_mask r; navigation := v; status := status r; sv_in_view_sentences := sv_in_view_sentences r; sv_in_view_count := sv_in_view_count r; sv_in_view_index := sv_in_view_index r; sv_used_count := sv_used_count r; sv_used_mask := sv_used_mask r; mtk_command := mtk_command r; mtk_status := mtk_status r |}.
Definition set_status (v : Z) (r : nmea_context_t) : nmea_context_t :=
  {| prefix := prefix r; sequence := sequence r; nmea_mask := nmea_mask r; navigation := navigation r; status := v; sv_in_view_sentences := sv_in_view_sentences r; sv_in_view_count := sv_in_view_count r; sv_in_view_index := sv_in_view_index r; sv_used_count := sv_used_count r; sv_used_mask := sv_used_mask r; mtk_command := mtk_command r; mtk_status := mtk_status r |}.
Definition set_sv_in_view_sentences (v : Z) (r : nmea_context_t) : nmea_context_t :=
  {| prefix := prefix r; sequence := sequence r; nmea_mask := nmea_mask r; navigation := navigation r; status := status r; sv_in_view_sentences := v; sv_in_view_count := sv_in_view_count r; sv_in_view_index := sv_in_view_index r; sv_used_count := sv_used_count r; sv_used_mask := sv_used_mask r; mtk_command := mtk_command r; mtk_status := mtk_status r |}.
Definition set_sv_in_view_count (v : Z) (r : nmea_context_t) : nmea_context_t :=
  {| prefix := prefix r; sequence := sequence r; nmea_mask := nmea_mask r; navigation := navigation r; status := status r; sv_in_view_sentences := sv_in_view_sentences r; sv_in_view_count := v; sv_in_view_index := sv_in_view_index r; sv_used_count := sv_used_count r; sv_used_mask := sv_used_mask r; mtk_command := mtk_command r; mtk_status := mtk_status r |}.
Definition set_sv_in_view_index (v : Z) (r : nmea_context_t) : nmea_context_t :=
  {| prefix := prefix r; sequence := sequence r; nmea_mask := nmea_mask r; navigation := navigation r; status := status r; sv_in_view_sentences := sv_in_view_sentences r; sv_in_view_count := sv_in_view_count r; sv_in_view_index := v; sv_used_count := sv_used_count r; sv_used_mask := sv_used_mask r; mtk_command := mtk_command r; mtk_status := mtk_status r |}.
Definition set_sv_used_count (v : Z) (r : nmea_context_t) : nmea_context_t :=
  {| prefix := prefix r; sequence := sequence r; nmea_mask := nmea_mask r; navigation := navigation r; status := status r; sv_in_view_sentences := sv_in_view_sentences r; sv_in_view_count := sv_in_view_count r; sv_in_view_index := sv_in_view_index r; sv_used_count := v; sv_used_mask := sv_used_mask r; mtk_command := mtk_command r; mtk_status := mtk_status r |}.
Definition set_sv_used_mask (v : list Z) (r : nmea_context_t) : nmea_context_t :=
  {| prefix := prefix r; sequence := sequence r; nmea_mask := nmea_mask r; navigation := navigation r; status := status r; sv_in_view_sentences := sv_in_view_sentences r; sv_in_view_count := sv_in_view_count r; sv_in_view_index := sv_in_view_index r; sv_used_count := sv_used_count r; sv_used_mask := v; mtk_command := mtk_command r; mtk_status := mtk_status r |}.
Definition set_mtk_command (v : Z) (r : nmea_context_t) : nmea_context_t :=
  {| prefix := prefix r; sequence := sequence r; nmea_mask := nmea_mask r; navigation := navigation r; status := status r; sv_in_view_sentences := sv_in_view_sentences r; sv_in_view_count := sv_in_view_count r; sv_in_view_index := sv_in_view_index r; sv_used_count := sv_used_count r; sv_used_mask := sv_used_mask r; mtk_command := v; mtk_status := mtk_status r |}.
Definition set_mtk_status (v : Z) (r : nmea_context_t) : nmea_context_t :=
  {| prefix := prefix r; sequence := sequence r; nmea_mask := nmea_mask r; navigation := navigation r; status := status r; sv_in_view_sentences := sv_in_view_sentences r; sv_in_view_count := sv_in_view_count r; sv_in_view_index := sv_in_view_index r; sv_used_count := sv_used_count r; sv_used_mask := sv_used_mask r; mtk_command := mtk_command r; mtk_status := v |}.

Definition set_ck_a (v : Z) (r : ubx_context_t) : ubx_context_t :=
  {| ck_a := v; ck_b := ck_b r; message := message r; ubx_length := ubx_length r; week := week r; tow := tow r; itow := itow r |}.
Definition set_ck_b (v : Z) (r : ubx_context_t) : ubx_context_t :=
  {| ck_a := ck_a r; ck_b := v; message := message r; ubx_length := ubx_length r; week := week r; tow := tow r; itow := itow r |}.
Definition set_message (v : Z) (r : ubx_context_t) : ubx_context_t :=
  {| ck_a := ck_a r; ck_b := ck_b r; message := v; ubx_length := ubx_length r; week := week r; tow := tow r; itow := itow r |}.
Definition set_ubx_length (v : Z) (r : ubx_context_t) : ubx_context_t :=
  {| ck_a := ck_a r; ck_b := ck_b r; message := message r; ubx_length := v; week := week r; tow := tow r; itow := itow r |}.
Definition set_week (v : Z) (r : ubx_context_t) : ubx_context_t :=
  {| ck_a := ck_a r; ck_b := ck_b r; message := message r; ubx_length := ubx_length r; week := v; tow := tow r; itow := itow r |}.
Definition set_tow (v : Z) (r : ubx_context_t) : ubx_context_t :=
  {| ck_a := ck_a r; ck_b := ck_b r; message := message r; ubx_length := ubx_length r; week := week r; tow := v; itow := itow r |}.
Definition set_itow (v : Z) (r : ubx_context_t) : ubx_context_t :=
  {| ck_a := ck_a r; ck_b := ck_b r; message := message r; ubx_length := ubx_length r; week := week r; tow := tow r; itow := v |}.

Definition set_mode (v : Z) (r : gnss_device_t) : gnss_device_t :=
  {| mode := v; state := state r; busy := busy r; init := init r; seen := seen r; expected := expected r; checksum := checksum r; rx_count := rx_count r; rx_offset := rx_offset r; rx_chunk := rx_chunk r; table := table r; rx_data := rx_data r; nmea := nmea r; ubx := ubx r; location := location r; satellites := satellites r; command := command r; location_callback := location_callback r; satellites_callback := satellites_callback r |}.
Definition set_state (v : Z) (r : gnss_device_t) : gnss_device_t :=
  {| mode := mode r; state := v; busy := busy r; init := init r; seen := seen r; expected := expected r; checksum := checksum r; rx_count := rx_count r; rx_offset := rx_offset r; rx_chunk := rx_chunk r; table := table r; rx_data := rx_data r; nmea := nmea r; ubx := ubx r; location := location r; satellites := satellites r; command := command r; location_callback := location_callback r; satellites_callback := satellites_callback r |}.
Definition set_busy (v : Z) (r : gnss_device_t) : gnss_device_t :=
  {| mode := mode r; state := state r; busy := v; init := init r; seen := seen r; expected := expected r; checksum := checksum r; rx_count := rx_count r; rx_offset := rx_offset r; rx_chunk := rx_chunk r; table := table r; rx_data := rx_data r; nmea := nmea r; ubx := ubx r; location := location r; satellites := satellites r; command := command r; location_callback := location_callback r; satellites_callback := satellites_callback r |}.
Definition set_init (v : Z) (r : gnss_device_t) : gnss_device_t :=
  {| mode := mode r; state := state r; busy := busy r; init := v; seen := seen r; expected := expected r; checksum := checksum r; rx_count := rx_count r; rx_offset := rx_offset r; rx_chunk := rx_chunk r; table := table r; rx_data := rx_data r; nmea := nmea r; ubx := ubx r; location := location r; satellites := satellites r; command := command r; location_callback := location_callback r; satellites_callback := satellites_callback r |}.
Definition set_seen (v : Z) (r : gnss_device_t) : gnss_device_t :=
  {| mode := mode r; state := state r; busy := busy r; init := init r; seen := v; expected := expected r; checksum := checksum r; rx_count := rx_count r; rx_offset := rx_offset r; rx_chunk := rx_chunk r; table := table r; rx_data := rx_data r; nmea := nmea r; ubx := ubx r; location := location r; satellites := satellites r; command := command r; location_callback := location_callback r; satellites_callback := satellites_callback r |}.
Definition set_expected (v : Z) (r : gnss_device_t) : gnss_device_t :=
  {| mode := mode r; state := state r; busy := busy r; init := init r; seen := seen r; expected := v; checksum := checksum r; rx_count := rx_count r; rx_offset := rx_offset r; rx_chunk := rx_chunk r; table := table r; rx_data := rx_data r; nmea := nmea r; ubx := ubx r; location := location r; satellites := satellites r; command := command r; location_callback := location_callback r; satellites_callback := satellites_callback r |}.
Definition set_checksum (v : Z) (r : gnss_device_t) : gnss_device_t :=
  {| mode := mode r; state := state r; busy := busy r; init := init r; seen := seen r; expected := expected r; checksum := v; rx_count := rx_count r; rx_offset := rx_offset r; rx_chunk := rx_chunk r; table := table r; rx_data := rx_data r; nmea := nmea r; ubx := ubx r; location := location r; satellites := satellites r; command := command r; location_callback := location_callback r; satellites_callback := satellites_callback r |}.
Definition set_rx_count (v : Z) (r : gnss_device_t) : gnss_device_t :=
  {| mode := mode r; state := state r; busy := busy r; init := init r; seen := seen r; expected := expected r; checksum := checksum r; rx_count := v; rx_offset := rx_offset r; rx_chunk := rx_chunk r; table := table r; rx_data := rx_data r; nmea := nmea r; ubx := ubx r; location := location r; satellites := satellites r; command := command r; location_callback := location_callback r; satellites_callback := satellites_callback r |}.
Definition set_rx_offset (v : Z) (r : gnss_device_t) : gnss_device_t :=
  {| mode := mode r; state := state r; busy := busy r; init := init r; seen := seen r; expected := expected r; checksum := checksum r; rx_count := rx_count r; rx_offset := v; rx_chunk := rx_chunk r; table := table r; rx_data := rx_data r; nmea := nmea r; ubx := ubx r; location := location r; satellites := satellites r; command := command r; location_callback := location_callback r; satellites_callback := satellites_callback r |}.
Definition set_rx_chunk (v : Z) (r : gnss_device_t) : gnss_device_t :=
  {| mode := mode r; state := state r; busy := busy r; init := init r; seen := seen r; expected := expected r; checksum := checksum r; rx_count := rx_count r; rx_offset := rx_offset r; rx_chunk := v; table := table r; rx_data := rx_data r; nmea := nmea r; ubx := ubx r; location := location r; satellites := satellites r; command := command r; location_callback := location_callback r; satellites_callback := satellites_callback r |}.
Definition set_table (v : option (list (list Z))) (r : gnss_device_t) : gnss_device_t :=
  {| mode := mode r; state := state r; busy := busy r; init := init r; seen := seen r; expected := expected r; checksum := checksum r; rx_count := rx_count r; rx_offset := rx_offset r; rx_chunk := rx_chunk r; table := v; rx_data := rx_data r; nmea := nmea r; ubx := ubx r; location := location r; satellites := satellites r; command := command r; location_callback := location_callback r; satellites_callback := satellites_callback r |}.
Definition set_rx_data (v : list Z) (r : gnss_device_t) : gnss_device_t :=
  {| mode := mode r; state := state r; busy := busy r; init := init r; seen := seen r; expected := expected r; checksum := checksum r; rx_count := rx_count r; rx_offset := rx_offset r; rx_chunk := rx_chunk r; table := table r; rx_data := v; nmea := nmea r; ubx := ubx r; location := location r; satellites := satellites r; command := command r; location_callback := location_callback r; satellites_callback := satellites_callback r |}.
Definition set_nmea (v : nmea_context_t) (r : gnss_device_t) : gnss_device_t :=
  {| mode := mode r; state := state r; busy := busy r; init := init r; seen := seen r; expected := expected r; checksum := checksum r; rx_count := rx_count r; rx_offset := rx_offset r; rx_chunk := rx_chunk r; table := table r; rx_data := rx_data r; nmea := v; ubx := ubx r; location := location r; satellites := satellites r; command := command r; location_callback := location_callback r; satellites_callback := satellites_callback r |}.
Definition set_ubx (v : ubx_context_t) (r : gnss_device_t) : gnss_device_t :=
  {| mode := mode r; state := state r; busy := busy r; init := init r; seen := seen r; expected := expected r; checksum := checksum r; rx_count := rx_count r; rx_offset := rx_offset r; rx_chunk := rx_chunk r; table := table r; rx_data := rx_data r; nmea := nmea r; ubx := v; location := location r; satellites := satellites r; command := command r; location_callback := location_callback r; satellites_callback := satellites_callback r |}.
Definition set_location (v : gnss_location_t) (r : gnss_device_t) : gnss_device_t :=
  {| mode := mode r; state := state r; busy := busy r; init := init r; seen := seen r; expected := expected r; checksum := checksum r; rx_count := rx_count r; rx_offset := rx_offset r; rx_chunk := rx_chunk r; table := table r; rx_data := rx_data r; nmea := nmea r; ubx := ubx r; location := v; satellites := satellites r; command := command r; location_callback := location_callback r; satellites_callback := satellites_callback r |}.
Definition set_satellites (v : gnss_satellites_t) (r : gnss_device_t) : gnss_device_t :=
  {| mode := mode r; state := state r; busy := busy r; init := init r; seen := seen r; expected := expected r; checksum := checksum r; rx_count := rx_count r; rx_offset := rx_offset r; rx_chunk := rx_chunk r; table := table r; rx_data := rx_data r; nmea := nmea r; ubx := ubx r; location := location r; satellites := v; command := command r; location_callback := location_callback r; satellites_callback := satellites_callback r |}.
Definition set_command (v : Z) (r : gnss_device_t) : gnss_device_t :=
  {| mode := mode r; state := state r; busy := busy r; init := init r; seen := seen r; expected := expected r; checksum := checksum r; rx_count := rx_count r; rx_offset := rx_offset r; rx_chunk := rx_chunk r; table := table r; rx_data := rx_data r; nmea := nmea r; ubx := ubx r; location := location r; satellites := satellites r; command := v; location_callback := location_callback r; satellites_callback := satellites_callback r |}.
Definition set_location_callback (v : bool) (r : gnss_device_t) : gnss_device_t :=
  {| mode := mode r; state := state r; busy := busy r; init := init r; seen := seen r; expected := expected r; checksum := checksum r; rx_count := rx_count r; rx_offset := rx_offset r; rx_chunk := rx_chunk r; table := table r; rx_data := rx_data r; nmea := nmea r; ubx := ubx r; location := location r; satellites := satellites r; command := command r; location_callback := v; satellites_callback := satellites_callback r |}.
Definition set_satellites_callback (v : bool) (r : gnss_device_t) : gnss_device_t :=
  {| mode := mode r; state := state r; busy := busy r; init := init r; seen := seen r; expected := expected r; checksum := checksum r; rx_count := rx_count r; rx_offset := rx_offset r; rx_chunk := rx_chunk r; table := table r; rx_data := rx_data r; nmea := nmea r; ubx := ubx r; location := location r; satellites := satellites r; command := command r; location_callback := location_callback r; satellites_callback := v |}.

(** ** Constants of gnss_core.c *)

Abbreviation NMEA_FIELD_SEQUENCE_START := 0%Z (only parsing).
Abbreviation NMEA_FIELD_SEQUENCE_SKIP := 1%Z (only parsing).
Abbreviation NMEA_FIELD_SEQUENCE_GGA_TIME := 2%Z (only parsing).
Abbreviation NMEA_FIELD_SEQUENCE_GGA_LATITUDE := 3%Z (only parsing).
Abbreviation NMEA_FIELD_SEQUENCE_GGA_LATITUDE_NS := 4%Z (only parsing).
Abbreviation NMEA_FIELD_SEQUENCE_GGA_LONGITUDE := 5%Z (only parsing).
Abbreviation NMEA_FIELD_SEQUENCE_GGA_LONGITUDE_EW := 6%Z (only parsing).
Abbreviation NMEA_FIELD_SEQUENCE_GGA_QUALITY := 7%Z (only parsing).
Abbreviation NMEA_FIELD_SEQUENCE_GGA_NUMSV := 8%Z (only parsing).
Abbreviation NMEA_FIELD_SEQUENCE_GGA_HDOP := 9%Z (only parsing).
Abbreviation NMEA_FIELD_SEQUENCE_GGA_ALTITUDE := 10%Z (only parsing).
Abbreviation NMEA_FIELD_SEQUENCE_GGA_ALTITUDE_UNIT := 11%Z (only parsing).
Abbreviation NMEA_FIELD_SEQUENCE_GGA_SEPARATION := 12%Z (only parsing).
Abbreviation NMEA_FIELD_SEQUENCE_GGA_SEPARATION_UNIT := 13%Z (only parsing).
Abbreviation NMEA_FIELD_SEQUENCE_GGA_DIFFERENTIAL_AGE := 14%Z (only parsing).
Abbreviation NMEA_FIELD_SEQUENCE_GGA_DIFFERENTIAL_STATION := 15%Z (only parsing).
Abbreviation NMEA_FIELD_SEQUENCE_GSA_OPERATION := 16%Z (only parsing).
Abbreviation NMEA_FIELD_SEQUENCE_GSA_NAVIGATION := 17%Z (only parsing).
Abbreviation NMEA_FIELD_SEQUENCE_GSA_SV_USED_PRN_1 := 18%Z (only parsing).
Abbreviation NMEA_FIELD_SEQUENCE_GSA_SV_USED_PRN_2 := 19%Z (only parsing).
Abbreviation NMEA_FIELD_SEQUENCE_GSA_SV_USED_PRN_3 := 20%Z (only parsing).
Abbreviation NMEA_FIELD_SEQUENCE_GSA_SV_USED_PRN_4 := 21%Z (only parsing).
Abbreviation NMEA_FIELD_SEQUENCE_GSA_SV_USED_PRN_5 := 22%Z (only parsing).
Abbreviation NMEA_FIELD_SEQUENCE_GSA_SV_USED_PRN_6 := 23%Z (only parsing).
Abbreviation NMEA_FIELD_SEQUENCE_GSA_SV_USED_PRN_7 := 24%Z (only parsing).
Abbreviation NMEA_FIELD_SEQUENCE_GSA_SV_USED_PRN_8 := 25%Z (only parsing).
Abbreviation NMEA_FIELD_SEQUENCE_GSA_SV_USED_PRN_9 := 26%Z (only parsing).
Abbreviation NMEA_FIELD_SEQUENCE_GSA_SV_USED_PRN_10 := 27%Z (only parsing).
Abbreviation NMEA_FIELD_SEQUENCE_GSA_SV_USED_PRN_11 := 28%Z (only parsing).
Abbreviation NMEA_FIELD_SEQUENCE_GSA_SV_USED_PRN_12 := 29%Z (only parsing).
Abbreviation NMEA_FIELD_SEQUENCE_GSA_PDOP := 30%Z (only parsing).
Abbreviation NMEA_FIELD_SEQUENCE_GSA_HDOP := 31%Z (only parsing).
Abbreviation NMEA_FIELD_SEQUENCE_GSA_VDOP := 32%Z (only parsing).
Abbreviation NMEA_FIELD_SEQUENCE_GST_TIME := 33%Z (only parsing).
Abbreviation NMEA_FIELD_SEQUENCE_GST_RANGE := 34%Z (only parsing).
Abbreviation NMEA_FIELD_SEQUENCE_GST_STDDEV_MAJOR := 35%Z (only parsing).
Abbreviation NMEA_FIELD_SEQUENCE_GST_STDDEV_MINOR := 36%Z (only parsing).
Abbreviation NMEA_FIELD_SEQUENCE_GST_ORIENTATION := 37%Z (only parsing).
Abbreviation NMEA_FIELD_SEQUENCE_GST_STDDEV_LATITUDE := 38%Z (only parsing).
Abbreviation NMEA_FIELD_SEQUENCE_GST_STDDEV_LONGITUDE := 39%Z (only parsing).
Abbreviation NMEA_FIELD_SEQUENCE_GST_STDDEV_ALTITUDE := 40%Z (only parsing).
Abbreviation NMEA_FIELD_SEQUENCE_GSV_SENTENCES := 41%Z (only parsing).
Abbreviation NMEA_FIELD_SEQUENCE_GSV_CURRENT := 42%Z (only parsing).
Abbreviation NMEA_FIELD_SEQUENCE_GSV_SV_IN_VIEW_COUNT := 43%Z (only parsing).
Abbreviation NMEA_FIELD_SEQUENCE_GSV_SV_IN_VIEW_ID := 44%Z (only parsing).
Abbreviation NMEA_FIELD_SEQUENCE_GSV_SV_IN_VIEW_ELEV := 45%Z (only parsing).
Abbreviation NMEA_FIELD_SEQUENCE_GSV_SV_IN_VIEW_AZIM := 46%Z (only parsing).
Abbreviation NMEA_FIELD_SEQUENCE_GSV_SV_IN_VIEW_SNR := 47%Z (only parsing).
Abbreviation NMEA_FIELD_SEQUENCE_RMC_TIME := 48%Z (only parsing).
Abbreviation NMEA_FIELD_SEQUENCE_RMC_STATUS := 49%Z (only parsing).
Abbreviation NMEA_FIELD_SEQUENCE_RMC_LATITUDE := 50%Z (only parsing).
Abbreviation NMEA_FIELD_SEQUENCE_RMC_LATITUDE_NS := 51%Z (only parsing).
Abbreviation NMEA_FIELD_SEQUENCE_RMC_LONGITUDE := 52%Z (only parsing).
Abbreviation NMEA_FIELD_SEQUENCE_RMC_LONGITUDE_EW := 53%Z (only parsing).
Abbreviation NMEA_FIELD_SEQUENCE_RMC_SPEED := 54%Z (only parsing).
Abbreviation NMEA_FIELD_SEQUENCE_RMC_COURSE := 55%Z (only parsing).
Abbreviation NMEA_FIELD_SEQUENCE_RMC_DATE := 56%Z (only parsing).
Abbreviation NMEA_FIELD_SEQUENCE_RMC_VARIATION := 57%Z (only parsing).
Abbreviation NMEA_FIELD_SEQUENCE_RMC_VARIATION_UNIT := 58%Z (only parsing).
Abbreviation NMEA_FIELD_SEQUENCE_RMC_MODE := 59%Z (only parsing).
Abbreviation NMEA_FIELD_SEQUENCE_GGA_END := 60%Z (only parsing).
Abbreviation NMEA_FIELD_SEQUENCE_GSA_END := 61%Z (only parsing).
Abbreviation NMEA_FIELD_SEQUENCE_GST_END := 62%Z (only parsing).
Abbreviation NMEA_FIELD_SEQUENCE_GSV_END := 63%Z (only parsing).
Abbreviation NMEA_FIELD_SEQUENCE_RMC_END := 64%Z (only parsing).
Abbreviation NMEA_FIELD_SEQUENCE_PMTK001_COMMAND := 65%Z (only parsing).
Abbreviation NMEA_FIELD_SEQUENCE_PMTK001_STATUS := 66%Z (only parsing).
Abbreviation NMEA_FIELD_SEQUENCE_PMTK001_END := 67%Z (only parsing).

Definition NMEA_SENTENCE_MASK_GPGGA : Z := 0x00000001.
Definition NMEA_SENTENCE_MASK_GPGSA : Z := 0x00000002.
Definition NMEA_SENTENCE_MASK_GPGST : Z := 0x00000004.
Definition NMEA_SENTENCE_MASK_GPGSV : Z := 0x00000008.
Definition NMEA_SENTENCE_MASK_GPRMC : Z := 0x00000010.
Definition NMEA_SENTENCE_MASK_GLGSA : Z := 0x00000020.
Definition NMEA_SENTENCE_MASK_GLGSV : Z := 0x00000040.
Definition NMEA_SENTENCE_MASK_SOLUTION : Z := 0x00008000.
Definition NMEA_FIELD_MASK_TIME : Z := 0x0001.
Definition NMEA_FIELD_MASK_POSITION : Z := 0x0002.
Definition NMEA_FIELD_MASK_ALTITUDE : Z := 0x0004.
Definition NMEA_FIELD_MASK_SPEED : Z := 0x0008.
Definition NMEA_FIELD_MASK_COURSE : Z := 0x0010.
Definition NMEA_FIELD_MASK_EHPE : Z := 0x0020.
Definition NMEA_FIELD_MASK_EVPE : Z := 0x0040.
Definition NMEA_FIELD_MASK_PDOP : Z := 0x0080.
Definition NMEA_FIELD_MASK_HDOP : Z := 0x0100.
Definition NMEA_FIELD_MASK_VDOP : Z := 0x0200.
Definition UBX_MESSAGE_MASK_NAV_DOP : Z := 0x00010000.
Definition UBX_MESSAGE_MASK_NAV_PVT : Z := 0x00040000.
Definition UBX_MESSAGE_MASK_NAV_SVINFO : Z := 0x00100000.
Definition UBX_MESSAGE_MASK_NAV_TIMEGPS : Z := 0x00200000.
Definition UBX_MESSAGE_MASK_SOLUTION : Z := 0x00008000.

Definition NMEA_NAVIGATION_NONE : Z := 0.
Definition NMEA_NAVIGATION_2D : Z := 1.
Definition NMEA_NAVIGATION_3D : Z := 2.
Definition NMEA_STATUS_RECEIVER_WARNING : Z := 0.
Definition NMEA_STATUS_DATA_VALID : Z := 1.
Definition GNSS_INIT_DONE : Z := 0.
Definition GNSS_INIT_MTK_BAUD_RATE : Z := 1.
Definition GNSS_INIT_MTK_INIT_TABLE : Z := 2.
Definition GNSS_INIT_UBX_BAUD_RATE : Z := 3.
Definition GNSS_INIT_UBX_INIT_TABLE : Z := 4.
Definition GNSS_RESPONSE_ACK : Z := 1.
Definition GNSS_RESPONSE_NACK : Z := 2.
Definition GNSS_RESPONSE_NMEA_SENTENCE : Z := 4.
Definition GNSS_RESPONSE_UBX_MESSAGE : Z := 5.
Definition GNSS_RX_DATA_SIZE : Z := 96.

Abbreviation GNSS_STATE_START := 0%Z (only parsing).
Abbreviation GNSS_STATE_NMEA_PAYLOAD := 1%Z (only parsing).
Abbreviation GNSS_STATE_NMEA_CHECKSUM_1 := 2%Z (only parsing).
Abbreviation GNSS_STATE_NMEA_CHECKSUM_2 := 3%Z (only parsing).
Abbreviation GNSS_STATE_NMEA_END_CR := 4%Z (only parsing).
Abbreviation GNSS_STATE_NMEA_END_LF := 5%Z (only parsing).
Abbreviation GNSS_STATE_UBX_SYNC_2 := 6%Z (only parsing).
Abbreviation GNSS_STATE_UBX_MESSAGE_1 := 7%Z (only parsing).
Abbreviation GNSS_STATE_UBX_MESSAGE_2 := 8%Z (only parsing).
Abbreviation GNSS_STATE_UBX_LENGTH_1 := 9%Z (only parsing).
Abbreviation GNSS_STATE_UBX_LENGTH_2 := 10%Z (only parsing).
Abbreviation GNSS_STATE_UBX_PAYLOAD := 11%Z (only parsing).
Abbreviation GNSS_STATE_UBX_CK_A := 12%Z (only parsing).
Abbreviation GNSS_STATE_UBX_CK_B := 13%Z (only parsing).

(** Modelled from the spec: the constants of gnss_api.h.  The spec names
    the modes {NMEA, MediaTek, u-blox}, the fix types {None, Time-only,
    2D, 3D}, the fix qualities, the satellite state flags {Searching,
    Tracking, Navigating, Correction} and one validity bit per location
    field; the numeric values are chosen here (distinct bits for the
    flags) and no property below depends on the choice beyond that. *)

Definition GNSS_MODE_NMEA : Z := 0.
Definition GNSS_MODE_MEDIATEK : Z := 1.
Definition GNSS_MODE_UBLOX : Z := 2.

Definition GNSS_LOCATION_TYPE_NONE : Z := 0.
Definition GNSS_LOCATION_TYPE_TIME : Z := 1.
Definition GNSS_LOCATION_TYPE_2D : Z := 2.
Definition GNSS_LOCATION_TYPE_3D : Z := 3.

Definition GNSS_LOCATION_QUALITY_NONE : Z := 0.
Definition GNSS_LOCATION_QUALITY_ESTIMATED : Z := 1.
Definition GNSS_LOCATION_QUALITY_AUTONOMOUS : Z := 2.
Definition GNSS_LOCATION_QUALITY_DIFFERENTIAL : Z := 3.
Definition GNSS_LOCATION_QUALITY_PRECISE : Z := 4.
Definition GNSS_LOCATION_QUALITY_RTK_FLOAT : Z := 5.
Definition GNSS_LOCATION_QUALITY_RTK_FIXED : Z := 6.

Definition GNSS_LOCATION_MASK_TIME : Z := 0x0001.
Definition GNSS_LOCATION_MASK_CORRECTION : Z := 0x0002.
Definition GNSS_LOCATION_MASK_POSITION : Z := 0x0004.
Definition GNSS_LOCATION_MASK_ALTITUDE : Z := 0x0008.
Definition GNSS_LOCATION_MASK_SPEED : Z := 0x0010.
Definition GNSS_LOCATION_MASK_COURSE : Z := 0x0020.
Definition GNSS_LOCATION_MASK_CLIMB : Z := 0x0040.
Definition GNSS_LOCATION_MASK_EHPE : Z := 0x0080.
Definition GNSS_LOCATION_MASK_EVPE : Z := 0x0100.
Definition GNSS_LOCATION_MASK_PDOP : Z := 0x0200.
Definition GNSS_LOCATION_MASK_HDOP : Z := 0x0400.
Definition GNSS_LOCATION_MASK_VDOP : Z := 0x0800.

Definition GNSS_SATELLITES_COUNT_MAX : Z := 32.

Definition GNSS_SATELLITES_STATE_SEARCHING : Z := 0x01.
Definition GNSS_SATELLITES_STATE_TRACKING : Z := 0x02.
Definition GNSS_SATELLITES_STATE_NAVIGATING : Z := 0x04.
Definition GNSS_SATELLITES_STATE_CORRECTION : Z := 0x08.

(** ** Observable effects *)

Inductive event : Type :=
| Store_rx_data (index : Z)
    (** a store [device->rx_data[index] = ...] *)
| Location_callback (l : gnss_location_t)
    (** the host's location callback, handed [device->location] *)
| Satellites_callback (s : gnss_satellites_t)
    (** the host's satellites callback, handed [device->satellites] *)
| Send_routine (data : list Z) (count : Z)
    (** the host's send routine, handed [data] and [count] *)
| Rtc_timer_stop
| Rtc_timer_start
| Nmea_end_sentence
    (** entry into [nmea_end_sentence] *)
| Ubx_end_message (message : Z) (data : list Z) (count : Z)
    (** entry into [ubx_end_message] with the staged bytes *)
| Info_overrun (index : Z).
    (** an access [device->satellites.info[index]] of the marking loop of
        [nmea_end_sentence] at or above GNSS_SATELLITES_COUNT_MAX, behind
        the table *)

(** A step returns the new device record and what it did. *)
Definition result : Type := gnss_device_t * list event.

Definition ret (d : gnss_device_t) : result := (d, []).

Definition bind (r : result) (k : gnss_device_t -> result) : result :=
  let '(d, t) := r in
  let '(d', t') := k d in
  (d', t ++ t').

Definition emit (e : event) (d : gnss_device_t) : result := (d, [e]).

Notation "r >>= k" := (bind r k) (at level 50, left associativity).

(** ** In-place updates of the nested records *)

Definition upd_nmea (f : nmea_context_t -> nmea_context_t)
  (d : gnss_device_t) : gnss_device_t := set_nmea (f (nmea d)) d.

Definition upd_ubx (f : ubx_context_t -> ubx_context_t)
  (d : gnss_device_t) : gnss_device_t := set_ubx (f (ubx d)) d.

Definition upd_location (f : gnss_location_t -> gnss_location_t)
  (d : gnss_device_t) : gnss_device_t := set_location (f (location d)) d.

Definition upd_satellites (f : gnss_satellites_t -> gnss_satellites_t)
  (d : gnss_device_t) : gnss_device_t := set_satellites (f (satellites d)) d.

Definition upd_time (f : utc_time_t -> utc_time_t)
  (l : gnss_location_t) : gnss_location_t := set_time (f (time l)) l.

(** [device->location.mask |= m] *)
Definition location_mask_or (m : Z) (d : gnss_device_t) : gnss_device_t :=
  upd_location (fun l => set_mask (Z.lor (mask l) m) l) d.

(** [context->mask &= ~m] *)
Definition nmea_mask_clear (m : Z) (d : gnss_device_t) : gnss_device_t :=
  upd_nmea (fun n => set_nmea_mask (clear_mask m (nmea_mask n)) n) d.

(** [device->seen |= m] and [device->seen &= ~m] *)
Definition seen_or (m : Z) (d : gnss_device_t) : gnss_device_t :=
  set_seen (Z.lor (seen d) m) d.

Definition seen_clear (m : Z) (d : gnss_device_t) : gnss_device_t :=
  set_seen (clear_mask m (seen d)) d.

(** [device->satellites.info[n]] updated in place; the callers guard
    [n < GNSS_SATELLITES_COUNT_MAX], outside the table nothing is
    modelled. *)
Definition upd_info (n : Z)
  (f : gnss_satellite_info_t -> gnss_satellite_info_t)
  (d : gnss_device_t) : gnss_device_t :=
  match info (satellites d) !! Z.to_nat n with
  | Some e =>
      upd_satellites (fun s => set_info (<[Z.to_nat n := f e]> (info s)) s) d
  | None => d
  end.

(** [context->sv_used_mask[0..2] = 0; context->sv_used_count = 0] *)
Definition sv_used_reset (d : gnss_device_t) : gnss_device_t :=
  upd_nmea (fun n => set_sv_used_mask [0; 0; 0] (set_sv_used_count 0 n)) d.

Definition sv_used_word (n : nmea_context_t) (i : Z) : Z :=
  nth (Z.to_nat i) (sv_used_mask n) 0.

(** [context->sv_used_mask[(svid -1) >> 5] & (1ul << ((svid -1) & 31))] *)
Definition sv_used_test (n : nmea_context_t) (svid : Z) : bool :=
  test_mask (sv_used_word n (Z.shiftr (svid - 1) 5))
            (Z.shiftl 1 (Z.land (svid - 1) 31)).

(** ** Publishing ([gnss_location], [gnss_satellites]) *)

Definition utc_time_epoch (t : utc_time_t) : utc_time_t :=
  set_millis 0 (set_second 0 (set_minute 0 (set_hour 0 (set_day 6
    (set_month 1 (set_year (1980 - 1980) t)))))).

(** The clean-up [gnss_location] applies to [device->location] before
    the callback: what the fix type and the mask do not vouch for is
    zeroed (9999 for the dilutions of precision). *)
Definition gnss_location_report (l : gnss_location_t) : gnss_location_t :=
  let l :=
    if type l =? GNSS_LOCATION_TYPE_NONE then
      set_quality GNSS_LOCATION_QUALITY_NONE (set_numsv 0 (set_mask 0 l))
    else if type l =? GNSS_LOCATION_TYPE_TIME then
      set_quality GNSS_LOCATION_QUALITY_NONE
        (set_mask (Z.land (mask l)
                     (Z.lor GNSS_LOCATION_MASK_TIME
                            GNSS_LOCATION_MASK_CORRECTION)) l)
    else if type l =? GNSS_LOCATION_TYPE_2D then
      set_mask (Z.land (mask l)
                  (fold_right Z.lor 0
                     [GNSS_LOCATION_MASK_TIME; GNSS_LOCATION_MASK_CORRECTION;
                      GNSS_LOCATION_MASK_POSITION; GNSS_LOCATION_MASK_SPEED;
                      GNSS_LOCATION_MASK_COURSE; GNSS_LOCATION_MASK_EHPE;
                      GNSS_LOCATION_MASK_HDOP])) l
    else l in
  let l :=
    if test_mask (mask l) GNSS_LOCATION_MASK_TIME then
      if negb (test_mask (mask l) GNSS_LOCATION_MASK_CORRECTION)
      then set_correction 0 l else l
    else
      set_numsv 0 (set_mask 0 (set_correction 0 (upd_time utc_time_epoch l))) in
  let l := if negb (test_mask (mask l) GNSS_LOCATION_MASK_POSITION)
           then set_longitude 0 (set_latitude 0 l) else l in
  let l := if negb (test_mask (mask l) GNSS_LOCATION_MASK_ALTITUDE)
           then set_separation 0 (set_altitude 0 l) else l in
  let l := if negb (test_mask (mask l) GNSS_LOCATION_MASK_SPEED)
           then set_speed 0 l else l in
  let l := if negb (test_mask (mask l) GNSS_LOCATION_MASK_COURSE)
           then set_course 0 l else l in
  let l := if negb (test_mask (mask l) GNSS_LOCATION_MASK_CLIMB)
           then set_climb 0 l else l in
  let l := if negb (test_mask (mask l) GNSS_LOCATION_MASK_EHPE)
           then set_ehpe 0 l else l in
  let l := if negb (test_mask (mask l) GNSS_LOCATION_MASK_EVPE)
           then set_evpe 0 l else l in
  let l := if negb (test_mask (mask l) GNSS_LOCATION_MASK_PDOP)
           then set_pdop 9999 l else l in
  let l := if negb (test_mask (mask l) GNSS_LOCATION_MASK_HDOP)
           then set_hdop 9999 l else l in
  let l := if negb (test_mask (mask l) GNSS_LOCATION_MASK_VDOP)
           then set_vdop 9999 l else l in
  l.

Definition gnss_location (d : gnss_device_t) : result :=
  let l := gnss_location_report (location d) in
  (set_location (set_mask 0 (set_type 0 l)) d,
   if location_callback d then [Location_callback l] else []).

Definition gnss_satellites (d : gnss_device_t) : result :=
  let d :=
    if GNSS_SATELLITES_COUNT_MAX <? count (satellites d)
    then upd_satellites (set_count GNSS_SATELLITES_COUNT_MAX) d
    else d in
  (d, if satellites_callback d then [Satellites_callback (satellites d)]
      else []).

(** ** NMEA sentence processor *)

Definition nmea_start_sentence (d : gnss_device_t) : gnss_device_t :=
  let d :=
    match sequence (nmea d) with
    | NMEA_FIELD_SEQUENCE_GSA_END => sv_used_reset d
    | NMEA_FIELD_SEQUENCE_GSV_END =>
        upd_nmea (set_sv_in_view_sentences 0) d
    | _ => d
    end in
  upd_nmea (set_sequence NMEA_FIELD_SEQUENCE_START) d.

(** The first field of a sentence: the talker and sentence id. *)
Definition nmea_parse_start (d : gnss_device_t) (data : list Z)
  : gnss_device_t * Z :=
  if at_ data 0 =? chr "P" then
    if strcmp_eq data "PMTK001"
    then (d, NMEA_FIELD_SEQUENCE_PMTK001_COMMAND)
    else (d, NMEA_FIELD_SEQUENCE_SKIP)
  else if (at_ data 0 =? chr "G")
          && ((at_ data 1 =? chr "P") || (at_ data 1 =? chr "L")
              || (at_ data 1 =? chr "N")) then
    let d := upd_nmea (set_prefix (at_ data 1)) d in
    let id := drop 2 data in
    if strcmp_eq id "GSA" then
      if test_mask (seen d) NMEA_SENTENCE_MASK_GPGGA then
        (upd_nmea (set_nmea_mask
                     (Z.lor NMEA_FIELD_MASK_PDOP NMEA_FIELD_MASK_VDOP)) d,
         NMEA_FIELD_SEQUENCE_GSA_OPERATION)
      else (d, NMEA_FIELD_SEQUENCE_SKIP)
    else if strcmp_eq id "GSV" then
      if test_mask (seen d)
           (Z.lor NMEA_SENTENCE_MASK_GPGGA NMEA_SENTENCE_MASK_SOLUTION)
      then (d, NMEA_FIELD_SEQUENCE_GSV_SENTENCES)
      else (d, NMEA_FIELD_SEQUENCE_SKIP)
    else if strcmp_eq id "GGA" then
      (* GSA/GSV are subsequent to a GGA *)
      let d := seen_clear
                 (fold_right Z.lor 0
                    [NMEA_SENTENCE_MASK_GPGGA; NMEA_SENTENCE_MASK_GPGSA;
                     NMEA_SENTENCE_MASK_GPGSV; NMEA_SENTENCE_MASK_GLGSA;
                     NMEA_SENTENCE_MASK_GLGSV; NMEA_SENTENCE_MASK_SOLUTION])
                 d in
      let d := upd_nmea
                 (set_nmea_mask
                    (fold_right Z.lor 0
                       [NMEA_FIELD_MASK_POSITION; NMEA_FIELD_MASK_ALTITUDE;
                        NMEA_FIELD_MASK_HDOP])) d in
      let d := upd_nmea (set_sv_in_view_sentences 0) d in
      let d := sv_used_reset d in
      let d := upd_satellites (set_count 0) d in
      (d, NMEA_FIELD_SEQUENCE_GGA_TIME)
    else if strcmp_eq id "GST" then
      let d := seen_clear
                 (Z.lor NMEA_SENTENCE_MASK_GPGST NMEA_SENTENCE_MASK_SOLUTION)
                 d in
      let d := upd_nmea
                 (set_nmea_mask
                    (Z.lor NMEA_FIELD_MASK_EHPE NMEA_FIELD_MASK_EVPE)) d in
      (d, NMEA_FIELD_SEQUENCE_GST_TIME)
    else if strcmp_eq id "RMC" then
      let d := seen_clear
                 (Z.lor NMEA_SENTENCE_MASK_GPRMC NMEA_SENTENCE_MASK_SOLUTION)
                 d in
      let d := upd_nmea
                 (set_nmea_mask
                    (fold_right Z.lor 0
                       [NMEA_FIELD_MASK_TIME; NMEA_FIELD_MASK_SPEED;
                        NMEA_FIELD_MASK_COURSE])) d in
      (d, NMEA_FIELD_SEQUENCE_RMC_TIME)
    else (d, NMEA_FIELD_SEQUENCE_SKIP)
  else (d, NMEA_FIELD_SEQUENCE_SKIP).

Definition nmea_same_time (t0 : utc_time_t) (t1 : Z * Z * Z * Z) : bool :=
  let '(h, m, s, ms) := t1 in
  (hour t0 =? h) && (minute t0 =? m) && (second t0 =? s) && (millis t0 =? ms).

(** The GGA/GST/RMC time field. *)
Definition nmea_parse_field_time (d : gnss_device_t) (data : list Z)
  (next : Z) : gnss_device_t * Z :=
  if at_ data 0 =? 0 then (nmea_mask_clear NMEA_FIELD_MASK_TIME d, next)
  else
    match nmea_parse_time data with
    | Some (h, m, s, ms) =>
        let d :=
          if test_mask (seen d)
               (fold_right Z.lor 0
                  [NMEA_SENTENCE_MASK_GPGGA; NMEA_SENTENCE_MASK_GPGST;
                   NMEA_SENTENCE_MASK_GPRMC])
             && negb (nmea_same_time (time (location d)) (h, m, s, ms))
          then upd_location (fun l => set_mask 0 (set_type 0 l))
                 (set_seen 0 d)
          else d in
        (upd_location
           (upd_time (fun t =>
              set_millis (u16 ms) (set_second (u8 s)
                (set_minute (u8 m) (set_hour (u8 h) t))))) d, next)
    | None => (d, NMEA_FIELD_SEQUENCE_SKIP)
    end.

(** [nmea_parse_fixed(((data[0] == '-') ? data+1 : data), &value, 3)] with
    the sign applied by the caller. *)
Definition nmea_parse_signed (data : list Z) : option Z :=
  match nmea_parse_fixed (if at_ data 0 =? chr "-" then tl data else data) 3
  with
  | Some value =>
      Some (if at_ data 0 =? chr "-" then s32 (- value) else s32 value)
  | None => None
  end.

(** [context->sv_used_mask[(svid -1) >> 5] |= (1ul << ((svid -1) & 31))] *)
Definition sv_used_set (svid : Z) (n : nmea_context_t) : nmea_context_t :=
  let i := Z.to_nat (Z.shiftr (svid - 1) 5) in
  set_sv_used_mask
    (<[i := Z.lor (nth i (sv_used_mask n) 0)
                  (Z.shiftl 1 (Z.land (svid - 1) 31))]> (sv_used_mask n)) n.

(** The failure exit of the GSV fields. *)
Definition gsv_abort (d : gnss_device_t) : gnss_device_t * Z :=
  (upd_nmea (set_sv_in_view_sentences 0) d, NMEA_FIELD_SEQUENCE_SKIP).

(** [if ((data[0] == '\0') || nmea_parse_unsigned(data, &value))] where
    [value] was preset to [preset]. *)
Definition unsigned_or (preset : Z) (data : list Z) : option Z :=
  if at_ data 0 =? 0 then Some preset else nmea_parse_unsigned data.

(** [if ((data[0] == '\0') || !nmea_parse_unsigned(data, &value)) skip] *)
Definition unsigned_required (data : list Z) : option Z :=
  if at_ data 0 =? 0 then None else nmea_parse_unsigned data.

(** The GSV per-satellite fields (PRN, elevation, azimuth, SNR). *)
Definition nmea_parse_gsv_sv (d : gnss_device_t) (data : list Z)
  (sequence : Z) : gnss_device_t * Z :=
  let n := count (satellites d) in
  let room := n <? GNSS_SATELLITES_COUNT_MAX in
  match sequence with
  | NMEA_FIELD_SEQUENCE_GSV_SV_IN_VIEW_ID =>
      match unsigned_or 255 data with
      | Some svid =>
          (if room then
             upd_info n (fun e =>
               set_azimuth 0 (set_elevation 0 (set_snr 0
                 (set_sat_state GNSS_SATELLITES_STATE_SEARCHING
                    (set_prn (u8 svid) e))))) d
           else d, sequence + 1)
      | None => gsv_abort d
      end
  | NMEA_FIELD_SEQUENCE_GSV_SV_IN_VIEW_ELEV =>
      match unsigned_or 0 data with
      | Some elevation =>
          (if room then upd_info n (set_elevation (u8 elevation)) d else d,
           sequence + 1)
      | None => gsv_abort d
      end
  | NMEA_FIELD_SEQUENCE_GSV_SV_IN_VIEW_AZIM =>
      match unsigned_or 0 data with
      | Some azimuth =>
          (if room then upd_info n (set_azimuth (u16 azimuth)) d else d,
           sequence + 1)
      | None => gsv_abort d
      end
  | _ (* NMEA_FIELD_SEQUENCE_GSV_SV_IN_VIEW_SNR *) =>
      match unsigned_or 0 data with
      | Some snr =>
          let d :=
            if room && negb (at_ data 0 =? 0) then
              upd_info n (fun e =>
                set_snr (u8 snr)
                  (set_sat_state GNSS_SATELLITES_STATE_TRACKING e)) d
            else d in
          let d := upd_satellites (set_count (u32 (n + 1))) d in
          let d := upd_nmea (fun c =>
                     set_sv_in_view_index (u8 (sv_in_view_index c + 1)) c) d in
          let c := nmea d in
          if (sv_in_view_index c =? sv_in_view_count c)
             || (Z.land (sv_in_view_index c) 3 =? 0)
          then (d, NMEA_FIELD_SEQUENCE_GSV_END)
          else (d, NMEA_FIELD_SEQUENCE_GSV_SV_IN_VIEW_ID)
      | None => gsv_abort d
      end
  end.

(** The GSV group header fields (sentences, current, count). *)
Definition nmea_parse_gsv_head (d : gnss_device_t) (data : list Z)
  (sequence : Z) : gnss_device_t * Z :=
  match sequence with
  | NMEA_FIELD_SEQUENCE_GSV_SENTENCES =>
      match unsigned_required data with
      | None => (d, NMEA_FIELD_SEQUENCE_SKIP)
      | Some sentences =>
          if sv_in_view_sentences (nmea d) =? 0 then
            (upd_nmea (fun c =>
               set_sv_in_view_index 0 (set_sv_in_view_count 0
                 (set_sv_in_view_sentences (u8 sentences) c))) d,
             sequence + 1)
          else if negb (sv_in_view_sentences (nmea d) =? sentences)
          then gsv_abort d
          else (d, sequence + 1)
      end
  | NMEA_FIELD_SEQUENCE_GSV_CURRENT =>
      match unsigned_required data with
      | None => gsv_abort d
      | Some current =>
          if negb (sv_in_view_index (nmea d) =? u32 (u32 (current - 1) * 4))
          then gsv_abort d
          else (d, sequence + 1)
      end
  | _ (* NMEA_FIELD_SEQUENCE_GSV_SV_IN_VIEW_COUNT *) =>
      match unsigned_required data with
      | None => gsv_abort d
      | Some count =>
          let d := upd_nmea (set_sv_in_view_count (u8 count)) d in
          if count =? 0 then (d, NMEA_FIELD_SEQUENCE_GSV_END)
          else (d, sequence + 1)
      end
  end.

(** [device->location.time.{day,month,year}] from the DDMMYY field. *)
Definition rmc_date (date : Z) (t : utc_time_t) : utc_time_t :=
  let day := u8 (date / 10000) in
  let month := u8 (u32 (date - day * 10000) / 100) in
  let year := u8 (u32 (date - day * 10000 - month * 100)) in
  let year := if year <? 80 then u8 ((2000 + year) - 1980)
              else u8 ((1900 + year) - 1980) in
  set_year year (set_month month (set_day day t)).

(** A field that clears [clear] from the sentence mask when empty, is
    stored by [store] when [parse] accepts it and skips the rest of the
    sentence otherwise. *)
Definition nmea_parse_optional (d : gnss_device_t) (data : list Z)
  (clear : Z) (parse : list Z -> option Z)
  (store : Z -> gnss_device_t -> gnss_device_t)
  (next_empty next_stored : Z) : gnss_device_t * Z :=
  if at_ data 0 =? 0 then (nmea_mask_clear clear d, next_empty)
  else
    match parse data with
    | Some value => (store value d, next_stored)
    | None => (d, NMEA_FIELD_SEQUENCE_SKIP)
    end.

Definition nmea_parse_sentence (d : gnss_device_t) (data : list Z)
  : gnss_device_t :=
  let sequence := sequence (nmea d) in
  let next := sequence + 1 in
  let skip := NMEA_FIELD_SEQUENCE_SKIP in
  let fixed scale := fun data => nmea_parse_fixed data scale in
  let '(d, sequence_next) :=
    match sequence with
    | NMEA_FIELD_SEQUENCE_START => nmea_parse_start d data
    | NMEA_FIELD_SEQUENCE_SKIP => (d, skip)
    | NMEA_FIELD_SEQUENCE_GGA_TIME
    | NMEA_FIELD_SEQUENCE_GST_TIME
    | NMEA_FIELD_SEQUENCE_RMC_TIME => nmea_parse_field_time d data next
    | NMEA_FIELD_SEQUENCE_GGA_LATITUDE =>
        nmea_parse_optional d data NMEA_FIELD_MASK_POSITION
          nmea_parse_latitude
          (fun v => upd_location (set_latitude (s32 v))) next next
    | NMEA_FIELD_SEQUENCE_GGA_LATITUDE_NS =>
        if test_mask (nmea_mask (nmea d)) NMEA_FIELD_MASK_POSITION then
          if at_ data 0 =? chr "S" then
            (upd_location (fun l => set_latitude (s32 (- latitude l)) l) d,
             next)
          else if negb (at_ data 0 =? chr "N") then (d, skip)
          else (d, next)
        else (d, next)
    | NMEA_FIELD_SEQUENCE_GGA_LONGITUDE =>
        nmea_parse_optional d data NMEA_FIELD_MASK_POSITION
          nmea_parse_longitude
          (fun v => upd_location (set_longitude (s32 v))) next next
    | NMEA_FIELD_SEQUENCE_GGA_LONGITUDE_EW =>
        if test_mask (nmea_mask (nmea d)) NMEA_FIELD_MASK_POSITION then
          if at_ data 0 =? chr "W" then
            (upd_location (fun l => set_longitude (s32 (- longitude l)) l) d,
             next)
          else if negb (at_ data 0 =? chr "E") then (d, skip)
          else (d, next)
        else (d, next)
    | NMEA_FIELD_SEQUENCE_GGA_QUALITY =>
        match unsigned_required data with
        | None => (d, skip)
        | Some quality => (upd_location (set_quality (u8 quality)) d, next)
        end
    | NMEA_FIELD_SEQUENCE_GGA_HDOP =>
        nmea_parse_optional d data NMEA_FIELD_MASK_HDOP (fixed 2)
          (fun v => upd_location (set_hdop (u16 v))) next next
    | NMEA_FIELD_SEQUENCE_GGA_ALTITUDE =>
        nmea_parse_optional d data NMEA_FIELD_MASK_ALTITUDE nmea_parse_signed
          (fun v => upd_location (set_altitude v)) next next
    | NMEA_FIELD_SEQUENCE_GGA_ALTITUDE_UNIT
    | NMEA_FIELD_SEQUENCE_GGA_SEPARATION_UNIT =>
        if test_mask (nmea_mask (nmea d)) NMEA_FIELD_MASK_ALTITUDE
           && negb (at_ data 0 =? chr "M")
        then (d, skip) else (d, next)
    | NMEA_FIELD_SEQUENCE_GGA_SEPARATION =>
        nmea_parse_optional d data NMEA_FIELD_MASK_ALTITUDE nmea_parse_signed
          (fun v d =>
             if test_mask (nmea_mask (nmea d)) NMEA_FIELD_MASK_ALTITUDE
             then upd_location (set_separation v) d else d) next next
    | NMEA_FIELD_SEQUENCE_GGA_NUMSV
    | NMEA_FIELD_SEQUENCE_GGA_DIFFERENTIAL_AGE
    | NMEA_FIELD_SEQUENCE_GSA_OPERATION
    | NMEA_FIELD_SEQUENCE_GSA_HDOP
    | NMEA_FIELD_SEQUENCE_GST_RANGE
    | NMEA_FIELD_SEQUENCE_GST_STDDEV_MAJOR
    | NMEA_FIELD_SEQUENCE_GST_STDDEV_MINOR
    | NMEA_FIELD_SEQUENCE_GST_ORIENTATION
    | NMEA_FIELD_SEQUENCE_RMC_LATITUDE
    | NMEA_FIELD_SEQUENCE_RMC_LATITUDE_NS
    | NMEA_FIELD_SEQUENCE_RMC_LONGITUDE
    | NMEA_FIELD_SEQUENCE_RMC_LONGITUDE_EW
    | NMEA_FIELD_SEQUENCE_RMC_VARIATION
    | NMEA_FIELD_SEQUENCE_RMC_VARIATION_UNIT => (* SKIP FIELD *) (d, next)
    | NMEA_FIELD_SEQUENCE_GGA_DIFFERENTIAL_STATION =>
        (d, NMEA_FIELD_SEQUENCE_GGA_END)
    | NMEA_FIELD_SEQUENCE_GSA_NAVIGATION =>
        if at_ data 0 =? chr "1" then
          (upd_nmea (set_navigation NMEA_NAVIGATION_NONE) d, next)
        else if at_ data 0 =? chr "2" then
          (upd_nmea (set_navigation NMEA_NAVIGATION_2D) d, next)
        else if at_ data 0 =? chr "3" then
          (upd_nmea (set_navigation NMEA_NAVIGATION_3D) d, next)
        else (d, skip)
    | NMEA_FIELD_SEQUENCE_GSA_SV_USED_PRN_1
    | NMEA_FIELD_SEQUENCE_GSA_SV_USED_PRN_2
    | NMEA_FIELD_SEQUENCE_GSA_SV_USED_PRN_3
    | NMEA_FIELD_SEQUENCE_GSA_SV_USED_PRN_4
    | NMEA_FIELD_SEQUENCE_GSA_SV_USED_PRN_5
    | NMEA_FIELD_SEQUENCE_GSA_SV_USED_PRN_6
    | NMEA_FIELD_SEQUENCE_GSA_SV_USED_PRN_7
    | NMEA_FIELD_SEQUENCE_GSA_SV_USED_PRN_8
    | NMEA_FIELD_SEQUENCE_GSA_SV_USED_PRN_9
    | NMEA_FIELD_SEQUENCE_GSA_SV_USED_PRN_10
    | NMEA_FIELD_SEQUENCE_GSA_SV_USED_PRN_11
    | NMEA_FIELD_SEQUENCE_GSA_SV_USED_PRN_12 =>
        if negb (at_ data 0 =? 0) then
          match nmea_parse_unsigned data with
          | Some svid =>
              if (1 <=? svid) && (svid <=? 96)
              then (upd_nmea (sv_used_set svid) d, next)
              else (d, next)
          | None => (sv_used_reset d, skip)
          end
        else (d, next)
    | NMEA_FIELD_SEQUENCE_GSA_PDOP =>
        nmea_parse_optional d data NMEA_FIELD_MASK_PDOP (fixed 2)
          (fun v => upd_location (set_pdop (u16 v))) next next
    | NMEA_FIELD_SEQUENCE_GSA_VDOP =>
        nmea_parse_optional d data NMEA_FIELD_MASK_VDOP (fixed 2)
          (fun v => upd_location (set_vdop (u16 v)))
          NMEA_FIELD_SEQUENCE_GSA_END NMEA_FIELD_SEQUENCE_GSA_END
    | NMEA_FIELD_SEQUENCE_GST_STDDEV_LATITUDE =>
        nmea_parse_optional d data NMEA_FIELD_MASK_EHPE (fixed 3)
          (fun v => upd_location (set_ehpe v)) next next
    | NMEA_FIELD_SEQUENCE_GST_STDDEV_LONGITUDE =>
        nmea_parse_optional d data NMEA_FIELD_MASK_EHPE (fixed 3)
          (fun v => upd_location (fun l =>
             set_ehpe (nmea_isqrt (u32 (u32 (ehpe l * ehpe l) + u32 (v * v))))
                      l)) next next
    | NMEA_FIELD_SEQUENCE_GST_STDDEV_ALTITUDE =>
        nmea_parse_optional d data NMEA_FIELD_MASK_EVPE (fixed 3)
          (fun v => upd_location (set_evpe v))
          NMEA_FIELD_SEQUENCE_GST_END NMEA_FIELD_SEQUENCE_GST_END
    | NMEA_FIELD_SEQUENCE_GSV_SENTENCES
    | NMEA_FIELD_SEQUENCE_GSV_CURRENT
    | NMEA_FIELD_SEQUENCE_GSV_SV_IN_VIEW_COUNT =>
        nmea_parse_gsv_head d data sequence
    | NMEA_FIELD_SEQUENCE_GSV_SV_IN_VIEW_ID
    | NMEA_FIELD_SEQUENCE_GSV_SV_IN_VIEW_ELEV
    | NMEA_FIELD_SEQUENCE_GSV_SV_IN_VIEW_AZIM
    | NMEA_FIELD_SEQUENCE_GSV_SV_IN_VIEW_SNR =>
        nmea_parse_gsv_sv d data sequence
    | NMEA_FIELD_SEQUENCE_RMC_STATUS =>
        if at_ data 0 =? chr "A" then
          (upd_nmea (set_status NMEA_STATUS_DATA_VALID) d, next)
        else if at_ data 0 =? chr "V" then
          (upd_nmea (set_status NMEA_STATUS_RECEIVER_WARNING) d, next)
        else (d, skip)
    | NMEA_FIELD_SEQUENCE_RMC_SPEED =>
        (* Conversion factor from knots to m/s is 1852 / 3600. *)
        nmea_parse_optional d data NMEA_FIELD_MASK_SPEED (fixed 3)
          (fun speed =>
             upd_location (set_speed (s32 (u32 (speed * 1852 + 1800) / 3600))))
          next next
    | NMEA_FIELD_SEQUENCE_RMC_COURSE =>
        nmea_parse_optional d data NMEA_FIELD_MASK_COURSE (fixed 5)
          (fun v => upd_location (set_course (s32 v))) next next
    | NMEA_FIELD_SEQUENCE_RMC_DATE =>
        nmea_parse_optional d data NMEA_FIELD_MASK_TIME nmea_parse_unsigned
          (fun date => upd_location (upd_time (rmc_date date))) next next
    | NMEA_FIELD_SEQUENCE_RMC_MODE => (d, NMEA_FIELD_SEQUENCE_RMC_END)
    | NMEA_FIELD_SEQUENCE_PMTK001_COMMAND =>
        match unsigned_required data with
        | None => (d, skip)
        | Some command => (upd_nmea (set_mtk_command (u16 command)) d, next)
        end
    | NMEA_FIELD_SEQUENCE_PMTK001_STATUS =>
        match unsigned_required data with
        | None => (d, skip)
        | Some status =>
            (upd_nmea (set_mtk_status (u16 status)) d,
             NMEA_FIELD_SEQUENCE_PMTK001_END)
        end
    | _ => (d, next)
    end in
  upd_nmea (set_sequence (u8 sequence_next)) d.

(** ** Command tables of the configuration driver

    The init tables and the frames they list, carried verbatim.  A table
    is the list of its entries before the NULL terminator. *)

Definition ubx_cfg_rxm_continuous : list Z :=
  [0xff; 0xff; 0xff; 0xff; 0xff; 0xff; 0xff; 0xff; 0xb5; 0x62; 0x06; 0x11;
   0x02; 0x00; 0x00; 0x00; 0x19; 0x81].

Definition ubx_cfg_pm2 : list Z :=
  [0xb5; 0x62]                  (* SYNC_CHAR_1, SYNC_CHAR_2 *)
  ++ [0x06; 0x3b]               (* CLASS, ID *)
  ++ [0x2c; 0x00]               (* LENGTH *)
  ++ [0x01]                     (* VERSION *)
  ++ [0x00] ++ [0x00] ++ [0x00] (* RESERVED1, RESERVED2, RESERVED3 *)
  ++ [0x00; 0x11; 0x02; 0x00]   (* FLAGS *)
  ++ [0xe8; 0x03; 0x00; 0x00]   (* UPDATE PERIOD *)
  ++ [0x10; 0x27; 0x00; 0x00]   (* SEARCH PERIOD *)
  ++ [0x00; 0x00; 0x00; 0x00]   (* GRID OFFSET *)
  ++ [0x00; 0x00]               (* ON TIME *)
  ++ [0x00; 0x00]               (* MIN ACQ TIME *)
  ++ [0x00; 0x00]               (* RESERVED4 *)
  ++ [0x00; 0x00]               (* RESERVED5 *)
  ++ [0x00; 0x00; 0x00; 0x00]   (* RESERVED6 *)
  ++ [0x00; 0x00; 0x00; 0x00]   (* RESERVED7 *)
  ++ [0x00]                     (* RESERVED8 *)
  ++ [0x00]                     (* RESERVED9 *)
  ++ [0x00; 0x00]               (* RESERVED10 *)
  ++ [0x00; 0x00; 0x00; 0x00]   (* RESERVED11 *)
  ++ [0xa3; 0xae].              (* CK_A, CK_B *)

Definition ubx_cfg_msg_nav_pvt : list Z :=
  [0xb5; 0x62; 0x06; 0x01; 0x08; 0x00; 0x01; 0x07; 0x01; 0x01; 0x00; 0x00;
   0x00; 0x00; 0x19; 0xe7].

Definition ubx_cfg_msg_nav_timegps : list Z :=
  [0xb5; 0x62; 0x06; 0x01; 0x08; 0x00; 0x01; 0x20; 0x01; 0x01; 0x00; 0x00;
   0x00; 0x00; 0x32; 0x96].

Definition ubx_cfg_msg_nav_dop : list Z :=
  [0xb5; 0x62; 0x06; 0x01; 0x08; 0x00; 0x01; 0x04; 0x01; 0x01; 0x00; 0x00;
   0x00; 0x00; 0x16; 0xd2].

Definition ubx_cfg_msg_nav_svinfo_1hz : list Z :=
  [0xb5; 0x62; 0x06; 0x01; 0x08; 0x00; 0x01; 0x30; 0x01; 0x01; 0x00; 0x00;
   0x00; 0x00; 0x42; 0x06].

Definition ubx_cfg_msg_nmea_gga : list Z :=
  [0xb5; 0x62; 0x06; 0x01; 0x08; 0x00; 0xf0; 0x00; 0x00; 0x00; 0x00; 0x00;
   0x00; 0x00; 0xff; 0x23].

Definition ubx_cfg_msg_nmea_gll : list Z :=
  [0xb5; 0x62; 0x06; 0x01; 0x08; 0x00; 0xf0; 0x01; 0x00; 0x00; 0x00; 0x00;
   0x00; 0x00; 0x00; 0x2a].

Definition ubx_cfg_msg_nmea_gsa : list Z :=
  [0xb5; 0x62; 0x06; 0x01; 0x08; 0x00; 0xf0; 0x02; 0x00; 0x00; 0x00; 0x00;
   0x00; 0x00; 0x01; 0x31].

Definition ubx_cfg_msg_nmea_gsv : list Z :=
  [0xb5; 0x62; 0x06; 0x01; 0x08; 0x00; 0xf0; 0x03; 0x00; 0x00; 0x00; 0x00;
   0x00; 0x00; 0x02; 0x38].

Definition ubx_cfg_msg_nmea_rmc : list Z :=
  [0xb5; 0x62; 0x06; 0x01; 0x08; 0x00; 0xf0; 0x04; 0x00; 0x00; 0x00; 0x00;
   0x00; 0x00; 0x03; 0x3f].

Definition ubx_cfg_msg_nmea_vtg : list Z :=
  [0xb5; 0x62; 0x06; 0x01; 0x08; 0x00; 0xf0; 0x05; 0x00; 0x00; 0x00; 0x00;
   0x00; 0x00; 0x04; 0x46].

Definition ubx_cfg_rate_1hz : list Z :=
  [0xb5; 0x62; 0x06; 0x08; 0x06; 0x00; 0xe8; 0x03; 0x01; 0x00; 0x01; 0x00;
   0x01; 0x39].

Definition ubx_cfg_tp5 : list Z :=
  [0xb5; 0x62; 0x06; 0x31; 0x20; 0x00; 0x00; 0x00; 0x00; 0x00; 0x32; 0x00;
   0x00; 0x00; 0x40; 0x42; 0x0f; 0x00; 0x40; 0x42; 0x0f; 0x00; 0x40; 0x42;
   0x0f; 0x00; 0xa0; 0xbb; 0x0d; 0x00; 0x00; 0x00; 0x00; 0x00; 0x37; 0x00;
   0x00; 0x00; 0xdb; 0x06].

Definition ubx_cfg_gnss_glonass_enable : list Z :=
  [0xb5; 0x62; 0x06; 0x3e; 0x0c; 0x00; 0x00; 0x00; 0xff; 0x01; 0x06; 0x08;
   0x0e; 0x00; 0x01; 0x00; 0x01; 0x00; 0x6e; 0x6b].

Definition ubx_cfg_gnss_sbas_enable : list Z :=
  [0xb5; 0x62; 0x06; 0x3e; 0x0c; 0x00; 0x00; 0x00; 0xff; 0x01; 0x01; 0x01;
   0x03; 0x00; 0x01; 0x00; 0x01; 0x00; 0x57; 0xd0].

Definition ubx_cfg_gnss_qzss_disable : list Z :=
  [0xb5; 0x62; 0x06; 0x3e; 0x0c; 0x00; 0x00; 0x00; 0xff; 0x01; 0x05; 0x00;
   0x03; 0x00; 0x00; 0x00; 0x00; 0x00; 0x58; 0xe3].

Definition ubx_cfg_sbas_auto : list Z :=
  [0xb5; 0x62; 0x06; 0x16; 0x08; 0x00; 0x01; 0x03; 0x03; 0x00; 0x89; 0xa3;
   0x07; 0x00; 0x5e; 0xd4].

Definition ubx_cfg_save : list Z :=
  [0xb5; 0x62; 0x06; 0x09; 0x0d; 0x00; 0x00; 0x00; 0x00; 0x00; 0xff; 0xff;
   0xff; 0xff; 0x00; 0x00; 0x00; 0x00; 0x01; 0x19; 0x9c].

Definition ubx_cfg_msg_nav_svinfo_5hz : list Z :=
  [0xb5; 0x62; 0x06; 0x01; 0x08; 0x00; 0x01; 0x30; 0x05; 0x05; 0x00; 0x00;
   0x00; 0x00; 0x4a; 0x32].

Definition ubx_cfg_rate_5hz : list Z :=
  [0xb5; 0x62; 0x06; 0x08; 0x06; 0x00; 0xc8; 0x00; 0x01; 0x00; 0x01; 0x00;
   0xde; 0x6a].

Definition ubx_cfg_msg_nav_svinfo_10hz : list Z :=
  [0xb5; 0x62; 0x06; 0x01; 0x08; 0x00; 0x01; 0x30; 0x0a; 0x0a; 0x00; 0x00;
   0x00; 0x00; 0x54; 0x69].

Definition ubx_cfg_rate_10hz : list Z :=
  [0xb5; 0x62; 0x06; 0x08; 0x06; 0x00; 0x64; 0x00; 0x01; 0x00; 0x01; 0x00;
   0x7a; 0x12].

Definition mtk_init_table_1hz : list (list Z) :=
  [bytes "$PMTK314,0,1,0,1,1,1,1,1,0,0,0,0,0,0,0,0,0,0,0*28" ++ [13; 10];
   bytes "$PMTK220,1000*1F" ++ [13; 10];
   bytes "$PMTK300,1000,0,0,0,0*1C" ++ [13; 10];
   bytes "$PMTK286,1*23" ++ [13; 10];
   bytes "$PMTK397,0*23" ++ [13; 10]].

Definition mtk_init_table_5hz : list (list Z) :=
  [bytes "$PMTK314,0,1,0,1,1,5,1,1,0,0,0,0,0,0,0,0,0,0,0*2C" ++ [13; 10];
   bytes "$PMTK220,200*2C" ++ [13; 10];
   bytes "$PMTK300,200,0,0,0,0*2F" ++ [13; 10];
   bytes "$PMTK286,1*23" ++ [13; 10];
   bytes "$PMTK397,0*23" ++ [13; 10]].

Definition ubx_init_table_1hz : list (list Z) :=
  [ubx_cfg_rxm_continuous;
   ubx_cfg_pm2;
   ubx_cfg_msg_nav_pvt;
   ubx_cfg_msg_nav_timegps;
   ubx_cfg_msg_nav_dop;
   ubx_cfg_msg_nav_svinfo_1hz;
   ubx_cfg_msg_nmea_gga;
   ubx_cfg_msg_nmea_gll;
   ubx_cfg_msg_nmea_gsa;
   ubx_cfg_msg_nmea_gsv;
   ubx_cfg_msg_nmea_rmc;
   ubx_cfg_msg_nmea_vtg;
   ubx_cfg_rate_1hz;
   ubx_cfg_tp5;
   ubx_cfg_gnss_glonass_enable;
   ubx_cfg_gnss_sbas_enable;
   ubx_cfg_gnss_qzss_disable;
   ubx_cfg_sbas_auto;
   ubx_cfg_save].

Definition ubx_init_table_5hz : list (list Z) :=
  [ubx_cfg_rxm_continuous;
   ubx_cfg_pm2;
   ubx_cfg_msg_nav_pvt;
   ubx_cfg_msg_nav_timegps;
   ubx_cfg_msg_nav_dop;
   ubx_cfg_msg_nav_svinfo_5hz;
   ubx_cfg_msg_nmea_gga;
   ubx_cfg_msg_nmea_gll;
   ubx_cfg_msg_nmea_gsa;
   ubx_cfg_msg_nmea_gsv;
   ubx_cfg_msg_nmea_rmc;
   ubx_cfg_msg_nmea_vtg;
   ubx_cfg_rate_5hz;
   ubx_cfg_tp5;
   ubx_cfg_gnss_glonass_enable;
   ubx_cfg_gnss_sbas_enable;
   ubx_cfg_gnss_qzss_disable;
   ubx_cfg_sbas_auto;
   ubx_cfg_save].

Definition ubx_init_table_10hz : list (list Z) :=
  [ubx_cfg_rxm_continuous;
   ubx_cfg_pm2;
   ubx_cfg_msg_nav_pvt;
   ubx_cfg_msg_nav_timegps;
   ubx_cfg_msg_nav_dop;
   ubx_cfg_msg_nav_svinfo_10hz;
   ubx_cfg_msg_nmea_gga;
   ubx_cfg_msg_nmea_gll;
   ubx_cfg_msg_nmea_gsa;
   ubx_cfg_msg_nmea_gsv;
   ubx_cfg_msg_nmea_rmc;
   ubx_cfg_msg_nmea_vtg;
   ubx_cfg_rate_10hz;
   ubx_cfg_tp5;
   ubx_cfg_gnss_glonass_enable;
   ubx_cfg_gnss_sbas_enable;
   ubx_cfg_gnss_qzss_disable;
   ubx_cfg_sbas_auto;
   ubx_cfg_save].

(** ** Configuration driver

    [device->table] points into a NULL-terminated array of commands:
    [Some t] lists the entries from the pointer up to the terminator,
    [None] is the NULL pointer. *)

Definition mtk_send (data : list Z) (d : gnss_device_t) : result :=
  let d := set_command
             (u32 (((at_ data 5 - chr "0") * 10 + (at_ data 6 - chr "0")) * 10
                   + (at_ data 7 - chr "0"))) d in
  let d := set_busy 1 d in
  emit (Send_routine data (Z.of_nat (length (c_string data)))) d.

(** With [init == GNSS_INIT_MTK_BAUD_RATE] the first entry is taken
    without a NULL test; the init tables are never empty there. *)
Definition mtk_configure (response command : Z) (d : gnss_device_t) : result :=
  match table d with
  | None => ret d
  | Some t =>
      if init d =? GNSS_INIT_MTK_BAUD_RATE then
        let d := set_table (Some (tl t))
                   (set_init GNSS_INIT_MTK_INIT_TABLE d) in
        match t with
        | data :: _ => mtk_send data d
        | [] => ret d
        end
      else
        match t with
        | data :: rest => mtk_send data (set_table (Some rest) d)
        | [] =>
            let d := set_table None d in
            if init d =? GNSS_INIT_MTK_INIT_TABLE then
              let d := set_init GNSS_INIT_DONE d in
              let d := set_seen 0 d in
              let d := set_expected
                         (fold_right Z.lor 0
                            [NMEA_SENTENCE_MASK_GPGGA; NMEA_SENTENCE_MASK_GPGSA;
                             NMEA_SENTENCE_MASK_GPGSV; NMEA_SENTENCE_MASK_GPRMC])
                         d in
              ret (upd_location (fun l => set_mask 0 (set_type 0 l)) d)
            else ret d
        end
  end.

(** The pointer test [data == ubx_cfg_rxm_continuous] is a test on the
    contents here: no other command starts with 0xff. *)
Definition ubx_send (data : list Z) (d : gnss_device_t) : result :=
  let '(command, count) :=
    if list_Z_eqb data ubx_cfg_rxm_continuous
    then (0x0611, Z.of_nat (length ubx_cfg_rxm_continuous))
    else (Z.lor (Z.shiftl (at_ data 2) 8) (at_ data 3),
          Z.lor (at_ data 4) (Z.shiftl (at_ data 5) 8) + 8) in
  let d := set_command command d in
  let d := set_busy 1 d in
  emit (Send_routine data count) d.

Definition ubx_send_timed (data : list Z) (d : gnss_device_t) : result :=
  ubx_send data d >>= emit Rtc_timer_start.

Definition ubx_configure (response command : Z) (d : gnss_device_t) : result :=
  emit Rtc_timer_stop d >>= fun d =>
  match table d with
  | None => ret d
  | Some t =>
      if init d =? GNSS_INIT_UBX_BAUD_RATE then
        let d := set_table (Some (tl t))
                   (set_init GNSS_INIT_UBX_INIT_TABLE d) in
        match t with
        | data :: _ => ubx_send_timed data d
        | [] => ret d
        end
      else
        match t with
        | data :: rest => ubx_send_timed data (set_table (Some rest) d)
        | [] =>
            let d := set_table None d in
            if init d =? GNSS_INIT_UBX_INIT_TABLE then
              let d := set_init GNSS_INIT_DONE d in
              let d := set_expected
                         (fold_right Z.lor 0
                            [UBX_MESSAGE_MASK_NAV_DOP; UBX_MESSAGE_MASK_NAV_PVT;
                             UBX_MESSAGE_MASK_NAV_SVINFO;
                             UBX_MESSAGE_MASK_NAV_TIMEGPS]) d in
              let d := set_seen 0 d in
              ret (upd_location (fun l => set_mask 0 (set_type 0 l)) d)
            else ret d
        end
  end.

(** ** End of an NMEA sentence ([nmea_end_sentence]) *)

(** [if (context->mask & field) device->location.mask |= bit] *)
Definition propagate_mask (field bit : Z) (d : gnss_device_t) : gnss_device_t :=
  if test_mask (nmea_mask (nmea d)) field then location_mask_or bit d else d.

(** The switch on the final field sequence. *)
Definition nmea_end_sequence (d : gnss_device_t) : result :=
  let c := nmea d in
  match sequence c with
  | NMEA_FIELD_SEQUENCE_GGA_END =>
      let d := propagate_mask NMEA_FIELD_MASK_POSITION
                 GNSS_LOCATION_MASK_POSITION d in
      let d := propagate_mask NMEA_FIELD_MASK_ALTITUDE
                 GNSS_LOCATION_MASK_ALTITUDE d in
      let d := propagate_mask NMEA_FIELD_MASK_HDOP GNSS_LOCATION_MASK_HDOP d in
      ret (seen_clear NMEA_SENTENCE_MASK_SOLUTION
             (seen_or NMEA_SENTENCE_MASK_GPGGA d))
  | NMEA_FIELD_SEQUENCE_GSA_END =>
      let d := propagate_mask NMEA_FIELD_MASK_PDOP GNSS_LOCATION_MASK_PDOP d in
      let d := propagate_mask NMEA_FIELD_MASK_VDOP GNSS_LOCATION_MASK_VDOP d in
      let gp := Z.lor NMEA_SENTENCE_MASK_GPGSA NMEA_SENTENCE_MASK_GPGSV in
      let gl := Z.lor NMEA_SENTENCE_MASK_GLGSA NMEA_SENTENCE_MASK_GLGSV in
      if prefix c =? chr "N" then
        let d := set_expected (Z.lor (expected d) (Z.lor gp gl)) d in
        if negb (test_mask (seen d) NMEA_SENTENCE_MASK_GPGSA)
        then ret (seen_or NMEA_SENTENCE_MASK_GPGSA d)
        else ret (seen_clear NMEA_SENTENCE_MASK_SOLUTION
                    (seen_or NMEA_SENTENCE_MASK_GLGSA d))
      else if prefix c =? chr "L" then
        let d := set_expected (Z.lor (clear_mask gp (expected d)) gl) d in
        ret (seen_clear NMEA_SENTENCE_MASK_SOLUTION
               (seen_or NMEA_SENTENCE_MASK_GLGSA d))
      else
        let d := set_expected (Z.lor (clear_mask gl (expected d)) gp) d in
        ret (seen_clear NMEA_SENTENCE_MASK_SOLUTION
               (seen_or NMEA_SENTENCE_MASK_GPGSA d))
  | NMEA_FIELD_SEQUENCE_GST_END =>
      let d := set_expected (Z.lor (expected d) NMEA_SENTENCE_MASK_GPGST) d in
      let d := propagate_mask NMEA_FIELD_MASK_EHPE GNSS_LOCATION_MASK_EHPE d in
      let d := propagate_mask NMEA_FIELD_MASK_EVPE GNSS_LOCATION_MASK_EVPE d in
      ret (seen_clear NMEA_SENTENCE_MASK_SOLUTION
             (seen_or NMEA_SENTENCE_MASK_GPGST d))
  | NMEA_FIELD_SEQUENCE_GSV_END =>
      if sv_in_view_count c =? sv_in_view_index c then
        let d := upd_nmea (set_sv_in_view_sentences 0) d in
        let d := if prefix c =? chr "P"
                 then seen_or NMEA_SENTENCE_MASK_GPGSV d else d in
        let d := if prefix c =? chr "L"
                 then seen_or NMEA_SENTENCE_MASK_GLGSV d else d in
        ret d
      else ret d
  | NMEA_FIELD_SEQUENCE_RMC_END =>
      let d := propagate_mask NMEA_FIELD_MASK_TIME GNSS_LOCATION_MASK_TIME d in
      let d := propagate_mask NMEA_FIELD_MASK_SPEED GNSS_LOCATION_MASK_SPEED d in
      let d := propagate_mask NMEA_FIELD_MASK_COURSE
                 GNSS_LOCATION_MASK_COURSE d in
      ret (seen_clear NMEA_SENTENCE_MASK_SOLUTION
             (seen_or NMEA_SENTENCE_MASK_GPRMC d))
  | NMEA_FIELD_SEQUENCE_PMTK001_END =>
      if command d =? mtk_command c then
        mtk_configure
          (if mtk_status c =? 3 then GNSS_RESPONSE_ACK else GNSS_RESPONSE_NACK)
          (mtk_command c)
          (set_command 0xffffffff d)
      else ret d
  | _ => ret d
  end.

(** [f] applied to the first [n] entries of [l]. *)
Definition map_first {A : Type} (n : nat) (f : A -> A) (l : list A) : list A :=
  map f (take n l) ++ drop n l.

(** The body of the loop setting GNSS_SATELLITES_STATE_NAVIGATING on the
    entries whose PRN is in the GSA used-mask, for the indices inside the
    table. *)
Definition mark_navigating (c : nmea_context_t) (s : gnss_satellites_t)
  : gnss_satellites_t :=
  set_info
    (map_first (Z.to_nat (count s))
       (fun e =>
          if (1 <=? prn e) && (prn e <=? 96) && sv_used_test c (prn e)
          then set_sat_state
                 (Z.lor (sat_state e) GNSS_SATELLITES_STATE_NAVIGATING) e
          else e)
       (info s)) s.

Definition NMEA_LOCATION_SENTENCES : Z :=
  fold_right Z.lor 0
    [NMEA_SENTENCE_MASK_GPGGA; NMEA_SENTENCE_MASK_GPGSA;
     NMEA_SENTENCE_MASK_GPGST; NMEA_SENTENCE_MASK_GPRMC;
     NMEA_SENTENCE_MASK_GLGSA].

Definition NMEA_SATELLITES_SENTENCES : Z :=
  Z.lor NMEA_SENTENCE_MASK_GPGSV NMEA_SENTENCE_MASK_GLGSV.

Definition nmea_publish_location (d : gnss_device_t) : result :=
  let c := nmea d in
  let expected := Z.land (expected d) NMEA_LOCATION_SENTENCES in
  if Z.land (seen d) expected =? expected then
    let d :=
      if (status c =? NMEA_STATUS_DATA_VALID)
         && negb (navigation c =? NMEA_NAVIGATION_NONE)
      then
        upd_location (fun l =>
          set_numsv (u8 (sv_used_count c))
            (set_type (if navigation c =? NMEA_NAVIGATION_2D
                       then GNSS_LOCATION_TYPE_2D
                       else GNSS_LOCATION_TYPE_3D) l)) d
      else
        sv_used_reset
          (upd_location (fun l =>
             set_numsv 0 (set_type GNSS_LOCATION_TYPE_NONE l)) d) in
    gnss_location d >>= fun d =>
    ret (seen_or NMEA_SENTENCE_MASK_SOLUTION
           (seen_clear NMEA_LOCATION_SENTENCES d))
  else ret d.

(** The indices at or above GNSS_SATELLITES_COUNT_MAX that a loop
    [for (n = 0; n < count; n++)] visits. *)
Definition overrun_indices (count : Z) : list Z :=
  map (fun k => GNSS_SATELLITES_COUNT_MAX + Z.of_nat k)
      (seq 0 (Z.to_nat (count - GNSS_SATELLITES_COUNT_MAX))).

(** The marking loop as [nmea_end_sentence] runs it, over
    [satellites.count] entries.  The GSV fields increment the count
    outside their bound test, so it can exceed the 32 entries of the
    table; the loop then reads [info[n].prn], and may OR into
    [info[n].state], behind the table, where [command], [send_routine],
    the callbacks and [context] lie.  Each such access is recorded as
    [Info_overrun n].  What it reads and what its store changes there is
    not defined by the source: the device returned is the one of a run
    in which the store changed nothing, and a statement about a run holds
    of the code for the runs that record no [Info_overrun]. *)
Definition nmea_mark_navigating (d : gnss_device_t) : result :=
  (upd_satellites (mark_navigating (nmea d)) d,
   map Info_overrun (overrun_indices (count (satellites d)))).

Definition nmea_publish_satellites (d : gnss_device_t) : result :=
  let expected := Z.land (expected d) NMEA_SATELLITES_SENTENCES in
  if test_mask (seen d) NMEA_SENTENCE_MASK_SOLUTION
     && (Z.land (seen d) expected =? expected)
  then
    nmea_mark_navigating d >>= gnss_satellites >>= fun d =>
    ret (seen_clear NMEA_SATELLITES_SENTENCES d)
  else ret d.

Definition nmea_end_sentence (d : gnss_device_t) : result :=
  emit Nmea_end_sentence d >>= nmea_end_sequence >>= fun d =>
  let d := upd_nmea (set_sequence NMEA_FIELD_SEQUENCE_START) d in
  if init d =? GNSS_INIT_DONE
  then nmea_publish_location d >>= nmea_publish_satellites
  else ret d.

(** ** UBX message processor *)

(** Little-endian reads of the staged bytes, as the target reads them. *)
Definition ubx_data_uint8 (data : list Z) (offset : nat) : Z :=
  at_ data offset.

Definition ubx_data_uint16 (data : list Z) (offset : nat) : Z :=
  Z.lor (at_ data offset) (Z.shiftl (at_ data (offset + 1)) 8).

Definition ubx_data_uint32 (data : list Z) (offset : nat) : Z :=
  Z.lor (Z.lor (at_ data offset) (Z.shiftl (at_ data (offset + 1)) 8))
        (Z.lor (Z.shiftl (at_ data (offset + 2)) 16)
               (Z.shiftl (at_ data (offset + 3)) 24)).

Definition ubx_data_int8 (data : list Z) (offset : nat) : Z :=
  s8 (ubx_data_uint8 data offset).

Definition ubx_data_int16 (data : list Z) (offset : nat) : Z :=
  s16 (ubx_data_uint16 data offset).

Definition ubx_data_int32 (data : list Z) (offset : nat) : Z :=
  s32 (ubx_data_uint32 data offset).

Definition utc_days_since_month (leap : bool) (i : Z) : Z :=
  if i <? 0 then 0 else
  nth (Z.to_nat i)
    (if leap then [0; 31; 60; 91; 121; 152; 182; 213; 244; 274; 305; 335]
     else [0; 31; 59; 90; 120; 151; 181; 212; 243; 273; 304; 334]) 0.

(** The divisions of C truncate towards zero ([Z.quot]). *)
Definition utc_offset_time (t : utc_time_t) (week tow : Z) : Z :=
  s32 (u32 (week * 604800) + u32 (tow + 500) / 1000
       - ((((((year t * 365 + (1 + Z.quot (year t - 1) 4))
              + utc_days_since_month (Z.land (year t) 3 =? 0) (month t - 1)
              + (day t - 1))
             - (6 - 1) * 24 + hour t) * 60)
           + minute t) * 60
          + second t)).

Definition ubx_start_message (message length : Z) (d : gnss_device_t)
  : gnss_device_t :=
  if message =? 0x0130 then
    (* UBX-NAV-SVINFO/UBX-NAV-SAT *)
    let d := set_rx_chunk 20 d in
    let d := upd_satellites (set_count 0) d in
    seen_clear UBX_MESSAGE_MASK_NAV_SVINFO d
  else d.

(** The remapping of the on-wire satellite id; 0 drops the record. *)
Definition ubx_svid_remap (svid : Z) : Z :=
  if (1 <=? svid) && (svid <=? 32) then (* GPS *) svid
  else if (33 <=? svid) && (svid <=? 64) then (* BEIDOU *)
    svid + (201 + 5 - 33)
  else if (65 <=? svid) && (svid <=? 96) then (* GLONASS *) svid
  else if (120 <=? svid) && (svid <=? 151) then (* SBAS *) svid - 87
  else if (152 <=? svid) && (svid <=? 158) then (* SBAS *) svid
  else if (159 <=? svid) && (svid <=? 163) then (* BEIDOU *)
    svid + (201 - 159)
  else if (193 <=? svid) && (svid <=? 200) then (* QZSS *) svid
  else if svid =? 255 then (* GLONASS *) svid
  else 0.

(** The tracking state from the quality nibble at offset 11. *)
Definition ubx_svinfo_quality (q : Z) : Z :=
  match Z.land q 0x0f with
  | 0x02 | 0x03 | 0x04 | 0x05 | 0x06 | 0x07 => GNSS_SATELLITES_STATE_TRACKING
  | _ => GNSS_SATELLITES_STATE_SEARCHING
  end.

Definition ubx_svinfo_entry (data : list Z) (svid : Z)
  (e : gnss_satellite_info_t) : gnss_satellite_info_t :=
  let e := set_prn (u8 svid) e in
  let e :=
    if 0 <? ubx_data_int8 data 13 then
      set_azimuth (u16 (ubx_data_int16 data 14))
        (set_elevation (u8 (ubx_data_int8 data 13)) e)
    else set_azimuth 0 (set_elevation 0 e) in
  let e := set_snr (ubx_data_uint8 data 12) e in
  let e := set_sat_state (ubx_svinfo_quality (ubx_data_uint8 data 11)) e in
  if test_mask (sat_state e) GNSS_SATELLITES_STATE_TRACKING then
    let e := if test_mask (ubx_data_uint8 data 10) 0x01
             then set_sat_state
                    (Z.lor (sat_state e) GNSS_SATELLITES_STATE_NAVIGATING) e
             else e in
    if test_mask (ubx_data_uint8 data 10) 0x02
    then set_sat_state
           (Z.lor (sat_state e) GNSS_SATELLITES_STATE_CORRECTION) e
    else e
  else e.

Definition ubx_parse_message (message : Z) (data : list Z) (count' : Z)
  (d : gnss_device_t) : gnss_device_t :=
  if message =? 0x0130 then
    (* UBX-NAV-SVINFO *)
    let svid := ubx_svid_remap (ubx_data_uint8 data 9) in
    let n := count (satellites d) in
    let d :=
      if negb (svid =? 0) && (n <? GNSS_SATELLITES_COUNT_MAX) then
        upd_satellites (set_count (u32 (n + 1)))
          (upd_info n (ubx_svinfo_entry data svid) d)
      else d in
    set_rx_chunk (u16 (rx_chunk d + 12)) (set_rx_offset (u16 (rx_offset d + 12)) d)
  else d.

(** The fix quality from the flags byte at offset 21 of NAV-PVT. *)
Definition ubx_pvt_quality (flags : Z) : Z :=
  if test_mask flags 0xc0 then
    if test_mask flags 0x80 then GNSS_LOCATION_QUALITY_RTK_FIXED
    else GNSS_LOCATION_QUALITY_RTK_FLOAT
  else if test_mask flags 0x01 then
    if test_mask flags 0x02 then GNSS_LOCATION_QUALITY_DIFFERENTIAL
    else GNSS_LOCATION_QUALITY_AUTONOMOUS
  else GNSS_LOCATION_QUALITY_NONE.

Definition ubx_nav_pvt (data : list Z) (l : gnss_location_t)
  : gnss_location_t :=
  let l :=
    if Z.land (ubx_data_uint8 data 11) 0x03 =? 0x03 then
      upd_time (fun t =>
        set_millis
          (if 0 <? ubx_data_int32 data 16
           then u16 (Z.quot (ubx_data_int32 data 16 + 500000) 1000000)
           else 0)
          (set_second (ubx_data_uint8 data 10)
            (set_minute (ubx_data_uint8 data 9)
              (set_hour (ubx_data_uint8 data 8)
                (set_day (ubx_data_uint8 data 7)
                  (set_month (ubx_data_uint8 data 6)
                    (set_year (u8 (ubx_data_uint16 data 4 - 1980)) t))))))) l
    else upd_time utc_time_epoch l in
  let l := set_latitude (ubx_data_int32 data 28) l in
  let l := set_longitude (ubx_data_int32 data 24) l in
  let l := set_altitude (ubx_data_int32 data 36) l in
  let l := set_separation
             (s32 (ubx_data_int32 data 32 - ubx_data_int32 data 36)) l in
  let l := set_speed (ubx_data_int32 data 60) l in
  let l := set_course (ubx_data_int32 data 64) l in
  let l := set_climb (s32 (- ubx_data_int32 data 56)) l in
  let l := set_ehpe (ubx_data_uint32 data 40) l in
  let l := set_evpe (ubx_data_uint32 data 44) l in
  let flags := ubx_data_uint8 data 21 in
  let l :=
    match ubx_data_uint8 data 20 with
    | 0x00 => set_quality GNSS_LOCATION_QUALITY_NONE
                (set_type GNSS_LOCATION_TYPE_NONE l)
    | 0x01 => set_quality GNSS_LOCATION_QUALITY_ESTIMATED
                (set_type GNSS_LOCATION_TYPE_NONE l)
    | 0x02 => set_quality (ubx_pvt_quality flags)
                (set_type GNSS_LOCATION_TYPE_2D l)
    | 0x03 => set_quality (ubx_pvt_quality flags)
                (set_type GNSS_LOCATION_TYPE_3D l)
    | 0x04 => set_quality GNSS_LOCATION_QUALITY_ESTIMATED
                (set_type GNSS_LOCATION_TYPE_2D l)
    | 0x05 => set_quality GNSS_LOCATION_QUALITY_NONE
                (set_type GNSS_LOCATION_TYPE_TIME l)
    | _ => l
    end in
  let l := set_numsv (ubx_data_uint8 data 23) l in
  set_mask
    (Z.lor (mask l)
       (fold_right Z.lor 0
          [GNSS_LOCATION_MASK_POSITION; GNSS_LOCATION_MASK_ALTITUDE;
           GNSS_LOCATION_MASK_SPEED; GNSS_LOCATION_MASK_COURSE;
           GNSS_LOCATION_MASK_CLIMB; GNSS_LOCATION_MASK_EHPE;
           GNSS_LOCATION_MASK_EVPE])) l.

Definition ubx_nav_timegps (data : list Z) (d : gnss_device_t)
  : gnss_device_t :=
  if Z.land (ubx_data_uint8 data 11) 0x03 =? 0x03 then
    let tow := s32 (ubx_data_uint32 data 0
                    + Z.quot (ubx_data_int32 data 4 + 500000) 1000000) in
    let week := ubx_data_uint16 data 8 in
    let '(tow, week) :=
      if tow <? 0 then (s32 (tow + 604800000), u16 (week - 1))
      else (tow, week) in
    let '(tow, week) :=
      if 604800000 <=? tow then (s32 (tow - 604800000), u16 (week + 1))
      else (tow, week) in
    let d := upd_ubx (fun c => set_tow (u32 tow) (set_week week c)) d in
    upd_location (set_correction (ubx_data_uint8 data 10)) d
  else
    let d := upd_ubx (fun c => set_tow 0 (set_week 0 c)) d in
    upd_location (set_correction 0) d.

Definition UBX_NAV_MESSAGES : Z :=
  fold_right Z.lor 0
    [UBX_MESSAGE_MASK_NAV_DOP; UBX_MESSAGE_MASK_NAV_PVT;
     UBX_MESSAGE_MASK_NAV_SVINFO; UBX_MESSAGE_MASK_NAV_TIMEGPS;
     UBX_MESSAGE_MASK_SOLUTION].

Definition UBX_LOCATION_MESSAGES : Z :=
  fold_right Z.lor 0
    [UBX_MESSAGE_MASK_NAV_DOP; UBX_MESSAGE_MASK_NAV_PVT;
     UBX_MESSAGE_MASK_NAV_TIMEGPS].

(** The class 0x01 (NAV) messages. *)
Definition ubx_nav_message (message : Z) (data : list Z) (d : gnss_device_t)
  : gnss_device_t :=
  let d :=
    if test_mask (seen d) UBX_NAV_MESSAGES
       && negb (itow (ubx d) =? ubx_data_uint32 data 0)
    then upd_location (fun l => set_mask 0 (set_type 0 l)) (set_seen 0 d)
    else d in
  let d := upd_ubx (set_itow (ubx_data_uint32 data 0)) d in
  match Z.land message 0xff with
  | 0x04 => (* UBX-NAV-DOP *)
      let d := upd_location (fun l =>
                 set_vdop (ubx_data_uint16 data 10)
                   (set_hdop (ubx_data_uint16 data 12)
                     (set_pdop (ubx_data_uint16 data 6) l))) d in
      let d := location_mask_or
                 (fold_right Z.lor 0
                    [GNSS_LOCATION_MASK_PDOP; GNSS_LOCATION_MASK_HDOP;
                     GNSS_LOCATION_MASK_VDOP]) d in
      seen_or UBX_MESSAGE_MASK_NAV_DOP d
  | 0x07 => (* UBX-NAV-PVT *)
      let d := upd_location (ubx_nav_pvt data) d in
      seen_clear UBX_MESSAGE_MASK_SOLUTION
        (seen_or UBX_MESSAGE_MASK_NAV_PVT d)
  | 0x20 => (* UBX-NAV-TIMEGPS *)
      let d := ubx_nav_timegps data d in
      seen_clear UBX_MESSAGE_MASK_SOLUTION
        (seen_or UBX_MESSAGE_MASK_NAV_TIMEGPS d)
  | 0x30 => (* UBX-NAV-SVINFO *)
      seen_or UBX_MESSAGE_MASK_NAV_SVINFO d
  | _ => d
  end.

(** UBX-ACK-NACK and UBX-ACK-ACK. *)
Definition ubx_ack_message (response : Z) (data : list Z) (d : gnss_device_t)
  : result :=
  let acked :=
    u16 (Z.lor (Z.shiftl (ubx_data_uint8 data 0) 8) (ubx_data_uint8 data 1)) in
  if acked =? command d
  then ubx_configure response acked (set_command 0xffffffff d)
  else ret d.

Definition ubx_publish_location (d : gnss_device_t) : result :=
  let expected := Z.land (expected d) UBX_LOCATION_MESSAGES in
  if Z.land (seen d) expected =? expected then
    let d :=
      if negb (week (ubx d) =? 0) && negb (year (time (location d)) =? 0) then
        let d :=
          if negb (test_mask (seen d) UBX_MESSAGE_MASK_NAV_TIMEGPS) then
            upd_location
              (set_correction
                 (utc_offset_time (time (location d)) (week (ubx d))
                    (tow (ubx d)))) d
          else d in
        location_mask_or
          (Z.lor GNSS_LOCATION_MASK_TIME GNSS_LOCATION_MASK_CORRECTION) d
      else d in
    gnss_location d >>= fun d =>
    ret (seen_or UBX_MESSAGE_MASK_SOLUTION
           (seen_clear UBX_LOCATION_MESSAGES d))
  else ret d.

Definition ubx_publish_satellites (d : gnss_device_t) : result :=
  let expected := Z.land (expected d) UBX_MESSAGE_MASK_NAV_SVINFO in
  if test_mask (seen d) UBX_MESSAGE_MASK_SOLUTION
     && (Z.land (seen d) expected =? expected)
  then
    gnss_satellites d >>= fun d =>
    ret (seen_clear UBX_MESSAGE_MASK_NAV_SVINFO d)
  else ret d.

Definition ubx_end_message (message : Z) (data : list Z) (count' : Z)
  (d : gnss_device_t) : result :=
  emit (Ubx_end_message message data count') d >>= fun d =>
  (if Z.shiftr message 8 =? 0x01 then ret (ubx_nav_message message data d)
   else if message =? 0x0500 then ubx_ack_message GNSS_RESPONSE_NACK data d
   else if message =? 0x0501 then ubx_ack_message GNSS_RESPONSE_ACK data d
   else ret d) >>= fun d =>
  if init d =? GNSS_INIT_DONE
  then ubx_publish_location d >>= ubx_publish_satellites
  else ret d.

(** ** Framing state machine ([gnss_receive]) *)

(** [device->rx_data[index] = value].  The store is recorded with its
    index; a store outside the 96 bytes of the array lands in the
    neighbouring storage, which is not modelled. *)
Definition rx_store (index value : Z) (d : gnss_device_t) : result :=
  emit (Store_rx_data index)
    (if (0 <=? index) && (index <? GNSS_RX_DATA_SIZE)
     then set_rx_data (<[Z.to_nat index := value]> (rx_data d)) d
     else d).

(** [ck_a += c; ck_b += ck_a] *)
Definition ubx_ck_add (c : Z) (u : ubx_context_t) : ubx_context_t :=
  let a := u8 (ck_a u + c) in
  set_ck_b (u8 (ck_b u + a)) (set_ck_a a u).

Definition nmea_hex (i : Z) : Z := nth (Z.to_nat i) nmea_hex_ascii 0.

(** The configuration hooks run when a complete sentence arrives during
    init. *)
Definition nmea_init_response (d : gnss_device_t) : result :=
  if negb (init d =? GNSS_INIT_DONE) then
    (if init d =? GNSS_INIT_MTK_BAUD_RATE
     then mtk_configure GNSS_RESPONSE_NMEA_SENTENCE 0xffffffff d
     else ret d) >>= fun d =>
    if init d =? GNSS_INIT_UBX_BAUD_RATE
    then ubx_configure GNSS_RESPONSE_NMEA_SENTENCE 0xffffffff d
    else ret d
  else ret d.

Definition ubx_init_response (d : gnss_device_t) : result :=
  if negb (init d =? GNSS_INIT_DONE) && (init d =? GNSS_INIT_UBX_BAUD_RATE)
  then ubx_configure GNSS_RESPONSE_UBX_MESSAGE 0xffffffff d
  else ret d.

(** One round of the [while] loop: the byte [c] is consumed. *)
Definition gnss_receive_byte (d : gnss_device_t) (c : Z) : result :=
  if (state d <=? GNSS_STATE_NMEA_END_LF) && (c =? chr "$") then
    (* Whenever we see a '$', it's the start of a new sentence, which can
       discard a partially read one. *)
    ret (nmea_start_sentence
           (set_rx_count 0 (set_checksum 0
              (set_state GNSS_STATE_NMEA_PAYLOAD d))))
  else
    match state d with
    | GNSS_STATE_START =>
        if (mode d =? GNSS_MODE_UBLOX) && (c =? 0xb5)
        then ret (set_state GNSS_STATE_UBX_SYNC_2 d)
        else ret d
    | GNSS_STATE_NMEA_PAYLOAD =>
        if c =? chr "*" then
          rx_store (rx_count d) 0 d >>= fun d =>
          ret (set_state GNSS_STATE_NMEA_CHECKSUM_1
                 (nmea_parse_sentence d (rx_data d)))
        else if (0x20 <=? c) && (c <=? 0x7f) then
          if GNSS_RX_DATA_SIZE <=? rx_count d then
            (* Reject a too long sentence. *)
            ret (set_state GNSS_STATE_START d)
          else
            let d := set_checksum (Z.lxor (checksum d) c) d in
            if c =? chr "," then
              rx_store (rx_count d) 0 d >>= fun d =>
              ret (set_rx_count 0 (nmea_parse_sentence d (rx_data d)))
            else
              rx_store (rx_count d) c d >>= fun d =>
              ret (set_rx_count (u16 (rx_count d + 1)) d)
        else
          (* If there is an illegal char, then scan again for a new start. *)
          ret (set_state GNSS_STATE_START d)
    | GNSS_STATE_NMEA_CHECKSUM_1 =>
        if c =? nmea_hex (Z.shiftr (checksum d) 4)
        then ret (set_state GNSS_STATE_NMEA_CHECKSUM_2 d)
        else ret (set_state GNSS_STATE_START d)
    | GNSS_STATE_NMEA_CHECKSUM_2 =>
        if c =? nmea_hex (Z.land (checksum d) 0x0f)
        then ret (set_state GNSS_STATE_NMEA_END_CR d)
        else ret (set_state GNSS_STATE_START d)
    | GNSS_STATE_NMEA_END_CR =>
        if c =? 13 (* '\r' *)
        then ret (set_state GNSS_STATE_NMEA_END_LF d)
        else ret (set_state GNSS_STATE_START d)
    | GNSS_STATE_NMEA_END_LF =>
        (if c =? 10 (* '\n' *)
         then nmea_init_response d >>= nmea_end_sentence
         else ret d) >>= fun d =>
        ret (set_state GNSS_STATE_START d)
    | GNSS_STATE_UBX_SYNC_2 =>
        if negb (c =? 0x62)
        then ret (set_state GNSS_STATE_START d)
        else ret (set_state GNSS_STATE_UBX_MESSAGE_1 d)
    | GNSS_STATE_UBX_MESSAGE_1 =>
        let d := upd_ubx (fun u =>
                   set_message (u16 (Z.shiftl c 8))
                     (set_ck_b c (set_ck_a c u))) d in
        ret (set_state GNSS_STATE_UBX_MESSAGE_2 d)
    | GNSS_STATE_UBX_MESSAGE_2 =>
        let d := upd_ubx (fun u =>
                   set_message (Z.lor (message u) c) (ubx_ck_add c u)) d in
        ret (set_state GNSS_STATE_UBX_LENGTH_1 d)
    | GNSS_STATE_UBX_LENGTH_1 =>
        let d := upd_ubx (fun u => set_ubx_length c (ubx_ck_add c u)) d in
        ret (set_state GNSS_STATE_UBX_LENGTH_2 d)
    | GNSS_STATE_UBX_LENGTH_2 =>
        let d := upd_ubx (ubx_ck_add c) d in
        let d := set_rx_chunk 0xffff (set_rx_offset 0 (set_rx_count 0 d)) in
        let d := upd_ubx (fun u =>
                   set_ubx_length (u16 (Z.lor (ubx_length u) (Z.shiftl c 8)))
                                  u) d in
        let d := ubx_start_message (message (ubx d)) (ubx_length (ubx d)) d in
        if rx_count d =? ubx_length (ubx d)
        then ret (set_state GNSS_STATE_UBX_CK_A d)
        else ret (set_state GNSS_STATE_UBX_PAYLOAD d)
    | GNSS_STATE_UBX_PAYLOAD =>
        let d := upd_ubx (ubx_ck_add c) d in
        (if rx_count d - rx_offset d <? GNSS_RX_DATA_SIZE
         then rx_store (rx_count d - rx_offset d) c d
         else ret d) >>= fun d =>
        let d := set_rx_count (u16 (rx_count d + 1)) d in
        let d :=
          if rx_count d =? rx_chunk d
          then ubx_parse_message (message (ubx d)) (rx_data d) (rx_count d) d
          else d in
        if rx_count d =? ubx_length (ubx d)
        then ret (set_state GNSS_STATE_UBX_CK_A d)
        else ret d
    | GNSS_STATE_UBX_CK_A =>
        let d := upd_ubx (fun u => set_ck_a (Z.lxor (ck_a u) c) u) d in
        ret (set_state GNSS_STATE_UBX_CK_B d)
    | GNSS_STATE_UBX_CK_B =>
        let d := upd_ubx (fun u => set_ck_b (Z.lxor (ck_b u) c) u) d in
        (if (ck_a (ubx d) =? 0x00) && (ck_b (ubx d) =? 0x00) then
           ubx_init_response d >>= fun d =>
           if rx_count d - rx_offset d <=? GNSS_RX_DATA_SIZE
           then ubx_end_message (message (ubx d)) (rx_data d) (rx_count d) d
           else ret d
         else ret d) >>= fun d =>
        ret (set_state GNSS_STATE_START d)
    | _ => ret d
    end.

(** [gnss_receive(data, count)]: the bytes are consumed in order. *)
Fixpoint gnss_receive (d : gnss_device_t) (data : list Z) : result :=
  match data with
  | [] => ret d
  | c :: rest => gnss_receive_byte d c >>= fun d => gnss_receive d rest
  end.

(** ** Initialisation ([gnss_initialize]) *)

Definition utc_time_zero : utc_time_t :=
  {| year := 0; month := 0; day := 0; hour := 0; minute := 0; second := 0;
     millis := 0 |}.

Definition gnss_location_zero : gnss_location_t :=
  {| time := utc_time_zero; type := 0; mask := 0; quality := 0; numsv := 0;
     correction := 0; latitude := 0; longitude := 0; altitude := 0;
     separation := 0; speed := 0; course := 0; climb := 0; ehpe := 0;
     evpe := 0; pdop := 0; hdop := 0; vdop := 0 |}.

Definition gnss_satellite_info_zero : gnss_satellite_info_t :=
  {| prn := 0; sat_state := 0; snr := 0; elevation := 0; azimuth := 0 |}.

Definition gnss_satellites_zero : gnss_satellites_t :=
  {| count := 0;
     info := repeat gnss_satellite_info_zero
               (Z.to_nat GNSS_SATELLITES_COUNT_MAX) |}.

(** The zero-initialised static [gnss_device]. *)
Definition gnss_device : gnss_device_t :=
  {| mode := 0; state := 0; busy := 0; init := 0; seen := 0; expected := 0;
     checksum := 0; rx_count := 0; rx_offset := 0; rx_chunk := 0;
     table := None; rx_data := repeat 0 (Z.to_nat GNSS_RX_DATA_SIZE);
     nmea := {| prefix := 0; sequence := 0; nmea_mask := 0; navigation := 0;
                status := 0; sv_in_view_sentences := 0; sv_in_view_count := 0;
                sv_in_view_index := 0; sv_used_count := 0;
                sv_used_mask := [0; 0; 0]; mtk_command := 0;
                mtk_status := 0 |};
     ubx := {| ck_a := 0; ck_b := 0; message := 0; ubx_length := 0; week := 0;
               tow := 0; itow := 0 |};
     location := gnss_location_zero; satellites := gnss_satellites_zero;
     command := 0; location_callback := false;
     satellites_callback := false |}.

Definition ubx_uart_data (speed : Z) : list Z :=
  (if 115200 <=? speed then bytes "$PUBX,41,1,0007,0003,115200,0*18"
   else if 57600 <=? speed then bytes "$PUBX,41,1,0007,0003,57600,0*2B"
   else if 38400 <=? speed then bytes "$PUBX,41,1,0007,0003,38400,0*20"
   else if 19200 <=? speed then bytes "$PUBX,41,1,0007,0003,19200,0*25"
   else bytes "$PUBX,41,1,0007,0003,9600,0*10") ++ [13; 10].

Definition mtk_uart_data (speed : Z) : list Z :=
  (if 115200 <=? speed then bytes "$PMTK251,115200*1F"
   else if 57600 <=? speed then bytes "$PMTK251,57600*2C"
   else if 38400 <=? speed then bytes "$PMTK251,38400*27"
   else if 19200 <=? speed then bytes "$PMTK251,19200*22"
   else bytes "$PMTK251,9600*17") ++ [13; 10].

Definition gnss_initialize (mode' rate speed : Z)
  (location_callback' satellites_callback' : bool) (d : gnss_device_t)
  : result :=
  let d := set_satellites_callback satellites_callback'
             (set_location_callback location_callback' d) in
  let d := set_busy 0 (set_command 0xffffffff
             (set_state GNSS_STATE_START d)) in
  let d := set_satellites gnss_satellites_zero
             (set_location gnss_location_zero d) in
  if mode' =? GNSS_MODE_UBLOX then
    let d := set_init GNSS_INIT_UBX_BAUD_RATE (set_mode mode' d) in
    let d := set_table
               (Some (if 10 <=? rate then ubx_init_table_10hz
                      else if 5 <=? rate then ubx_init_table_5hz
                      else ubx_init_table_1hz)) d in
    let uart_data := ubx_uart_data speed in
    emit (Send_routine uart_data (Z.of_nat (length uart_data))) d
  else if mode' =? GNSS_MODE_MEDIATEK then
    let d := set_init GNSS_INIT_MTK_BAUD_RATE (set_mode mode' d) in
    let d := set_table
               (Some (if 5 <=? rate then mtk_init_table_5hz
                      else mtk_init_table_1hz)) d in
    let uart_data := mtk_uart_data speed in
    emit (Send_routine uart_data (Z.of_nat (length uart_data))) d
  else
    let d := set_table None (set_init GNSS_INIT_DONE
               (set_mode GNSS_MODE_NMEA d)) in
    ret (set_expected
           (fold_right Z.lor 0
              [NMEA_SENTENCE_MASK_GPGGA; NMEA_SENTENCE_MASK_GPGSA;
               NMEA_SENTENCE_MASK_GPGSV; NMEA_SENTENCE_MASK_GPRMC]) d).

(** * Properties *)

(** ** Vocabulary of the statements *)

Definition is_callback (e : event) : bool :=
  match e with
  | Location_callback _ | Satellites_callback _ => true
  | _ => false
  end.

Definition is_store (e : event) : bool :=
  match e with
  | Store_rx_data _ => true
  | _ => false
  end.

Definition is_nmea_end_sentence (e : event) : bool :=
  match e with
  | Nmea_end_sentence => true
  | _ => false
  end.

Definition is_ubx_end_message (e : event) : bool :=
  match e with
  | Ubx_end_message _ _ _ => true
  | _ => false
  end.

(** A trace that only stores into the staging buffer: nothing is
    delivered, sent or scheduled. *)
Definition only_stores (t : list event) : bool := forallb is_store t.

Definition no_callback (t : list event) : bool :=
  forallb (fun e => negb (is_callback e)) t.

Definition is_info_overrun (e : event) : bool :=
  match e with
  | Info_overrun _ => true
  | _ => false
  end.

(** The marking loop of [nmea_end_sentence] stayed inside the satellite
    table during the run: no cycle came to list more than 32
    satellites. *)
Definition info_in_bounds (t : list event) : bool :=
  forallb (fun e => negb (is_info_overrun e)) t.

(** The part of the device record owned by the framing layer and the
    configuration driver. *)
Definition frame_of (d : gnss_device_t) :=
  (mode d, state d, busy d, init d, expected d, checksum d, rx_count d,
   rx_offset d, rx_chunk d, table d, rx_data d, ubx d, command d,
   location_callback d, satellites_callback d).

(** The SOLUTION interlock bit of [device->seen]. *)
Definition solution (d : gnss_device_t) : bool :=
  test_mask (seen d) NMEA_SENTENCE_MASK_SOLUTION.

(** [d'] differs from [d] on the fix state only, and did not gain the
    SOLUTION bit. *)
Definition quiet (d d' : gnss_device_t) : Prop :=
  frame_of d' = frame_of d /\ (solution d' = true -> solution d = true).

Definition is_byte (c : Z) : bool := (0 <=? c) && (c <? 256).

(** A byte that may stand between '$' and '*'. *)
Definition nmea_payload_byte (c : Z) : bool :=
  (0x20 <=? c) && (c <=? 0x7f) && negb (c =? chr "$") && negb (c =? chr "*").

(** A payload byte that does not close a field. *)
Definition nmea_field_byte (c : Z) : bool :=
  nmea_payload_byte c && negb (c =? chr ",").

(** The running XOR of the payload. *)
Definition nmea_checksum (payload : list Z) : Z := fold_left Z.lxor payload 0.

(** A byte that leaves the Start state alone. *)
Definition idle_byte (c : Z) : bool := (c <=? 0x7f) && negb (c =? chr "$").

Definition is_hex_digit (c : Z) : bool :=
  ((chr "0" <=? c) && (c <=? chr "9")) || ((chr "A" <=? c) && (c <=? chr "F"))
  || ((chr "a" <=? c) && (c <=? chr "f")).

(** The two characters after '*' spell the running XOR. *)
Definition nmea_checksum_ok (payload : list Z) (h1 h2 : Z) : bool :=
  (h1 =? nmea_hex (Z.shiftr (nmea_checksum payload) 4))
  && (h2 =? nmea_hex (Z.land (nmea_checksum payload) 0x0f)).

(** [$<payload>*<h1><h2>\r\n] *)
Definition nmea_frame (payload : list Z) (h1 h2 : Z) : list Z :=
  [chr "$"] ++ payload ++ [chr "*"; h1; h2; 13; 10].

(** The Fletcher-8 sums: [ck_a += b; ck_b += ck_a], both modulo 256. *)
Definition fletcher8_step (s : Z * Z) (c : Z) : Z * Z :=
  let a := u8 (fst s + c) in (a, u8 (snd s + a)).

Definition fletcher8 (data : list Z) : Z * Z :=
  fold_left fletcher8_step data (0, 0).

(** Class, id, little-endian length and payload: the checksummed range. *)
Definition ubx_body (class id : Z) (payload : list Z) : list Z :=
  let n := Z.of_nat (length payload) in
  [class; id; n mod 256; n / 256] ++ payload.

(** [B5 62 <class> <id> <len-lo> <len-hi> <payload…>], before the two
    checksum bytes. *)
Definition ubx_head (class id : Z) (payload : list Z) : list Z :=
  [0xb5; 0x62] ++ ubx_body class id payload.

Definition ubx_frame (class id : Z) (payload : list Z) (a b : Z) : list Z :=
  ubx_head class id payload ++ [a; b].

(** A stream of UBX frames, each given by its class, id, payload and
    two trailing bytes. *)
Definition ubx_stream (frames : list (Z * Z * list Z * Z * Z)) : list Z :=
  flat_map (fun f => let '(class, id, payload, a, b) := f in
                     ubx_frame class id payload a b) frames.

(** The class is a byte and the payload length fits its 16 bits. *)
Definition ubx_frame_ok (f : Z * Z * list Z * Z * Z) : Prop :=
  let '(class, id, payload, a, b) := f in
  is_byte class = true /\ Z.of_nat (length payload) < 65536.

(** The trailing bytes match the computed sums. *)
Definition ubx_checksum_ok (class id : Z) (payload : list Z) (a b : Z) : bool :=
  (a =? fst (fletcher8 (ubx_body class id payload)))
  && (b =? snd (fletcher8 (ubx_body class id payload))).

(** The 16-bit (class,id) key. *)
Definition ubx_key (class id : Z) : Z := Z.lor (Z.shiftl class 8) id.

(** The configuration side of the device record. *)
Definition config_of (d : gnss_device_t) :=
  (mode d, init d, busy d, expected d, table d, command d,
   location_callback d, satellites_callback d).

(** What the configuration driver emits. *)
Definition is_driver_event (e : event) : bool :=
  match e with
  | Send_routine _ _ | Rtc_timer_stop | Rtc_timer_start => true
  | _ => false
  end.

(** What the configuration driver leaves alone. *)
Definition staging_of (d : gnss_device_t) :=
  (mode d, state d, checksum d, rx_count d, rx_offset d, rx_chunk d,
   rx_data d, nmea d, ubx d, satellites d, location_callback d,
   satellites_callback d).

(** Everything but the framing state and the running Fletcher sums. *)
Definition payload_of (d : gnss_device_t) :=
  (config_of d, seen d, nmea d, location d, satellites d, rx_count d,
   rx_offset d, rx_chunk d, rx_data d, checksum d, message (ubx d),
   ubx_length (ubx d), week (ubx d), tow (ubx d), itow (ubx d)).

(** The staged bytes fit the hand-over to [ubx_end_message]. *)
Definition ubx_fits (d : gnss_device_t) : bool :=
  rx_count d - rx_offset d <=? GNSS_RX_DATA_SIZE.

(** The PRN ranges that [ubx_parse_message] stores: GPS 1..32, SBAS 33..64
    and 152..158, GLONASS 65..96 and 255, QZSS 193..200, BeiDou 201..237. *)
Definition ubx_prn_ok (p : Z) : bool :=
  ((1 <=? p) && (p <=? 32)) || ((33 <=? p) && (p <=? 64))
  || ((65 <=? p) && (p <=? 96)) || ((152 <=? p) && (p <=? 158))
  || ((193 <=? p) && (p <=? 200)) || ((201 <=? p) && (p <=? 237))
  || (p =? 255).

(** The PRN ranges of the specification: GPS 1..32, GLONASS 65..96 or 255,
    SBAS 120..158, QZSS 193..200, BeiDou 201..237. *)
Definition documented_prn (p : Z) : bool :=
  ((1 <=? p) && (p <=? 32)) || ((65 <=? p) && (p <=? 96)) || (p =? 255)
  || ((120 <=? p) && (p <=? 158)) || ((193 <=? p) && (p <=? 200))
  || ((201 <=? p) && (p <=? 237)).

(** The signal quality at offset 11 says the satellite is tracked. *)
Definition ubx_tracking (data : list Z) : bool :=
  (2 <=? Z.land (at_ data 11) 0x0f) && (Z.land (at_ data 11) 0x0f <=? 7).

(** The satellite table up to its count. *)
Definition listed (s : gnss_satellites_t) : list gnss_satellite_info_t :=
  take (Z.to_nat (count s)) (info s).


(** At most 32 satellites, each with a PRN that [ubx_parse_message]
    stores. *)
Definition ubx_table_ok (s : gnss_satellites_t) : Prop :=
  0 <= count s <= GNSS_SATELLITES_COUNT_MAX
  /\ Forall (fun e => ubx_prn_ok (prn e) = true) (listed s).

(** A published satellites snapshot lists at most 32 satellites. *)
Definition snapshot_capped (e : event) : bool :=
  match e with
  | Satellites_callback s => count s <=? GNSS_SATELLITES_COUNT_MAX
  | _ => true
  end.

(** Every event of the trace satisfies [Q]. *)
Definition trace_all (Q : event -> bool) (r : result) : Prop :=
  forallb Q (snd r) = true.

Definition is_location (e : event) : bool :=
  match e with
  | Location_callback _ => true
  | _ => false
  end.

(** No satellites callback before a location callback; [published] says
    that a location callback came before the trace. *)
Fixpoint sat_after_loc (published : bool) (t : list event) : bool :=
  match t with
  | [] => true
  | Location_callback _ :: t' => sat_after_loc true t'
  | Satellites_callback _ :: t' => published && sat_after_loc published t'
  | _ :: t' => sat_after_loc published t'
  end.

(** [d'] keeps the location callback of [d] and did not gain the SOLUTION
    bit. *)
Definition calm (d d' : gnss_device_t) : Prop :=
  location_callback d' = location_callback d
  /\ (solution d' = true -> solution d = true).

(** The interlock of a computation started at [d]: with the location
    callback installed, a satellites callback needs the SOLUTION bit or
    an earlier location callback, and the SOLUTION bit is gained through
    a location callback only. *)
Definition interlocked (d : gnss_device_t) (r : result) : Prop :=
  location_callback d = true ->
  location_callback (fst r) = true
  /\ forall b, (solution d = true -> b = true) ->
       sat_after_loc b (snd r) = true
       /\ (solution (fst r) = true ->
           b || existsb is_location (snd r) = true).

(** What a satellites callback receives is a table that
    [ubx_parse_message] filled. *)
Definition table_event (e : event) : Prop :=
  match e with
  | Satellites_callback s => ubx_table_ok s
  | _ => True
  end.

(** The table stays one that [ubx_parse_message] filled, and so is every
    published snapshot. *)
Definition keeps_table (r : result) : Prop :=
  ubx_table_ok (satellites (fst r)) /\ Forall table_event (snd r).

(** The bytes staged in the current field once [payload] has gone by,
    [n] of them being staged before it; [None] when a byte of the payload
    finds the 96 bytes of the staging buffer used up.  A comma starts the
    next field. *)
Fixpoint nmea_staged (n : Z) (payload : list Z) : option Z :=
  match payload with
  | [] => Some n
  | c :: rest =>
      if GNSS_RX_DATA_SIZE <=? n then None
      else nmea_staged (if c =? chr "," then 0 else n + 1) rest
  end.

Definition nmea_fits (payload : list Z) : bool :=
  match nmea_staged 0 payload with
  | Some _ => true
  | None => false
  end.

(** ** Worked inputs *)

(** The device after [gnss_initialize] in NMEA mode, both callbacks
    installed. *)
Definition nmea_receiver : gnss_device_t :=
  fst (gnss_initialize GNSS_MODE_NMEA 1 9600 true true gnss_device).

(** The device after [gnss_initialize] in u-blox mode. *)
Definition ublox_receiver : gnss_device_t :=
  fst (gnss_initialize GNSS_MODE_UBLOX 1 9600 true true gnss_device).

(** A u-blox device as [ubx_configure] leaves it at the end of the init
    table: the configuration is over, and NAV-DOP, NAV-PVT, NAV-SVINFO and
    NAV-TIMEGPS are expected. *)
Definition ublox_running : gnss_device_t :=
  set_expected
    (fold_right Z.lor 0
       [UBX_MESSAGE_MASK_NAV_DOP; UBX_MESSAGE_MASK_NAV_PVT;
        UBX_MESSAGE_MASK_NAV_SVINFO; UBX_MESSAGE_MASK_NAV_TIMEGPS])
    (set_table None (set_init GNSS_INIT_DONE ublox_receiver)).

(** The same device once a location has been published: the SOLUTION bit
    is set. *)
Definition ublox_solved : gnss_device_t :=
  set_seen UBX_MESSAGE_MASK_SOLUTION ublox_running.

(** A sentence with the checksum characters of its payload. *)
Definition nmea_sentence (payload : list Z) : list Z :=
  nmea_frame payload (nmea_hex (Z.shiftr (nmea_checksum payload) 4))
    (nmea_hex (Z.land (nmea_checksum payload) 0x0f)).

(** A frame with the Fletcher sums of its body. *)
Definition ubx_message (class id : Z) (payload : list Z) : list Z :=
  ubx_frame class id payload (fst (fletcher8 (ubx_body class id payload)))
    (snd (fletcher8 (ubx_body class id payload))).

(** The RMC sentence of the specification. *)
Definition rmc_example : list Z :=
  bytes "$GPRMC,123519,A,4807.038,N,01131.000,E,022.4,084.4,230394,003.1,W*6A"
  ++ [13; 10].

(** One cycle of a GPS receiver; the GSV sentence lists PRN 40. *)
Definition nmea_cycle : list Z :=
  nmea_sentence
    (bytes "GPGGA,123519,4807.038,N,01131.000,E,1,08,0.9,545.4,M,46.9,M,,")
  ++ nmea_sentence (bytes "GPGSA,A,3,04,05,,09,12,,,24,,,,,2.5,1.3,2.1")
  ++ nmea_sentence
       (bytes "GPRMC,123519,A,4807.038,N,01131.000,E,022.4,084.4,230394,003.1,W,A")
  ++ nmea_sentence (bytes "GPGSV,1,1,03,04,30,180,35,40,10,090,,05,20,270,41").

(** A 97-byte payload of two fields. *)
Definition long_payload : list Z :=
  bytes "GPTXT," ++ repeat (chr "A") 91.

(** A 97-byte NAV-DOP payload. *)
Definition oversize_payload : list Z := repeat 0 97.

(** One NAV-SVINFO record for the satellite id [svid], as staged: the
    8-byte header of the message, then channel, id, flags, quality, signal
    strength, elevation, azimuth and residual. *)
Definition svinfo_record (svid : Z) : list Z :=
  [0; 0; 0; 0; 1; 0; 0; 0] ++ [0; svid; 0x03; 0x04; 40; 30; 180; 0; 0; 0; 0; 0].

(** A snapshot lists a PRN outside the documented ranges. *)
Definition lists_undocumented_prn (e : event) : bool :=
  match e with
  | Satellites_callback s =>
      existsb (fun i => negb (documented_prn (prn i))) (listed s)
  | _ => false
  end.

(** The RMC sentence of the specification up to its speed field. *)
Definition rmc_before_speed : list Z :=
  bytes "$GPRMC,123519,A,4807.038,N,01131.000,E,".

(** The speeds handed to the location callback. *)
Definition published_speeds (t : list event) : list Z :=
  flat_map (fun e => match e with
                     | Location_callback l => [speed l]
                     | _ => []
                     end) t.

(** The GGA, GSA and RMC sentences of a cycle: the location is
    published, the satellites are not yet. *)
Definition nmea_fix_sentences : list Z :=
  nmea_sentence
    (bytes "GPGGA,123519,4807.038,N,01131.000,E,1,08,0.9,545.4,M,46.9,M,,")
  ++ nmea_sentence (bytes "GPGSA,A,3,04,05,,09,12,,,24,,,,,2.5,1.3,2.1")
  ++ nmea_sentence
       (bytes "GPRMC,123519,A,4807.038,N,01131.000,E,022.4,084.4,230394,003.1,W,A").



(** The device after [gnss_initialize] in NMEA mode with the satellites
    callback alone: no location callback is installed. *)
Definition nmea_receiver_satellites_only : gnss_device_t :=
  fst (gnss_initialize GNSS_MODE_NMEA 1 9600 false true gnss_device).

(** * Further vocabulary *)

(** The value of a string of decimal digits read after the value [a]. *)
Definition decimal_from (ds : list Z) (a : Z) : Z :=
  fold_left (fun a c => a * 10 + (c - chr "0")) ds a.

(** The value of a string of decimal digits. *)
Definition decimal (ds : list Z) : Z := decimal_from ds 0.

(** What the clean-up of [gnss_location] leaves in a location: a field
    whose mask bit is clear reads zero (9999 for a dilution of
    precision), without the TIME bit the time is the GPS epoch and the
    mask is empty, and a fix of type NONE has an empty mask. *)
Definition location_cleared (l : gnss_location_t) : bool :=
  let has := test_mask (mask l) in
  (has GNSS_LOCATION_MASK_TIME
   || ((year (time l) =? 0) && (month (time l) =? 1) && (day (time l) =? 6)
       && (hour (time l) =? 0) && (minute (time l) =? 0)
       && (second (time l) =? 0) && (millis (time l) =? 0)
       && (numsv l =? 0) && (mask l =? 0)))
  && (has GNSS_LOCATION_MASK_CORRECTION || (correction l =? 0))
  && (has GNSS_LOCATION_MASK_POSITION
      || ((latitude l =? 0) && (longitude l =? 0)))
  && (has GNSS_LOCATION_MASK_ALTITUDE
      || ((altitude l =? 0) && (separation l =? 0)))
  && (has GNSS_LOCATION_MASK_SPEED || (speed l =? 0))
  && (has GNSS_LOCATION_MASK_COURSE || (course l =? 0))
  && (has GNSS_LOCATION_MASK_CLIMB || (climb l =? 0))
  && (has GNSS_LOCATION_MASK_EHPE || (ehpe l =? 0))
  && (has GNSS_LOCATION_MASK_EVPE || (evpe l =? 0))
  && (has GNSS_LOCATION_MASK_PDOP || (pdop l =? 9999))
  && (has GNSS_LOCATION_MASK_HDOP || (hdop l =? 9999))
  && (has GNSS_LOCATION_MASK_VDOP || (vdop l =? 9999))
  && (negb (type l =? GNSS_LOCATION_TYPE_NONE) || (mask l =? 0)).

(** The location handed to the callback is a cleaned one. *)
Definition location_reported (e : event) : bool :=
  match e with
  | Location_callback l => location_cleared l
  | _ => true
  end.

(** The stages of the clean-up, in the order of [gnss_location_report]. *)
Definition clear_by_type (l : gnss_location_t) : gnss_location_t :=
  if type l =? GNSS_LOCATION_TYPE_NONE then
    set_quality GNSS_LOCATION_QUALITY_NONE (set_numsv 0 (set_mask 0 l))
  else if type l =? GNSS_LOCATION_TYPE_TIME then
    set_quality GNSS_LOCATION_QUALITY_NONE
      (set_mask (Z.land (mask l)
                   (Z.lor GNSS_LOCATION_MASK_TIME
                          GNSS_LOCATION_MASK_CORRECTION)) l)
  else if type l =? GNSS_LOCATION_TYPE_2D then
    set_mask (Z.land (mask l)
                (fold_right Z.lor 0
                   [GNSS_LOCATION_MASK_TIME; GNSS_LOCATION_MASK_CORRECTION;
                    GNSS_LOCATION_MASK_POSITION; GNSS_LOCATION_MASK_SPEED;
                    GNSS_LOCATION_MASK_COURSE; GNSS_LOCATION_MASK_EHPE;
                    GNSS_LOCATION_MASK_HDOP])) l
  else l.

Definition clear_time (l : gnss_location_t) : gnss_location_t :=
  if test_mask (mask l) GNSS_LOCATION_MASK_TIME then
    if negb (test_mask (mask l) GNSS_LOCATION_MASK_CORRECTION)
    then set_correction 0 l else l
  else
    set_numsv 0 (set_mask 0 (set_correction 0 (upd_time utc_time_epoch l))).

(** [if (!(location.mask & bit)) clear] *)
Definition clear_field (bit : Z) (clear : gnss_location_t -> gnss_location_t)
  (l : gnss_location_t) : gnss_location_t :=
  if negb (test_mask (mask l) bit) then clear l else l.

Definition report_stages (l : gnss_location_t) : gnss_location_t :=
  clear_field GNSS_LOCATION_MASK_VDOP (set_vdop 9999)
    (clear_field GNSS_LOCATION_MASK_HDOP (set_hdop 9999)
      (clear_field GNSS_LOCATION_MASK_PDOP (set_pdop 9999)
        (clear_field GNSS_LOCATION_MASK_EVPE (set_evpe 0)
          (clear_field GNSS_LOCATION_MASK_EHPE (set_ehpe 0)
            (clear_field GNSS_LOCATION_MASK_CLIMB (set_climb 0)
              (clear_field GNSS_LOCATION_MASK_COURSE (set_course 0)
                (clear_field GNSS_LOCATION_MASK_SPEED (set_speed 0)
                  (clear_field GNSS_LOCATION_MASK_ALTITUDE
                     (fun l => set_separation 0 (set_altitude 0 l))
                    (clear_field GNSS_LOCATION_MASK_POSITION
                       (fun l => set_longitude 0 (set_latitude 0 l))
                      (clear_time (clear_by_type l))))))))))).

(** A condition [Q] on the device a computation leaves and a condition
    [E] on every event of its trace. *)
Definition post (Q : gnss_device_t -> Prop) (E : event -> bool)
  (r : result) : Prop :=
  Q (fst r) /\ forallb E (snd r) = true.

Definition not_callback (e : event) : bool := negb (is_callback e).

(** The configuration is in progress, or it completed a moment ago:
    nothing has been seen and a message of [m] is expected. *)
Definition unready (m : Z) (d : gnss_device_t) : Prop :=
  init d <> GNSS_INIT_DONE
  \/ (seen d = 0 /\ Z.land (expected d) m <> 0).

(** No condition on the events. *)
Definition any_event (e : event) : bool := true.

(** A store into [rx_data] with an index from 0 to [hi]. *)
Definition store_within (hi : Z) (e : event) : bool :=
  match e with
  | Store_rx_data i => (0 <=? i) && (i <=? hi)
  | _ => true
  end.

(** The staging counters in the middle of a UBX payload: the window
    starts at or before the byte count, the payload is not complete,
    and a NAV-SVINFO frame is handed over when the count reaches the
    next multiple of its 12-byte records. *)
Definition ubx_staging (d : gnss_device_t) : Prop :=
  0 <= rx_offset d <= rx_count d
  /\ rx_count d < ubx_length (ubx d) <= 65535
  /\ if message (ubx d) =? 0x0130
     then rx_count d < rx_offset d + 20
          /\ rx_chunk d = u16 (rx_offset d + 20)
     else rx_offset d = 0.

(** The staging counters fit the framing state. *)
Definition rx_inv (d : gnss_device_t) : Prop :=
  match state d with
  | GNSS_STATE_NMEA_PAYLOAD => 0 <= rx_count d <= GNSS_RX_DATA_SIZE
  | GNSS_STATE_UBX_PAYLOAD => ubx_staging d
  | _ => True
  end.

(** A lowercase hexadecimal letter. *)
Definition is_lower_hex (c : Z) : bool := (chr "a" <=? c) && (c <=? chr "f").

(** The hand-over of a UBX message with the 16-bit (class,id) key
    [key]: what [ubx_end_message] is entered with. *)
Definition ubx_delivery (key : Z) (payload : list Z) (e : event) : Prop :=
  match e with
  | Ubx_end_message m data cnt =>
      m = key /\ cnt = Z.of_nat (length payload)
      /\ take (length payload) data = payload
  | _ => True
  end.

(** * The host interface of gnss_core.c

    The runtime controls ([gnss_set_external], [gnss_set_constellation],
    [gnss_set_sbas], [gnss_set_qzss], [gnss_set_periodic], [gnss_sleep],
    [gnss_wakeup]), the idle test [gnss_done] they start with, and the
    command tables they install.  A control returns its [bool] and what
    it did to the device. *)

(** ** Command tables of the runtime controls *)

Definition ubx_cfg_gnss_sbas_disable : list Z :=
  [0xb5; 0x62; 0x06; 0x3e; 0x0c; 0x00; 0x00; 0x00; 0xff; 0x01; 0x01; 0x01;
   0x03; 0x00; 0x00; 0x00; 0x00; 0x00; 0x55; 0xca].

Definition ubx_cfg_gnss_qzss_enable : list Z :=
  [0xb5; 0x62; 0x06; 0x3e; 0x0c; 0x00; 0x00; 0x00; 0xff; 0x01; 0x05; 0x00;
   0x03; 0x00; 0x01; 0x00; 0x01; 0x00; 0x5a; 0xe9].

Definition ubx_cfg_gnss_glonass_disable : list Z :=
  [0xb5; 0x62; 0x06; 0x3e; 0x0c; 0x00; 0x00; 0x00; 0xff; 0x01; 0x06; 0x08;
   0x0e; 0x00; 0x00; 0x00; 0x00; 0x00; 0x6c; 0x65].

Definition ubx_cfg_sbas_disable : list Z :=
  [0xb5; 0x62; 0x06; 0x16; 0x08; 0x00; 0x00; 0x00; 0x00; 0x00; 0x00; 0x00;
   0x00; 0x00; 0x24; 0x8a].

Definition ubx_cfg_rxm_powersave : list Z :=
  [0xb5; 0x62; 0x06; 0x11; 0x02; 0x00; 0x00; 0x01; 0x1a; 0x82].

Definition ubx_rxm_pmreq : list Z :=
  [0xb5; 0x62; 0x02; 0x41; 0x08; 0x00; 0x00; 0x00; 0x00; 0x00; 0x02; 0x00;
   0x00; 0x00; 0x4d; 0x3b].

Definition ubx_cfg_external_enable : list Z :=
  [0xb5; 0x62; 0x06; 0x13; 0x04; 0x00; 0x00; 0x00; 0xf0; 0xb9; 0xc6; 0x66].

Definition ubx_cfg_external_disable : list Z :=
  [0xb5; 0x62; 0x06; 0x13; 0x04; 0x00; 0x01; 0x00; 0xf0; 0xb9; 0xc7; 0x6a].

Definition mtk_constellation_gps_glonass_table : list (list Z) :=
  [bytes "$PMTK353,1,1*37" ++ [13; 10]].

Definition mtk_constellation_gps_table : list (list Z) :=
  [bytes "$PMTK353,1,0*36" ++ [13; 10]].

Definition mtk_sbas_enable_table : list (list Z) :=
  [bytes "$PMTK301,2*2E" ++ [13; 10];
   bytes "$PMTK313,1*2E" ++ [13; 10]].

Definition mtk_sbas_disable_table : list (list Z) :=
  [bytes "$PMTK301,0*2C" ++ [13; 10];
   bytes "$PMTK313,0*2F" ++ [13; 10]].

Definition mtk_qzss_enable_table : list (list Z) :=
  [bytes "$PMTK351,0*29" ++ [13; 10];
   bytes "$PMTK352,0*2A" ++ [13; 10]].

Definition mtk_qzss_disable_table : list (list Z) :=
  [bytes "$PMTK351,0*29" ++ [13; 10];
   bytes "$PMTK352,1*2B" ++ [13; 10]].

Definition ubx_external_enable_table : list (list Z) :=
  [ubx_cfg_rxm_continuous;
   ubx_cfg_pm2;
   ubx_cfg_external_enable;
   ubx_cfg_save].

Definition ubx_external_disable_table : list (list Z) :=
  [ubx_cfg_rxm_continuous;
   ubx_cfg_pm2;
   ubx_cfg_external_disable;
   ubx_cfg_save].

Definition ubx_constellation_gps_table : list (list Z) :=
  [ubx_cfg_rxm_continuous;
   ubx_cfg_pm2;
   ubx_cfg_gnss_glonass_disable;
   ubx_cfg_save].

Definition ubx_constellation_gps_glonass_table : list (list Z) :=
  [ubx_cfg_rxm_continuous;
   ubx_cfg_pm2;
   ubx_cfg_gnss_glonass_enable;
   ubx_cfg_save].

Definition ubx_sbas_enable_table : list (list Z) :=
  [ubx_cfg_rxm_continuous;
   ubx_cfg_pm2;
   ubx_cfg_gnss_sbas_enable;
   ubx_cfg_sbas_auto;
   ubx_cfg_save].

Definition ubx_sbas_disable_table : list (list Z) :=
  [ubx_cfg_rxm_continuous;
   ubx_cfg_pm2;
   ubx_cfg_gnss_sbas_disable;
   ubx_cfg_sbas_disable;
   ubx_cfg_save].

Definition ubx_qzss_enable_table : list (list Z) :=
  [ubx_cfg_rxm_continuous;
   ubx_cfg_pm2;
   ubx_cfg_gnss_qzss_enable;
   ubx_cfg_save].

Definition ubx_qzss_disable_table : list (list Z) :=
  [ubx_cfg_rxm_continuous;
   ubx_cfg_pm2;
   ubx_cfg_gnss_qzss_disable;
   ubx_cfg_save].

(** Modelled from the spec: the GLONASS bit of the constellation mask
    of gnss_api.h; the spec names the constellations, the bit is chosen
    here and no property below depends on the choice. *)
Definition GNSS_CONSTELLATION_GLONASS : Z := 0x02.

(** ** The send path *)

(** [gnss_send_callback]: the transport is done with the command. *)
Definition gnss_send_callback (d : gnss_device_t) : gnss_device_t :=
  set_busy 0 d.

(** [mtk_table] and [ubx_table] send [table[0]] and leave the table
    pointer behind it.  Every table passed to them has a first command;
    for an empty one [table[0]] would be the NULL terminator, which is
    not modelled. *)
Definition mtk_table (table' : list (list Z)) (d : gnss_device_t) : result :=
  match table' with
  | data :: rest => mtk_send data (set_table (Some rest) d)
  | [] => ret d
  end.

Definition ubx_table (table' : list (list Z)) (d : gnss_device_t) : result :=
  match table' with
  | data :: rest => ubx_send data (set_table (Some rest) d)
  | [] => ret d
  end.

(** [ubx_checksum]: [count] is the length field plus 8; the sums run
    over [data[2 .. count-3]] and are written behind them.  The caller's
    buffer holds [count] bytes; a store outside of it is not modelled. *)
Definition ubx_checksum (data : list Z) : list Z :=
  let count := Z.lor (at_ data 4) (Z.shiftl (at_ data 5) 8) + 8 in
  let '(ck_a, ck_b) :=
    fold_left
      (fun '(ck_a, ck_b) i =>
         let ck_a := u8 (ck_a + at_ data i) in (ck_a, u8 (ck_b + ck_a)))
      (seq 2 (Z.to_nat (count - 2) - 2)) (0, 0) in
  <[Z.to_nat (count - 1) := ck_b]> (<[Z.to_nat (count - 2) := ck_a]> data).

(** ** The runtime controls *)

(** [gnss_done]: no table is being worked off and no command is with
    the transport. *)
Definition gnss_done (d : gnss_device_t) : bool :=
  match table d with
  | Some _ => false
  | None => if negb (busy d =? 0) then false else true
  end.

Definition gnss_set_external (on : bool) (d : gnss_device_t) : bool * result :=
  if negb (gnss_done d) then (false, ret d)
  else
    (true,
     if mode d =? GNSS_MODE_UBLOX
     then ubx_table (if on then ubx_external_enable_table
                     else ubx_external_disable_table) d
     else ret d).

Definition gnss_set_constellation (mask' : Z) (d : gnss_device_t)
  : bool * result :=
  if negb (gnss_done d) then (false, ret d)
  else
    (true,
     if mode d =? GNSS_MODE_MEDIATEK
     then mtk_table (if test_mask mask' GNSS_CONSTELLATION_GLONASS
                     then mtk_constellation_gps_glonass_table
                     else mtk_constellation_gps_table) d
     else if mode d =? GNSS_MODE_UBLOX
     then ubx_table (if test_mask mask' GNSS_CONSTELLATION_GLONASS
                     then ubx_constellation_gps_glonass_table
                     else ubx_constellation_gps_table) d
     else ret d).

Definition gnss_set_sbas (on : bool) (d : gnss_device_t) : bool * result :=
  if negb (gnss_done d) then (false, ret d)
  else
    (true,
     if mode d =? GNSS_MODE_MEDIATEK
     then mtk_table (if on then mtk_sbas_enable_table
                     else mtk_sbas_disable_table) d
     else if mode d =? GNSS_MODE_UBLOX
     then ubx_table (if on then ubx_sbas_enable_table
                     else ubx_sbas_disable_table) d
     else ret d).

Definition gnss_set_qzss (on : bool) (d : gnss_device_t) : bool * result :=
  if negb (gnss_done d) then (false, ret d)
  else
    (true,
     if mode d =? GNSS_MODE_MEDIATEK
     then mtk_table (if on then mtk_qzss_enable_table
                     else mtk_qzss_disable_table) d
     else if mode d =? GNSS_MODE_UBLOX
     then ubx_table (if on then ubx_qzss_enable_table
                     else ubx_qzss_disable_table) d
     else ret d).

(** The CFG-PM2 frame that [gnss_set_periodic] builds in
    [device->tx_data].  The buffer is static storage, zero at start-up;
    the bytes that are not assigned here are never written, so they read
    zero in every call ([memset] clears [sizeof(GNSS_TX_DATA_SIZE)], four
    bytes, which are assigned again right away).  The 52 bytes of the
    frame are the ones modelled. *)
Definition ubx_cfg_pm2_periodic (onTime period : Z) (force : bool) : list Z :=
  let updatePeriod := if onTime =? 0 then 1000 else u32 (period * 1000) in
  let searchPeriod := if onTime =? 0 then 10000 else u32 (period * 1000) in
  let data := repeat 0 52 in
  let data := <[0%nat := 0xb5]> data in
  let data := <[1%nat := 0x62]> data in
  let data := <[2%nat := 0x06]> data in
  let data := <[3%nat := 0x3b]> data in
  let data := <[4%nat := 0x2c]> data in
  let data := <[5%nat := 0x00]> data in
  let data := <[6%nat := 0x01]> data in
  let data := <[10%nat := 0x00]> data in
  let data := <[11%nat := 0x01]> data in
  let data := <[12%nat :=
                 if negb (onTime =? 0) && (10000 <=? updatePeriod)
                 then (if force then 0x01 else 0x00) else 0x02]> data in
  let data := <[13%nat := 0x00]> data in
  let data := <[14%nat := u8 (Z.shiftr updatePeriod 0)]> data in
  let data := <[15%nat := u8 (Z.shiftr updatePeriod 8)]> data in
  let data := <[16%nat := u8 (Z.shiftr updatePeriod 16)]> data in
  let data := <[17%nat := u8 (Z.shiftr updatePeriod 24)]> data in
  let data := <[18%nat := u8 (Z.shiftr searchPeriod 0)]> data in
  let data := <[19%nat := u8 (Z.shiftr searchPeriod 8)]> data in
  let data := <[20%nat := u8 (Z.shiftr searchPeriod 16)]> data in
  let data := <[21%nat := u8 (Z.shiftr searchPeriod 24)]> data in
  let data := <[26%nat := u8 (Z.shiftr onTime 0)]> data in
  let data := <[27%nat := u8 (Z.shiftr onTime 8)]> data in
  ubx_checksum data.

(** [onTime] and [period] are [unsigned int]. *)
Definition gnss_set_periodic (onTime period : Z) (force : bool)
  (d : gnss_device_t) : bool * result :=
  if negb (gnss_done d) then (false, ret d)
  else
    (true,
     if mode d =? GNSS_MODE_UBLOX then
       let data := ubx_cfg_pm2_periodic onTime period force in
       (* table[0] = ubx_cfg_rxm_continuous; device->table = table + 1 *)
       let rest :=
         if negb (onTime =? 0)
         then [data; ubx_cfg_rxm_powersave; ubx_cfg_save]
         else [data; ubx_cfg_save] in
       ubx_send ubx_cfg_rxm_continuous (set_table (Some rest) d)
     else ret d).

Definition gnss_sleep (d : gnss_device_t) : bool * result :=
  if negb (gnss_done d) then (false, ret d)
  else
    (true,
     if mode d =? GNSS_MODE_UBLOX then ubx_send ubx_rxm_pmreq d else ret d).

Definition gnss_wakeup (d : gnss_device_t) : bool * result :=
  if negb (gnss_done d) then (false, ret d)
  else
    (true,
     if mode d =? GNSS_MODE_UBLOX
     then ubx_send ubx_cfg_rxm_continuous d else ret d).

(** The command that [ubx_send] records for [data]. *)
Definition ubx_command (data : list Z) : Z :=
  if list_Z_eqb data ubx_cfg_rxm_continuous then 0x0611
  else Z.lor (Z.shiftl (at_ data 2) 8) (at_ data 3).

(** The receiver's UBX-ACK-ACK or UBX-ACK-NACK for the command [data]:
    class 0x05, id 0x01 or 0x00, and the class and id of the command as
    the payload. *)
Definition ubx_reply (nack : bool) (data : list Z) : list Z :=
  ubx_message 0x05 (if nack then 0x00 else 0x01)
    [Z.shiftr (ubx_command data) 8; Z.land (ubx_command data) 0xff].

Definition ubx_replies (l : list (list Z * bool)) : list Z :=
  concat (map (fun p => ubx_reply (snd p) (fst p)) l).

(** The commands handed to the send routine, in order. *)
Fixpoint sent (t : list event) : list (list Z) :=
  match t with
  | [] => []
  | Send_routine data _ :: t' => data :: sent t'
  | _ :: t' => sent t'
  end.

(** A u-blox device between two frames, past the baud-rate step of its
    configuration, with its 96-byte staging buffer. *)
Definition ubx_driver_ready (d : gnss_device_t) : Prop :=
  state d = GNSS_STATE_START /\ mode d = GNSS_MODE_UBLOX
  /\ init d <> GNSS_INIT_UBX_BAUD_RATE
  /\ length (rx_data d) = Z.to_nat GNSS_RX_DATA_SIZE.

(** A running u-blox device with the command [cmd] in flight and the
    commands [t] left in its table. *)
Definition ublox_configuring (cmd : list Z) (t : list (list Z))
  : gnss_device_t :=
  set_busy 1 (set_command (ubx_command cmd) (set_table (Some t) ublox_running)).

(** A call of a runtime control. *)
Inductive control : Type :=
| Set_external (on : bool)
| Set_constellation (mask' : Z)
| Set_sbas (on : bool)
| Set_qzss (on : bool)
| Set_periodic (onTime period : Z) (force : bool)
| Sleep
| Wakeup.

Definition gnss_control (c : control) (d : gnss_device_t) : bool * result :=
  match c with
  | Set_external on => gnss_set_external on d
  | Set_constellation mask' => gnss_set_constellation mask' d
  | Set_sbas on => gnss_set_sbas on d
  | Set_qzss on => gnss_set_qzss on d
  | Set_periodic onTime period force => gnss_set_periodic onTime period force d
  | Sleep => gnss_sleep d
  | Wakeup => gnss_wakeup d
  end.

(** The commands that a control means for a u-blox receiver. *)
Definition ubx_control_commands (c : control) : list (list Z) :=
  match c with
  | Set_external on =>
      if on then ubx_external_enable_table else ubx_external_disable_table
  | Set_constellation mask' =>
      if test_mask mask' GNSS_CONSTELLATION_GLONASS
      then ubx_constellation_gps_glonass_table
      else ubx_constellation_gps_table
  | Set_sbas on => if on then ubx_sbas_enable_table else ubx_sbas_disable_table
  | Set_qzss on => if on then ubx_qzss_enable_table else ubx_qzss_disable_table
  | Set_periodic onTime period force =>
      if negb (onTime =? 0)
      then [ubx_cfg_rxm_continuous; ubx_cfg_pm2_periodic onTime period force;
            ubx_cfg_rxm_powersave; ubx_cfg_save]
      else [ubx_cfg_rxm_continuous; ubx_cfg_pm2_periodic onTime period force;
            ubx_cfg_save]
  | Sleep => [ubx_rxm_pmreq]
  | Wakeup => [ubx_cfg_rxm_continuous]
  end.

(** The controls that install a command table. *)
Definition table_control (c : control) : bool :=
  match c with
  | Sleep | Wakeup => false
  | _ => true
  end.

(** The [n] low bytes of [x], the lowest first. *)
Fixpoint le_bytes (n : nat) (x : Z) : list Z :=
  match n with
  | O => []
  | S n' => x mod 256 :: le_bytes n' (x / 256)
  end.

(** The payload of UBX-CFG-PM2 as [gnss_set_periodic] means it:
    version 1, the flags with the mode in their third byte, the update
    and the search period in milliseconds, no grid offset, the on-time
    in seconds, and nothing else. *)
Definition pm2_payload (onTime period : Z) (force : bool) : list Z :=
  let updatePeriod := if onTime =? 0 then 1000 else u32 (period * 1000) in
  let searchPeriod := if onTime =? 0 then 10000 else u32 (period * 1000) in
  [0x01; 0x00; 0x00; 0x00]
  ++ [0x00; 0x01;
      if negb (onTime =? 0) && (10000 <=? updatePeriod)
      then (if force then 0x01 else 0x00) else 0x02;
      0x00]
  ++ le_bytes 4 updatePeriod
  ++ le_bytes 4 searchPeriod
  ++ [0x00; 0x00; 0x00; 0x00]
  ++ le_bytes 2 onTime
  ++ repeat 0x00 22.

(** The init table that [gnss_initialize] installs for a u-blox
    receiver. *)
Definition ubx_init_table (rate : Z) : list (list Z) :=
  if 10 <=? rate then ubx_init_table_10hz
  else if 5 <=? rate then ubx_init_table_5hz
  else ubx_init_table_1hz.

(** The device with the staging buffer, the byte count and the running
    checksum of the NMEA payload state replaced. *)
Definition nmea_staging (data : list Z) (count' sum : Z) (d : gnss_device_t)
  : gnss_device_t :=
  set_rx_count count' (set_checksum sum (set_rx_data data d)).

(** The staging buffer with [field] written at its start and closed by
    a NUL. *)
Definition nmea_field_image (field l : list Z) : list Z :=
  field ++ 0 :: drop (S (length field)) l.

(** The command number that [mtk_send] records for [data]: the three
    digits behind "$PMTK". *)
Definition mtk_command_of (data : list Z) : Z :=
  u32 (((at_ data 5 - chr "0") * 10 + (at_ data 6 - chr "0")) * 10
       + (at_ data 7 - chr "0")).

Definition mtk_command_digits (data : list Z) : list Z :=
  [at_ data 5; at_ data 6; at_ data 7].

(** The receiver's acknowledge of the command [data]:
    $PMTK001,<command>,<flag>, the flag being one digit (3 is success). *)
Definition mtk_reply (flag : Z) (data : list Z) : list Z :=
  nmea_sentence
    (bytes "PMTK001," ++ mtk_command_digits data
     ++ [chr ","; chr "0" + flag]).

Definition mtk_replies (l : list (list Z * Z)) : list Z :=
  concat (map (fun p => mtk_reply (snd p) (fst p)) l).

(** A device between two frames, past the baud-rate step of its
    configuration, with its 96-byte staging buffer. *)
Definition mtk_driver_ready (d : gnss_device_t) : Prop :=
  state d = GNSS_STATE_START
  /\ init d <> GNSS_INIT_MTK_BAUD_RATE /\ init d <> GNSS_INIT_UBX_BAUD_RATE
  /\ length (rx_data d) = Z.to_nat GNSS_RX_DATA_SIZE.

(** A command that [mtk_send] can number: "$PMTK" and three digits. *)
Definition mtk_command_ok (data : list Z) : Prop :=
  forallb is_digit (mtk_command_digits data) = true.

(** The commands that a control means for a MediaTek receiver. *)
Definition mtk_control_commands (c : control) : list (list Z) :=
  match c with
  | Set_constellation mask' =>
      if test_mask mask' GNSS_CONSTELLATION_GLONASS
      then mtk_constellation_gps_glonass_table
      else mtk_constellation_gps_table
  | Set_sbas on => if on then mtk_sbas_enable_table else mtk_sbas_disable_table
  | Set_qzss on => if on then mtk_qzss_enable_table else mtk_qzss_disable_table
  | _ => []
  end.

(** A MediaTek device as [gnss_initialize] and the end of the init
    table leave it: the configuration is over, and GGA, GSA, GSV and RMC
    are expected. *)
Definition mtk_running : gnss_device_t :=
  set_expected
    (fold_right Z.lor 0
       [NMEA_SENTENCE_MASK_GPGGA; NMEA_SENTENCE_MASK_GPGSA;
        NMEA_SENTENCE_MASK_GPGSV; NMEA_SENTENCE_MASK_GPRMC])
    (set_table None
       (set_init GNSS_INIT_DONE
          (fst (gnss_initialize GNSS_MODE_MEDIATEK 1 9600 true true
                  gnss_device)))).


(** Neither the send routine nor the timer. *)
Definition not_driver_event (e : event) : bool := negb (is_driver_event e).

(** What the configuration driver owns. *)
Definition driver_of (d : gnss_device_t) :=
  (init d, command d, table d, busy d).

(** [nmea.mtk_command] is a [uint16_t]. *)
Definition mtk_ok (d : gnss_device_t) : Prop :=
  0 <= mtk_command (nmea d) < 65536.

(** The configuration is over and no command is in flight:
    [device->command] is ~0. *)
Definition driver_idle (d : gnss_device_t) : Prop :=
  init d = GNSS_INIT_DONE /\ command d = 0xffffffff /\ mtk_ok d.

(** The device keeps the driver's fields [K] and a 16-bit
    [mtk_command]. *)
Definition idle_at (K : Z * Z * option (list (list Z)) * Z)
  (d : gnss_device_t) : Prop :=
  driver_of d = K /\ mtk_ok d.

(** The driver's fields of an idle device with the table pointer [T]
    and the busy flag [B]. *)
Definition idle_key (T : option (list (list Z))) (B : Z) :=
  (GNSS_INIT_DONE, 0xffffffff, T, B).

(** The GPS time that NAV-TIMEGPS and the NAV messages leave in the
    UBX context. *)
Definition ubx_times (d : gnss_device_t) := (week (ubx d), tow (ubx d), itow (ubx d)).

(** The callbacks of a trace, in order. *)
Fixpoint callbacks (t : list event) : list event :=
  match t with
  | [] => []
  | e :: t' => if is_callback e then e :: callbacks t' else callbacks t'
  end.

(** What [ubx_configure] leaves in [device->expected] at the end of the
    init table. *)
Definition UBX_EXPECTED : Z :=
  fold_right Z.lor 0
    [UBX_MESSAGE_MASK_NAV_DOP; UBX_MESSAGE_MASK_NAV_PVT;
     UBX_MESSAGE_MASK_NAV_SVINFO; UBX_MESSAGE_MASK_NAV_TIMEGPS].

(** The fields of a location that a 3D fix reports. *)
Definition GNSS_LOCATION_MASK_ALL : Z :=
  fold_right Z.lor 0
    [GNSS_LOCATION_MASK_TIME; GNSS_LOCATION_MASK_CORRECTION;
     GNSS_LOCATION_MASK_POSITION; GNSS_LOCATION_MASK_ALTITUDE;
     GNSS_LOCATION_MASK_SPEED; GNSS_LOCATION_MASK_COURSE;
     GNSS_LOCATION_MASK_CLIMB; GNSS_LOCATION_MASK_EHPE;
     GNSS_LOCATION_MASK_EVPE; GNSS_LOCATION_MASK_PDOP;
     GNSS_LOCATION_MASK_HDOP; GNSS_LOCATION_MASK_VDOP].

(** The device is configured, in u-blox mode and between two frames. *)
Definition ubx_navigating (d : gnss_device_t) : Prop :=
  state d = GNSS_STATE_START /\ mode d = GNSS_MODE_UBLOX
  /\ init d = GNSS_INIT_DONE /\ expected d = UBX_EXPECTED
  /\ length (rx_data d) = Z.to_nat GNSS_RX_DATA_SIZE.

(** A NAV-DOP, a NAV-PVT and a NAV-TIMEGPS payload of one epoch
    (iTOW 0x04030201): pDOP 1.50, vDOP 1.20, hDOP 0.90; 2020-06-15
    12:30:45 with a 3D fix at latitude 0x1c9c3800 (48.0 degrees) and
    longitude 0x06de8a80; week 2110 with 18 leap seconds. *)
Definition nav_dop_example : list Z :=
  [0x01; 0x02; 0x03; 0x04; 0xc8; 0x00; 0x96; 0x00; 0x64; 0x00; 0x78; 0x00;
   0x5a; 0x00; 0x50; 0x00; 0x46; 0x00].

Definition nav_pvt_example : list Z :=
  [0x01; 0x02; 0x03; 0x04; 0xe4; 0x07; 0x06; 0x0f; 0x0c; 0x1e; 0x2d; 0x07]
  ++ [0x10; 0x00; 0x00; 0x00; 0x00; 0x00; 0x00; 0x00; 0x03; 0x01; 0x00; 0x0a]
  ++ [0x80; 0x8a; 0xde; 0x06; 0x00; 0x38; 0x9c; 0x1c]
  ++ [0x40; 0x0d; 0x03; 0x00; 0x10; 0x27; 0x00; 0x00]
  ++ repeat 0x11 52.

Definition nav_timegps_example : list Z :=
  [0x01; 0x02; 0x03; 0x04; 0x00; 0x00; 0x00; 0x00; 0x3e; 0x08; 0x12; 0x03;
   0x0a; 0x00; 0x00; 0x00].

(** The position of every location handed to the callback. *)
Definition published_positions (t : list event) : list (Z * Z) :=
  flat_map (fun e => match e with
                     | Location_callback l => [(latitude l, longitude l)]
                     | _ => []
                     end) t.

(** A location report that counts no satellite. *)
Definition no_numsv (e : event) : bool :=
  match e with
  | Location_callback l => numsv l =? 0
  | _ => true
  end.

(** The mode and the state of the receiver. *)
Definition rx_of (d : gnss_device_t) : Z * Z := (mode d, state d).

(** The receiver is in the mode and state [K] and the GSA count of the
    NMEA context, [sv_used_count], is 0. *)
Definition nmea_uncounted (K : Z * Z) (d : gnss_device_t) : Prop :=
  rx_of d = K /\ sv_used_count (nmea d) = 0.

(** An NMEA or MediaTek receiver between or inside sentences, before
    any GSA sentence was counted. *)
Definition nmea_receiving (d : gnss_device_t) : Prop :=
  mode d <> GNSS_MODE_UBLOX
  /\ 0 <= state d <= GNSS_STATE_NMEA_END_LF
  /\ sv_used_count (nmea d) = 0.

(** The satellite counts handed to the location callback. *)
Definition published_numsv (t : list event) : list Z :=
  flat_map (fun e => match e with
                     | Location_callback l => [numsv l]
                     | _ => []
                     end) t.

(** The minutes that [nmea_parse_fixed] reads, with scale 7, from the
    integer digits [ints] and the fraction digits [frac]: the integer
    part times 10^7 plus the first seven fraction digits, missing ones
    counting as zeros, on 32 bits. *)
Definition minutes_of (ints frac : list Z) : Z :=
  (decimal ints * 10 ^ 7
   + decimal (take 7 frac) * 10 ^ (7 - Z.of_nat (length (take 7 frac))))
  mod 4294967296.

(** A latitude field as the parser takes it apart: two degree digits,
    then the minutes as a run of digits, or as digits, a point and
    digits, up to the terminator. *)
Definition latitude_field (data : list Z) (d1 d2 : Z) (ints frac : list Z)
  : Prop :=
  is_digit d1 = true /\ is_digit d2 = true
  /\ forallb is_digit ints = true /\ forallb is_digit frac = true
  /\ exists rest,
       at_ rest 0 = 0
       /\ ((ints <> [] /\ frac = [] /\ data = d1 :: d2 :: ints ++ rest)
           \/ data = d1 :: d2 :: ints ++ chr "." :: frac ++ rest).

(** Nine GSV sentences that list the satellites 1 to 33. *)
Definition gsv_33_satellites : list Z :=
  concat (map (fun s => nmea_sentence (bytes s))
    ["GPGSV,9,1,33,01,11,010,21,02,12,020,22,03,13,030,23,04,14,040,24";
     "GPGSV,9,2,33,05,15,050,25,06,16,060,26,07,17,070,27,08,18,080,28";
     "GPGSV,9,3,33,09,19,090,29,10,20,100,30,11,21,110,31,12,22,120,32";
     "GPGSV,9,4,33,13,23,130,33,14,24,140,34,15,25,150,35,16,26,160,36";
     "GPGSV,9,5,33,17,27,170,37,18,28,180,38,19,29,190,39,20,30,200,20";
     "GPGSV,9,6,33,21,31,210,21,22,32,220,22,23,33,230,23,24,34,240,24";
     "GPGSV,9,7,33,25,35,250,25,26,36,260,26,27,37,270,27,28,38,280,28";
     "GPGSV,9,8,33,29,39,290,29,30,40,300,30,31,41,310,31,32,42,320,32";
     "GPGSV,9,9,33,33,43,330,33"]).
(** ** Traces and runs *)

(** Reduction of projections over the record updates, leaving the
    arithmetic alone. *)
Ltac record_cbn :=
  cbn [
    year set_year month set_month day set_day hour set_hour minute
    set_minute second set_second millis set_millis time set_time type
    set_type mask set_mask quality set_quality numsv set_numsv correction
    set_correction latitude set_latitude longitude set_longitude altitude
    set_altitude separation set_separation speed set_speed course
    set_course climb set_climb ehpe set_ehpe evpe set_evpe pdop set_pdop
    hdop set_hdop vdop set_vdop prn set_prn sat_state set_sat_state snr
    set_snr elevation set_elevation azimuth set_azimuth count set_count
    info set_info prefix set_prefix sequence set_sequence nmea_mask
    set_nmea_mask navigation set_navigation status set_status
    sv_in_view_sentences set_sv_in_view_sentences sv_in_view_count
    set_sv_in_view_count sv_in_view_index set_sv_in_view_index
    sv_used_count set_sv_used_count sv_used_mask set_sv_used_mask
    mtk_command set_mtk_command mtk_status set_mtk_status ck_a set_ck_a
    ck_b set_ck_b message set_message ubx_length set_ubx_length week
    set_week tow set_tow itow set_itow mode set_mode state set_state busy
    set_busy init set_init seen set_seen expected set_expected checksum
    set_checksum rx_count set_rx_count rx_offset set_rx_offset rx_chunk
    set_rx_chunk table set_table rx_data set_rx_data nmea set_nmea ubx
    set_ubx location set_location satellites set_satellites command
    set_command location_callback set_location_callback satellites_callback
    set_satellites_callback upd_nmea upd_ubx upd_location upd_satellites
    upd_time seen_or seen_clear location_mask_or nmea_mask_clear
    sv_used_reset fst snd].

(** [b] holds no test of its own. *)
Ltac plain_test b :=
  lazymatch b with
  | context [if _ then _ else _] => fail
  | context [match _ with Some _ => _ | None => _ end] => fail
  | _ => idtac
  end.

(** Case analysis on a test of the goal that contains no other test. *)
Ltac split_if :=
  match goal with
  | |- context [if ?b then _ else _] => plain_test b; destruct b eqn:?
  | |- context [match ?b with Some _ => _ | None => _ end] =>
      plain_test b; destruct b eqn:?
  end.

Ltac record_cbn_in H :=
  cbn [
    year set_year month set_month day set_day hour set_hour minute
    set_minute second set_second millis set_millis time set_time type
    set_type mask set_mask quality set_quality numsv set_numsv correction
    set_correction latitude set_latitude longitude set_longitude altitude
    set_altitude separation set_separation speed set_speed course
    set_course climb set_climb ehpe set_ehpe evpe set_evpe pdop set_pdop
    hdop set_hdop vdop set_vdop prn set_prn sat_state set_sat_state snr
    set_snr elevation set_elevation azimuth set_azimuth count set_count
    info set_info prefix set_prefix sequence set_sequence nmea_mask
    set_nmea_mask navigation set_navigation status set_status
    sv_in_view_sentences set_sv_in_view_sentences sv_in_view_count
    set_sv_in_view_count sv_in_view_index set_sv_in_view_index
    sv_used_count set_sv_used_count sv_used_mask set_sv_used_mask
    mtk_command set_mtk_command mtk_status set_mtk_status ck_a set_ck_a
    ck_b set_ck_b message set_message ubx_length set_ubx_length week
    set_week tow set_tow itow set_itow mode set_mode state set_state busy
    set_busy init set_init seen set_seen expected set_expected checksum
    set_checksum rx_count set_rx_count rx_offset set_rx_offset rx_chunk
    set_rx_chunk table set_table rx_data set_rx_data nmea set_nmea ubx
    set_ubx location set_location satellites set_satellites command
    set_command location_callback set_location_callback satellites_callback
    set_satellites_callback upd_nmea upd_ubx upd_location upd_satellites
    upd_time seen_or seen_clear location_mask_or nmea_mask_clear
    sv_used_reset fst snd] in H.

Lemma only_stores_app t1 t2 :
  only_stores (t1 ++ t2) = only_stores t1 && only_stores t2.
Proof. apply forallb_app. Qed.

Lemma only_stores_no_callback t : only_stores t = true -> no_callback t = true.
Proof.
  unfold only_stores, no_callback. rewrite !forallb_forall.
  intros H e He. specialize (H e He). destruct e; simpl in *; congruence.
Qed.

Lemma only_stores_In t e : only_stores t = true -> In e t -> is_store e = true.
Proof. unfold only_stores. rewrite forallb_forall. auto. Qed.

Lemma bind_ret_l d k : ret d >>= k = k d.
Proof. unfold bind, ret. destruct (k d). reflexivity. Qed.

Lemma bind_ret_r r : r >>= (fun d => ret d) = r.
Proof. destruct r as [d t]. unfold bind, ret. now rewrite app_nil_r. Qed.

Lemma bind_fst r k : fst (r >>= k) = fst (k (fst r)).
Proof. destruct r as [d t]. unfold bind. simpl. destruct (k d). reflexivity. Qed.

Lemma bind_snd r k : snd (r >>= k) = snd r ++ snd (k (fst r)).
Proof. destruct r as [d t]. unfold bind. simpl. destruct (k d). reflexivity. Qed.

Lemma bind_assoc r f g : r >>= f >>= g = r >>= fun d => f d >>= g.
Proof.
  unfold bind. destruct r as [d t]. destruct (f d) as [d1 t1].
  destruct (g d1) as [d2 t2]. rewrite app_assoc. reflexivity.
Qed.

(** The marking loop changes the satellite table and records its
    accesses behind it. *)
Lemma nmea_mark_navigating_bind d k :
  nmea_mark_navigating d >>= k
  = (fst (k (upd_satellites (mark_navigating (nmea d)) d)),
     map Info_overrun (overrun_indices (count (satellites d)))
     ++ snd (k (upd_satellites (mark_navigating (nmea d)) d))).
Proof.
  unfold nmea_mark_navigating, bind. destruct (k _). reflexivity.
Qed.

Lemma overrun_no_callback l : no_callback (map Info_overrun l) = true.
Proof. induction l as [|n l IH]; [reflexivity | exact IH]. Qed.

Lemma gnss_receive_app d a b :
  gnss_receive d (a ++ b) = gnss_receive d a >>= fun d => gnss_receive d b.
Proof.
  revert d. induction a as [|c a IH]; intros d.
  - simpl. unfold bind, ret. now destruct (gnss_receive d b).
  - simpl. destruct (gnss_receive_byte d c) as [d1 t1]. unfold bind.
    rewrite IH. unfold bind.
    destruct (gnss_receive d1 a) as [d2 t2].
    destruct (gnss_receive d2 b) as [d3 t3].
    now rewrite app_assoc.
Qed.

Lemma gnss_receive_cons d c rest :
  gnss_receive d (c :: rest) =
  gnss_receive_byte d c >>= fun d => gnss_receive d rest.
Proof. reflexivity. Qed.

(** ** What the pure processors leave alone *)

Lemma quiet_refl d : quiet d d.
Proof. split; auto. Qed.

Lemma quiet_trans d1 d2 d3 : quiet d1 d2 -> quiet d2 d3 -> quiet d1 d3.
Proof. intros [H1 H2] [H3 H4]. split; [congruence | auto]. Qed.

Lemma test_mask_clear x m k :
  test_mask (clear_mask k x) m = true -> test_mask x m = true.
Proof.
  unfold test_mask, clear_mask. intros H.
  destruct (Z.eqb_spec (Z.land x m) 0) as [E|E]; [|reflexivity].
  rewrite <- Z.land_assoc, (Z.land_comm (Z.lnot k)), Z.land_assoc, E in H.
  rewrite Z.land_0_l in H. discriminate.
Qed.

Lemma test_mask_lor_other x k m :
  Z.land k m = 0 -> test_mask (Z.lor x k) m = test_mask x m.
Proof.
  intros H. unfold test_mask.
  now rewrite Z.land_lor_distr_l, H, Z.lor_0_r.
Qed.

Lemma quiet_upd_nmea f d : quiet d (upd_nmea f d).
Proof. split; auto. Qed.

Lemma quiet_upd_location f d : quiet d (upd_location f d).
Proof. split; auto. Qed.

Lemma quiet_upd_satellites f d : quiet d (upd_satellites f d).
Proof. split; auto. Qed.

Lemma quiet_seen_clear m d : quiet d (seen_clear m d).
Proof.
  split; [reflexivity|]. unfold solution, seen_clear; simpl.
  apply test_mask_clear.
Qed.

Lemma quiet_seen_zero d : quiet d (set_seen 0 d).
Proof. split; [reflexivity|]. unfold solution; simpl. discriminate. Qed.

Lemma quiet_upd_info n f d : quiet d (upd_info n f d).
Proof.
  unfold upd_info.
  destruct (_ !! _); [apply quiet_upd_satellites | apply quiet_refl].
Qed.

Ltac quiet_step :=
  match goal with
  | |- quiet ?d ?d => apply quiet_refl
  | |- quiet _ (fst (_, _)) => simpl fst
  | |- quiet _ (upd_nmea _ ?d) =>
      apply (quiet_trans _ d); [|apply quiet_upd_nmea]
  | |- quiet _ (upd_location _ ?d) =>
      apply (quiet_trans _ d); [|apply quiet_upd_location]
  | |- quiet _ (upd_satellites _ ?d) =>
      apply (quiet_trans _ d); [|apply quiet_upd_satellites]
  | |- quiet _ (upd_info _ _ ?d) =>
      apply (quiet_trans _ d); [|apply quiet_upd_info]
  | |- quiet _ (seen_clear _ ?d) =>
      apply (quiet_trans _ d); [|apply quiet_seen_clear]
  | |- quiet _ (set_seen 0 ?d) =>
      apply (quiet_trans _ d); [|apply quiet_seen_zero]
  | |- quiet _ (nmea_mask_clear _ ?d) =>
      apply (quiet_trans _ d); [|apply quiet_upd_nmea]
  | |- quiet _ (sv_used_reset ?d) =>
      apply (quiet_trans _ d); [|apply quiet_upd_nmea]
  | |- context [match ?x with _ => _ end] => destruct x
  end.

Lemma quiet_nmea_parse_start d data : quiet d (fst (nmea_parse_start d data)).
Proof. unfold nmea_parse_start. cbv zeta. repeat quiet_step. Qed.

Lemma quiet_nmea_parse_field_time d data next :
  quiet d (fst (nmea_parse_field_time d data next)).
Proof. unfold nmea_parse_field_time. repeat quiet_step. Qed.

Lemma quiet_nmea_parse_gsv_head d data s :
  quiet d (fst (nmea_parse_gsv_head d data s)).
Proof. unfold nmea_parse_gsv_head, gsv_abort. cbv zeta. repeat quiet_step. Qed.

Lemma quiet_nmea_parse_gsv_sv d data s :
  quiet d (fst (nmea_parse_gsv_sv d data s)).
Proof. unfold nmea_parse_gsv_sv, gsv_abort. cbv zeta. repeat quiet_step. Qed.

Lemma quiet_nmea_parse_optional d data clear parse store n1 n2 :
  (forall v d, quiet d (store v d)) ->
  quiet d (fst (nmea_parse_optional d data clear parse store n1 n2)).
Proof. intros H. unfold nmea_parse_optional. repeat quiet_step. apply H. Qed.

(** A field of a sentence never touches the framing state, and never
    sets the SOLUTION bit. *)
Lemma quiet_nmea_parse_sentence d data : quiet d (nmea_parse_sentence d data).
Proof.
  unfold nmea_parse_sentence. cbv zeta.
  match goal with
  | |- quiet _ (let '(d0, n) := ?m in _) =>
      assert (H : quiet d (fst m));
      [| destruct m; exact (quiet_trans _ _ _ H (quiet_upd_nmea _ _))]
  end.
  repeat first
    [ apply quiet_refl
    | apply quiet_nmea_parse_start
    | apply quiet_nmea_parse_field_time
    | apply quiet_nmea_parse_gsv_head
    | apply quiet_nmea_parse_gsv_sv
    | apply quiet_nmea_parse_optional; intros; repeat quiet_step
    | quiet_step ].
Qed.

Lemma quiet_nmea_start_sentence d : quiet d (nmea_start_sentence d).
Proof. unfold nmea_start_sentence. cbv zeta. repeat quiet_step. Qed.

(** ** NMEA framing *)

Ltac eval_chr :=
  repeat match goal with
  | |- context [chr ?s] =>
      let v := eval vm_compute in (chr s) in change (chr s) with v
  | H : context [chr ?s] |- _ =>
      let v := eval vm_compute in (chr s) in change (chr s) with v in H
  end.

Ltac step_at H :=
  unfold gnss_receive_byte; rewrite H;
  repeat match goal with
  | Hc : (_ =? _) = _ |- _ => rewrite Hc
  end;
  cbn [Z.leb Z.compare Pos.compare Pos.compare_cont andb negb orb].

Lemma quiet_fields d d' :
  quiet d d' ->
  state d' = state d /\ checksum d' = checksum d /\ rx_count d' = rx_count d
  /\ rx_data d' = rx_data d /\ mode d' = mode d /\ init d' = init d.
Proof.
  intros [H _]. unfold frame_of in H. injection H. intros. repeat split; assumption.
Qed.

Lemma step_start d c :
  state d = 0 -> (c =? chr "$") = false ->
  gnss_receive_byte d c =
  if (mode d =? GNSS_MODE_UBLOX) && (c =? 0xb5)
  then ret (set_state GNSS_STATE_UBX_SYNC_2 d) else ret d.
Proof. intros H Hc. step_at H. reflexivity. Qed.

Lemma start_idle payload d :
  state d = 0 -> forallb idle_byte payload = true ->
  gnss_receive d payload = (d, []).
Proof.
  intros Hs. induction payload as [|c rest IH]; intros Hp; [reflexivity|].
  simpl in Hp. apply andb_true_iff in Hp as [Hc Hrest].
  unfold idle_byte in Hc. apply andb_true_iff in Hc as [Hle Hne].
  apply negb_true_iff in Hne.
  rewrite gnss_receive_cons, step_start by assumption.
  replace (c =? 0xb5) with false by (symmetry; apply Z.eqb_neq; apply Z.leb_le in Hle; lia).
  rewrite andb_false_r, bind_ret_l. auto.
Qed.

Lemma step_dollar d :
  (state d <=? 5) = true ->
  gnss_receive_byte d (chr "$") =
  ret (nmea_start_sentence
         (set_rx_count 0 (set_checksum 0 (set_state GNSS_STATE_NMEA_PAYLOAD d)))).
Proof. intros H. unfold gnss_receive_byte. rewrite H. reflexivity. Qed.

Lemma step_payload_star d :
  state d = 1 ->
  gnss_receive_byte d (chr "*") =
  rx_store (rx_count d) 0 d >>= fun d =>
  ret (set_state GNSS_STATE_NMEA_CHECKSUM_1 (nmea_parse_sentence d (rx_data d))).
Proof. intros H. step_at H. reflexivity. Qed.

Lemma step_payload_char d c :
  state d = 1 -> nmea_payload_byte c = true ->
  gnss_receive_byte d c =
  if GNSS_RX_DATA_SIZE <=? rx_count d then ret (set_state GNSS_STATE_START d)
  else
    let d := set_checksum (Z.lxor (checksum d) c) d in
    if c =? chr "," then
      rx_store (rx_count d) 0 d >>= fun d =>
      ret (set_rx_count 0 (nmea_parse_sentence d (rx_data d)))
    else
      rx_store (rx_count d) c d >>= fun d =>
      ret (set_rx_count (u16 (rx_count d + 1)) d).
Proof.
  intros H Hc. unfold nmea_payload_byte in Hc.
  repeat (apply andb_true_iff in Hc as [Hc ?]).
  repeat match goal with H : negb _ = true |- _ => apply negb_true_iff in H end.
  step_at H. rewrite Hc. match goal with H : (c <=? _) = true |- _ => rewrite H end.
  reflexivity.
Qed.

Lemma step_checksum_1 d c :
  state d = 2 -> (c =? chr "$") = false ->
  gnss_receive_byte d c =
  if c =? nmea_hex (Z.shiftr (checksum d) 4)
  then ret (set_state GNSS_STATE_NMEA_CHECKSUM_2 d)
  else ret (set_state GNSS_STATE_START d).
Proof. intros H Hc. step_at H. reflexivity. Qed.

Lemma step_checksum_2 d c :
  state d = 3 -> (c =? chr "$") = false ->
  gnss_receive_byte d c =
  if c =? nmea_hex (Z.land (checksum d) 0x0f)
  then ret (set_state GNSS_STATE_NMEA_END_CR d)
  else ret (set_state GNSS_STATE_START d).
Proof. intros H Hc. step_at H. reflexivity. Qed.

Lemma step_end_cr d :
  state d = 4 ->
  gnss_receive_byte d 13 = ret (set_state GNSS_STATE_NMEA_END_LF d).
Proof. intros H. step_at H. reflexivity. Qed.

Lemma step_end_lf d :
  state d = 5 ->
  gnss_receive_byte d 10 =
  nmea_init_response d >>= nmea_end_sentence >>= fun d =>
  ret (set_state GNSS_STATE_START d).
Proof. intros H. step_at H. reflexivity. Qed.



Lemma rx_store_fields i v d :
  let d' := fst (rx_store i v d) in
  state d' = state d /\ checksum d' = checksum d /\ rx_count d' = rx_count d
  /\ mode d' = mode d /\ init d' = init d /\ seen d' = seen d.
Proof. unfold rx_store, emit. simpl. destruct (_ && _); simpl; auto 10. Qed.

Lemma payload_idle payload :
  forallb nmea_payload_byte payload = true -> forallb idle_byte payload = true.
Proof.
  rewrite !forallb_forall. intros H c Hc. specialize (H c Hc).
  unfold nmea_payload_byte in H. unfold idle_byte.
  repeat (apply andb_true_iff in H as [H ?]). now apply andb_true_iff.
Qed.


Lemma hex_digit_idle c : is_hex_digit c = true -> idle_byte c = true.
Proof.
  unfold is_hex_digit, idle_byte. eval_chr.
  intros H. apply andb_true_iff.
  repeat (apply orb_true_iff in H as [H|H]);
    apply andb_true_iff in H as [H1 H2]; apply Z.leb_le in H1, H2;
    (split; [apply Z.leb_le; lia | apply negb_true_iff, Z.eqb_neq; lia]).
Qed.

Lemma idle_not_dollar c : idle_byte c = true -> (c =? chr "$") = false.
Proof.
  unfold idle_byte. intros H. apply andb_true_iff in H as [_ H].
  now apply negb_true_iff in H.
Qed.

Lemma receive_cons_pair d c rest d1 t1 :
  gnss_receive_byte d c = (d1, t1) ->
  gnss_receive d (c :: rest)
  = (fst (gnss_receive d1 rest), t1 ++ snd (gnss_receive d1 rest)).
Proof.
  intros E. rewrite gnss_receive_cons, E. unfold bind.
  now destruct (gnss_receive d1 rest).
Qed.

Lemma step_payload_star_pair d :
  state d = 1 ->
  exists d1,
    gnss_receive_byte d (chr "*") = (d1, [Store_rx_data (rx_count d)])
    /\ state d1 = 2 /\ checksum d1 = checksum d /\ mode d1 = mode d
    /\ init d1 = init d.
Proof.
  intros Hs. rewrite step_payload_star by assumption.
  destruct (rx_store_fields (rx_count d) 0 d) as (E1 & E2 & E3 & E4 & E5 & _).
  unfold rx_store, emit, bind, ret in *. cbn [fst snd] in *.
  match goal with |- context [nmea_parse_sentence ?x ?y] =>
    destruct (quiet_fields _ _ (quiet_nmea_parse_sentence x y))
      as (F1 & F2 & F3 & F4 & F5 & F6) end.
  eexists. split; [reflexivity|]. cbn [state checksum mode init set_state].
  repeat split; congruence.
Qed.

Lemma nmea_tail_bad d h1 h2 :
  state d = 1 ->
  is_hex_digit h1 = true -> is_hex_digit h2 = true ->
  (h1 =? nmea_hex (Z.shiftr (checksum d) 4))
  && (h2 =? nmea_hex (Z.land (checksum d) 0x0f)) = false ->
  let r := gnss_receive d [chr "*"; h1; h2; 13; 10] in
  state (fst r) = 0 /\ only_stores (snd r) = true.
Proof.
  intros Hs H1 H2 Hbad.
  pose proof (hex_digit_idle _ H1) as I1. pose proof (hex_digit_idle _ H2) as I2.
  cbv zeta.
  destruct (step_payload_star_pair d Hs) as (d1 & E & S1 & C1 & _).
  rewrite (receive_cons_pair _ _ _ _ _ E). cbn [fst snd].
  rewrite gnss_receive_cons, step_checksum_1 by auto using idle_not_dollar.
  rewrite C1.
  destruct (h1 =? nmea_hex (Z.shiftr (checksum d) 4)).
  - rewrite bind_ret_l.
    rewrite gnss_receive_cons, step_checksum_2 by auto using idle_not_dollar.
    cbn [checksum set_state]. rewrite C1. simpl in Hbad. rewrite Hbad.
    rewrite bind_ret_l, start_idle by reflexivity. simpl. auto.
  - rewrite bind_ret_l, start_idle; [simpl; auto | reflexivity |].
    simpl. now rewrite I2.
Qed.


(** *** The bound of the staging buffer *)

Lemma step_payload_full d c :
  state d = 1 -> nmea_payload_byte c = true ->
  GNSS_RX_DATA_SIZE <= rx_count d ->
  gnss_receive_byte d c = (set_state GNSS_STATE_START d, []).
Proof.
  intros Hs Hc Hn. rewrite step_payload_char by assumption.
  apply Z.leb_le in Hn. now rewrite Hn.
Qed.

Lemma step_payload_char_pair d c :
  state d = 1 -> nmea_payload_byte c = true ->
  rx_count d < GNSS_RX_DATA_SIZE ->
  exists d1,
    gnss_receive_byte d c = (d1, [Store_rx_data (rx_count d)])
    /\ state d1 = 1 /\ checksum d1 = Z.lxor (checksum d) c
    /\ rx_count d1 = (if c =? chr "," then 0 else u16 (rx_count d + 1))
    /\ mode d1 = mode d /\ init d1 = init d.
Proof.
  intros Hs Hc Hn. rewrite step_payload_char by assumption.
  apply Z.leb_gt in Hn. rewrite Hn. cbv zeta.
  set (d0 := set_checksum (Z.lxor (checksum d) c) d).
  destruct (c =? chr ",").
  - destruct (rx_store_fields (rx_count d0) 0 d0)
      as (E1 & E2 & E3 & E4 & E5 & _).
    unfold rx_store, emit, bind, ret in *. cbn [fst snd] in *.
    match goal with |- context [nmea_parse_sentence ?x ?y] =>
      destruct (quiet_fields _ _ (quiet_nmea_parse_sentence x y))
        as (F1 & F2 & F3 & F4 & F5 & F6) end.
    eexists. split; [reflexivity|].
    cbn [state checksum mode init rx_count set_rx_count].
    repeat split; try congruence.
    + rewrite F1, E1. exact Hs.
    + rewrite F2, E2. reflexivity.
    + rewrite F5, E4. reflexivity.
    + rewrite F6, E5. reflexivity.
  - destruct (rx_store_fields (rx_count d0) c d0)
      as (E1 & E2 & E3 & E4 & E5 & _).
    unfold rx_store, emit, bind, ret in *. cbn [fst snd] in *.
    eexists. split; [reflexivity|].
    cbn [state checksum mode init rx_count set_rx_count].
    repeat split; try congruence.
    + rewrite E1. exact Hs.
    + rewrite E2. reflexivity.
    + rewrite E3. reflexivity.
    + rewrite E4. reflexivity.
    + rewrite E5. reflexivity.
Qed.

(** A payload that fits is staged to its end. *)
Lemma nmea_payload_fits payload : forall d,
  state d = 1 -> forallb nmea_payload_byte payload = true ->
  0 <= rx_count d ->
  rx_count d + Z.of_nat (length payload) <= GNSS_RX_DATA_SIZE ->
  let r := gnss_receive d payload in
  only_stores (snd r) = true /\ state (fst r) = 1
  /\ checksum (fst r) = fold_left Z.lxor payload (checksum d)
  /\ 0 <= rx_count (fst r) <= rx_count d + Z.of_nat (length payload)
  /\ mode (fst r) = mode d /\ init (fst r) = init d.
Proof.
  unfold GNSS_RX_DATA_SIZE.
  induction payload as [|c rest IH]; intros d Hs Hp H0 Hn; cbv zeta.
  - simpl. repeat split; auto; simpl; lia.
  - simpl in Hp. apply andb_true_iff in Hp as [Hc Hrest].
    rewrite length_cons, Nat2Z.inj_succ in *.
    destruct (step_payload_char_pair d c Hs Hc)
      as (d1 & E & S1 & C1 & R1 & M1 & I1); [unfold GNSS_RX_DATA_SIZE; lia|].
    rewrite (receive_cons_pair _ _ _ _ _ E). cbn [fst snd].
    assert (R1' : 0 <= rx_count d1 <= rx_count d + 1).
    { rewrite R1. destruct (c =? chr ","); [lia|].
      unfold u16. rewrite Z.mod_small; lia. }
    destruct (IH d1 S1 Hrest) as (P1 & P2 & P3 & P4 & P5 & P6); [lia|lia|].
    split; [exact P1|]. split; [exact P2|].
    split; [rewrite P3, C1; reflexivity|].
    split; [lia|]. split; congruence.
Qed.

(** A field, that is a payload without a comma, advances [rx_count] by
    its length. *)
Lemma nmea_field_fits field : forall d,
  state d = 1 -> forallb nmea_field_byte field = true ->
  0 <= rx_count d ->
  rx_count d + Z.of_nat (length field) <= GNSS_RX_DATA_SIZE ->
  rx_count (fst (gnss_receive d field)) = rx_count d + Z.of_nat (length field).
Proof.
  unfold GNSS_RX_DATA_SIZE.
  induction field as [|c rest IH]; intros d Hs Hp H0 Hn.
  - simpl. lia.
  - simpl in Hp. apply andb_true_iff in Hp as [Hc Hrest].
    unfold nmea_field_byte in Hc. apply andb_true_iff in Hc as [Hc Hcomma].
    apply negb_true_iff in Hcomma.
    rewrite length_cons, Nat2Z.inj_succ in *.
    destruct (step_payload_char_pair d c Hs Hc)
      as (d1 & E & S1 & C1 & R1 & M1 & I1); [unfold GNSS_RX_DATA_SIZE; lia|].
    rewrite (receive_cons_pair _ _ _ _ _ E). cbn [fst snd].
    rewrite Hcomma in R1. unfold u16 in R1. rewrite Z.mod_small in R1 by lia.
    rewrite IH; auto; lia.
Qed.

Lemma field_payload field :
  forallb nmea_field_byte field = true ->
  forallb nmea_payload_byte field = true.
Proof.
  rewrite !forallb_forall. intros H c Hc. specialize (H c Hc).
  unfold nmea_field_byte in H. now apply andb_true_iff in H as [H _].
Qed.

(** A field longer than the staging buffer aborts the frame. *)
Lemma nmea_field_overflow field : forall d,
  state d = 1 -> forallb nmea_field_byte field = true ->
  0 <= rx_count d <= GNSS_RX_DATA_SIZE ->
  GNSS_RX_DATA_SIZE < rx_count d + Z.of_nat (length field) ->
  let r := gnss_receive d field in
  only_stores (snd r) = true /\ state (fst r) = 0.
Proof.
  unfold GNSS_RX_DATA_SIZE.
  induction field as [|c rest IH]; intros d Hs Hp H0 Hn; cbv zeta.
  - simpl in Hn. lia.
  - pose proof (field_payload _ Hp) as Hpay.
    simpl in Hp. apply andb_true_iff in Hp as [Hc Hrest].
    simpl in Hpay. apply andb_true_iff in Hpay as [Hc' Hrest'].
    unfold nmea_field_byte in Hc. apply andb_true_iff in Hc as [_ Hcomma].
    apply negb_true_iff in Hcomma.
    rewrite length_cons, Nat2Z.inj_succ in *.
    destruct (Z.eq_dec (rx_count d) 96) as [Hfull|Hroom].
    + rewrite (receive_cons_pair _ _ _ _ _
                 (step_payload_full d c Hs Hc' ltac:(unfold GNSS_RX_DATA_SIZE; lia))).
      rewrite start_idle by (auto using payload_idle). simpl. auto.
    + destruct (step_payload_char_pair d c Hs Hc')
        as (d1 & E & S1 & C1 & R1 & M1 & I1); [unfold GNSS_RX_DATA_SIZE; lia|].
      rewrite (receive_cons_pair _ _ _ _ _ E). cbn [fst snd].
      rewrite Hcomma in R1. unfold u16 in R1. rewrite Z.mod_small in R1 by lia.
      destruct (IH d1 S1 Hrest) as [P1 P2]; [lia|lia|].
      split; [exact P1 | exact P2].
Qed.

(** The stores of a payload byte other than '*' stay inside the buffer. *)
Lemma payload_char_store_bound d c i :
  state d = 1 -> nmea_payload_byte c = true ->
  In (Store_rx_data i) (snd (gnss_receive_byte d c)) ->
  i < GNSS_RX_DATA_SIZE.
Proof.
  intros Hs Hc Hin.
  destruct (Z_lt_le_dec (rx_count d) GNSS_RX_DATA_SIZE) as [Hlt|Hge].
  - destruct (step_payload_char_pair d c Hs Hc Hlt) as (d1 & E & _).
    rewrite E in Hin. simpl in Hin. destruct Hin as [Hin|[]].
    injection Hin as <-. exact Hlt.
  - rewrite (step_payload_full d c Hs Hc Hge) in Hin. destruct Hin.
Qed.

(** *** A sentence with the right checksum reaches [nmea_end_sentence] *)

Lemma nmea_hex_not_dollar i : (nmea_hex i =? chr "$") = false.
Proof.
  unfold nmea_hex. generalize (Z.to_nat i). intros n.
  do 17 (destruct n as [|n]; [reflexivity|]). reflexivity.
Qed.

Lemma nmea_end_sentence_trace d :
  exists t, snd (nmea_end_sentence d) = Nmea_end_sentence :: t.
Proof.
  unfold nmea_end_sentence. rewrite !bind_snd. simpl. eauto.
Qed.

Lemma nmea_tail_good d h1 h2 :
  state d = 1 ->
  (h1 =? nmea_hex (Z.shiftr (checksum d) 4))
  && (h2 =? nmea_hex (Z.land (checksum d) 0x0f)) = true ->
  let r := gnss_receive d [chr "*"; h1; h2; 13; 10] in
  state (fst r) = 0 /\ existsb is_nmea_end_sentence (snd r) = true.
Proof.
  intros Hs Hok. apply andb_true_iff in Hok as [K1 K2].
  apply Z.eqb_eq in K1, K2. cbv zeta.
  destruct (step_payload_star_pair d Hs) as (d1 & E & S1 & C1 & _).
  rewrite (receive_cons_pair _ _ _ _ _ E). cbn [fst snd].
  rewrite gnss_receive_cons, step_checksum_1;
    [|assumption|rewrite K1; apply nmea_hex_not_dollar].
  rewrite C1, K1, Z.eqb_refl, bind_ret_l.
  rewrite gnss_receive_cons, step_checksum_2;
    [|reflexivity|rewrite K2; apply nmea_hex_not_dollar].
  cbn [checksum set_state]. rewrite C1, K2, Z.eqb_refl, bind_ret_l.
  rewrite gnss_receive_cons, step_end_cr, bind_ret_l by reflexivity.
  rewrite gnss_receive_cons, step_end_lf by reflexivity.
  cbn [gnss_receive]. rewrite !bind_fst, !bind_snd. unfold ret. cbn [fst snd].
  split; [reflexivity|].
  match goal with |- context [nmea_end_sentence ?x] =>
    destruct (nmea_end_sentence_trace x) as [t Ht]; rewrite Ht end.
  rewrite !existsb_app. cbn [existsb is_nmea_end_sentence].
  rewrite orb_true_r. reflexivity.
Qed.

Lemma nmea_start_fields d :
  let d1 := nmea_start_sentence
              (set_rx_count 0 (set_checksum 0
                 (set_state GNSS_STATE_NMEA_PAYLOAD d))) in
  state d1 = 1 /\ checksum d1 = 0 /\ rx_count d1 = 0 /\ mode d1 = mode d
  /\ init d1 = init d.
Proof.
  cbv zeta.
  match goal with |- context [nmea_start_sentence ?x] =>
    destruct (quiet_fields _ _ (quiet_nmea_start_sentence x))
      as (F1 & F2 & F3 & F4 & F5 & F6) end.
  rewrite F1, F2, F3, F5, F6. auto.
Qed.

(** A payload of at most 96 bytes with the right checksum is delivered to
    the sentence finalizer. *)
Lemma nmea_frame_accepted d payload h1 h2 :
  (state d <=? GNSS_STATE_NMEA_END_LF) = true ->
  forallb nmea_payload_byte payload = true ->
  Z.of_nat (length payload) <= GNSS_RX_DATA_SIZE ->
  nmea_checksum_ok payload h1 h2 = true ->
  let r := gnss_receive d (nmea_frame payload h1 h2) in
  state (fst r) = GNSS_STATE_START
  /\ existsb is_nmea_end_sentence (snd r) = true.
Proof.
  intros Hs Hp Hn Hok. cbv zeta. unfold nmea_frame.
  change ([chr "$"] ++ payload ++ [chr "*"; h1; h2; 13; 10])
    with (chr "$" :: (payload ++ [chr "*"; h1; h2; 13; 10])).
  rewrite gnss_receive_cons, step_dollar, bind_ret_l by assumption.
  destruct (nmea_start_fields d) as (G1 & G2 & G3 & _).
  set (d1 := nmea_start_sentence _) in *.
  rewrite gnss_receive_app, bind_fst, bind_snd, existsb_app.
  destruct (nmea_payload_fits payload d1 G1 Hp) as (P1 & P2 & P3 & _);
    [lia|lia|].
  rewrite G2 in P3.
  destruct (nmea_tail_good (fst (gnss_receive d1 payload)) h1 h2 P2)
    as [T1 T2]; [rewrite P3; exact Hok|].
  rewrite T2, orb_true_r. auto.
Qed.

(** A field of more than 96 bytes aborts the frame: nothing is delivered. *)
Lemma nmea_frame_overflow d field h1 h2 :
  (state d <=? GNSS_STATE_NMEA_END_LF) = true ->
  forallb nmea_field_byte field = true ->
  GNSS_RX_DATA_SIZE < Z.of_nat (length field) ->
  is_hex_digit h1 = true -> is_hex_digit h2 = true ->
  let r := gnss_receive d (nmea_frame field h1 h2) in
  state (fst r) = GNSS_STATE_START /\ only_stores (snd r) = true
  /\ state (fst (gnss_receive d (chr "$" :: field))) = GNSS_STATE_START.
Proof.
  intros Hs Hp Hn H1 H2. cbv zeta. unfold nmea_frame.
  change ([chr "$"] ++ field ++ [chr "*"; h1; h2; 13; 10])
    with (chr "$" :: (field ++ [chr "*"; h1; h2; 13; 10])).
  rewrite !gnss_receive_cons, step_dollar, !bind_ret_l by assumption.
  destruct (nmea_start_fields d) as (G1 & G2 & G3 & _).
  set (d1 := nmea_start_sentence _) in *.
  rewrite gnss_receive_app, bind_fst, bind_snd, only_stores_app.
  destruct (nmea_field_overflow field d1 G1 Hp) as (P1 & P2);
    [unfold GNSS_RX_DATA_SIZE; lia|lia|].
  rewrite start_idle; [simpl; rewrite P1; auto | assumption |].
  simpl. rewrite (hex_digit_idle _ H1), (hex_digit_idle _ H2). reflexivity.
Qed.

(** The terminator that '*' writes after a field of exactly 96 bytes is
    stored at index 96, one past the end of [rx_data]. *)
Lemma nmea_star_store_past_end d field :
  (state d <=? GNSS_STATE_NMEA_END_LF) = true ->
  forallb nmea_field_byte field = true ->
  Z.of_nat (length field) = GNSS_RX_DATA_SIZE ->
  In (Store_rx_data GNSS_RX_DATA_SIZE)
     (snd (gnss_receive d (chr "$" :: field ++ [chr "*"]))).
Proof.
  intros Hs Hp Hn.
  rewrite gnss_receive_cons, step_dollar, bind_ret_l by assumption.
  destruct (nmea_start_fields d) as (G1 & G2 & G3 & _).
  set (d1 := nmea_start_sentence _) in *.
  rewrite gnss_receive_app, bind_snd.
  destruct (nmea_payload_fits field d1 G1 (field_payload _ Hp))
    as (P1 & P2 & _); [lia|lia|].
  pose proof (nmea_field_fits field d1 G1 Hp) as R. rewrite G3 in R.
  destruct (step_payload_star_pair _ P2) as (d2 & E & _).
  rewrite (receive_cons_pair _ _ _ _ _ E). cbn [fst snd gnss_receive ret].
  apply in_or_app. right. rewrite R by lia. rewrite Hn. simpl. auto.
Qed.

(** *** What a sentence with a wrong checksum leaves behind *)





(** ** UBX framing *)

Lemma step_ubx_sync_1 d :
  state d = 0 -> mode d = GNSS_MODE_UBLOX ->
  gnss_receive_byte d 0xb5 = ret (set_state GNSS_STATE_UBX_SYNC_2 d).
Proof. intros H Hm. step_at H. rewrite Hm. reflexivity. Qed.

Lemma step_ubx_sync_2 d :
  state d = 6 ->
  gnss_receive_byte d 0x62 = ret (set_state GNSS_STATE_UBX_MESSAGE_1 d).
Proof. intros H. step_at H. reflexivity. Qed.

Lemma step_ubx_message_1 d c :
  state d = 7 ->
  gnss_receive_byte d c =
  ret (set_state GNSS_STATE_UBX_MESSAGE_2
         (upd_ubx (fun u =>
            set_message (u16 (Z.shiftl c 8)) (set_ck_b c (set_ck_a c u))) d)).
Proof. intros H. step_at H. reflexivity. Qed.

Lemma step_ubx_message_2 d c :
  state d = 8 ->
  gnss_receive_byte d c =
  ret (set_state GNSS_STATE_UBX_LENGTH_1
         (upd_ubx (fun u =>
            set_message (Z.lor (message u) c) (ubx_ck_add c u)) d)).
Proof. intros H. step_at H. reflexivity. Qed.

Lemma step_ubx_length_1 d c :
  state d = 9 ->
  gnss_receive_byte d c =
  ret (set_state GNSS_STATE_UBX_LENGTH_2
         (upd_ubx (fun u => set_ubx_length c (ubx_ck_add c u)) d)).
Proof. intros H. step_at H. reflexivity. Qed.

Lemma step_ubx_length_2 d c :
  state d = 10 ->
  gnss_receive_byte d c =
  let d := upd_ubx (ubx_ck_add c) d in
  let d := set_rx_chunk 0xffff (set_rx_offset 0 (set_rx_count 0 d)) in
  let d := upd_ubx (fun u =>
             set_ubx_length (u16 (Z.lor (ubx_length u) (Z.shiftl c 8))) u) d in
  let d := ubx_start_message (message (ubx d)) (ubx_length (ubx d)) d in
  if rx_count d =? ubx_length (ubx d)
  then ret (set_state GNSS_STATE_UBX_CK_A d)
  else ret (set_state GNSS_STATE_UBX_PAYLOAD d).
Proof. intros H. step_at H. reflexivity. Qed.

Lemma step_ubx_payload d c :
  state d = 11 ->
  gnss_receive_byte d c =
  let d := upd_ubx (ubx_ck_add c) d in
  (if rx_count d - rx_offset d <? GNSS_RX_DATA_SIZE
   then rx_store (rx_count d - rx_offset d) c d
   else ret d) >>= fun d =>
  let d := set_rx_count (u16 (rx_count d + 1)) d in
  let d :=
    if rx_count d =? rx_chunk d
    then ubx_parse_message (message (ubx d)) (rx_data d) (rx_count d) d
    else d in
  if rx_count d =? ubx_length (ubx d)
  then ret (set_state GNSS_STATE_UBX_CK_A d)
  else ret d.
Proof. intros H. step_at H. reflexivity. Qed.

Lemma step_ubx_ck_a d c :
  state d = 12 ->
  gnss_receive_byte d c =
  ret (set_state GNSS_STATE_UBX_CK_B
         (upd_ubx (fun u => set_ck_a (Z.lxor (ck_a u) c) u) d)).
Proof. intros H. step_at H. reflexivity. Qed.

Lemma step_ubx_ck_b d c :
  state d = 13 ->
  gnss_receive_byte d c =
  let d := upd_ubx (fun u => set_ck_b (Z.lxor (ck_b u) c) u) d in
  (if (ck_a (ubx d) =? 0x00) && (ck_b (ubx d) =? 0x00) then
     ubx_init_response d >>= fun d =>
     if rx_count d - rx_offset d <=? GNSS_RX_DATA_SIZE
     then ubx_end_message (message (ubx d)) (rx_data d) (rx_count d) d
     else ret d
   else ret d) >>= fun d =>
  ret (set_state GNSS_STATE_START d).
Proof. intros H. step_at H. reflexivity. Qed.

Lemma u8_byte c : is_byte c = true -> u8 c = c.
Proof.
  unfold is_byte, u8. intros H. apply andb_true_iff in H as [H1 H2].
  apply Z.leb_le in H1. apply Z.ltb_lt in H2. apply Z.mod_small. lia.
Qed.

(** The six header bytes, from the Start state. *)
Lemma ubx_header_run d class id lo hi :
  state d = GNSS_STATE_START -> mode d = GNSS_MODE_UBLOX ->
  is_byte class = true ->
  exists d1,
    gnss_receive d [0xb5; 0x62; class; id; lo; hi] = (d1, [])
    /\ state d1 = (if 0 =? ubx_length (ubx d1) then 12 else 11)
    /\ rx_count d1 = 0 /\ rx_offset d1 = 0
    /\ rx_chunk d1 = (if message (ubx d1) =? 0x0130 then 20 else 0xffff)
    /\ message (ubx d1) = Z.lor (u16 (Z.shiftl class 8)) id
    /\ ubx_length (ubx d1) = u16 (Z.lor lo (Z.shiftl hi 8))
    /\ (ck_a (ubx d1), ck_b (ubx d1)) = fletcher8 [class; id; lo; hi]
    /\ config_of d1 = config_of d
    /\ nmea d1 = nmea d /\ location d1 = location d
    /\ info (satellites d1) = info (satellites d)
    /\ (if message (ubx d1) =? 0x0130
        then count (satellites d1) = 0
        else satellites d1 = satellites d /\ seen d1 = seen d).
Proof.
  intros Hs Hm Hc. cbn [gnss_receive].
  rewrite step_ubx_sync_1, bind_ret_l by assumption.
  rewrite step_ubx_sync_2, bind_ret_l by reflexivity.
  rewrite step_ubx_message_1, bind_ret_l by reflexivity.
  rewrite step_ubx_message_2, bind_ret_l by reflexivity.
  rewrite step_ubx_length_1, bind_ret_l by reflexivity.
  rewrite step_ubx_length_2 by reflexivity.
  cbv zeta. unfold ubx_start_message, ubx_ck_add. cbv zeta. record_cbn.
  assert (Hck : fletcher8 [class; id; lo; hi]
                = (u8 (u8 (u8 (class + id) + lo) + hi),
                   u8 (u8 (u8 (class + u8 (class + id)) + u8 (u8 (class + id) + lo))
                       + u8 (u8 (u8 (class + id) + lo) + hi)))).
  { unfold fletcher8, fletcher8_step. cbn [fold_left fst snd].
    rewrite Z.add_0_l, (u8_byte class Hc), Z.add_0_l, (u8_byte class Hc).
    reflexivity. }
  destruct (Z.lor (u16 (Z.shiftl class 8)) id =? 0x0130) eqn:Em; record_cbn;
    (destruct (0 =? u16 (Z.lor lo (Z.shiftl hi 8))) eqn:En;
     rewrite bind_ret_l; unfold ret;
     (eexists; split; [reflexivity|]);
     record_cbn; rewrite ?Em, ?En, ?Hck;
     repeat split; reflexivity).
Qed.

Lemma u16_small x : 0 <= x < 65536 -> u16 x = x.
Proof. intros H. unfold u16. now apply Z.mod_small. Qed.

(** The cases of the guarded store of a payload byte. *)
Ltac payload_store_cases :=
  match goal with
  | |- context [if ?b then rx_store _ _ _ else ret _] => destruct b eqn:?
  end;
  unfold rx_store, emit;
  try match goal with
  | |- context [if ?b then set_rx_data _ _ else _] => destruct b eqn:?
  end;
  unfold bind, ret.

(** One payload byte: counted, folded into the sums, staged if it fits. *)
Lemma ubx_payload_step d c :
  state d = 11 -> 0 <= rx_count d < 65535 ->
  let r := gnss_receive_byte d c in
  only_stores (snd r) = true
  /\ rx_count (fst r) = rx_count d + 1
  /\ ubx_length (ubx (fst r)) = ubx_length (ubx d)
  /\ message (ubx (fst r)) = message (ubx d)
  /\ (ck_a (ubx (fst r)), ck_b (ubx (fst r)))
     = fletcher8_step (ck_a (ubx d), ck_b (ubx d)) c
  /\ state (fst r)
     = (if rx_count d + 1 =? ubx_length (ubx d) then 12 else 11)
  /\ config_of (fst r) = config_of d
  /\ nmea (fst r) = nmea d /\ location (fst r) = location d
  /\ seen (fst r) = seen d.
Proof.
  intros Hs Hn. cbv zeta. rewrite step_ubx_payload by assumption.
  cbv zeta. unfold ubx_ck_add, ubx_parse_message, upd_info, fletcher8_step.
  cbv zeta. payload_store_cases.
  all: repeat (record_cbn; rewrite ?(u16_small (rx_count d + 1)) by lia;
               split_if).
  all: record_cbn; repeat split; try reflexivity;
    try (rewrite Hs; reflexivity); congruence.
Qed.

(** A message other than NAV-SVINFO is never handed over in chunks. *)
Lemma ubx_payload_step_other d c :
  state d = 11 -> (message (ubx d) =? 0x0130) = false ->
  let r := gnss_receive_byte d c in
  satellites (fst r) = satellites d /\ rx_offset (fst r) = rx_offset d
  /\ rx_chunk (fst r) = rx_chunk d /\ message (ubx (fst r)) = message (ubx d).
Proof.
  intros Hs Hm. cbv zeta. rewrite step_ubx_payload by assumption.
  cbv zeta. unfold ubx_ck_add, ubx_parse_message.
  cbv zeta. payload_store_cases.
  all: repeat (record_cbn; rewrite ?Hm; split_if).
  all: record_cbn; repeat split; reflexivity.
Qed.

(** The payload bytes, with an invariant [P] of the payload steps. *)
Lemma ubx_payload_run (P : gnss_device_t -> Prop) payload :
  (forall d c, state d = 11 -> P d -> P (fst (gnss_receive_byte d c))) ->
  forall d,
  state d = 11 -> P d -> 0 <= rx_count d ->
  rx_count d + Z.of_nat (length payload) = ubx_length (ubx d) ->
  ubx_length (ubx d) < 65536 -> payload <> [] ->
  let r := gnss_receive d payload in
  only_stores (snd r) = true /\ P (fst r) /\ state (fst r) = 12
  /\ rx_count (fst r) = ubx_length (ubx d)
  /\ ubx_length (ubx (fst r)) = ubx_length (ubx d)
  /\ message (ubx (fst r)) = message (ubx d)
  /\ (ck_a (ubx (fst r)), ck_b (ubx (fst r)))
     = fold_left fletcher8_step payload (ck_a (ubx d), ck_b (ubx d))
  /\ config_of (fst r) = config_of d
  /\ nmea (fst r) = nmea d /\ location (fst r) = location d
  /\ seen (fst r) = seen d.
Proof.
  intros HP. induction payload as [|c rest IH]; intros d Hs Hd H0 Hn Hl Hne;
    [congruence|]. cbv zeta.
  rewrite length_cons, Nat2Z.inj_succ in Hn.
  destruct (ubx_payload_step d c Hs)
    as (S1 & S2 & S3 & S4 & S5 & S6 & S7 & S8 & S9 & S10); [lia|].
  pose proof (HP d c Hs Hd) as Hd1.
  destruct (gnss_receive_byte d c) as [d1 t1] eqn:E. cbn [fst snd] in *.
  rewrite (receive_cons_pair _ _ _ _ _ E). cbn [fst snd].
  destruct rest as [|c' rest'].
  - cbn [gnss_receive ret fst snd fold_left]. rewrite app_nil_r.
    simpl in Hn. replace (rx_count d + 1 =? ubx_length (ubx d)) with true in S6
      by (symmetry; apply Z.eqb_eq; lia).
    repeat split; try assumption. lia.
  - replace (rx_count d + 1 =? ubx_length (ubx d)) with false in S6
      by (symmetry; apply Z.eqb_neq; rewrite length_cons, Nat2Z.inj_succ in Hn; lia).
    destruct (IH d1 S6 Hd1) as (R1 & R2 & R3 & R4 & R5 & R6 & R7 & R8 & R9 & R10 & R11);
      [lia|lia|lia|discriminate|].
    rewrite only_stores_app, S1, R1.
    repeat split; try assumption; try congruence.
    cbn [fold_left]. rewrite <- S5. exact R7.
Qed.

Lemma land_low_high n :
  0 <= n -> Z.land (n mod 256) (Z.shiftl (n / 256) 8) = 0.
Proof.
  intros Hn. apply Z.bits_inj'. intros i Hi.
  rewrite Z.land_spec, Z.bits_0.
  destruct (Z_lt_le_dec i 8) as [Hlt|Hge].
  - rewrite Z.shiftl_spec_low by assumption. apply andb_false_r.
  - change 256 with (2 ^ 8). rewrite Z.mod_pow2_bits_high by lia. reflexivity.
Qed.

(** The little-endian length bytes spell the length. *)
Lemma ubx_length_bytes n :
  0 <= n < 65536 -> u16 (Z.lor (n mod 256) (Z.shiftl (n / 256) 8)) = n.
Proof.
  intros Hn.
  assert (E : Z.lor (n mod 256) (Z.shiftl (n / 256) 8) = n).
  { pose proof (Z.add_lor_land (n mod 256) (Z.shiftl (n / 256) 8)) as H.
    rewrite land_low_high, Z.add_0_r in H by lia. rewrite H.
    rewrite Z.shiftl_mul_pow2 by lia. change (2 ^ 8) with 256.
    pose proof (Z.div_mod n 256). lia. }
  rewrite E. now apply u16_small.
Qed.

Lemma ubx_key_byte class id :
  is_byte class = true ->
  Z.lor (u16 (Z.shiftl class 8)) id = ubx_key class id.
Proof.
  intros H. unfold ubx_key, is_byte in *. apply andb_true_iff in H as [H1 H2].
  apply Z.leb_le in H1. apply Z.ltb_lt in H2.
  rewrite u16_small; [reflexivity|].
  rewrite Z.shiftl_mul_pow2 by lia. change (2 ^ 8) with 256. lia.
Qed.

(** *** The configuration driver during framing *)

(** [x] holds no case analysis of its own. *)
Ltac plain_scrutinee x :=
  lazymatch x with
  | context [match _ with _ => _ end] => fail
  | _ => idtac
  end.

Ltac split_match :=
  match goal with
  | |- context [match ?x with _ => _ end] =>
      plain_scrutinee x; destruct x eqn:?
  end.

Lemma ubx_send_timed_spec data d :
  forallb is_driver_event (snd (ubx_send_timed data d)) = true
  /\ staging_of (fst (ubx_send_timed data d)) = staging_of d
  /\ seen (fst (ubx_send_timed data d)) = seen d
  /\ init (fst (ubx_send_timed data d)) = init d.
Proof.
  unfold ubx_send_timed, ubx_send, emit, bind.
  destruct (list_Z_eqb data ubx_cfg_rxm_continuous); auto.
Qed.

Lemma ubx_configure_spec response command' d :
  let r := ubx_configure response command' d in
  forallb is_driver_event (snd r) = true
  /\ staging_of (fst r) = staging_of d
  /\ (solution (fst r) = true -> solution d = true).
Proof.
  cbv zeta. unfold ubx_configure, emit, bind, ret.
  repeat first
    [ match goal with
      | |- context [ubx_send_timed ?x ?y] =>
          let H := fresh in
          pose proof (ubx_send_timed_spec x y) as H;
          destruct (ubx_send_timed x y); cbn [fst snd] in H;
          destruct H as (? & ? & ? & ?)
      end
    | split_match ];
  cbn [fst snd forallb is_driver_event andb app]; repeat split; auto;
  unfold solution; try congruence;
  try (record_cbn; discriminate);
  repeat match goal with H : seen _ = _ |- _ => rewrite H end;
  record_cbn; auto.
Qed.

Lemma ubx_init_response_spec d :
  let r := ubx_init_response d in
  forallb is_driver_event (snd r) = true
  /\ staging_of (fst r) = staging_of d
  /\ (solution (fst r) = true -> solution d = true).
Proof.
  cbv zeta. unfold ubx_init_response.
  destruct (_ && _); [apply ubx_configure_spec | simpl; auto].
Qed.

Lemma driver_no_end_message t :
  forallb is_driver_event t = true -> existsb is_ubx_end_message t = false.
Proof.
  induction t as [|e t IH]; [reflexivity|]. simpl. intros H.
  apply andb_true_iff in H as [He Ht]. rewrite (IH Ht).
  destruct e; simpl in *; congruence.
Qed.

Lemma driver_no_callback t :
  forallb is_driver_event t = true -> no_callback t = true.
Proof.
  unfold no_callback. rewrite !forallb_forall. intros H e He.
  specialize (H e He). destruct e; simpl in *; congruence.
Qed.

Lemma stores_no_end_message t :
  only_stores t = true -> existsb is_ubx_end_message t = false.
Proof.
  induction t as [|e t IH]; [reflexivity|]. simpl. intros H.
  apply andb_true_iff in H as [He Ht]. rewrite (IH Ht).
  destruct e; simpl in *; congruence.
Qed.

(** *** The two checksum bytes *)

Lemma ubx_trailer d a b :
  state d = 12 ->
  exists d2,
    payload_of d2 = payload_of d
    /\ gnss_receive d [a; b] =
       (if (Z.lxor (ck_a (ubx d)) a =? 0) && (Z.lxor (ck_b (ubx d)) b =? 0)
        then
          ubx_init_response d2 >>= fun d =>
          if ubx_fits d
          then ubx_end_message (message (ubx d)) (rx_data d) (rx_count d) d
          else ret d
        else ret d2) >>= fun d => ret (set_state GNSS_STATE_START d).
Proof.
  intros Hs. cbn [gnss_receive].
  rewrite step_ubx_ck_a, bind_ret_l by assumption.
  rewrite step_ubx_ck_b by reflexivity. cbv zeta. rewrite bind_ret_r.
  eexists. split; [|reflexivity]. reflexivity.
Qed.

(** *** A whole frame *)

Lemma fletcher8_body class id payload :
  fletcher8 (ubx_body class id payload)
  = fold_left fletcher8_step payload
      (fletcher8 [class; id; Z.of_nat (length payload) mod 256;
                  Z.of_nat (length payload) / 256]).
Proof. unfold fletcher8, ubx_body. cbv zeta. now rewrite fold_left_app. Qed.

(** Sync bytes, header and payload: the device waits for the checksum
    bytes with every payload byte counted and folded into the sums. *)
Lemma ubx_head_run (P : gnss_device_t -> Prop) d class id payload :
  state d = GNSS_STATE_START -> mode d = GNSS_MODE_UBLOX ->
  is_byte class = true -> Z.of_nat (length payload) < 65536 ->
  (forall d1,
     rx_count d1 = 0 -> rx_offset d1 = 0 ->
     message (ubx d1) = ubx_key class id ->
     info (satellites d1) = info (satellites d) ->
     (if ubx_key class id =? 0x0130 then count (satellites d1) = 0
      else satellites d1 = satellites d /\ seen d1 = seen d) ->
     P d1) ->
  (forall d c, state d = 11 -> P d -> P (fst (gnss_receive_byte d c))) ->
  let r := gnss_receive d (ubx_head class id payload) in
  only_stores (snd r) = true /\ P (fst r)
  /\ state (fst r) = GNSS_STATE_UBX_CK_A
  /\ rx_count (fst r) = Z.of_nat (length payload)
  /\ message (ubx (fst r)) = ubx_key class id
  /\ (ck_a (ubx (fst r)), ck_b (ubx (fst r)))
     = fletcher8 (ubx_body class id payload)
  /\ config_of (fst r) = config_of d
  /\ nmea (fst r) = nmea d /\ location (fst r) = location d.
Proof.
  intros Hs Hm Hc Hl Hinit Hstep. cbv zeta.
  set (n := Z.of_nat (length payload)) in *.
  change (ubx_head class id payload)
    with ([0xb5; 0x62; class; id; n mod 256; n / 256] ++ payload).
  rewrite gnss_receive_app.
  destruct (ubx_header_run d class id (n mod 256) (n / 256) Hs Hm Hc)
    as (d1 & E & H1 & H2 & H3 & H4 & H5 & H6 & H7 & H8 & H9 & H10 & H11 & H12).
  rewrite E. change (d1, @nil event) with (ret d1). rewrite bind_ret_l.
  rewrite ubx_key_byte in H5 by assumption.
  rewrite ubx_length_bytes in H6 by (unfold n in *; lia).
  rewrite H5 in H12. rewrite fletcher8_body. fold n.
  pose proof (Hinit d1 H2 H3 H5 H11 H12) as HP.
  destruct (decide (payload = [])) as [Ep|Ep].
  - subst payload. cbn [gnss_receive ret fst snd fold_left].
    rewrite H6 in H1. change n with 0 in *. rewrite Z.eqb_refl in H1.
    repeat split; assumption.
  - assert (Hn : n <> 0).
    { unfold n. destruct payload; [congruence | rewrite length_cons; lia]. }
    rewrite H6 in H1.
    replace (0 =? n) with false in H1 by (symmetry; apply Z.eqb_neq; lia).
    destruct (ubx_payload_run P payload Hstep d1 H1 HP)
      as (R1 & R2 & R3 & R4 & R5 & R6 & R7 & R8 & R9 & R10 & R11);
      [lia | rewrite H2, H6; reflexivity | rewrite H6; exact Hl
      | exact Ep |].
    rewrite R7, H7.
    repeat split; try assumption; congruence.
Qed.

Lemma ubx_end_message_head m data cnt d :
  exists t, snd (ubx_end_message m data cnt d) = Ubx_end_message m data cnt :: t.
Proof. unfold ubx_end_message. rewrite !bind_snd. simpl. eauto. Qed.

Lemma lxor_zero_eqb x a : (Z.lxor x a =? 0) = (a =? x).
Proof.
  destruct (Z.eqb_spec a x) as [->|Hne].
  - rewrite Z.lxor_nilpotent. reflexivity.
  - apply Z.eqb_neq. intros H. apply Z.lxor_eq in H. congruence.
Qed.

(** What the checksum bytes decide, for a device waiting for them. *)
Lemma ubx_trailer_delivery d a b :
  state d = 12 ->
  let r := gnss_receive d [a; b] in
  state (fst r) = GNSS_STATE_START
  /\ existsb is_ubx_end_message (snd r)
     = (a =? ck_a (ubx d)) && (b =? ck_b (ubx d)) && ubx_fits d
  /\ ((a =? ck_a (ubx d)) && (b =? ck_b (ubx d)) && ubx_fits d = false ->
      no_callback (snd r) = true).
Proof.
  intros Hs. cbv zeta.
  destruct (ubx_trailer d a b Hs) as (d2 & E2 & ->).
  rewrite !lxor_zero_eqb. rewrite bind_fst, bind_snd. unfold ret at 1 2 3.
  cbn [fst snd]. rewrite app_nil_r. split; [reflexivity|].
  destruct ((a =? ck_a (ubx d)) && (b =? ck_b (ubx d))); cbn [andb].
  2: { unfold ret. simpl. auto. }
  rewrite bind_snd, existsb_app.
  destruct (ubx_init_response_spec d2) as (D1 & D2 & _).
  rewrite (driver_no_end_message _ D1). cbn [orb].
  assert (F : ubx_fits (fst (ubx_init_response d2)) = ubx_fits d).
  { unfold ubx_fits. unfold staging_of in D2. unfold payload_of in E2.
    injection D2. injection E2. intros. congruence. }
  rewrite F. destruct (ubx_fits d).
  - match goal with |- context [ubx_end_message ?m ?x ?c ?y] =>
      destruct (ubx_end_message_head m x c y) as [t Ht]; rewrite Ht end.
    split; [reflexivity | discriminate].
  - unfold ret. cbn [snd existsb]. split; [reflexivity|]. intros _.
    rewrite app_nil_r. now apply driver_no_callback.
Qed.

(** Delivery of a whole frame, received from the Start state. *)
Lemma ubx_frame_delivery d class id payload a b :
  state d = GNSS_STATE_START -> mode d = GNSS_MODE_UBLOX ->
  is_byte class = true -> Z.of_nat (length payload) < 65536 ->
  let staged := fst (gnss_receive d (ubx_head class id payload)) in
  let r := gnss_receive d (ubx_frame class id payload a b) in
  state (fst r) = GNSS_STATE_START
  /\ existsb is_ubx_end_message (snd r)
     = ubx_checksum_ok class id payload a b && ubx_fits staged
  /\ (ubx_checksum_ok class id payload a b && ubx_fits staged = false ->
      no_callback (snd r) = true).
Proof.
  intros Hs Hm Hc Hl. cbv zeta. unfold ubx_frame.
  rewrite gnss_receive_app, bind_fst, bind_snd.
  destruct (ubx_head_run (fun _ => True) d class id payload Hs Hm Hc Hl)
    as (R1 & _ & R3 & R4 & R5 & R6 & _); [auto | auto |].
  destruct (ubx_trailer_delivery _ a b R3) as (T1 & T2 & T3).
  unfold ubx_checksum_ok. rewrite <- R6. cbn [fst snd].
  split; [exact T1|]. split.
  - rewrite existsb_app, (stores_no_end_message _ R1). exact T2.
  - intros Hno. unfold no_callback. rewrite forallb_app.
    apply andb_true_iff. split; [now apply only_stores_no_callback | auto].
Qed.

Lemma stores_no_end_sentence t :
  only_stores t = true -> existsb is_nmea_end_sentence t = false.
Proof.
  induction t as [|e t IH]; [reflexivity|]. simpl. intros H.
  apply andb_true_iff in H as [He Ht]. rewrite (IH Ht).
  destruct e; simpl in *; congruence.
Qed.

(** A message other than NAV-SVINFO is staged from offset 0: it fits the
    hand-over exactly when its payload is at most 96 bytes long. *)
Lemma ubx_plain_staged d class id payload :
  state d = GNSS_STATE_START -> mode d = GNSS_MODE_UBLOX ->
  is_byte class = true -> Z.of_nat (length payload) < 65536 ->
  (ubx_key class id =? 0x0130) = false ->
  let staged := fst (gnss_receive d (ubx_head class id payload)) in
  state staged = GNSS_STATE_UBX_CK_A
  /\ rx_count staged = Z.of_nat (length payload)
  /\ rx_offset staged = 0
  /\ (ck_a (ubx staged), ck_b (ubx staged))
     = fletcher8 (ubx_body class id payload)
  /\ ubx_fits staged = (Z.of_nat (length payload) <=? GNSS_RX_DATA_SIZE)
  /\ satellites staged = satellites d /\ seen staged = seen d
  /\ location staged = location d.
Proof.
  intros Hs Hm Hc Hl Hk. cbv zeta.
  destruct (ubx_head_run
              (fun d1 => rx_offset d1 = 0
                         /\ (message (ubx d1) =? 0x0130) = false
                         /\ satellites d1 = satellites d
                         /\ seen d1 = seen d)
              d class id payload Hs Hm Hc Hl)
    as (R1 & (R2 & _ & R2' & R2'') & R3 & R4 & R5 & R6 & R7 & R8 & R9).
  - intros d1 H1 H2 H3 H4 H5. rewrite Hk in H5. rewrite H3, Hk. tauto.
  - intros d1 c H1 (H2 & H3 & H4 & H5).
    destruct (ubx_payload_step_other d1 c H1 H3) as (O1 & O2 & O3 & O4).
    cbv zeta in *. rewrite O1, O2, O4.
    repeat split; try assumption.
    rewrite step_ubx_payload by assumption. cbv zeta.
    unfold ubx_ck_add, ubx_parse_message. cbv zeta. payload_store_cases.
    all: repeat (record_cbn; rewrite ?H3; split_if).
    all: record_cbn; assumption.
  - unfold ubx_fits. rewrite R4, R2, Z.sub_0_r. repeat split; assumption.
Qed.



(** *** The room of a field *)

Lemma nmea_payload_staged payload : forall d,
  state d = 1 -> forallb nmea_payload_byte payload = true ->
  0 <= rx_count d ->
  let r := gnss_receive d payload in
  only_stores (snd r) = true
  /\ match nmea_staged (rx_count d) payload with
     | Some n =>
         state (fst r) = 1
         /\ checksum (fst r) = fold_left Z.lxor payload (checksum d)
         /\ rx_count (fst r) = n
     | None => state (fst r) = 0
     end.
Proof.
  induction payload as [|c rest IH]; intros d Hs Hp H0; cbv zeta.
  - simpl. auto.
  - simpl in Hp. pose proof Hp as Hp'.
    apply andb_true_iff in Hp as [Hc Hrest]. cbn [nmea_staged].
    destruct (Z.leb_spec GNSS_RX_DATA_SIZE (rx_count d)) as [Hfull|Hroom].
    + rewrite (receive_cons_pair _ _ _ _ _ (step_payload_full d c Hs Hc Hfull)).
      rewrite start_idle by (auto using payload_idle). simpl. auto.
    + destruct (step_payload_char_pair d c Hs Hc Hroom)
        as (d1 & E & S1 & C1 & R1 & _).
      rewrite (receive_cons_pair _ _ _ _ _ E). cbn [fst snd].
      assert (R1' : rx_count d1 = if c =? chr "," then 0 else rx_count d + 1).
      { rewrite R1. destruct (c =? chr ","); [reflexivity|].
        unfold u16. apply Z.mod_small. unfold GNSS_RX_DATA_SIZE in Hroom. lia. }
      destruct (IH d1 S1 Hrest) as (P1 & P2).
      { rewrite R1'. destruct (c =? chr ","); lia. }
      rewrite R1' in P2. split; [exact P1|].
      destruct (nmea_staged _ rest); [|exact P2].
      destruct P2 as (Q1 & Q2 & Q3). rewrite Q2, C1. auto.
Qed.

(** A sentence reaches the sentence finalizer when every byte of its
    payload found room in the staging buffer and the checksum characters
    are the right ones; otherwise nothing comes of it. *)
Lemma nmea_frame_delivery d payload h1 h2 :
  (state d <=? GNSS_STATE_NMEA_END_LF) = true ->
  forallb nmea_payload_byte payload = true ->
  is_hex_digit h1 = true -> is_hex_digit h2 = true ->
  let r := gnss_receive d (nmea_frame payload h1 h2) in
  state (fst r) = GNSS_STATE_START
  /\ existsb is_nmea_end_sentence (snd r)
     = nmea_fits payload && nmea_checksum_ok payload h1 h2
  /\ (nmea_fits payload && nmea_checksum_ok payload h1 h2 = false ->
      only_stores (snd r) = true).
Proof.
  intros Hs Hp H1 H2. cbv zeta. unfold nmea_frame, nmea_fits.
  change ([chr "$"] ++ payload ++ [chr "*"; h1; h2; 13; 10])
    with (chr "$" :: (payload ++ [chr "*"; h1; h2; 13; 10])).
  rewrite gnss_receive_cons, step_dollar, bind_ret_l by assumption.
  destruct (nmea_start_fields d) as (G1 & G2 & G3 & _).
  set (d1 := nmea_start_sentence _) in *.
  rewrite gnss_receive_app, bind_fst, bind_snd, existsb_app, only_stores_app.
  destruct (nmea_payload_staged payload d1 G1 Hp) as (P1 & P2); [lia|].
  rewrite G3 in P2. rewrite P1, (stores_no_end_sentence _ P1).
  cbn [orb andb].
  destruct (nmea_staged 0 payload) as [n|].
  - destruct P2 as (Q1 & Q2 & _). rewrite G2 in Q2. cbn [andb].
    destruct (nmea_checksum_ok payload h1 h2) eqn:Hok.
    + destruct (nmea_tail_good (fst (gnss_receive d1 payload)) h1 h2 Q1)
        as [T1 T2]; [rewrite Q2; exact Hok|].
      rewrite T2. split; [exact T1|]. split; [reflexivity | discriminate].
    + destruct (nmea_tail_bad (fst (gnss_receive d1 payload)) h1 h2 Q1 H1 H2)
        as [T1 T2]; [rewrite Q2; exact Hok|].
      rewrite T2, (stores_no_end_sentence _ T2). auto.
  - rewrite start_idle; [simpl; auto | exact P2 |].
    simpl. rewrite (hex_digit_idle _ H1), (hex_digit_idle _ H2). reflexivity.
Qed.

(** A payload of at most 96 bytes fits. *)
Lemma nmea_staged_short payload : forall n,
  0 <= n -> n + Z.of_nat (length payload) <= GNSS_RX_DATA_SIZE ->
  exists m, nmea_staged n payload = Some m.
Proof.
  unfold GNSS_RX_DATA_SIZE.
  induction payload as [|c rest IH]; intros n H0 Hn; [simpl; eauto|].
  rewrite length_cons, Nat2Z.inj_succ in Hn. cbn [nmea_staged].
  unfold GNSS_RX_DATA_SIZE.
  destruct (Z.leb_spec 96 n); [lia|].
  apply IH; destruct (c =? chr ","); lia.
Qed.

(** A field stages its length, if there is room for it. *)
Lemma nmea_staged_field field : forall n,
  forallb nmea_field_byte field = true -> n <= GNSS_RX_DATA_SIZE ->
  nmea_staged n field
  = if n + Z.of_nat (length field) <=? GNSS_RX_DATA_SIZE
    then Some (n + Z.of_nat (length field)) else None.
Proof.
  unfold GNSS_RX_DATA_SIZE.
  induction field as [|c rest IH]; intros n Hp Hn.
  - simpl. rewrite Z.add_0_r.
    destruct (Z.leb_spec n 96); [reflexivity | lia].
  - simpl in Hp. apply andb_true_iff in Hp as [Hc Hrest].
    unfold nmea_field_byte in Hc. apply andb_true_iff in Hc as [_ Hcomma].
    apply negb_true_iff in Hcomma.
    rewrite length_cons, Nat2Z.inj_succ. cbn [nmea_staged].
    unfold GNSS_RX_DATA_SIZE. rewrite Hcomma.
    destruct (Z.leb_spec 96 n).
    + destruct (Z.leb_spec (n + Z.succ (Z.of_nat (length rest))) 96);
        [lia | reflexivity].
    + rewrite (IH _ Hrest) by lia.
      destruct (Z.leb_spec (n + Z.succ (Z.of_nat (length rest))) 96);
        destruct (Z.leb_spec (n + 1 + Z.of_nat (length rest)) 96);
        try lia; f_equal; lia.
Qed.

(** A comma finds room after at most 95 bytes, and starts the count of
    the next field. *)
Lemma nmea_staged_comma field rest : forall n,
  forallb nmea_field_byte field = true ->
  nmea_staged n (field ++ chr "," :: rest)
  = if n + Z.of_nat (length field) <? GNSS_RX_DATA_SIZE
    then nmea_staged 0 rest else None.
Proof.
  unfold GNSS_RX_DATA_SIZE.
  induction field as [|c field IH]; intros n Hp.
  - cbn [app nmea_staged length]. unfold GNSS_RX_DATA_SIZE.
    change (chr "," =? chr ",") with true. rewrite Z.add_0_r.
    destruct (Z.leb_spec 96 n); destruct (Z.ltb_spec n 96); try lia;
      reflexivity.
  - simpl in Hp. apply andb_true_iff in Hp as [Hc Hrest].
    unfold nmea_field_byte in Hc. apply andb_true_iff in Hc as [_ Hcomma].
    apply negb_true_iff in Hcomma.
    rewrite length_cons, Nat2Z.inj_succ. cbn [app nmea_staged].
    unfold GNSS_RX_DATA_SIZE. rewrite Hcomma, (IH _ Hrest).
    destruct (Z.leb_spec 96 n);
      destruct (Z.ltb_spec (n + Z.succ (Z.of_nat (length field))) 96);
      destruct (Z.ltb_spec (n + 1 + Z.of_nat (length field)) 96);
      try lia; reflexivity.
Qed.

(** ** Numeric parsers *)

Lemma is_digit_range c : is_digit c = true <-> 48 <= c <= 57.
Proof.
  unfold is_digit. eval_chr. rewrite andb_true_iff, !Z.leb_le. tauto.
Qed.

Lemma u32_small x : 0 <= x < 4294967296 -> u32 x = x.
Proof. intros H. unfold u32. now apply Z.mod_small. Qed.

Lemma u32_range x : 0 <= u32 x < 4294967296.
Proof. unfold u32. apply Z.mod_pos_bound. lia. Qed.

Lemma s32_small x : 0 <= x < 2147483648 -> s32 x = x.
Proof.
  intros H. unfold s32. rewrite u32_small by lia.
  destruct (Z.ltb_spec x 2147483648); lia.
Qed.

(** A parsed fixed-point value is a 32-bit unsigned value. *)
Lemma nmea_parse_fixed_range data scale v :
  nmea_parse_fixed data scale = Some v -> 0 <= v < 4294967296.
Proof.
  unfold nmea_parse_fixed.
  destruct (scan_digits data 0) as [integer data1].
  destruct (at_ data1 0 =? chr ".").
  - destruct (scan_fraction (tl data1) 0 0 scale) as [[fraction digits] data2].
    destruct ((at_ data2 0 =? 0) && (digits <? scale));
      destruct (at_ _ 0 =? 0); intros H; inversion H; apply u32_range.
  - destruct (at_ _ 0 =? 0); intros H; inversion H; apply u32_range.
Qed.

(** The degrees of a latitude: the value of its two leading digits. *)
Lemma two_digits_value d1 d2 rest :
  is_digit d1 = true -> is_digit d2 = true ->
  two_digits (d1 :: d2 :: rest) = (d1 - 48) * 10 + (d2 - 48)
  /\ 0 <= (d1 - 48) * 10 + (d2 - 48) <= 99.
Proof.
  intros H1 H2. apply is_digit_range in H1, H2.
  unfold two_digits, at_. cbn [nth]. eval_chr.
  rewrite u32_small by lia. lia.
Qed.

(** The latitude parser, case by case. *)
Lemma nmea_parse_latitude_spec data v :
  nmea_parse_latitude data = Some v <->
  exists d1 d2 rest minutes,
    data = d1 :: d2 :: rest
    /\ is_digit d1 = true /\ is_digit d2 = true
    /\ (d1 - 48) * 10 + (d2 - 48) <= 89
    /\ at_ rest 0 <> 0
    /\ nmea_parse_fixed rest 7 = Some minutes
    /\ minutes < 600000000
    /\ v = ((d1 - 48) * 10 + (d2 - 48)) * 10000000 + (minutes + 30) / 60.
Proof.
  unfold nmea_parse_latitude. split.
  - destruct data as [|d1 [|d2 rest]].
    + unfold at_. cbn [nth]. rewrite andb_false_l. discriminate.
    + unfold at_. cbn [nth]. rewrite andb_false_r. discriminate.
    + unfold at_ at 1 2. cbn [nth].
      destruct (is_digit d1) eqn:H1; [|discriminate].
      destruct (is_digit d2) eqn:H2; [|discriminate].
      cbn [andb]. cbv zeta.
      destruct (two_digits_value d1 d2 rest H1 H2) as [-> Hr].
      change (drop 2 (d1 :: d2 :: rest)) with rest.
      destruct (Z.ltb_spec ((d1 - 48) * 10 + (d2 - 48)) 90) as [Hd|Hd];
        [|discriminate].
      destruct (Z.eqb_spec (at_ rest 0) 0) as [Hz|Hz]; [discriminate|].
      cbn [andb negb].
      destruct (nmea_parse_fixed rest 7) as [minutes|] eqn:Hf; [|discriminate].
      pose proof (nmea_parse_fixed_range _ _ _ Hf) as Hm.
      destruct (Z.ltb_spec minutes 600000000) as [Hlt|Hge]; [|discriminate].
      intros H. inversion H as [Hv]. clear H.
      exists d1, d2, rest, minutes.
      repeat split; try assumption; try lia.
      assert (0 <= (minutes + 30) / 60 < 10000001).
      { split; [apply Z.div_pos; lia | apply Z.div_lt_upper_bound; lia]. }
      rewrite (u32_small (_ * _)), (u32_small (_ / _)), u32_small by lia.
      reflexivity.
  - intros (d1 & d2 & rest & minutes & -> & H1 & H2 & Hd & Hz & Hf & Hlt & ->).
    unfold at_ at 1 2. cbn [nth]. rewrite H1, H2. cbn [andb]. cbv zeta.
    destruct (two_digits_value d1 d2 rest H1 H2) as [-> Hr].
    change (drop 2 (d1 :: d2 :: rest)) with rest.
    pose proof (nmea_parse_fixed_range _ _ _ Hf) as Hm.
    destruct (Z.ltb_spec ((d1 - 48) * 10 + (d2 - 48)) 90) as [_|]; [|lia].
    destruct (Z.eqb_spec (at_ rest 0) 0) as [|_]; [contradiction|].
    cbn [andb negb]. rewrite Hf.
    destruct (Z.ltb_spec minutes 600000000) as [_|]; [|lia].
    assert (0 <= (minutes + 30) / 60 < 10000001).
    { split; [apply Z.div_pos; lia | apply Z.div_lt_upper_bound; lia]. }
    rewrite (u32_small (_ * _)), (u32_small (_ / _)), u32_small by lia.
    reflexivity.
Qed.

(** Degrees 90 and above are rejected whatever follows. *)
Lemma nmea_parse_latitude_90 rest :
  nmea_parse_latitude (bytes "90" ++ rest) = None.
Proof.
  destruct (nmea_parse_latitude (bytes "90" ++ rest)) as [v|] eqn:E;
    [|reflexivity].
  apply nmea_parse_latitude_spec in E.
  destruct E as (d1 & d2 & r & m & Hd & _ & _ & Hle & _).
  change (bytes "90" ++ rest) with (57 :: 48 :: rest) in Hd.
  inversion Hd; subst. lia.
Qed.

(** Degrees 89 are accepted with any minutes below 60. *)
Lemma nmea_parse_latitude_89 rest minutes :
  at_ rest 0 <> 0 -> nmea_parse_fixed rest 7 = Some minutes ->
  minutes < 600000000 ->
  nmea_parse_latitude (bytes "89" ++ rest)
  = Some (890000000 + (minutes + 30) / 60).
Proof.
  intros Hz Hf Hlt. apply nmea_parse_latitude_spec.
  exists 56, 57, rest, minutes. repeat split; auto; lia.
Qed.

(** ** The RMC speed field *)

Lemma nmea_parse_sentence_rmc_speed d data v :
  sequence (nmea d) = NMEA_FIELD_SEQUENCE_RMC_SPEED ->
  at_ data 0 <> 0 ->
  nmea_parse_fixed data 3 = Some v ->
  speed (location (nmea_parse_sentence d data))
  = s32 (u32 (v * 1852 + 1800) / 3600)
  /\ (v * 1852 + 1800 < 4294967296 ->
      speed (location (nmea_parse_sentence d data))
      = (v * 1852 + 1800) / 3600).
Proof.
  intros Hseq Hz Hf.
  assert (E : speed (location (nmea_parse_sentence d data))
              = s32 (u32 (v * 1852 + 1800) / 3600)).
  { unfold nmea_parse_sentence. rewrite Hseq. cbv beta iota zeta.
    unfold nmea_parse_optional.
    destruct (Z.eqb_spec (at_ data 0) 0) as [|_]; [contradiction|].
    rewrite Hf. reflexivity. }
  split; [exact E|]. intros Hb. rewrite E.
  pose proof (nmea_parse_fixed_range _ _ _ Hf) as Hv.
  rewrite u32_small by lia. apply s32_small.
  split; [apply Z.div_pos; lia | apply Z.div_lt_upper_bound; lia].
Qed.

(** ** NAV-SVINFO records *)

(** The remapping of the on-wire satellite id, range by range: GPS and
    GLONASS keep their id, SBAS 120..151 moves down to 33..64, BeiDou
    33..64 and 159..163 move up to 206..237 and 201..205, any other id
    is dropped. *)
Lemma ubx_svid_remap_cases svid :
  (ubx_svid_remap svid = 0)
  \/ (1 <= svid <= 32 /\ ubx_svid_remap svid = svid)
  \/ (33 <= svid <= 64 /\ ubx_svid_remap svid = svid + 173)
  \/ (65 <= svid <= 96 /\ ubx_svid_remap svid = svid)
  \/ (120 <= svid <= 151 /\ ubx_svid_remap svid = svid - 87)
  \/ (152 <= svid <= 158 /\ ubx_svid_remap svid = svid)
  \/ (159 <= svid <= 163 /\ ubx_svid_remap svid = svid + 42)
  \/ (193 <= svid <= 200 /\ ubx_svid_remap svid = svid)
  \/ (svid = 255 /\ ubx_svid_remap svid = 255).
Proof.
  unfold ubx_svid_remap.
  repeat (match goal with
          | |- context [if (?a <=? ?b) && _ then _ else _] =>
              destruct (Z.leb_spec a b); cbn [andb]
          | |- context [if (?a <=? ?b) then _ else _] =>
              destruct (Z.leb_spec a b)
          | |- context [if ?a =? ?b then _ else _] =>
              destruct (Z.eqb_spec a b)
          end; try lia).
Qed.

Lemma ubx_svid_remap_ok svid :
  ubx_svid_remap svid <> 0 -> ubx_prn_ok (ubx_svid_remap svid) = true.
Proof.
  intros H. unfold ubx_prn_ok.
  destruct (ubx_svid_remap_cases svid)
    as [E|[[R E]|[[R E]|[[R E]|[[R E]|[[R E]|[[R E]|[[R E]|[R E]]]]]]]]];
    [congruence|..]; rewrite E;
    repeat rewrite orb_true_iff; repeat rewrite andb_true_iff;
    repeat rewrite Z.leb_le; rewrite ?Z.eqb_eq; lia.
Qed.

Lemma ubx_svid_remap_byte svid : 0 <= ubx_svid_remap svid < 256.
Proof.
  destruct (ubx_svid_remap_cases svid)
    as [E|[[R E]|[[R E]|[[R E]|[[R E]|[[R E]|[[R E]|[[R E]|[R E]]]]]]]]];
    rewrite E; lia.
Qed.

Lemma ubx_svid_remap_dropped svid :
  svid < 1 \/ 96 < svid < 120 \/ 163 < svid < 193 \/ 200 < svid < 255
  \/ 255 < svid ->
  ubx_svid_remap svid = 0.
Proof.
  intros H.
  destruct (ubx_svid_remap_cases svid)
    as [E|[[R E]|[[R E]|[[R E]|[[R E]|[[R E]|[[R E]|[[R E]|[R E]]]]]]]]];
    [exact E|lia..].
Qed.

Lemma land_15_range q : 0 <= Z.land q 15 < 16.
Proof.
  change 15 with (Z.ones 4). rewrite Z.land_ones by lia.
  apply Z.mod_pos_bound. reflexivity.
Qed.

Lemma ubx_svinfo_quality_tracking q :
  ubx_svinfo_quality q
  = if (2 <=? Z.land q 0x0f) && (Z.land q 0x0f <=? 7)
    then GNSS_SATELLITES_STATE_TRACKING else GNSS_SATELLITES_STATE_SEARCHING.
Proof.
  unfold ubx_svinfo_quality. pose proof (land_15_range q) as H.
  destruct (Z.land q 15) as [|p|p]; [reflexivity| |lia].
  do 4 (destruct p as [p|p|]; try reflexivity; try lia).
Qed.

(** The entry written for one record. *)
Lemma ubx_svinfo_entry_spec data svid e :
  0 <= svid < 256 ->
  let e' := ubx_svinfo_entry data svid e in
  prn e' = svid
  /\ snr e' = at_ data 12
  /\ elevation e'
     = (if 0 <? s8 (at_ data 13) then s8 (at_ data 13) else 0)
  /\ azimuth e'
     = (if 0 <? s8 (at_ data 13)
        then u16 (s16 (Z.lor (at_ data 14) (Z.shiftl (at_ data 15) 8)))
        else 0)
  /\ test_mask (sat_state e') GNSS_SATELLITES_STATE_TRACKING
     = ubx_tracking data
  /\ test_mask (sat_state e') GNSS_SATELLITES_STATE_SEARCHING
     = negb (ubx_tracking data)
  /\ test_mask (sat_state e') GNSS_SATELLITES_STATE_NAVIGATING
     = ubx_tracking data && test_mask (at_ data 10) 0x01
  /\ test_mask (sat_state e') GNSS_SATELLITES_STATE_CORRECTION
     = ubx_tracking data && test_mask (at_ data 10) 0x02.
Proof.
  intros Hs. cbv zeta.
  unfold ubx_svinfo_entry, ubx_data_int8, ubx_data_int16, ubx_data_uint16,
    ubx_tracking. unfold ubx_data_uint8.
  rewrite ubx_svinfo_quality_tracking. cbv zeta.
  assert (Hu : u8 svid = svid) by (unfold u8; apply Z.mod_small; lia).
  assert (He : 0 < s8 (at_ data 13) -> u8 (s8 (at_ data 13)) = s8 (at_ data 13)).
  { intros Hp. unfold s8 in *. pose proof (Z.mod_pos_bound (at_ data 13) 256).
    unfold u8 at 1. apply Z.mod_small.
    destruct (u8 (at_ data 13) <? 128) eqn:E; unfold u8 in *;
      [apply Z.ltb_lt in E|apply Z.ltb_ge in E]; lia. }
  destruct (0 <? s8 (at_ data 13)) eqn:Eel;
    [rewrite He by (apply Z.ltb_lt; exact Eel)|];
  destruct ((2 <=? Z.land (at_ data 11) 15) && (Z.land (at_ data 11) 15 <=? 7));
  destruct (test_mask (at_ data 10) 1); destruct (test_mask (at_ data 10) 2);
  record_cbn; rewrite ?Hu; repeat split; reflexivity.
Qed.

Lemma ubx_parse_message_satellites d data cnt :
  let svid := ubx_svid_remap (at_ data 9) in
  let n := count (satellites d) in
  let d' := ubx_parse_message 0x0130 data cnt d in
  (svid <> 0 -> n < GNSS_SATELLITES_COUNT_MAX ->
   count (satellites d') = u32 (n + 1)
   /\ info (satellites d')
      = match info (satellites d) !! Z.to_nat n with
        | Some e => <[Z.to_nat n := ubx_svinfo_entry data svid e]>
                      (info (satellites d))
        | None => info (satellites d)
        end)
  /\ (svid = 0 \/ GNSS_SATELLITES_COUNT_MAX <= n ->
      satellites d' = satellites d).
Proof.
  cbv zeta. unfold ubx_parse_message, upd_info, ubx_data_uint8.
  change (304 =? 304) with true. cbv iota zeta.
  destruct (Z.eqb_spec (ubx_svid_remap (at_ data 9)) 0) as [Hz|Hz];
    destruct (Z.ltb_spec (count (satellites d)) GNSS_SATELLITES_COUNT_MAX)
      as [Hn|Hn]; cbn [negb andb].
  - split; [congruence | reflexivity].
  - split; [congruence | reflexivity].
  - split; [|intros [?|?]; [congruence|lia]]. intros _ _.
    destruct (info (satellites d) !! Z.to_nat (count (satellites d)));
      split; reflexivity.
  - split; [lia | reflexivity].
Qed.

(** A record leaves the table well-formed. *)
Lemma ubx_parse_message_table_ok message' data cnt d :
  ubx_table_ok (satellites d) ->
  ubx_table_ok (satellites (ubx_parse_message message' data cnt d)).
Proof.
  intros [[H0 H32] Hall]. unfold ubx_parse_message, ubx_data_uint8.
  destruct (message' =? 304) eqn:Em; [|split; [split|]; assumption].
  cbv zeta.
  set (svid := ubx_svid_remap (at_ data 9)).
  set (n := count (satellites d)) in *.
  destruct (Z.eqb_spec svid 0) as [Hz|Hz]; cbn [negb andb];
    [split; [split|]; assumption|].
  unfold GNSS_SATELLITES_COUNT_MAX in *.
  destruct (Z.ltb_spec n 32) as [Hn|Hn]; [|split; [split|]; assumption].
  unfold upd_info. fold n. unfold ubx_table_ok, listed.
  destruct (info (satellites d) !! Z.to_nat n) as [e|] eqn:El; record_cbn;
    rewrite (u32_small (n + 1)) by lia;
    (split; [unfold GNSS_SATELLITES_COUNT_MAX; lia|]);
    replace (Z.to_nat (n + 1)) with (S (Z.to_nat n)) by lia.
  - rewrite (take_S_r _ _ (ubx_svinfo_entry data svid e)).
    + rewrite take_insert_ge by lia. apply Forall_app. split; [exact Hall|].
      constructor; [|constructor].
      destruct (ubx_svinfo_entry_spec data svid e) as [Hp _].
      { apply ubx_svid_remap_byte. }
      cbv zeta in Hp. rewrite Hp. now apply ubx_svid_remap_ok.
    + apply list_lookup_insert_eq. apply lookup_lt_is_Some. eauto.
  - apply lookup_ge_None in El. rewrite take_ge by lia.
    unfold listed in Hall. rewrite take_ge in Hall by lia. exact Hall.
Qed.
Lemma ubx_svid_remap_ranges svid :
  (1 <= svid <= 32 \/ 65 <= svid <= 96 \/ 152 <= svid <= 158
   \/ 193 <= svid <= 200 \/ svid = 255 -> ubx_svid_remap svid = svid)
  /\ (120 <= svid <= 151 -> ubx_svid_remap svid = svid - 87)
  /\ (33 <= svid <= 64 -> ubx_svid_remap svid = svid + 173)
  /\ (159 <= svid <= 163 -> ubx_svid_remap svid = svid + 42).
Proof.
  unfold ubx_svid_remap.
  repeat (match goal with
          | |- context [if (?a <=? ?b) && _ then _ else _] =>
              destruct (Z.leb_spec a b); cbn [andb]
          | |- context [if (?a <=? ?b) then _ else _] =>
              destruct (Z.leb_spec a b)
          | |- context [if ?a =? ?b then _ else _] =>
              destruct (Z.eqb_spec a b)
          end; try lia).
Qed.

(** ** Callbacks *)

(** *** Every published snapshot is capped *)

Lemma trace_all_ret Q d : trace_all Q (ret d).
Proof. reflexivity. Qed.

Lemma trace_all_emit Q e d : Q e = true -> trace_all Q (emit e d).
Proof. intros H. unfold trace_all, emit. simpl. now rewrite H. Qed.

Lemma trace_all_bind Q r k :
  trace_all Q r -> (forall d, trace_all Q (k d)) -> trace_all Q (r >>= k).
Proof.
  unfold trace_all. intros H1 H2. rewrite bind_snd, forallb_app, H1.
  apply H2.
Qed.

(** The marking loop records accesses behind the table only. *)
Lemma forallb_overrun (Q : event -> bool) l :
  (forall n, Q (Info_overrun n) = true) ->
  forallb Q (map Info_overrun l) = true.
Proof.
  intros H. induction l as [|n l IH]; [reflexivity|].
  cbn [map forallb]. now rewrite H, IH.
Qed.

Lemma trace_all_mark Q d :
  (forall n, Q (Info_overrun n) = true) ->
  trace_all Q (nmea_mark_navigating d).
Proof. intros H. apply forallb_overrun, H. Qed.

Lemma gnss_satellites_capped d : trace_all snapshot_capped (gnss_satellites d).
Proof.
  unfold trace_all, gnss_satellites. cbv zeta.
  destruct (Z.ltb_spec GNSS_SATELLITES_COUNT_MAX (count (satellites d)));
    match goal with |- context [if ?b then _ else _] => destruct b end;
    cbn [snd forallb snapshot_capped andb]; try reflexivity;
    rewrite andb_true_r; apply Z.leb_le; record_cbn; lia.
Qed.

Ltac trace_all_step :=
  first
    [ apply trace_all_ret
    | apply gnss_satellites_capped
    | apply trace_all_emit; reflexivity
    | apply trace_all_mark; intros ?; reflexivity
    | apply trace_all_bind; [|intros ?]
    | match goal with
      | H : forall d, trace_all _ (?f d) |- trace_all _ (?f _) => apply H
      | |- trace_all _ (match ?x with _ => _ end) => destruct x
      | |- trace_all _ (if ?x then _ else _) => destruct x
      | |- trace_all _ (let '(_, _) := ?x in _) => destruct x
      end ].

Lemma gnss_location_capped d : trace_all snapshot_capped (gnss_location d).
Proof.
  unfold trace_all, gnss_location. cbv zeta. cbn [snd].
  destruct (location_callback d); reflexivity.
Qed.

Lemma mtk_configure_capped response command' d :
  trace_all snapshot_capped (mtk_configure response command' d).
Proof. unfold mtk_configure, mtk_send. repeat trace_all_step. Qed.

Lemma ubx_configure_capped response command' d :
  trace_all snapshot_capped (ubx_configure response command' d).
Proof.
  unfold ubx_configure, ubx_send_timed, ubx_send.
  repeat trace_all_step.
Qed.

Lemma nmea_end_sentence_capped d :
  trace_all snapshot_capped (nmea_end_sentence d).
Proof.
  unfold nmea_end_sentence, nmea_end_sequence, nmea_publish_location,
    nmea_publish_satellites.
  repeat first [ apply mtk_configure_capped | apply gnss_location_capped
               | trace_all_step ].
Qed.

Lemma ubx_end_message_capped m data cnt d :
  trace_all snapshot_capped (ubx_end_message m data cnt d).
Proof.
  unfold ubx_end_message, ubx_ack_message, ubx_publish_location,
    ubx_publish_satellites.
  repeat first [ apply ubx_configure_capped | apply gnss_location_capped
               | trace_all_step ].
Qed.

Lemma gnss_receive_byte_capped d c :
  trace_all snapshot_capped (gnss_receive_byte d c).
Proof.
  unfold gnss_receive_byte, nmea_init_response, ubx_init_response, rx_store.
  repeat first [ apply mtk_configure_capped | apply ubx_configure_capped
               | apply nmea_end_sentence_capped
               | apply ubx_end_message_capped
               | trace_all_step ].
Qed.

(** Whatever the stream, a snapshot handed to the satellites callback
    lists at most 32 satellites. *)
Lemma gnss_receive_capped data : forall d,
  trace_all snapshot_capped (gnss_receive d data).
Proof.
  induction data as [|c rest IH]; intros d; [reflexivity|].
  rewrite gnss_receive_cons. apply trace_all_bind;
    [apply gnss_receive_byte_capped | exact IH].
Qed.

(** *** The SOLUTION interlock *)

Lemma calm_refl d : calm d d.
Proof. split; auto. Qed.

Lemma calm_trans d1 d2 d3 : calm d1 d2 -> calm d2 d3 -> calm d1 d3.
Proof. intros [H1 H2] [H3 H4]. split; [congruence | auto]. Qed.

Lemma calm_quiet d d' : quiet d d' -> calm d d'.
Proof.
  intros [H1 H2]. split; [|exact H2].
  unfold frame_of in H1. congruence.
Qed.

Lemma calm_seen_or m d :
  Z.land m NMEA_SENTENCE_MASK_SOLUTION = 0 -> calm d (seen_or m d).
Proof.
  intros Hm. split; [reflexivity|].
  unfold solution, seen_or. record_cbn. intros H.
  rewrite <- H. symmetry. apply test_mask_lor_other. exact Hm.
Qed.

Lemma calm_seen_zero d : calm d (set_seen 0 d).
Proof. apply calm_quiet, quiet_seen_zero. Qed.

Lemma calm_seen_clear m d : calm d (seen_clear m d).
Proof. apply calm_quiet, quiet_seen_clear. Qed.

Lemma calm_upd_info n f d : calm d (upd_info n f d).
Proof. apply calm_quiet, quiet_upd_info. Qed.

Ltac calm_step :=
  match goal with
  | |- calm ?d ?d => apply calm_refl
  | |- calm _ (nmea_parse_sentence ?d _) =>
      apply (calm_trans _ d);
      [|apply calm_quiet, quiet_nmea_parse_sentence]
  | |- calm _ (nmea_start_sentence ?d) =>
      apply (calm_trans _ d);
      [|apply calm_quiet, quiet_nmea_start_sentence]
  | |- calm _ (seen_clear _ ?d) =>
      apply (calm_trans _ d); [|apply calm_seen_clear]
  | |- calm _ (seen_or _ ?d) =>
      apply (calm_trans _ d); [|apply calm_seen_or; reflexivity]
  | |- calm _ (set_seen 0 ?d) =>
      apply (calm_trans _ d); [|apply calm_seen_zero]
  | |- calm _ (upd_info _ _ ?d) =>
      apply (calm_trans _ d); [|apply calm_upd_info]
  | H : forall d, calm d (?f d) |- calm _ (?f ?d) =>
      apply (calm_trans _ d); [|apply H]
  | |- calm _ (if ?b then _ else _) => destruct b
  | |- calm _ (match ?x with _ => _ end) => destruct x
  | |- calm _ (let '(_, _) := ?x in _) => destruct x
  | |- calm _ (?f ?d) =>
      apply (calm_trans _ d);
      [|solve [split; [reflexivity | exact (fun H => H)]]]
  end.

Lemma calm_propagate_mask field bit d : calm d (propagate_mask field bit d).
Proof. unfold propagate_mask, location_mask_or. repeat calm_step. Qed.

Lemma calm_ubx_start_message m l d : calm d (ubx_start_message m l d).
Proof. unfold ubx_start_message. cbv zeta. repeat calm_step. Qed.

Lemma calm_ubx_parse_message m data cnt d :
  calm d (ubx_parse_message m data cnt d).
Proof. unfold ubx_parse_message. cbv zeta. repeat calm_step. Qed.

Lemma calm_ubx_nav_timegps data d : calm d (ubx_nav_timegps data d).
Proof. unfold ubx_nav_timegps. cbv zeta. repeat calm_step. Qed.

Lemma calm_ubx_nav_message m data d : calm d (ubx_nav_message m data d).
Proof.
  unfold ubx_nav_message, location_mask_or. cbv zeta.
  repeat first
    [ match goal with
      | |- calm _ (ubx_nav_timegps _ ?d) =>
          apply (calm_trans _ d); [|apply calm_ubx_nav_timegps]
      end
    | calm_step ].
Qed.

Ltac calm_tac :=
  repeat first
    [ match goal with
      | |- calm _ (propagate_mask _ _ ?d) =>
          apply (calm_trans _ d); [|apply calm_propagate_mask]
      | |- calm _ (ubx_start_message _ _ ?d) =>
          apply (calm_trans _ d); [|apply calm_ubx_start_message]
      | |- calm _ (ubx_parse_message _ _ _ ?d) =>
          apply (calm_trans _ d); [|apply calm_ubx_parse_message]
      | |- calm _ (ubx_nav_message _ _ ?d) =>
          apply (calm_trans _ d); [|apply calm_ubx_nav_message]
      end
    | calm_step ].

Lemma sat_after_loc_app t1 : forall b t2,
  sat_after_loc b (t1 ++ t2)
  = sat_after_loc b t1 && sat_after_loc (b || existsb is_location t1) t2.
Proof.
  induction t1 as [|e t1 IH]; intros b t2.
  - simpl. now rewrite orb_false_r.
  - destruct e; simpl; rewrite IH; simpl; try reflexivity.
    + now rewrite orb_true_r.
    + now rewrite andb_assoc.
Qed.

Lemma sat_after_loc_no_callback t b :
  no_callback t = true -> sat_after_loc b t = true.
Proof.
  unfold no_callback. induction t as [|e t IH]; [reflexivity|].
  destruct e; simpl; auto; discriminate.
Qed.

Lemma interlocked_quiet d d' t :
  calm d d' -> no_callback t = true -> interlocked d (d', t).
Proof.
  intros [Hc Hs] Ht Hd. cbn [fst snd]. split; [congruence|].
  intros b Hb. split; [now apply sat_after_loc_no_callback|].
  intros H. rewrite (Hb (Hs H)). reflexivity.
Qed.

Lemma interlocked_ret d d' : calm d d' -> interlocked d (ret d').
Proof. intros H. now apply interlocked_quiet. Qed.

Lemma interlocked_emit e d0 d :
  calm d0 d -> is_callback e = false -> interlocked d0 (emit e d).
Proof.
  intros Hc H. apply interlocked_quiet; [exact Hc|].
  unfold no_callback. simpl. now rewrite H.
Qed.

Lemma interlocked_bind d r k :
  interlocked d r -> (forall d1, interlocked d1 (k d1)) ->
  interlocked d (r >>= k).
Proof.
  intros H1 H2 Hd. destruct (H1 Hd) as [Hc1 Hb1].
  destruct (H2 (fst r) Hc1) as [Hc2 Hb2].
  rewrite bind_fst, bind_snd. split; [exact Hc2|].
  intros b Hb. destruct (Hb1 b Hb) as [Hs1 Hl1].
  destruct (Hb2 (b || existsb is_location (snd r)) Hl1) as [Hs2 Hl2].
  rewrite sat_after_loc_app, Hs1, Hs2. split; [reflexivity|].
  intros H. rewrite existsb_app, orb_assoc. exact (Hl2 H).
Qed.

Lemma interlocked_calm d0 d r :
  calm d0 d -> interlocked d r -> interlocked d0 r.
Proof.
  intros [Hc Hs] H Hd. rewrite <- Hc in Hd. destruct (H Hd) as [H1 H2].
  split; [exact H1|]. intros b Hb. apply H2. auto.
Qed.

(** The location is handed over, then the SOLUTION bit may be set. *)
Lemma interlocked_location d0 d k :
  location_callback d = location_callback d0 ->
  (forall d1, location_callback (k d1) = location_callback d1) ->
  interlocked d0 (gnss_location d >>= fun d1 => ret (k d1)).
Proof.
  intros Hc Hk Hd. unfold gnss_location. cbv zeta.
  rewrite bind_fst, bind_snd. cbn [fst snd ret]. rewrite Hc, Hd, Hk.
  split; [record_cbn; congruence|]. intros b _. simpl.
  split; [reflexivity|]. intros _. apply orb_true_r.
Qed.

(** The satellites are handed over under the SOLUTION bit only. *)
Lemma interlocked_satellites d0 d k :
  solution d0 = true ->
  location_callback d = location_callback d0 ->
  (forall d1, calm d1 (k d1)) ->
  interlocked d0 (gnss_satellites d >>= fun d1 => ret (k d1)).
Proof.
  intros Hs Hc Hk Hd. rewrite bind_fst, bind_snd. cbn [fst snd ret].
  rewrite app_nil_r. split.
  - rewrite (proj1 (Hk _)). unfold gnss_satellites. cbv zeta. cbn [fst].
    destruct (_ <? _); cbn; congruence.
  - intros b Hb. rewrite (Hb Hs). split; [|reflexivity].
    unfold gnss_satellites. cbv zeta. cbn [snd].
    destruct (satellites_callback _); reflexivity.
Qed.

Ltac interlock_step :=
  first
    [ match goal with
      | |- interlocked _ (if ?b then _ else _) => destruct b
      | |- interlocked _ (match ?x with _ => _ end) => destruct x
      | |- interlocked _ (let '(_, _) := ?x in _) => destruct x
      end
    | apply interlocked_bind; [|intros ?]
    | apply interlocked_ret; solve [calm_tac]
    | apply interlocked_emit; [solve [calm_tac] | reflexivity]
    | progress cbv zeta ].

Lemma mtk_configure_interlocked response command' d :
  interlocked d (mtk_configure response command' d).
Proof. unfold mtk_configure, mtk_send. repeat interlock_step. Qed.

Lemma ubx_configure_interlocked response command' d :
  interlocked d (ubx_configure response command' d).
Proof.
  unfold ubx_configure, ubx_send_timed, ubx_send. repeat interlock_step.
Qed.

Lemma rx_store_interlocked index value d :
  interlocked d (rx_store index value d).
Proof.
  unfold rx_store. apply (interlocked_quiet d); [calm_tac | reflexivity].
Qed.

Lemma nmea_end_sequence_interlocked d : interlocked d (nmea_end_sequence d).
Proof.
  unfold nmea_end_sequence.
  repeat first
    [ match goal with
      | |- interlocked ?d0 (mtk_configure _ _ ?d) =>
          apply (interlocked_calm d0 d);
          [solve [calm_tac] | apply mtk_configure_interlocked]
      end
    | interlock_step ].
Qed.

Lemma nmea_publish_location_interlocked d :
  interlocked d (nmea_publish_location d).
Proof.
  unfold nmea_publish_location. cbv zeta.
  destruct (_ =? _); [|apply interlocked_ret, calm_refl].
  apply interlocked_location; [|reflexivity].
  destruct (_ && _); reflexivity.
Qed.

Lemma overrun_no_location l : existsb is_location (map Info_overrun l) = false.
Proof. induction l as [|n l IH]; [reflexivity | exact IH]. Qed.

(** The marking loop calls nothing. *)
Lemma interlocked_mark d0 d k :
  interlocked d0 (k (upd_satellites (mark_navigating (nmea d)) d)) ->
  interlocked d0 (nmea_mark_navigating d >>= k).
Proof.
  intros H Hd. destruct (H Hd) as [H1 H2].
  rewrite nmea_mark_navigating_bind. cbn [fst snd].
  split; [exact H1|]. intros b Hb. destruct (H2 b Hb) as [H3 H4].
  rewrite sat_after_loc_app, overrun_no_location, orb_false_r, H3.
  rewrite sat_after_loc_no_callback by apply overrun_no_callback.
  split; [reflexivity|]. intros Hs.
  rewrite existsb_app, overrun_no_location. exact (H4 Hs).
Qed.

Lemma nmea_publish_satellites_interlocked d :
  interlocked d (nmea_publish_satellites d).
Proof.
  unfold nmea_publish_satellites. cbv zeta.
  destruct (test_mask _ _ && _) eqn:E; [|apply interlocked_ret, calm_refl].
  apply andb_true_iff in E. destruct E as [E _].
  rewrite bind_assoc. apply interlocked_mark.
  apply interlocked_satellites; [exact E | reflexivity |].
  intros d1. apply calm_seen_clear.
Qed.

Lemma nmea_end_sentence_interlocked d : interlocked d (nmea_end_sentence d).
Proof.
  unfold nmea_end_sentence.
  apply interlocked_bind; [apply interlocked_bind|].
  - apply interlocked_emit; [apply calm_refl | reflexivity].
  - apply nmea_end_sequence_interlocked.
  - intros d1. cbv zeta. destruct (_ =? _).
    + apply interlocked_bind.
      * apply (interlocked_calm _ (upd_nmea (set_sequence 0) d1));
          [calm_tac | apply nmea_publish_location_interlocked].
      * apply nmea_publish_satellites_interlocked.
    + apply interlocked_ret. calm_tac.
Qed.

Lemma ubx_publish_location_interlocked d :
  interlocked d (ubx_publish_location d).
Proof.
  unfold ubx_publish_location, location_mask_or. cbv zeta.
  destruct (_ =? _); [|apply interlocked_ret, calm_refl].
  apply interlocked_location; [|reflexivity].
  destruct (_ && _); [destruct (negb _)|]; reflexivity.
Qed.

Lemma ubx_publish_satellites_interlocked d :
  interlocked d (ubx_publish_satellites d).
Proof.
  unfold ubx_publish_satellites. cbv zeta.
  destruct (test_mask _ _ && _) eqn:E; [|apply interlocked_ret, calm_refl].
  apply andb_true_iff in E. destruct E as [E _].
  apply interlocked_satellites; [exact E | reflexivity |].
  intros d1. apply calm_seen_clear.
Qed.

Lemma ubx_ack_message_interlocked response data d :
  interlocked d (ubx_ack_message response data d).
Proof.
  unfold ubx_ack_message. cbv zeta.
  destruct (_ =? _); [|apply interlocked_ret, calm_refl].
  apply (interlocked_calm _ (set_command 0xffffffff d));
    [calm_tac | apply ubx_configure_interlocked].
Qed.

Lemma ubx_end_message_interlocked m data cnt d :
  interlocked d (ubx_end_message m data cnt d).
Proof.
  unfold ubx_end_message.
  apply interlocked_bind;
    [apply interlocked_emit; [apply calm_refl | reflexivity]|].
  intros d1. apply interlocked_bind.
  - repeat first [ apply ubx_ack_message_interlocked | interlock_step ].
  - intros d2. destruct (_ =? _); [|apply interlocked_ret, calm_refl].
    apply interlocked_bind;
      [apply ubx_publish_location_interlocked
      |apply ubx_publish_satellites_interlocked].
Qed.

Lemma nmea_init_response_interlocked d : interlocked d (nmea_init_response d).
Proof.
  unfold nmea_init_response.
  repeat first [ apply mtk_configure_interlocked
               | apply ubx_configure_interlocked | interlock_step ].
Qed.

Lemma ubx_init_response_interlocked d : interlocked d (ubx_init_response d).
Proof.
  unfold ubx_init_response.
  repeat first [ apply ubx_configure_interlocked | interlock_step ].
Qed.

Lemma gnss_receive_byte_interlocked d c :
  interlocked d (gnss_receive_byte d c).
Proof.
  unfold gnss_receive_byte. cbv zeta.
  repeat first
    [ apply nmea_init_response_interlocked
    | apply ubx_init_response_interlocked
    | apply nmea_end_sentence_interlocked
    | apply ubx_end_message_interlocked
    | match goal with
      | |- interlocked ?d0 (rx_store _ _ ?d) =>
          apply (interlocked_calm d0 d);
          [solve [calm_tac] | apply rx_store_interlocked]
      | |- interlocked ?d0 (ubx_init_response ?d) =>
          apply (interlocked_calm d0 d);
          [solve [calm_tac] | apply ubx_init_response_interlocked]
      end
    | interlock_step ].
Qed.

Lemma gnss_receive_interlocked data : forall d,
  interlocked d (gnss_receive d data).
Proof.
  induction data as [|c rest IH]; intros d.
  - apply interlocked_ret, calm_refl.
  - rewrite gnss_receive_cons. apply interlocked_bind;
      [apply gnss_receive_byte_interlocked | exact IH].
Qed.

(** *** Where the SOLUTION bit is cleared *)

Lemma solution_seen_clear d :
  solution (seen_clear NMEA_SENTENCE_MASK_SOLUTION d) = false.
Proof.
  unfold solution, seen_clear, test_mask, clear_mask. record_cbn.
  rewrite <- Z.land_assoc, (Z.land_comm (Z.lnot _)), Z.land_lnot_diag.
  rewrite Z.land_0_r. reflexivity.
Qed.

(** The end of a GGA, GST or RMC sentence clears the bit. *)
Lemma nmea_end_sequence_clears d :
  In (sequence (nmea d))
     [NMEA_FIELD_SEQUENCE_GGA_END; NMEA_FIELD_SEQUENCE_GST_END;
      NMEA_FIELD_SEQUENCE_RMC_END] ->
  solution (fst (nmea_end_sequence d)) = false.
Proof.
  intros H. unfold nmea_end_sequence. cbv zeta.
  destruct H as [H|[H|[H|[]]]]; rewrite <- H; cbn [fst ret];
    apply solution_seen_clear.
Qed.

(** So does a NAV-PVT or a NAV-TIMEGPS message, and any navigation
    message with a time of week other than the one of the cycle. *)
Lemma ubx_nav_message_clears m data d :
  In (Z.land m 0xff) [0x07; 0x20]
  \/ (test_mask (seen d) UBX_NAV_MESSAGES = true
      /\ itow (ubx d) <> ubx_data_uint32 data 0) ->
  solution (ubx_nav_message m data d) = false.
Proof.
  intros H. unfold ubx_nav_message. cbv zeta.
  destruct H as [[H|[H|[]]]|[H1 H2]].
  - rewrite <- H. apply solution_seen_clear.
  - rewrite <- H. apply solution_seen_clear.
  - rewrite H1. apply Z.eqb_neq in H2. rewrite H2. cbn [negb andb].
    destruct (Z.land m 255) as [|p|p]; try reflexivity.
    repeat (destruct p as [p|p|]; try reflexivity);
      try apply solution_seen_clear.
Qed.

(** Clearing a set of bits that holds the SOLUTION bit clears it. *)
Lemma solution_seen_clear_mask m d :
  Z.land m NMEA_SENTENCE_MASK_SOLUTION = NMEA_SENTENCE_MASK_SOLUTION ->
  solution (seen_clear m d) = false.
Proof.
  intros Hm. unfold solution, seen_clear, test_mask, clear_mask. record_cbn.
  apply negb_false_iff, Z.eqb_eq. apply Z.bits_inj'. intros n Hn.
  apply (f_equal (fun v => Z.testbit v n)) in Hm.
  rewrite Z.land_spec in Hm.
  rewrite !Z.land_spec, Z.lnot_spec, Z.bits_0 by exact Hn.
  destruct (Z.testbit NMEA_SENTENCE_MASK_SOLUTION n);
    [|apply andb_false_r].
  rewrite andb_true_r in Hm. rewrite Hm. cbn [negb].
  rewrite andb_false_r. reflexivity.
Qed.

(** The first field of a GGA, GST or RMC sentence clears the bit. *)
Lemma nmea_parse_start_clears d talker id :
  In talker [chr "P"; chr "L"; chr "N"] -> In id ["GGA"; "GST"; "RMC"] ->
  solution (fst (nmea_parse_start d (chr "G" :: talker :: bytes id))) = false.
Proof.
  intros Ht Hi.
  destruct Ht as [<-|[<-|[<-|[]]]]; destruct Hi as [<-|[<-|[<-|[]]]];
    unfold nmea_parse_start;
    match goal with
    | |- context [seen_clear ?m ?e] =>
        change (solution (seen_clear m e) = false)
    end;
    apply solution_seen_clear_mask; reflexivity.
Qed.

(** *** The table of a NAV-SVINFO frame *)

Lemma keeps_ret d : ubx_table_ok (satellites d) -> keeps_table (ret d).
Proof. intros H. split; [exact H | constructor]. Qed.

Lemma keeps_emit e d :
  table_event e -> ubx_table_ok (satellites d) -> keeps_table (emit e d).
Proof.
  intros He H. split; [exact H | constructor; [exact He | constructor]].
Qed.

Lemma keeps_bind r k :
  keeps_table r ->
  (forall d, ubx_table_ok (satellites d) -> keeps_table (k d)) ->
  keeps_table (r >>= k).
Proof.
  intros [H1 H2] Hk. destruct (Hk _ H1) as [H3 H4].
  split; [now rewrite bind_fst|].
  rewrite bind_snd. apply Forall_app. now split.
Qed.

Lemma gnss_satellites_keeps d :
  ubx_table_ok (satellites d) -> keeps_table (gnss_satellites d).
Proof.
  intros H. pose proof H as [[_ H32] _]. unfold gnss_satellites.
  replace (GNSS_SATELLITES_COUNT_MAX <? count (satellites d)) with false
    by (symmetry; apply Z.ltb_ge; exact H32).
  cbv zeta. split; [exact H|]. cbn [snd].
  destruct (satellites_callback d); constructor; [exact H | constructor].
Qed.

Lemma gnss_location_keeps d :
  ubx_table_ok (satellites d) -> keeps_table (gnss_location d).
Proof.
  intros H. unfold gnss_location. cbv zeta. split; [exact H|]. cbn [snd].
  destruct (location_callback d); repeat constructor.
Qed.

Lemma satellites_ubx_nav_message m data d :
  satellites (ubx_nav_message m data d) = satellites d.
Proof.
  unfold ubx_nav_message, ubx_nav_timegps, location_mask_or. cbv zeta.
  repeat match goal with
         | |- context [if ?b then _ else _] => destruct b
         | |- context [match ?x with _ => _ end] => destruct x
         end; reflexivity.
Qed.

(** The table of [X] is the one of a device known to be fine. *)
Ltac same_table :=
  match goal with
  | H : ubx_table_ok (satellites ?d) |- ubx_table_ok (satellites ?X) =>
      replace (satellites X) with (satellites d); [exact H|];
      rewrite ?satellites_ubx_nav_message;
      repeat match goal with
             | |- context [if ?b then _ else _] => destruct b
             | |- context [match ?x with _ => _ end] => destruct x
             end; reflexivity
  end.

Ltac keeps_step :=
  first
    [ match goal with
      | |- keeps_table (if ?b then _ else _) => destruct b
      | |- keeps_table (match ?x with _ => _ end) => destruct x
      | |- keeps_table (let '(_, _) := ?x in _) => destruct x
      end
    | apply keeps_bind; [|intros ? ?]
    | apply keeps_ret; solve [same_table]
    | apply keeps_emit; [exact I | solve [same_table]]
    | apply gnss_satellites_keeps; solve [same_table]
    | apply gnss_location_keeps; solve [same_table]
    | progress cbv zeta ].

Lemma ubx_configure_keeps response command' d :
  ubx_table_ok (satellites d) ->
  keeps_table (ubx_configure response command' d).
Proof.
  intros H. unfold ubx_configure, ubx_send_timed, ubx_send.
  repeat keeps_step.
Qed.

Lemma ubx_end_message_keeps m data cnt d :
  ubx_table_ok (satellites d) -> keeps_table (ubx_end_message m data cnt d).
Proof.
  intros H.
  unfold ubx_end_message, ubx_ack_message, ubx_publish_location,
    ubx_publish_satellites, location_mask_or.
  repeat first
    [ apply ubx_configure_keeps; solve [same_table] | keeps_step ].
Qed.

Lemma ubx_init_response_keeps d :
  ubx_table_ok (satellites d) -> keeps_table (ubx_init_response d).
Proof.
  intros H. unfold ubx_init_response.
  repeat first
    [ apply ubx_configure_keeps; solve [same_table] | keeps_step ].
Qed.

Lemma ubx_payload_step_table d c :
  state d = 11 -> ubx_table_ok (satellites d) ->
  ubx_table_ok (satellites (fst (gnss_receive_byte d c))).
Proof.
  intros Hs H. rewrite step_ubx_payload by assumption. cbv zeta.
  rewrite bind_fst.
  match goal with
  | |- context [fst (if ?b then ret (set_state _ ?X) else ret ?X)] =>
      assert (Hx : ubx_table_ok (satellites X));
      [|destruct b; exact Hx]
  end.
  match goal with
  | |- ubx_table_ok (satellites (if ?b then _ else ?Y)) =>
      assert (Hy : ubx_table_ok (satellites Y));
      [|destruct b; [apply ubx_parse_message_table_ok|]; exact Hy]
  end.
  unfold rx_store, emit, ret. same_table.
Qed.

(** A NAV-SVINFO frame received from the Start state: whatever the
    satellites callback gets lists at most 32 satellites with the PRNs
    that [ubx_svid_remap] produces. *)
Lemma ubx_svinfo_frame_table d payload a b :
  state d = GNSS_STATE_START -> mode d = GNSS_MODE_UBLOX ->
  Z.of_nat (length payload) < 65536 ->
  Forall table_event (snd (gnss_receive d (ubx_frame 0x01 0x30 payload a b))).
Proof.
  intros Hs Hm Hl. unfold ubx_frame. rewrite gnss_receive_app, bind_snd.
  destruct (ubx_head_run (fun d => ubx_table_ok (satellites d))
              d 0x01 0x30 payload Hs Hm eq_refl Hl)
    as (Ho & HP & Hst & _).
  { intros d1 _ _ _ _ H0. change (count (satellites d1) = 0) in H0.
    split; [rewrite H0; unfold GNSS_SATELLITES_COUNT_MAX; lia|].
    unfold listed. rewrite H0. constructor. }
  { intros d1 c. apply ubx_payload_step_table. }
  apply Forall_app. split.
  - apply List.Forall_forall. intros e He.
    pose proof (only_stores_In _ _ Ho He). destruct e; try discriminate.
    exact I.
  - set (d1 := fst (gnss_receive d (ubx_head 1 48 payload))) in *.
    destruct (ubx_trailer d1 a b Hst) as (d2 & E2 & ->).
    assert (H2 : ubx_table_ok (satellites d2)).
    { replace (satellites d2) with (satellites d1); [exact HP|].
      unfold payload_of in E2. congruence. }
    assert (K : forall r k, keeps_table r ->
                  (forall d, ubx_table_ok (satellites d) -> keeps_table (k d))
                  -> Forall table_event (snd (r >>= k))).
    { intros r k Hr Hk. exact (proj2 (keeps_bind r k Hr Hk)). }
    apply K.
    + repeat first
        [ apply ubx_init_response_keeps; assumption
        | apply ubx_end_message_keeps; assumption
        | match goal with
          | |- keeps_table (if ubx_fits ?d then _ else _) =>
              destruct (ubx_fits d)
          end
        | keeps_step ].
    + intros d3 H3. apply keeps_ret. same_table.
Qed.

(** ** The integer square root *)

Lemma land_pow2_multiple j q :
  0 <= j -> Z.land (2 ^ (j + 1) * q) (2 ^ j) = 0.
Proof.
  intros Hj. apply Z.bits_inj'. intros n Hn.
  rewrite Z.land_spec, Z.bits_0, Z.pow2_bits_eqb by lia.
  destruct (Z.eqb_spec j n) as [->|Hne]; [|apply andb_false_r].
  rewrite Z.mul_comm, Z.mul_pow2_bits_low by lia. reflexivity.
Qed.

Lemma lor_pow2_multiple j q :
  0 <= j -> Z.lor (2 ^ (j + 1) * q) (2 ^ j) = 2 ^ (j + 1) * q + 2 ^ j.
Proof.
  intros Hj. pose proof (land_pow2_multiple j q Hj) as H.
  rewrite <- (Z.lxor_lor _ _ H). symmetry. apply Z.add_nocarry_lxor. exact H.
Qed.

Lemma lxor_pow2_multiple j q :
  0 <= j -> Z.lxor (2 ^ (j + 1) * q + 2 ^ j) (2 ^ j) = 2 ^ (j + 1) * q.
Proof.
  intros Hj. pose proof (land_pow2_multiple j q Hj) as H.
  rewrite (Z.add_nocarry_lxor _ _ H), Z.lxor_assoc, Z.lxor_nilpotent.
  apply Z.lxor_0_r.
Qed.

Lemma square_u32 x : 0 <= x <= 65535 -> u32 (x * x) = x * x.
Proof.
  intros H. unfold u32. apply Z.mod_small. split; [nia|].
  assert (x * x <= 65535 * 65535) by (apply Z.mul_le_mono_nonneg; lia). lia.
Qed.

(** One bit of the root is settled per round, from bit 15 down. *)
Lemma nmea_isqrt_loop_spec (k : nat) : forall n q,
  0 <= q ->
  2 ^ (Z.of_nat k + 1) * q + 2 ^ (Z.of_nat k + 1) <= 65536 ->
  (2 ^ (Z.of_nat k + 1) * q) * (2 ^ (Z.of_nat k + 1) * q) <= n ->
  n < (2 ^ (Z.of_nat k + 1) * q + 2 ^ (Z.of_nat k + 1))
      * (2 ^ (Z.of_nat k + 1) * q + 2 ^ (Z.of_nat k + 1)) ->
  let r := nmea_isqrt_loop (S k) n (2 ^ Z.of_nat k)
             (2 ^ (Z.of_nat k + 1) * q + 2 ^ Z.of_nat k) in
  r * r <= n < (r + 1) * (r + 1).
Proof.
  induction k as [|k IH]; intros n q Hq Hb Hlo Hhi; cbv zeta.
  - change (Z.of_nat 0) with 0 in *. change (2 ^ (0 + 1)) with 2 in *.
    change (2 ^ 0) with 1 in *. cbn [nmea_isqrt_loop]. cbv zeta.
    change (Z.shiftr 1 1 =? 0) with true. cbv iota.
    assert (Hg : u32 ((2 * q + 1) * (2 * q + 1)) = (2 * q + 1) * (2 * q + 1)).
    { apply square_u32. lia. }
    rewrite Hg. destruct (Z.ltb_spec n ((2 * q + 1) * (2 * q + 1))).
    + assert (E : Z.lxor (2 * q + 1) 1 = 2 * q)
        by exact (lxor_pow2_multiple 0 q (Z.le_refl 0)).
      rewrite E. lia.
    + lia.
  - set (j := Z.of_nat (S k)) in *.
    assert (Hj : j = Z.of_nat k + 1) by (unfold j; lia).
    assert (Hp : 2 ^ (j + 1) = 2 * 2 ^ j) by (rewrite Z.pow_add_r by lia; change (2 ^ 1) with 2; lia).
    assert (Hpos : 0 < 2 ^ j) by (apply Z.pow_pos_nonneg; lia).
    cbn [nmea_isqrt_loop]. cbv zeta.
    assert (Hc : Z.shiftr (2 ^ j) 1 = 2 ^ Z.of_nat k).
    { rewrite Z.shiftr_div_pow2 by lia. rewrite Hj, Z.pow_add_r by lia.
      change (2 ^ 1) with 2. rewrite Z.div_mul; lia. }
    rewrite Hc.
    assert (Hk : 0 < 2 ^ Z.of_nat k) by (apply Z.pow_pos_nonneg; lia).
    replace (2 ^ Z.of_nat k =? 0) with false by (symmetry; apply Z.eqb_neq; lia).
    assert (Hg : u32 ((2 ^ (j + 1) * q + 2 ^ j) * (2 ^ (j + 1) * q + 2 ^ j))
                 = (2 ^ (j + 1) * q + 2 ^ j) * (2 ^ (j + 1) * q + 2 ^ j)).
    { apply square_u32. lia. }
    rewrite Hg. rewrite Hj in *.
    destruct (Z.ltb_spec n ((2 ^ (Z.of_nat k + 1 + 1) * q + 2 ^ (Z.of_nat k + 1))
                            * (2 ^ (Z.of_nat k + 1 + 1) * q + 2 ^ (Z.of_nat k + 1)))).
    + rewrite lxor_pow2_multiple by lia.
      replace (2 ^ (Z.of_nat k + 1 + 1) * q)
        with (2 ^ (Z.of_nat k + 1) * (2 * q)) by lia.
      rewrite lor_pow2_multiple by lia.
      apply (IH n (2 * q)); try lia; nia.
    + replace (2 ^ (Z.of_nat k + 1 + 1) * q + 2 ^ (Z.of_nat k + 1))
        with (2 ^ (Z.of_nat k + 1) * (2 * q + 1)) by lia.
      rewrite lor_pow2_multiple by lia.
      apply (IH n (2 * q + 1)); try lia; nia.
Qed.

(** ** Decimal fields *)

Lemma u32_step x c : u32 (u32 x * 10 + c) = u32 (x * 10 + c).
Proof.
  unfold u32. rewrite Z.add_mod, Z.mul_mod_idemp_l by lia.
  rewrite <- Z.add_mod by lia. reflexivity.
Qed.

Lemma decimal_from_u32 ds : forall a,
  u32 (decimal_from ds (u32 a)) = u32 (decimal_from ds a).
Proof.
  induction ds as [|c ds IH]; intros a; cbn [decimal_from fold_left].
  - unfold u32. apply Z.mod_mod. lia.
  - fold (decimal_from ds (u32 a * 10 + (c - chr "0"))).
    fold (decimal_from ds (a * 10 + (c - chr "0"))).
    rewrite <- IH, u32_step, IH. reflexivity.
Qed.

Lemma decimal_from_mono ds : forall a,
  forallb is_digit ds = true -> 0 <= a -> a <= decimal_from ds a.
Proof.
  induction ds as [|c ds IH]; intros a Hd Ha; cbn [decimal_from fold_left];
    [lia|].
  simpl in Hd. apply andb_true_iff in Hd as [Hc Hd].
  apply is_digit_range in Hc.
  fold (decimal_from ds (a * 10 + (c - chr "0"))).
  assert (chr "0" = 48) by reflexivity.
  specialize (IH (a * 10 + (c - chr "0")) Hd). lia.
Qed.

(** The digit loop reads a run of digits as its decimal value, on 32
    bits, and stops at the first byte that is no digit. *)
Lemma scan_digits_run ds : forall rest a,
  forallb is_digit ds = true -> is_digit (at_ rest 0) = false ->
  0 <= a < 4294967296 ->
  scan_digits (ds ++ rest) a = (u32 (decimal_from ds a), rest).
Proof.
  induction ds as [|c ds IH]; intros rest a Hd Hr Ha.
  - cbn [app decimal_from fold_left]. rewrite u32_small by assumption.
    destruct rest as [|c rest]; [reflexivity|].
    unfold at_ in Hr. cbn [nth] in Hr. cbn [scan_digits]. now rewrite Hr.
  - simpl in Hd. apply andb_true_iff in Hd as [Hc Hd].
    cbn [app scan_digits]. rewrite Hc.
    rewrite IH by (auto using u32_range).
    cbn [decimal_from fold_left].
    fold (decimal_from ds (a * 10 + (c - chr "0"))).
    now rewrite decimal_from_u32.
Qed.

(** The fraction loop keeps the digits that the scale has room for. *)
Lemma scan_fraction_run ds : forall rest f dg scale,
  forallb is_digit ds = true -> is_digit (at_ rest 0) = false ->
  0 <= f < 4294967296 -> 0 <= dg <= scale ->
  scan_fraction (ds ++ rest) f dg scale
  = (u32 (decimal_from (take (Z.to_nat (scale - dg)) ds) f),
     dg + Z.of_nat (length (take (Z.to_nat (scale - dg)) ds)), rest).
Proof.
  induction ds as [|c ds IH]; intros rest f dg scale Hd Hr Hf Hg.
  - rewrite take_nil. cbn [app decimal_from fold_left length].
    rewrite u32_small, Z.add_0_r by assumption.
    destruct rest as [|c rest]; [reflexivity|].
    unfold at_ in Hr. cbn [nth] in Hr. cbn [scan_fraction]. now rewrite Hr.
  - simpl in Hd. apply andb_true_iff in Hd as [Hc Hd].
    cbn [app scan_fraction]. rewrite Hc.
    destruct (Z.ltb_spec dg scale) as [Hlt|Hge].
    + rewrite IH by (auto using u32_range; lia).
      replace (Z.to_nat (scale - dg)) with (S (Z.to_nat (scale - (dg + 1))))
        by lia.
      cbn [take decimal_from fold_left length].
      fold (decimal_from (take (Z.to_nat (scale - (dg + 1))) ds)
              (f * 10 + (c - chr "0"))).
      rewrite decimal_from_u32. f_equal. f_equal. lia.
    + rewrite IH by (auto; lia).
      replace (Z.to_nat (scale - dg)) with O by lia.
      rewrite !take_0. reflexivity.
Qed.

Lemma nmea_scale_pow i : 0 <= i <= 9 -> nmea_scale i = 10 ^ i.
Proof.
  intros H.
  assert (E : i = 0 \/ i = 1 \/ i = 2 \/ i = 3 \/ i = 4 \/ i = 5 \/ i = 6
              \/ i = 7 \/ i = 8 \/ i = 9) by lia.
  repeat (destruct E as [->|E]; [reflexivity|]). subst. reflexivity.
Qed.

Lemma decimal_from_nonneg ds a :
  forallb is_digit ds = true -> 0 <= a -> 0 <= decimal_from ds a.
Proof. intros Hd Ha. pose proof (decimal_from_mono ds a Hd Ha). lia. Qed.

Lemma forallb_take {A} (f : A -> bool) (l : list A) : forall n,
  forallb f l = true -> forallb f (take n l) = true.
Proof.
  induction l as [|x l IH]; intros [|n] H; try reflexivity.
  simpl in *. apply andb_true_iff in H as [Hx Hl]. now rewrite Hx, IH.
Qed.

Lemma decimal_from_bound ds : forall a,
  forallb is_digit ds = true -> 0 <= a ->
  decimal_from ds a < (a + 1) * 10 ^ Z.of_nat (length ds).
Proof.
  induction ds as [|c ds IH]; intros a Hd Ha.
  - cbn [decimal_from fold_left length]. change (10 ^ Z.of_nat 0) with 1. lia.
  - simpl in Hd. apply andb_true_iff in Hd as [Hc Hd].
    apply is_digit_range in Hc. cbn [decimal_from fold_left].
    fold (decimal_from ds (a * 10 + (c - chr "0"))).
    change (chr "0") with 48.
    specialize (IH (a * 10 + (c - 48)) Hd ltac:(lia)).
    rewrite length_cons, Nat2Z.inj_succ, Z.pow_succ_r by lia.
    assert (0 < 10 ^ Z.of_nat (length ds)) by (apply Z.pow_pos_nonneg; lia).
    nia.
Qed.


(** ** The latitude field, digit by digit *)

(** Every field splits into its leading digits and a rest that starts
    with another byte. *)
Lemma digits_span data :
  exists ds rest,
    data = ds ++ rest /\ forallb is_digit ds = true
    /\ is_digit (at_ rest 0) = false.
Proof.
  induction data as [|c data (ds & rest & E & Hd & Hr)].
  - exists [], []. repeat split.
  - destruct (is_digit c) eqn:Hc.
    + exists (c :: ds), rest. rewrite E. repeat split; [|exact Hr].
      simpl. now rewrite Hc.
    + exists [], (c :: data). repeat split. exact Hc.
Qed.

Lemma u32_mix a b c : u32 (u32 a * b + c) = (a * b + c) mod 4294967296.
Proof.
  unfold u32. rewrite Z.add_mod by lia. rewrite Z.mul_mod_idemp_l by lia.
  rewrite <- Z.add_mod by lia. reflexivity.
Qed.

(** Digits closed by the terminator. *)
Lemma nmea_parse_fixed_ints ints rest scale :
  forallb is_digit ints = true -> at_ rest 0 = 0 -> 0 <= scale <= 9 ->
  nmea_parse_fixed (ints ++ rest) scale
  = Some ((decimal ints * 10 ^ scale) mod 4294967296).
Proof.
  intros Hi Hz Hs.
  assert (Hn : is_digit (at_ rest 0) = false) by (rewrite Hz; reflexivity).
  unfold nmea_parse_fixed.
  rewrite (scan_digits_run ints rest 0 Hi Hn) by lia.
  fold (decimal ints).
  replace (at_ rest 0 =? chr ".") with false by (rewrite Hz; reflexivity).
  rewrite Hz. cbn [Z.eqb]. rewrite nmea_scale_pow by lia.
  rewrite u32_mix, Z.add_0_r. reflexivity.
Qed.

(** Digits, a point and digits closed by the terminator. *)
Lemma nmea_parse_fixed_point ints frac rest scale :
  forallb is_digit ints = true -> forallb is_digit frac = true ->
  at_ rest 0 = 0 -> 0 <= scale <= 9 ->
  nmea_parse_fixed (ints ++ chr "." :: frac ++ rest) scale
  = Some ((decimal ints * 10 ^ scale
           + decimal (take (Z.to_nat scale) frac)
             * 10 ^ (scale - Z.of_nat (length (take (Z.to_nat scale) frac))))
          mod 4294967296).
Proof.
  intros Hi Hf Hz Hs.
  assert (Hn : is_digit (at_ rest 0) = false) by (rewrite Hz; reflexivity).
  assert (Hdot : is_digit (at_ (chr "." :: frac ++ rest) 0) = false)
    by reflexivity.
  assert (Hk : forallb is_digit (take (Z.to_nat scale) frac) = true)
    by now apply forallb_take.
  unfold nmea_parse_fixed.
  rewrite (scan_digits_run ints _ 0 Hi Hdot) by lia.
  fold (decimal ints). unfold at_ at 1. cbn [nth tl].
  change (chr "." =? chr ".") with true. cbv iota.
  rewrite (scan_fraction_run frac rest 0 0 scale Hf Hn) by lia.
  rewrite Z.sub_0_r, Z.add_0_l. fold (decimal (take (Z.to_nat scale) frac)).
  rewrite Hz. cbn [Z.eqb andb].
  set (kept := take (Z.to_nat scale) frac) in *.
  set (n := Z.of_nat (length kept)).
  assert (Hlen : 0 <= n <= scale).
  { unfold n, kept. rewrite length_take. lia. }
  pose proof (decimal_from_nonneg kept 0 Hk (Z.le_refl 0)) as Hk0.
  fold (decimal kept) in Hk0.
  pose proof (decimal_from_bound kept 0 Hk (Z.le_refl 0)) as Hkb.
  fold (decimal kept) in Hkb. fold n in Hkb.
  assert (Hp : 10 ^ n <= 10 ^ 9) by (apply Z.pow_le_mono_r; lia).
  change (10 ^ 9) with 1000000000 in Hp.
  rewrite (u32_small (decimal kept)) by lia.
  destruct (Z.ltb_spec n scale) as [Hlt|Hge]; rewrite ?Hz; cbn [Z.eqb];
    f_equal.
  - rewrite !nmea_scale_pow by lia. rewrite u32_mix. unfold u32.
    rewrite Z.add_mod_idemp_r by lia. reflexivity.
  - rewrite ?nmea_scale_pow by lia.
    replace (scale - n) with 0 by lia. rewrite Z.mul_1_r.
    apply u32_mix.
Qed.

(** A byte that is no digit, no point and no terminator refuses the
    field. *)
Lemma nmea_parse_fixed_bad ints rest scale :
  forallb is_digit ints = true -> is_digit (at_ rest 0) = false ->
  at_ rest 0 <> 0 -> at_ rest 0 <> chr "." ->
  nmea_parse_fixed (ints ++ rest) scale = None.
Proof.
  intros Hi Hn Hz Hd. unfold nmea_parse_fixed.
  rewrite (scan_digits_run ints rest 0 Hi Hn) by lia.
  apply Z.eqb_neq in Hz, Hd. rewrite Hd, Hz. reflexivity.
Qed.

Lemma nmea_parse_fixed_bad_fraction ints frac rest scale :
  forallb is_digit ints = true -> forallb is_digit frac = true ->
  is_digit (at_ rest 0) = false -> at_ rest 0 <> 0 -> 0 <= scale ->
  nmea_parse_fixed (ints ++ chr "." :: frac ++ rest) scale = None.
Proof.
  intros Hi Hf Hn Hz Hs.
  assert (Hdot : is_digit (at_ (chr "." :: frac ++ rest) 0) = false)
    by reflexivity.
  unfold nmea_parse_fixed.
  rewrite (scan_digits_run ints _ 0 Hi Hdot) by lia.
  unfold at_ at 1. cbn [nth tl].
  change (chr "." =? chr ".") with true. cbv iota.
  rewrite (scan_fraction_run frac rest 0 0 scale Hf Hn) by lia.
  apply Z.eqb_neq in Hz. rewrite Hz. cbn [andb]. rewrite Hz. reflexivity.
Qed.

Lemma minutes_of_ints ints :
  minutes_of ints [] = (decimal ints * 10 ^ 7) mod 4294967296.
Proof. unfold minutes_of. cbn [take length]. f_equal. cbn. lia. Qed.

Lemma at_cons c l : at_ (c :: l) 0 = c.
Proof. reflexivity. Qed.

(** The minutes of a latitude or longitude: what [nmea_parse_fixed]
    accepts with scale 7, and as what. *)
Lemma nmea_parse_fixed_minutes data m :
  at_ data 0 <> 0 ->
  nmea_parse_fixed data 7 = Some m <->
  exists ints frac rest,
    forallb is_digit ints = true /\ forallb is_digit frac = true
    /\ at_ rest 0 = 0
    /\ ((ints <> [] /\ frac = [] /\ data = ints ++ rest)
        \/ data = ints ++ chr "." :: frac ++ rest)
    /\ m = minutes_of ints frac.
Proof.
  intros Hz. split.
  - intros H.
    destruct (digits_span data) as (ints & r1 & E1 & Hi & Hn1).
    destruct (Z.eq_dec (at_ r1 0) 0) as [Z1|Z1].
    + exists ints, [], r1. split; [exact Hi|]. split; [reflexivity|].
      split; [exact Z1|]. split.
      * left. split; [|split; [reflexivity | exact E1]].
        intros ->. apply Hz. rewrite E1. exact Z1.
      * rewrite E1, (nmea_parse_fixed_ints ints r1 7 Hi Z1) in H by lia.
        rewrite minutes_of_ints. congruence.
    + destruct (Z.eq_dec (at_ r1 0) (chr ".")) as [P1|P1].
      * destruct r1 as [|c r2]; [contradiction Z1; reflexivity|].
        rewrite at_cons in P1. subst c.
        destruct (digits_span r2) as (frac & rest & E2 & Hf & Hn2).
        destruct (Z.eq_dec (at_ rest 0) 0) as [Z2|Z2].
        -- exists ints, frac, rest. split; [exact Hi|]. split; [exact Hf|].
           split; [exact Z2|]. split; [right; rewrite E1, E2; reflexivity|].
           rewrite E1, E2 in H.
           rewrite (nmea_parse_fixed_point ints frac rest 7 Hi Hf Z2) in H
             by lia.
           unfold minutes_of. change (Z.to_nat 7) with 7%nat in H.
           congruence.
        -- rewrite E1, E2 in H.
           rewrite (nmea_parse_fixed_bad_fraction ints frac rest 7
                      Hi Hf Hn2 Z2) in H by lia.
           discriminate H.
      * rewrite E1, (nmea_parse_fixed_bad ints r1 7 Hi Hn1 Z1 P1) in H.
        discriminate H.
  - intros (ints & frac & rest & Hi & Hf & Z & [(_ & -> & ->)| ->] & ->).
    + rewrite (nmea_parse_fixed_ints ints rest 7 Hi Z) by lia.
      rewrite minutes_of_ints. reflexivity.
    + rewrite (nmea_parse_fixed_point ints frac rest 7 Hi Hf Z) by lia.
      reflexivity.
Qed.

Lemma minutes_start ints frac rest :
  forallb is_digit ints = true ->
  (ints <> [] -> at_ (ints ++ rest) 0 <> 0)
  /\ at_ (ints ++ chr "." :: frac ++ rest) 0 <> 0.
Proof.
  intros Hi. split.
  - destruct ints as [|c ints]; [congruence|]. intros _.
    simpl in Hi. apply andb_true_iff in Hi as [Hc _].
    apply is_digit_range in Hc. cbn [app]. rewrite at_cons. lia.
  - destruct ints as [|c ints]; cbn [app]; rewrite at_cons;
      [discriminate|].
    simpl in Hi. apply andb_true_iff in Hi as [Hc _].
    apply is_digit_range in Hc. lia.
Qed.

(** The latitude parser on the fields that it accepts. *)
Lemma nmea_parse_latitude_fields data v :
  nmea_parse_latitude data = Some v <->
  exists d1 d2 ints frac,
    latitude_field data d1 d2 ints frac
    /\ (d1 - 48) * 10 + (d2 - 48) <= 89
    /\ minutes_of ints frac < 600000000
    /\ v = ((d1 - 48) * 10 + (d2 - 48)) * 10000000
           + (minutes_of ints frac + 30) / 60.
Proof.
  rewrite nmea_parse_latitude_spec. split.
  - intros (d1 & d2 & rest & m & -> & H1 & H2 & Hd & Hz & Hf & Hm & ->).
    apply (nmea_parse_fixed_minutes rest m Hz) in Hf.
    destruct Hf as (ints & frac & tail & Hi & Hfr & Z & Hform & ->).
    exists d1, d2, ints, frac. split; [|auto].
    split; [exact H1|]. split; [exact H2|]. split; [exact Hi|].
    split; [exact Hfr|]. exists tail. split; [exact Z|].
    destruct Hform as [(Hne & -> & ->)| ->]; [left | right]; auto.
  - intros (d1 & d2 & ints & frac & (H1 & H2 & Hi & Hfr & tail & Z & Hform)
            & Hd & Hm & ->).
    destruct (minutes_start ints frac tail Hi) as [S1 S2].
    destruct Hform as [(Hne & -> & ->)| ->].
    + exists d1, d2, (ints ++ tail), (minutes_of ints []).
      repeat split; auto.
      apply nmea_parse_fixed_minutes; [auto|].
      exists ints, [], tail. repeat split; auto.
    + exists d1, d2, (ints ++ chr "." :: frac ++ tail), (minutes_of ints frac).
      repeat split; auto.
      apply nmea_parse_fixed_minutes; [auto|].
      exists ints, frac, tail. repeat split; auto.
Qed.
Lemma minutes_of_exact ints frac :
  forallb is_digit ints = true -> forallb is_digit frac = true ->
  decimal ints <= 428 ->
  minutes_of ints frac
  = decimal ints * 10 ^ 7
    + decimal (take 7 frac) * 10 ^ (7 - Z.of_nat (length (take 7 frac))).
Proof.
  intros Hi Hf Hb. unfold minutes_of.
  assert (Hk : forallb is_digit (take 7 frac) = true)
    by now apply forallb_take.
  set (kept := take 7 frac) in *.
  assert (Hn : 0 <= Z.of_nat (length kept) <= 7).
  { unfold kept. rewrite length_take. lia. }
  pose proof (decimal_from_nonneg ints 0 Hi (Z.le_refl 0)) as Hi0.
  pose proof (decimal_from_nonneg kept 0 Hk (Z.le_refl 0)) as Hk0.
  pose proof (decimal_from_bound kept 0 Hk (Z.le_refl 0)) as Hkb.
  fold (decimal ints) in Hi0. fold (decimal kept) in Hk0, Hkb.
  set (n := Z.of_nat (length kept)) in *.
  assert (Hq : 0 < 10 ^ (7 - n)) by (apply Z.pow_pos_nonneg; lia).
  assert (Hpow : 10 ^ n * 10 ^ (7 - n) = 10 ^ 7).
  { rewrite <- Z.pow_add_r by lia. f_equal. lia. }
  change (10 ^ 7) with 10000000 in *.
  apply Z.mod_small. nia.
Qed.

(** ** The published location *)

Lemma gnss_location_report_stages l :
  gnss_location_report l = report_stages l.
Proof. reflexivity. Qed.

(** A stage keeps what its clearing function keeps. *)
Lemma clear_field_keeps {A} (p : gnss_location_t -> A) bit clear l :
  (forall y, p (clear y) = p y) -> p (clear_field bit clear l) = p l.
Proof. intros H. unfold clear_field. destruct (negb _); [apply H | reflexivity]. Qed.

Lemma clear_field_cleared {A} (p : gnss_location_t -> A) bit clear l v :
  (forall y, p (clear y) = v) ->
  test_mask (mask l) bit = false -> p (clear_field bit clear l) = v.
Proof. intros H E. unfold clear_field. rewrite E. apply H. Qed.

Ltac keep_field p :=
  repeat (rewrite (clear_field_keeps p) by reflexivity).

Lemma clear_field_proj {A} (p : gnss_location_t -> A) bit clear l :
  p (clear_field bit clear l)
  = if test_mask (mask l) bit then p l else p (clear l).
Proof. unfold clear_field. now destruct (test_mask _ _). Qed.

(** The field [p] of the whole chain, at the stage that clears it. *)
Ltac at_stage p :=
  keep_field p; rewrite (clear_field_proj p); record_cbn.

Ltac split_mask :=
  match goal with
  | |- context [test_mask ?m ?b] => destruct (test_mask m b); reflexivity
  end.

Lemma clear_time_cleared l :
  let l' := clear_time l in
  (test_mask (mask l') GNSS_LOCATION_MASK_TIME
   || ((year (time l') =? 0) && (month (time l') =? 1) && (day (time l') =? 6)
       && (hour (time l') =? 0) && (minute (time l') =? 0)
       && (second (time l') =? 0) && (millis (time l') =? 0)
       && (numsv l' =? 0) && (mask l' =? 0))) = true
  /\ (test_mask (mask l') GNSS_LOCATION_MASK_CORRECTION
      || (correction l' =? 0)) = true
  /\ (mask l = 0 -> mask l' = 0).
Proof.
  cbv zeta. unfold clear_time.
  destruct (test_mask (mask l) GNSS_LOCATION_MASK_TIME) eqn:Et.
  - destruct (test_mask (mask l) GNSS_LOCATION_MASK_CORRECTION) eqn:Ec;
      cbn [negb]; record_cbn; rewrite Et, ?Ec; auto.
  - record_cbn. repeat split; reflexivity.
Qed.

Lemma clear_by_type_none l :
  type (clear_by_type l) = type l
  /\ ((type l =? GNSS_LOCATION_TYPE_NONE) = true ->
      mask (clear_by_type l) = 0).
Proof.
  unfold clear_by_type.
  destruct (type l =? GNSS_LOCATION_TYPE_NONE);
    [|destruct (type l =? GNSS_LOCATION_TYPE_TIME);
      [|destruct (type l =? GNSS_LOCATION_TYPE_2D)]];
    split; try reflexivity; discriminate.
Qed.

Lemma gnss_location_report_cleared l :
  location_cleared (gnss_location_report l) = true.
Proof.
  rewrite gnss_location_report_stages. unfold location_cleared. cbv zeta.
  destruct (clear_time_cleared (clear_by_type l)) as (Ht & Hc & Hm).
  cbv zeta in Ht, Hc, Hm.
  destruct (clear_by_type_none l) as [Hty Hnone].
  unfold report_stages.
  set (x := clear_time (clear_by_type l)) in *.
  repeat (apply andb_true_iff; split).
  - keep_field mask. keep_field time. keep_field numsv. exact Ht.
  - keep_field mask. keep_field correction. exact Hc.
  - at_stage latitude. at_stage longitude. keep_field mask.
    split_mask.
  - at_stage altitude. at_stage separation. keep_field mask.
    split_mask.
  - at_stage speed. keep_field mask.
    split_mask.
  - at_stage course. keep_field mask.
    split_mask.
  - at_stage climb. keep_field mask.
    split_mask.
  - at_stage ehpe. keep_field mask.
    split_mask.
  - at_stage evpe. keep_field mask.
    split_mask.
  - at_stage pdop. keep_field mask.
    split_mask.
  - at_stage hdop. keep_field mask.
    split_mask.
  - at_stage vdop. keep_field mask.
    split_mask.
  - keep_field mask. keep_field type.
    assert (Hx : type x = type l).
    { unfold x, clear_time.
      repeat match goal with
             | |- context [if ?c then _ else _] => destruct c
             end; exact Hty. }
    rewrite Hx.
    destruct (type l =? GNSS_LOCATION_TYPE_NONE) eqn:En; [|reflexivity].
    rewrite (Hm (Hnone eq_refl)). reflexivity.
Qed.

(** *** A property of every event *)

Section Every_event.

Variable Q : event -> bool.
Hypothesis Q_location : forall d, trace_all Q (gnss_location d).
Hypothesis Q_satellites : forall d, trace_all Q (gnss_satellites d).
Hypothesis Q_driver : forall e, is_driver_event e = true -> Q e = true.
Hypothesis Q_overrun : forall n, Q (Info_overrun n) = true.

Ltac every_step :=
  first
    [ apply trace_all_ret
    | apply Q_location
    | apply Q_satellites
    | apply trace_all_emit; apply Q_driver; reflexivity
    | apply trace_all_mark; apply Q_overrun
    | apply trace_all_bind; [|intros ?]
    | match goal with
      | |- trace_all _ (match ?x with _ => _ end) => destruct x
      | |- trace_all _ (if ?x then _ else _) => destruct x
      | |- trace_all _ (let '(_, _) := ?x in _) => destruct x
      end ].

Lemma mtk_configure_every response command' d :
  trace_all Q (mtk_configure response command' d).
Proof. unfold mtk_configure, mtk_send. repeat every_step. Qed.

Lemma ubx_configure_every response command' d :
  trace_all Q (ubx_configure response command' d).
Proof.
  unfold ubx_configure, ubx_send_timed, ubx_send. repeat every_step.
Qed.

(** What [nmea_end_sentence] does once it is entered. *)
Lemma nmea_sentence_body_every d :
  trace_all Q
    (nmea_end_sequence d >>= fun d =>
     let d := upd_nmea (set_sequence NMEA_FIELD_SEQUENCE_START) d in
     if init d =? GNSS_INIT_DONE
     then nmea_publish_location d >>= nmea_publish_satellites
     else ret d).
Proof.
  unfold nmea_end_sequence, nmea_publish_location, nmea_publish_satellites.
  repeat first [ apply mtk_configure_every | every_step ].
Qed.

(** What [ubx_end_message] does once it is entered. *)
Lemma ubx_message_body_every m data d :
  trace_all Q
    ((if Z.shiftr m 8 =? 0x01 then ret (ubx_nav_message m data d)
      else if m =? 0x0500 then ubx_ack_message GNSS_RESPONSE_NACK data d
      else if m =? 0x0501 then ubx_ack_message GNSS_RESPONSE_ACK data d
      else ret d) >>= fun d =>
     if init d =? GNSS_INIT_DONE
     then ubx_publish_location d >>= ubx_publish_satellites
     else ret d).
Proof.
  unfold ubx_ack_message, ubx_publish_location, ubx_publish_satellites.
  repeat first [ apply ubx_configure_every | every_step ].
Qed.

Hypothesis Q_nmea_entry : Q Nmea_end_sentence = true.
Hypothesis Q_ubx_entry :
  forall m data cnt, Q (Ubx_end_message m data cnt) = true.

Lemma nmea_end_sentence_every d : trace_all Q (nmea_end_sentence d).
Proof.
  unfold nmea_end_sentence. rewrite bind_assoc.
  apply trace_all_bind;
    [ apply trace_all_emit; apply Q_nmea_entry
    | intros d1; apply nmea_sentence_body_every ].
Qed.

Lemma ubx_end_message_every m data cnt d :
  trace_all Q (ubx_end_message m data cnt d).
Proof.
  unfold ubx_end_message. apply trace_all_bind;
    [ apply trace_all_emit; apply Q_ubx_entry
    | intros d1; apply ubx_message_body_every ].
Qed.

Lemma nmea_sentence_end_every d :
  trace_all Q (nmea_init_response d >>= nmea_end_sentence).
Proof.
  unfold nmea_init_response.
  repeat first [ apply mtk_configure_every | apply ubx_configure_every
               | apply nmea_end_sentence_every | every_step ].
Qed.

Lemma ubx_message_end_every d :
  trace_all Q
    (ubx_init_response d >>= fun d =>
     if rx_count d - rx_offset d <=? GNSS_RX_DATA_SIZE
     then ubx_end_message (message (ubx d)) (rx_data d) (rx_count d) d
     else ret d).
Proof.
  unfold ubx_init_response.
  repeat first [ apply ubx_configure_every | apply ubx_end_message_every
               | every_step ].
Qed.

Hypothesis Q_store : forall i, Q (Store_rx_data i) = true.

Lemma gnss_receive_byte_every d c : trace_all Q (gnss_receive_byte d c).
Proof.
  unfold gnss_receive_byte, rx_store.
  repeat first [ apply nmea_sentence_end_every
               | apply ubx_message_end_every
               | apply trace_all_emit; apply Q_store
               | every_step ].
Qed.

Lemma gnss_receive_every data : forall d, trace_all Q (gnss_receive d data).
Proof.
  induction data as [|c rest IH]; intros d; [reflexivity|].
  rewrite gnss_receive_cons. apply trace_all_bind;
    [apply gnss_receive_byte_every | exact IH].
Qed.

End Every_event.


(** ** Callbacks and the configuration *)

Lemma post_ret (Q : gnss_device_t -> Prop) E d : Q d -> post Q E (ret d).
Proof. intros H. split; [exact H | reflexivity]. Qed.

Lemma post_emit (Q : gnss_device_t -> Prop) E e d :
  Q d -> E e = true -> post Q E (emit e d).
Proof. intros H He. split; [exact H|]. simpl. rewrite He. reflexivity. Qed.

Lemma post_bind (Q1 Q : gnss_device_t -> Prop) E r k :
  post Q1 E r -> (forall d, Q1 d -> post Q E (k d)) -> post Q E (r >>= k).
Proof.
  intros [H1 H2] Hk. specialize (Hk (fst r) H1) as [H3 H4].
  split; [rewrite bind_fst; exact H3|].
  rewrite bind_snd, forallb_app, H2, H4. reflexivity.
Qed.

Lemma post_weaken (Q1 Q : gnss_device_t -> Prop) (E1 E : event -> bool) r :
  post Q1 E1 r -> (forall d, Q1 d -> Q d) ->
  (forall e, E1 e = true -> E e = true) -> post Q E r.
Proof.
  intros [H1 H2] H HE. split; [apply H, H1|].
  rewrite forallb_forall in *. auto.
Qed.

Lemma post_mark (Q : gnss_device_t -> Prop) E d :
  Q (upd_satellites (mark_navigating (nmea d)) d) ->
  (forall n, E (Info_overrun n) = true) ->
  post Q E (nmea_mark_navigating d).
Proof. intros H HE. split; [exact H | apply forallb_overrun, HE]. Qed.

(** *** What leaves [device->init] alone *)

Lemma init_nmea_parse_sentence d data :
  init (nmea_parse_sentence d data) = init d.
Proof. apply (quiet_fields _ _ (quiet_nmea_parse_sentence d data)). Qed.

Lemma init_nmea_start_sentence d : init (nmea_start_sentence d) = init d.
Proof. apply (quiet_fields _ _ (quiet_nmea_start_sentence d)). Qed.

Lemma init_upd_info n f d : init (upd_info n f d) = init d.
Proof. unfold upd_info. destruct (_ !! _); reflexivity. Qed.

Ltac init_step :=
  match goal with
  | |- init ?d = init ?d => reflexivity
  | |- init (nmea_parse_sentence ?d _) = _ =>
      rewrite (init_nmea_parse_sentence d)
  | |- init (nmea_start_sentence ?d) = _ =>
      rewrite (init_nmea_start_sentence d)
  | |- init (upd_info ?n ?f ?d) = _ => rewrite (init_upd_info n f d)
  | |- init (if ?b then _ else _) = _ => destruct b
  | |- init (match ?x with _ => _ end) = _ => destruct x
  | |- init (let '(_, _) := ?x in _) = _ => destruct x
  | |- init (?f ?d) = _ => change (init (f d)) with (init d)
  end.

Lemma init_ubx_start_message m l d : init (ubx_start_message m l d) = init d.
Proof. unfold ubx_start_message. cbv zeta. repeat init_step. Qed.

Lemma init_ubx_parse_message m data cnt d :
  init (ubx_parse_message m data cnt d) = init d.
Proof. unfold ubx_parse_message. cbv zeta. repeat init_step. Qed.

Lemma init_ubx_nav_timegps data d : init (ubx_nav_timegps data d) = init d.
Proof. unfold ubx_nav_timegps. cbv zeta. repeat init_step. Qed.

Lemma init_ubx_nav_message m data d : init (ubx_nav_message m data d) = init d.
Proof.
  unfold ubx_nav_message, location_mask_or. cbv zeta.
  repeat first [ rewrite init_ubx_nav_timegps | init_step ].
Qed.

Lemma init_propagate_mask field bit d : init (propagate_mask field bit d) = init d.
Proof. unfold propagate_mask, location_mask_or. repeat init_step. Qed.

(** *** The configuration driver *)

Ltac init_facts :=
  cbn [ret emit fst snd forallb not_callback is_callback negb andb];
  record_cbn;
  (split; [|reflexivity]);
  repeat split; intros;
  try solve [ congruence | discriminate | auto
            | left; congruence
            | right; split; [reflexivity | discriminate]
            | unfold GNSS_INIT_DONE, GNSS_INIT_MTK_BAUD_RATE,
                GNSS_INIT_MTK_INIT_TABLE, GNSS_INIT_UBX_BAUD_RATE,
                GNSS_INIT_UBX_INIT_TABLE in *; lia ].

Lemma mtk_configure_post response command' d :
  post (fun d' =>
          (init d = GNSS_INIT_DONE -> init d' = GNSS_INIT_DONE)
          /\ (init d = GNSS_INIT_MTK_BAUD_RATE -> init d' <> GNSS_INIT_DONE)
          /\ (init d <> GNSS_INIT_MTK_BAUD_RATE ->
              init d <> GNSS_INIT_MTK_INIT_TABLE -> init d' = init d)
          /\ (init d <> GNSS_INIT_DONE -> unready NMEA_LOCATION_SENTENCES d'))
       not_callback (mtk_configure response command' d).
Proof.
  unfold mtk_configure, mtk_send, post, unready. cbv zeta.
  destruct (table d) as [[|data rest]|];
    destruct (Z.eqb_spec (init d) GNSS_INIT_MTK_BAUD_RATE) as [E1|E1];
    record_cbn;
    try destruct (Z.eqb_spec (init d) GNSS_INIT_MTK_INIT_TABLE) as [E2|E2];
    init_facts.
Qed.

Lemma ubx_configure_post response command' d :
  post (fun d' =>
          (init d = GNSS_INIT_DONE -> init d' = GNSS_INIT_DONE)
          /\ (init d = GNSS_INIT_UBX_BAUD_RATE -> init d' <> GNSS_INIT_DONE)
          /\ (init d <> GNSS_INIT_UBX_BAUD_RATE ->
              init d <> GNSS_INIT_UBX_INIT_TABLE -> init d' = init d)
          /\ (init d <> GNSS_INIT_DONE -> unready UBX_LOCATION_MESSAGES d'))
       not_callback (ubx_configure response command' d).
Proof.
  unfold ubx_configure, ubx_send_timed, ubx_send, post, unready. cbv zeta.
  cbn [emit bind]. 
  destruct (table d) as [[|data rest]|];
    destruct (Z.eqb_spec (init d) GNSS_INIT_UBX_BAUD_RATE) as [E1|E1];
    record_cbn;
    try destruct (Z.eqb_spec (init d) GNSS_INIT_UBX_INIT_TABLE) as [E2|E2];
    try destruct (list_Z_eqb _ _);
    init_facts.
Qed.

(** *** Once done, the configuration stays done *)

Ltac init_tac :=
  match goal with
  | H : init ?d = GNSS_INIT_DONE |- init _ = GNSS_INIT_DONE =>
      transitivity (init d);
      [ solve [ repeat first
                  [ rewrite init_ubx_start_message
                  | rewrite init_ubx_parse_message
                  | rewrite init_ubx_nav_message
                  | rewrite init_propagate_mask
                  | init_step ] ]
      | exact H ]
  end.

Ltac done_step :=
  first
    [ match goal with
      | |- post _ _ (if ?b then _ else _) => destruct b
      | |- post _ _ (match ?x with _ => _ end) => destruct x
      | |- post _ _ (let '(_, _) := ?x in _) => destruct x
      end
    | apply (post_bind (fun d => init d = GNSS_INIT_DONE)); [|intros ? ?]
    | apply post_ret; solve [init_tac]
    | apply post_emit; [solve [init_tac] | reflexivity]
    | apply post_mark; [solve [init_tac] | intros ?; reflexivity]
    | progress cbv zeta ].

Lemma mtk_configure_done response command' d :
  init d = GNSS_INIT_DONE ->
  post (fun d' => init d' = GNSS_INIT_DONE) any_event
    (mtk_configure response command' d).
Proof.
  intros H. apply (post_weaken _ _ _ _ _ (mtk_configure_post _ _ d)).
  - intros d' (H1 & _). auto.
  - reflexivity.
Qed.

Lemma ubx_configure_done response command' d :
  init d = GNSS_INIT_DONE ->
  post (fun d' => init d' = GNSS_INIT_DONE) any_event
    (ubx_configure response command' d).
Proof.
  intros H. apply (post_weaken _ _ _ _ _ (ubx_configure_post _ _ d)).
  - intros d' (H1 & _). auto.
  - reflexivity.
Qed.

Lemma gnss_location_done d :
  init d = GNSS_INIT_DONE ->
  post (fun d' => init d' = GNSS_INIT_DONE) any_event (gnss_location d).
Proof.
  intros H. unfold gnss_location. cbv zeta. split; [exact H|].
  cbn [snd]. destruct (location_callback d); reflexivity.
Qed.

Lemma gnss_satellites_done d :
  init d = GNSS_INIT_DONE ->
  post (fun d' => init d' = GNSS_INIT_DONE) any_event (gnss_satellites d).
Proof.
  intros H. unfold gnss_satellites. cbv zeta. split.
  - repeat match goal with |- context [if ?b then _ else _] => destruct b end;
      exact H.
  - repeat match goal with |- context [if ?b then _ else _] => destruct b end;
      reflexivity.
Qed.

Ltac done_tac :=
  repeat first
    [ apply mtk_configure_done; solve [init_tac]
    | apply ubx_configure_done; solve [init_tac]
    | apply gnss_location_done; solve [init_tac]
    | apply gnss_satellites_done; solve [init_tac]
    | done_step ].

Lemma nmea_end_sentence_done d :
  init d = GNSS_INIT_DONE ->
  post (fun d' => init d' = GNSS_INIT_DONE) any_event (nmea_end_sentence d).
Proof.
  intros H.
  unfold nmea_end_sentence, nmea_end_sequence, nmea_publish_location,
    nmea_publish_satellites.
  done_tac.
Qed.

Lemma ubx_end_message_done m data cnt d :
  init d = GNSS_INIT_DONE ->
  post (fun d' => init d' = GNSS_INIT_DONE) any_event
    (ubx_end_message m data cnt d).
Proof.
  intros H.
  unfold ubx_end_message, ubx_ack_message, ubx_publish_location,
    ubx_publish_satellites.
  done_tac.
Qed.

Lemma gnss_receive_byte_done d c :
  init d = GNSS_INIT_DONE ->
  post (fun d' => init d' = GNSS_INIT_DONE) any_event (gnss_receive_byte d c).
Proof.
  intros H.
  unfold gnss_receive_byte, nmea_init_response, ubx_init_response, rx_store.
  repeat first
    [ apply nmea_end_sentence_done; solve [init_tac]
    | apply ubx_end_message_done; solve [init_tac]
    | apply mtk_configure_done; solve [init_tac]
    | apply ubx_configure_done; solve [init_tac]
    | done_step ].
Qed.

Lemma gnss_receive_done data : forall d,
  init d = GNSS_INIT_DONE -> init (fst (gnss_receive d data)) = GNSS_INIT_DONE.
Proof.
  induction data as [|c rest IH]; intros d H; [exact H|].
  rewrite gnss_receive_cons, bind_fst. apply IH.
  apply (gnss_receive_byte_done d c H).
Qed.

(** *** No callback while the configuration runs *)

Ltac wait_tac :=
  match goal with
  | H : init ?d <> GNSS_INIT_DONE |- init ?e <> GNSS_INIT_DONE =>
      replace (init e) with (init d);
      [ exact H
      | symmetry;
        solve [ repeat first
                  [ rewrite init_ubx_start_message
                  | rewrite init_ubx_parse_message
                  | rewrite init_ubx_nav_message
                  | rewrite init_propagate_mask
                  | init_step ] ] ]
  end.

Ltac wait_step :=
  first
    [ match goal with
      | |- post _ _ (if ?b then _ else _) => destruct b
      | |- post _ _ (match ?x with _ => _ end) => destruct x
      | |- post _ _ (let '(_, _) := ?x in _) => destruct x
      end
    | apply (post_bind (fun d => init d <> GNSS_INIT_DONE)); [|intros ? ?]
    | apply post_ret; solve [wait_tac]
    | apply post_emit; [solve [wait_tac] | reflexivity]
    | apply post_mark; [solve [wait_tac] | intros ?; reflexivity]
    | progress cbv zeta ].

Lemma nmea_init_response_wait d :
  init d <> GNSS_INIT_DONE ->
  post (fun d' => init d' <> GNSS_INIT_DONE) not_callback
    (nmea_init_response d).
Proof.
  intros H. unfold nmea_init_response.
  destruct (negb _); [|apply post_ret, H].
  apply (post_bind (fun d => init d <> GNSS_INIT_DONE)).
  - destruct (Z.eqb_spec (init d) GNSS_INIT_MTK_BAUD_RATE) as [E|E];
      [|apply post_ret, H].
    apply (post_weaken _ _ _ _ _ (mtk_configure_post _ _ d)); [|auto].
    intros d' (_ & H1 & _). auto.
  - intros d1 H1.
    destruct (Z.eqb_spec (init d1) GNSS_INIT_UBX_BAUD_RATE) as [E|E];
      [|apply post_ret, H1].
    apply (post_weaken _ _ _ _ _ (ubx_configure_post _ _ d1)); [|auto].
    intros d' (_ & H2 & _). auto.
Qed.

Lemma ubx_init_response_wait d :
  init d <> GNSS_INIT_DONE ->
  post (fun d' => init d' <> GNSS_INIT_DONE) not_callback
    (ubx_init_response d).
Proof.
  intros H. unfold ubx_init_response.
  destruct (negb _); [|apply post_ret, H]. cbn [andb].
  destruct (Z.eqb_spec (init d) GNSS_INIT_UBX_BAUD_RATE) as [E|E];
    [|apply post_ret, H].
  apply (post_weaken _ _ _ _ _ (ubx_configure_post _ _ d)); [|auto].
  intros d' (_ & H2 & _). auto.
Qed.

Lemma unready_init m d d' :
  init d' = init d -> seen d' = seen d -> expected d' = expected d ->
  unready m d -> unready m d'.
Proof. unfold unready. intros -> -> ->. auto. Qed.

Lemma nmea_end_sequence_wait d :
  init d <> GNSS_INIT_DONE ->
  post (unready NMEA_LOCATION_SENTENCES) not_callback (nmea_end_sequence d).
Proof.
  intros H. unfold nmea_end_sequence. cbv zeta.
  repeat first
    [ match goal with
      | |- post _ _ (mtk_configure _ _ ?d0) =>
          apply (post_weaken _ _ _ _ _ (mtk_configure_post _ _ d0));
          [intros d' (_ & _ & _ & H1); apply H1; exact H | auto]
      | |- post _ _ (if ?b then _ else _) => destruct b
      | |- post _ _ (match ?x with _ => _ end) => destruct x
      | |- post _ _ (ret _) => apply post_ret; left; solve [wait_tac]
      end ].
Qed.

Lemma nmea_publish_unready d :
  unready NMEA_LOCATION_SENTENCES d -> init d = GNSS_INIT_DONE ->
  nmea_publish_location d >>= nmea_publish_satellites = ret d.
Proof.
  intros [H|[Hs He]] Hd; [contradiction|].
  unfold nmea_publish_location. cbv zeta. rewrite Hs.
  rewrite Z.land_0_l.
  destruct (Z.eqb_spec 0 (Z.land (expected d) NMEA_LOCATION_SENTENCES));
    [congruence|].
  rewrite bind_ret_l. unfold nmea_publish_satellites. cbv zeta.
  rewrite Hs. reflexivity.
Qed.

Lemma nmea_end_sentence_wait d :
  init d <> GNSS_INIT_DONE ->
  post (fun _ => True) not_callback (nmea_end_sentence d).
Proof.
  intros H. unfold nmea_end_sentence.
  apply (post_bind (unready NMEA_LOCATION_SENTENCES)).
  - apply (post_bind (fun d => init d <> GNSS_INIT_DONE)).
    + apply post_emit; [exact H | reflexivity].
    + intros d1 H1. apply nmea_end_sequence_wait, H1.
  - intros d1 H1. cbv zeta.
    destruct (Z.eqb_spec (init (upd_nmea (set_sequence NMEA_FIELD_SEQUENCE_START) d1))
                GNSS_INIT_DONE) as [E|E]; [|apply post_ret; exact I].
    rewrite nmea_publish_unready; [apply post_ret; exact I| |exact E].
    revert H1. apply unready_init; reflexivity.
Qed.

Lemma ubx_publish_unready d :
  unready UBX_LOCATION_MESSAGES d -> init d = GNSS_INIT_DONE ->
  ubx_publish_location d >>= ubx_publish_satellites = ret d.
Proof.
  intros [H|[Hs He]] Hd; [contradiction|].
  unfold ubx_publish_location. cbv zeta. rewrite Hs.
  rewrite Z.land_0_l.
  destruct (Z.eqb_spec 0 (Z.land (expected d) UBX_LOCATION_MESSAGES));
    [congruence|].
  rewrite bind_ret_l. unfold ubx_publish_satellites. cbv zeta.
  rewrite Hs. reflexivity.
Qed.

Lemma ubx_end_message_wait m data cnt d :
  init d <> GNSS_INIT_DONE ->
  post (fun _ => True) not_callback (ubx_end_message m data cnt d).
Proof.
  intros H. unfold ubx_end_message.
  apply (post_bind (fun d => init d <> GNSS_INIT_DONE));
    [apply post_emit; [exact H | reflexivity]|].
  intros d1 H1. apply (post_bind (unready UBX_LOCATION_MESSAGES)).
  - unfold ubx_ack_message. cbv zeta.
    repeat first
      [ match goal with
        | |- post _ _ (ubx_configure _ _ ?d0) =>
            apply (post_weaken _ _ _ _ _ (ubx_configure_post _ _ d0));
            [intros d' (_ & _ & _ & H2); apply H2; exact H1 | auto]
        | |- post _ _ (if ?b then _ else _) => destruct b
        | |- post _ _ (ret _) => apply post_ret; left; solve [wait_tac]
        end ].
  - intros d2 H2.
    destruct (Z.eqb_spec (init d2) GNSS_INIT_DONE) as [E|E];
      [|apply post_ret; exact I].
    rewrite ubx_publish_unready; [apply post_ret; exact I|exact H2|exact E].
Qed.

Lemma gnss_receive_byte_wait d c :
  init d <> GNSS_INIT_DONE ->
  post (fun _ => True) not_callback (gnss_receive_byte d c).
Proof.
  intros H. apply (post_weaken (fun _ => True) _ not_callback); [|auto..].
  unfold gnss_receive_byte, rx_store.
  repeat first
    [ apply post_ret; exact I
    | apply post_emit; [exact I | reflexivity]
    | match goal with
      | |- post _ _ (nmea_init_response ?d0 >>= _) =>
          apply (post_bind (fun d => init d <> GNSS_INIT_DONE));
          [ apply nmea_init_response_wait; solve [wait_tac]
          | intros ? ?; apply nmea_end_sentence_wait; assumption ]
      | |- post _ _ (ubx_init_response ?d0 >>= _) =>
          apply (post_bind (fun d => init d <> GNSS_INIT_DONE));
          [ apply ubx_init_response_wait; solve [wait_tac]
          | intros ? ? ]
      | |- post _ _ (ubx_end_message _ _ _ _) =>
          apply ubx_end_message_wait; assumption
      | |- post _ _ (if ?b then _ else _) => destruct b
      | |- post _ _ (match ?x with _ => _ end) => destruct x
      | |- post _ _ (_ >>= _) =>
          apply (post_bind (fun _ => True)); [|intros ? _]
      end
    | progress cbv zeta ].
Qed.

Lemma gnss_receive_wait data : forall d,
  init (fst (gnss_receive d data)) <> GNSS_INIT_DONE ->
  forallb not_callback (snd (gnss_receive d data)) = true.
Proof.
  induction data as [|c rest IH]; intros d H; [reflexivity|].
  rewrite gnss_receive_cons in *. rewrite bind_fst in H.
  rewrite bind_snd, forallb_app.
  assert (H1 : init (fst (gnss_receive_byte d c)) <> GNSS_INIT_DONE).
  { intros E. apply H. apply gnss_receive_done, E. }
  assert (H0 : init d <> GNSS_INIT_DONE).
  { intros E. apply H1. apply (gnss_receive_byte_done d c E). }
  rewrite (proj2 (gnss_receive_byte_wait d c H0)), (IH _ H). reflexivity.
Qed.


(** ** The indices of the stores into the staging buffer *)

Lemma store_within_handlers hi :
  (forall d, trace_all (store_within hi) (gnss_location d))
  /\ (forall d, trace_all (store_within hi) (gnss_satellites d))
  /\ (forall e, is_driver_event e = true -> store_within hi e = true).
Proof.
  split; [|split].
  - intros d. unfold trace_all, gnss_location. cbv zeta. cbn [snd].
    destruct (location_callback d); reflexivity.
  - intros d. unfold trace_all, gnss_satellites. cbv zeta. cbn [snd].
    destruct (satellites_callback _); reflexivity.
  - intros e He. destruct e; try reflexivity; discriminate.
Qed.

Lemma nmea_sentence_end_stores hi d :
  trace_all (store_within hi) (nmea_init_response d >>= nmea_end_sentence).
Proof.
  destruct (store_within_handlers hi) as (Hl & Hs & Hd).
  apply (nmea_sentence_end_every _ Hl Hs Hd); intros; reflexivity.
Qed.

Lemma ubx_message_end_stores hi d :
  trace_all (store_within hi)
    (ubx_init_response d >>= fun d =>
     if rx_count d - rx_offset d <=? GNSS_RX_DATA_SIZE
     then ubx_end_message (message (ubx d)) (rx_data d) (rx_count d) d
     else ret d).
Proof.
  destruct (store_within_handlers hi) as (Hl & Hs & Hd).
  apply (ubx_message_end_every _ Hl Hs Hd). reflexivity.
Qed.

Lemma post_any (E : event -> bool) r :
  trace_all E r -> post (fun _ => True) E r.
Proof. intros H. split; [exact I | exact H]. Qed.

Lemma store_within_mono lo hi e :
  lo <= hi -> store_within lo e = true -> store_within hi e = true.
Proof.
  intros H. destruct e; try reflexivity. simpl.
  intros [H1 H2]%andb_true_iff. apply Z.leb_le in H1, H2.
  apply andb_true_iff. split; apply Z.leb_le; lia.
Qed.

(** The fields that [ubx_parse_message] leaves alone, and the window it
    moves. *)
Lemma ubx_parse_message_window m data cnt d :
  let d' := ubx_parse_message m data cnt d in
  state d' = state d /\ rx_count d' = rx_count d /\ ubx d' = ubx d
  /\ (if m =? 0x0130
      then rx_offset d' = u16 (rx_offset d + 12)
           /\ rx_chunk d' = u16 (rx_chunk d + 12)
      else rx_offset d' = rx_offset d /\ rx_chunk d' = rx_chunk d).
Proof.
  cbv zeta. unfold ubx_parse_message, upd_info. cbv zeta.
  destruct (m =? 0x0130); [|repeat split; reflexivity].
  repeat match goal with
  | |- context [if ?b then _ else _] => plain_test b; destruct b
  | |- context [match ?x with Some _ => _ | None => _ end] => destruct x
  end; repeat split; reflexivity.
Qed.

Lemma ubx_payload_staging d c hi :
  state d = 11 -> ubx_staging d -> 95 <= hi ->
  post rx_inv (store_within hi) (gnss_receive_byte d c).
Proof.
  intros Es (Ho & Hc & Hm) Hhi. rewrite step_ubx_payload by exact Es.
  cbv zeta.
  apply (post_bind (fun d0 =>
           state d0 = 11 /\ rx_count d0 = rx_count d
           /\ rx_offset d0 = rx_offset d /\ rx_chunk d0 = rx_chunk d
           /\ message (ubx d0) = message (ubx d)
           /\ ubx_length (ubx d0) = ubx_length (ubx d))).
  - record_cbn.
    destruct (Z.ltb_spec (rx_count d - rx_offset d) GNSS_RX_DATA_SIZE) as [L|L].
    + unfold rx_store. apply post_emit.
      * match goal with
        | |- context [if ?b then _ else _] => destruct b
        end; record_cbn; repeat split; try assumption; reflexivity.
      * unfold GNSS_RX_DATA_SIZE in L. simpl.
        apply andb_true_iff. split; apply Z.leb_le; lia.
    + apply post_ret. record_cbn. repeat split; try assumption; reflexivity.
  - intros d0 (Hs0 & Hc0 & Ho0 & Hk0 & Hm0 & Hl0).
    set (d1 := set_rx_count (u16 (rx_count d0 + 1)) d0).
    assert (Hc1 : rx_count d1 = rx_count d + 1).
    { unfold d1. record_cbn. rewrite Hc0. apply u16_small. lia. }
    assert (Hf1 : state d1 = 11 /\ rx_offset d1 = rx_offset d
                  /\ rx_chunk d1 = rx_chunk d
                  /\ message (ubx d1) = message (ubx d)
                  /\ ubx_length (ubx d1) = ubx_length (ubx d)).
    { unfold d1. record_cbn. auto. }
    destruct Hf1 as (Hs1 & Ho1 & Hk1 & Hm1 & Hl1).
    clearbody d1.
    set (d2 := if rx_count d1 =? rx_chunk d1
               then ubx_parse_message (message (ubx d1)) (rx_data d1)
                      (rx_count d1) d1
               else d1).
    assert (H2 : state d2 = 11 /\ ubx d2 = ubx d1
                 /\ rx_count d2 = rx_count d + 1
                 /\ (rx_count d + 1 <> ubx_length (ubx d) -> ubx_staging d2)).
    { unfold d2.
      destruct (Z.eqb_spec (rx_count d1) (rx_chunk d1)) as [Ek|Ek].
      - pose proof (ubx_parse_message_window (message (ubx d1)) (rx_data d1)
                      (rx_count d1) d1) as W.
        cbv zeta in W. destruct W as (W1 & W2 & W3 & W4).
        set (p := ubx_parse_message _ _ _ _) in *.
        rewrite W1, W2, W3.
        split; [assumption|]. split; [reflexivity|]. split; [assumption|].
        intros Hne. unfold ubx_staging. rewrite W2, W3, Hc1, Hl1.
        rewrite <- Hm1 in Hm. rewrite Hc1, Hk1 in Ek.
        destruct (message (ubx d1) =? 0x0130).
        + destruct Hm as [Hlt Hch], W4 as [-> ->]. rewrite Ho1, Hk1.
          rewrite Hch in Ek |- *. unfold u16 in *.
          assert (Hsm : rx_offset d + 20 < 65536).
          { destruct (Z.lt_ge_cases (rx_offset d + 20) 65536) as [?|Hge];
              [assumption|].
            assert ((rx_offset d + 20) mod 65536 = rx_offset d + 20 - 65536).
            { symmetry. apply (Z.mod_unique _ _ 1); lia. }
            lia. }
          rewrite (Z.mod_small (rx_offset d + 20)) in * by lia.
          rewrite (Z.mod_small (rx_offset d + 12)) by lia.
          replace (rx_offset d + 12 + 20) with (rx_offset d + 20 + 12) by lia.
          repeat split; lia.
        + destruct W4 as [-> _]. rewrite Ho1. repeat split; lia.
      - split; [assumption|]. split; [reflexivity|]. split; [assumption|].
        intros Hne. unfold ubx_staging. rewrite Hc1, Ho1, Hk1, Hm1, Hl1.
        rewrite Hc1, Hk1 in Ek.
        destruct (message (ubx d) =? 0x0130).
        + destruct Hm as [Hlt Hch]. rewrite Hch in Ek. unfold u16 in *.
          destruct (Z.lt_ge_cases (rx_offset d + 20) 65536) as [Hsm|Hge].
          * rewrite (Z.mod_small (rx_offset d + 20)) in Ek by lia.
            repeat split; first [lia | exact Hch].
          * repeat split; first [lia | exact Hch].
        + repeat split; lia. }
    clearbody d2. destruct H2 as (Hs2 & Hu2 & Hc2 & Hst2).
    rewrite Hc2, Hu2, Hl1.
    destruct (Z.eqb_spec (rx_count d + 1) (ubx_length (ubx d))) as [El|El].
    + apply post_ret. exact I.
    + apply post_ret. unfold rx_inv. rewrite Hs2. apply Hst2, El.
Qed.

Lemma ubx_start_message_window m l d :
  let d' := ubx_start_message m l d in
  ubx d' = ubx d /\ rx_count d' = rx_count d /\ rx_offset d' = rx_offset d
  /\ ((m =? 0x0130) = true -> rx_chunk d' = 20).
Proof.
  cbv zeta. unfold ubx_start_message.
  destruct (m =? 0x0130);
    (split; [reflexivity|]); (split; [reflexivity|]);
    (split; [reflexivity|]); intros E; first [reflexivity | discriminate E].
Qed.

Lemma ubx_length_2_staging d c hi :
  state d = 10 -> post rx_inv (store_within hi) (gnss_receive_byte d c).
Proof.
  intros Es. rewrite step_ubx_length_2 by exact Es. cbv zeta.
  match goal with
  | |- context [ubx_start_message ?m ?l ?d0] =>
      pose proof (ubx_start_message_window m l d0) as W;
      cbv zeta in W; destruct W as (Hu & Hc & Ho & Hk);
      assert (Hr : 0 <= ubx_length (ubx d0) <= 65535);
      [| assert (Hc1 : rx_count d0 = 0) by reflexivity;
         assert (Ho1 : rx_offset d0 = 0) by reflexivity;
         set (d2 := ubx_start_message m l d0) in *;
         set (d1 := d0) in * ]
  end.
  { record_cbn. unfold u16.
    pose proof (Z.mod_pos_bound
      (Z.lor (ubx_length (ubx_ck_add c (ubx d))) (Z.shiftl c 8)) 65536).
    lia. }
  clearbody d2 d1.
  assert (Hc0 : rx_count d2 = 0) by congruence.
  assert (Ho0 : rx_offset d2 = 0) by congruence.
  clear Hc Ho. rewrite Hc0, Hu.
  destruct (Z.eqb_spec 0 (ubx_length (ubx d1))) as [E|E];
    apply post_ret; [exact I|].
  unfold rx_inv. record_cbn. unfold ubx_staging. record_cbn.
  rewrite Hc0, Ho0, Hu.
  split; [lia|]. split; [lia|].
  match type of Hk with (?m =? _) = true -> _ =>
    change (message (ubx d1)) with m; destruct (m =? 0x0130)
  end; [|reflexivity].
  split; [lia|]. rewrite Hk by reflexivity. reflexivity.
Qed.

Lemma nmea_payload_staging d c :
  state d = 1 -> 0 <= rx_count d <= GNSS_RX_DATA_SIZE ->
  (state d <=? 5) && (c =? chr "$") = false ->
  post rx_inv (store_within (if c =? chr "*" then 96 else 95))
    (gnss_receive_byte d c).
Proof.
  intros Es Hc E0. unfold gnss_receive_byte. rewrite E0, Es.
  unfold GNSS_RX_DATA_SIZE in *.
  destruct (c =? chr "*").
  - apply (post_bind (fun _ => True)).
    + unfold rx_store. apply post_emit; [exact I|].
      simpl. apply andb_true_iff. split; apply Z.leb_le; lia.
    + intros d0 _. apply post_ret. exact I.
  - destruct ((0x20 <=? c) && (c <=? 0x7f)); [|apply post_ret; exact I].
    destruct (Z.leb_spec 96 (rx_count d)) as [L|L]; [apply post_ret; exact I|].
    cbv zeta.
    destruct (c =? chr ",").
    + apply (post_bind (fun d0 => state d0 = 1)).
      * unfold rx_store. apply post_emit.
        -- match goal with
           | |- context [if ?b then _ else _] => destruct b
           end; exact Es.
        -- record_cbn. simpl. apply andb_true_iff.
           split; apply Z.leb_le; lia.
      * intros d0 H0. apply post_ret. unfold rx_inv.
        replace (state (set_rx_count 0 (nmea_parse_sentence d0 (rx_data d0))))
          with (state d0)
          by (symmetry;
              apply (quiet_fields _ _ (quiet_nmea_parse_sentence d0 (rx_data d0)))).
        rewrite H0. record_cbn. unfold GNSS_RX_DATA_SIZE. lia.
    + apply (post_bind (fun d0 => state d0 = 1 /\ rx_count d0 = rx_count d)).
      * unfold rx_store. apply post_emit.
        -- match goal with
           | |- context [if ?b then _ else _] => destruct b
           end; split; first [exact Es | reflexivity].
        -- record_cbn. simpl. apply andb_true_iff.
           split; apply Z.leb_le; lia.
      * intros d0 [H0 H1]. apply post_ret. unfold rx_inv. record_cbn.
        rewrite H0, H1. rewrite u16_small by lia.
        unfold GNSS_RX_DATA_SIZE. lia.
Qed.

(** One byte keeps the counters in step with the framing state; its
    store, if any, has an index from 0 to 95, or 96 for the terminator
    written at the asterisk of a sentence. *)
Lemma gnss_receive_byte_staging d c :
  rx_inv d ->
  post rx_inv (store_within (if c =? chr "*" then 96 else 95))
    (gnss_receive_byte d c).
Proof.
  intros H.
  destruct (Z.eq_dec (state d) 11) as [E11|N11].
  { unfold rx_inv in H. rewrite E11 in H.
    apply ubx_payload_staging; [assumption..|]. destruct (c =? _); lia. }
  destruct (Z.eq_dec (state d) 10) as [E10|N10].
  { apply ubx_length_2_staging. exact E10. }
  destruct ((state d <=? 5) && (c =? chr "$")) eqn:E0.
  { unfold gnss_receive_byte. rewrite E0.
    apply post_ret. unfold rx_inv.
    destruct (quiet_fields _ _ (quiet_nmea_start_sentence
      (set_rx_count 0 (set_checksum 0 (set_state GNSS_STATE_NMEA_PAYLOAD d)))))
      as (-> & _ & -> & _).
    record_cbn. unfold GNSS_RX_DATA_SIZE. lia. }
  destruct (Z.eq_dec (state d) 1) as [E1|N1].
  { unfold rx_inv in H. rewrite E1 in H.
    apply nmea_payload_staging; assumption. }
  unfold gnss_receive_byte. rewrite E0. clear H E0.
  destruct (state d) as [|p|p] eqn:Es.
  2: do 4 (try destruct p as [p|p|]).
  all: try (exfalso; lia).
  all: cbv beta iota.
  all: repeat first
    [ apply post_ret; first [ exact I | unfold rx_inv; rewrite Es; exact I ]
    | match goal with
      | |- post _ _ (if ?b then ret _ else ret _) => destruct b
      | |- post _ _ (_ >>= fun d0 => ret (set_state 0 d0)) =>
          apply (post_bind (fun _ => True)); [apply post_any | intros ? _]
      | |- trace_all _ (if ?b then _ else ret _) =>
          destruct b; [|apply trace_all_ret]
      end
    | apply nmea_sentence_end_stores
    | apply ubx_message_end_stores ].
Qed.

Lemma gnss_receive_staging data : forall d,
  rx_inv d -> post rx_inv (store_within 96) (gnss_receive d data).
Proof.
  induction data as [|c rest IH]; intros d H; [apply post_ret, H|].
  rewrite gnss_receive_cons. apply (post_bind rx_inv); [|exact IH].
  apply (post_weaken _ _ _ _ _ (gnss_receive_byte_staging d c H)); [auto|].
  intros e. apply store_within_mono. destruct (c =? _); lia.
Qed.

Lemma gnss_receive_staging_plain data : forall d,
  forallb (fun c => negb (c =? chr "*")) data = true ->
  rx_inv d -> post rx_inv (store_within 95) (gnss_receive d data).
Proof.
  induction data as [|c rest IH]; intros d Hd H; [apply post_ret, H|].
  cbn [forallb] in Hd. apply andb_true_iff in Hd as [Hc Hd].
  apply negb_true_iff in Hc.
  rewrite gnss_receive_cons. apply (post_bind rx_inv); [|intros; auto].
  pose proof (gnss_receive_byte_staging d c H) as Hb.
  rewrite Hc in Hb. exact Hb.
Qed.


(** ** Checksum characters *)

Lemma nmea_hex_not_lower i : is_lower_hex (nmea_hex i) = false.
Proof.
  unfold nmea_hex.
  destruct (nth_in_or_default (Z.to_nat i) nmea_hex_ascii 0) as [H| ->];
    [|reflexivity].
  revert H. generalize (nth (Z.to_nat i) nmea_hex_ascii 0). intros c H.
  vm_compute in H.
  repeat match goal with H : _ \/ _ |- _ => destruct H as [<-|H] end;
    try reflexivity. destruct H.
Qed.

(** ** The staged payload of a UBX message *)

Lemma take_insert_next {A} (l : list A) (done : list A) c :
  take (length done) l = done -> (length done < length l)%nat ->
  take (S (length done)) (<[length done := c]> l) = done ++ [c].
Proof.
  intros Ht Hl. rewrite insert_take_drop by exact Hl.
  rewrite Ht, (cons_middle c done), app_assoc.
  apply take_app_length'. rewrite length_app. simpl. lia.
Qed.

(** One payload byte of a message that is not handed over in chunks is
    stored behind the ones before it. *)
Lemma ubx_payload_step_data d c :
  state d = 11 -> (message (ubx d) =? 0x0130) = false ->
  rx_data (fst (gnss_receive_byte d c))
  = if (0 <=? rx_count d - rx_offset d)
       && (rx_count d - rx_offset d <? GNSS_RX_DATA_SIZE)
    then <[Z.to_nat (rx_count d - rx_offset d) := c]> (rx_data d)
    else rx_data d.
Proof.
  intros Hs Hm. rewrite step_ubx_payload by assumption.
  cbv zeta. unfold ubx_ck_add, ubx_parse_message.
  cbv zeta. payload_store_cases.
  all: repeat (record_cbn; rewrite ?Hm; split_if).
  all: record_cbn; try reflexivity.
  all: exfalso.
  all: repeat match goal with
       | H : _ = _ |- _ => progress record_cbn_in H
       end.
  all: repeat match goal with
       | H : (_ && _) = true |- _ => apply andb_true_iff in H as [? ?]
       | H : (_ && _) = false |- _ => apply andb_false_iff in H as [?|?]
       end.
  all: repeat match goal with
       | H : (_ <? _) = true |- _ => apply Z.ltb_lt in H
       | H : (_ <? _) = false |- _ => apply Z.ltb_ge in H
       | H : (_ <=? _) = true |- _ => apply Z.leb_le in H
       | H : (_ <=? _) = false |- _ => apply Z.leb_gt in H
       end; try lia; try discriminate.
Qed.

(** The payload bytes of such a message are staged in order from the
    start of the buffer. *)
Lemma ubx_payload_bytes rest : forall d done,
  rest = [] \/ state d = 11 ->
  rx_offset d = 0 -> (message (ubx d) =? 0x0130) = false ->
  rx_count d = Z.of_nat (length done) ->
  rx_count d + Z.of_nat (length rest) = ubx_length (ubx d) ->
  ubx_length (ubx d) <= GNSS_RX_DATA_SIZE ->
  length (rx_data d) = Z.to_nat GNSS_RX_DATA_SIZE ->
  take (length done) (rx_data d) = done ->
  let d' := fst (gnss_receive d rest) in
  take (length (done ++ rest)) (rx_data d') = done ++ rest.
Proof.
  induction rest as [|c rest IH]; intros d done Hs Ho Hm Hc Hn Hl Hd Ht;
    cbv zeta.
  - rewrite app_nil_r. exact Ht.
  - destruct Hs as [Hs|Hs]; [discriminate Hs|].
    rewrite length_cons, Nat2Z.inj_succ in Hn.
    unfold GNSS_RX_DATA_SIZE in *.
    rewrite gnss_receive_cons, bind_fst.
    destruct (ubx_payload_step d c Hs)
      as (_ & S2 & S3 & S4 & _ & S6 & _); [lia|].
    destruct (ubx_payload_step_other d c Hs Hm) as (_ & O2 & _ & _).
    pose proof (ubx_payload_step_data d c Hs Hm) as Hdata.
    cbv zeta in *. set (d1 := fst (gnss_receive_byte d c)) in *.
    rewrite Ho, Z.sub_0_r, Hc in Hdata.
    replace ((0 <=? Z.of_nat (length done))
             && (Z.of_nat (length done) <? GNSS_RX_DATA_SIZE))
      with true in Hdata
      by (symmetry; apply andb_true_iff; unfold GNSS_RX_DATA_SIZE;
          split; [apply Z.leb_le | apply Z.ltb_lt]; lia).
    rewrite Nat2Z.id in Hdata.
    rewrite (cons_middle c done rest), app_assoc.
    apply (IH d1 (done ++ [c])).
    + destruct rest as [|c' rest']; [left; reflexivity | right].
      rewrite S6. rewrite length_cons, Nat2Z.inj_succ in Hn.
      replace (rx_count d + 1 =? ubx_length (ubx d)) with false
        by (symmetry; apply Z.eqb_neq; lia).
      reflexivity.
    + rewrite O2. exact Ho.
    + rewrite S4. exact Hm.
    + rewrite S2, Hc, length_app. simpl. lia.
    + rewrite S2, S3. lia.
    + rewrite S3. exact Hl.
    + rewrite Hdata, length_insert. exact Hd.
    + rewrite Hdata, length_app. simpl. rewrite Nat.add_1_r.
      apply take_insert_next; [exact Ht|]. rewrite Hd. lia.
Qed.

Lemma trace_all_Forall (Q : event -> bool) (P : event -> Prop) r :
  trace_all Q r -> (forall e, Q e = true -> P e) -> Forall P (snd r).
Proof.
  unfold trace_all. rewrite forallb_forall, List.Forall_forall. auto.
Qed.

Lemma ubx_message_body_quiet m data d :
  trace_all (fun e => negb (is_ubx_end_message e))
    ((if Z.shiftr m 8 =? 0x01 then ret (ubx_nav_message m data d)
      else if m =? 0x0500 then ubx_ack_message GNSS_RESPONSE_NACK data d
      else if m =? 0x0501 then ubx_ack_message GNSS_RESPONSE_ACK data d
      else ret d) >>= fun d =>
     if init d =? GNSS_INIT_DONE
     then ubx_publish_location d >>= ubx_publish_satellites
     else ret d).
Proof.
  apply ubx_message_body_every.
  - intros d0. unfold trace_all, gnss_location. cbv zeta. cbn [snd].
    destruct (location_callback d0); reflexivity.
  - intros d0. unfold trace_all, gnss_satellites. cbv zeta. cbn [snd].
    destruct (satellites_callback _); reflexivity.
  - intros e He. destruct e; try reflexivity; discriminate.
Qed.

Lemma ubx_delivery_other key payload e :
  is_ubx_end_message e = false -> ubx_delivery key payload e.
Proof. destruct e; try exact (fun _ => I). discriminate. Qed.

Lemma ubx_delivery_quiet key payload t :
  existsb is_ubx_end_message t = false -> Forall (ubx_delivery key payload) t.
Proof.
  intros H. apply List.Forall_forall. intros e He.
  apply ubx_delivery_other. destruct (is_ubx_end_message e) eqn:E; [|reflexivity].
  rewrite <- H. symmetry. apply existsb_exists. eauto.
Qed.

(** The bytes staged by the head of a frame: sync bytes, header and
    payload. *)
Lemma ubx_head_data d class id payload :
  state d = GNSS_STATE_START -> mode d = GNSS_MODE_UBLOX ->
  is_byte class = true -> (ubx_key class id =? 0x0130) = false ->
  length (rx_data d) = Z.to_nat GNSS_RX_DATA_SIZE ->
  Z.of_nat (length payload) <= GNSS_RX_DATA_SIZE ->
  take (length payload)
    (rx_data (fst (gnss_receive d (ubx_head class id payload)))) = payload.
Proof.
  intros Hs Hm Hc Hk Hd Hn.
  assert (Hl : Z.of_nat (length payload) < 65536)
    by (unfold GNSS_RX_DATA_SIZE in Hn; lia).
  set (n := Z.of_nat (length payload)) in *.
  change (ubx_head class id payload)
    with ([0xb5; 0x62; class; id; n mod 256; n / 256] ++ payload).
  rewrite gnss_receive_app, bind_fst.
  destruct (ubx_header_run d class id (n mod 256) (n / 256) Hs Hm Hc)
    as (d1 & E & H1 & H2 & H3 & H4 & H5 & H6 & H7 & H8 & H9 & H10 & H11 & H12).
  rewrite E. cbn [fst].
  rewrite ubx_key_byte in H5 by assumption.
  rewrite ubx_length_bytes in H6 by (unfold n in *; lia).
  assert (Hd1 : rx_data d1 = rx_data d).
  { revert E. cbn [gnss_receive].
    rewrite step_ubx_sync_1, bind_ret_l by assumption.
    rewrite step_ubx_sync_2, bind_ret_l by reflexivity.
    rewrite step_ubx_message_1, bind_ret_l by reflexivity.
    rewrite step_ubx_message_2, bind_ret_l by reflexivity.
    rewrite step_ubx_length_1, bind_ret_l by reflexivity.
    rewrite step_ubx_length_2 by reflexivity.
    cbv zeta. unfold ubx_start_message.
    repeat match goal with
    | |- context [if ?b then _ else _] => plain_test b; destruct b
    end; rewrite ?bind_ret_l; unfold ret; intros E;
      injection E as <-; reflexivity. }
  apply (ubx_payload_bytes payload d1 []).
  - destruct payload as [|c rest]; [left; reflexivity | right].
    rewrite H1, H6. unfold n. rewrite length_cons.
    destruct (Z.eqb_spec 0 (Z.of_nat (S (length rest)))); [lia | reflexivity].
  - exact H3.
  - rewrite H5. exact Hk.
  - rewrite H2. reflexivity.
  - rewrite H2, H6. reflexivity.
  - rewrite H6. exact Hn.
  - rewrite Hd1. exact Hd.
  - reflexivity.
Qed.


(** ** The configuration driver at work *)

Lemma sent_app t1 t2 : sent (t1 ++ t2) = sent t1 ++ sent t2.
Proof.
  induction t1 as [|e t1 IH]; [reflexivity|].
  destruct e; simpl; rewrite ?IH; reflexivity.
Qed.

Lemma sent_stores t : only_stores t = true -> sent t = [].
Proof.
  induction t as [|e t IH]; [reflexivity|]. simpl. intros H.
  apply andb_true_iff in H as [He Ht]. destruct e; try discriminate.
  simpl. auto.
Qed.

Lemma sent_callbacks t : forallb is_callback t = true -> sent t = [].
Proof.
  induction t as [|e t IH]; [reflexivity|]. simpl. intros H.
  apply andb_true_iff in H as [He Ht]. destruct e; try discriminate;
    simpl; auto.
Qed.

(** Publishing leaves the configuration and the framing state alone and
    sends nothing. *)
Lemma ubx_publish_spec d :
  let r := ubx_publish_location d >>= ubx_publish_satellites in
  forallb is_callback (snd r) = true
  /\ config_of (fst r) = config_of d /\ state (fst r) = state d
  /\ rx_data (fst r) = rx_data d.
Proof.
  cbv zeta. unfold ubx_publish_location, ubx_publish_satellites,
    gnss_location, gnss_satellites, location_mask_or.
  cbv zeta.
  repeat match goal with
  | |- context [if ?b then _ else _] => plain_test b; destruct b
  end;
  cbn [bind ret emit fst snd app forallb is_callback andb];
  repeat match goal with
  | |- context [if ?b then _ else _] => plain_test b; destruct b
  end;
  cbn [bind ret emit fst snd app forallb is_callback andb];
  repeat split; reflexivity.
Qed.

(** *** The staging buffer keeps its size *)

Lemma rx_data_nmea_parse_sentence d data :
  rx_data (nmea_parse_sentence d data) = rx_data d.
Proof. apply (quiet_fields _ _ (quiet_nmea_parse_sentence d data)). Qed.

Lemma rx_data_nmea_start_sentence d :
  rx_data (nmea_start_sentence d) = rx_data d.
Proof. apply (quiet_fields _ _ (quiet_nmea_start_sentence d)). Qed.

Lemma rx_data_upd_info n f d : rx_data (upd_info n f d) = rx_data d.
Proof. unfold upd_info. destruct (_ !! _); reflexivity. Qed.

Ltac rx_data_step :=
  match goal with
  | |- rx_data ?d = rx_data ?d => reflexivity
  | |- rx_data (nmea_parse_sentence ?d _) = _ =>
      rewrite (rx_data_nmea_parse_sentence d)
  | |- rx_data (nmea_start_sentence ?d) = _ =>
      rewrite (rx_data_nmea_start_sentence d)
  | |- rx_data (upd_info ?n ?f ?d) = _ => rewrite (rx_data_upd_info n f d)
  | |- rx_data (if ?b then _ else _) = _ => destruct b
  | |- rx_data (match ?x with _ => _ end) = _ => destruct x
  | |- rx_data (let '(_, _) := ?x in _) = _ => destruct x
  | |- rx_data (?f ?d) = _ => change (rx_data (f d)) with (rx_data d)
  end.

Lemma rx_data_ubx_start_message m l d :
  rx_data (ubx_start_message m l d) = rx_data d.
Proof. unfold ubx_start_message. cbv zeta. repeat rx_data_step. Qed.

Lemma rx_data_ubx_parse_message m data cnt d :
  rx_data (ubx_parse_message m data cnt d) = rx_data d.
Proof. unfold ubx_parse_message. cbv zeta. repeat rx_data_step. Qed.

Lemma rx_data_ubx_nav_timegps data d :
  rx_data (ubx_nav_timegps data d) = rx_data d.
Proof. unfold ubx_nav_timegps. cbv zeta. repeat rx_data_step. Qed.

Lemma rx_data_ubx_nav_message m data d :
  rx_data (ubx_nav_message m data d) = rx_data d.
Proof.
  unfold ubx_nav_message, location_mask_or. cbv zeta.
  repeat first [ rewrite rx_data_ubx_nav_timegps | rx_data_step ].
Qed.

Lemma rx_data_propagate_mask field bit d :
  rx_data (propagate_mask field bit d) = rx_data d.
Proof. unfold propagate_mask, location_mask_or. repeat rx_data_step. Qed.

Section Rx_size.

Variable n : nat.

Ltac size_tac :=
  match goal with
  | H : length (rx_data ?d) = n |- length (rx_data _) = n =>
      rewrite <- H; f_equal;
      solve [ repeat first
                [ rewrite rx_data_ubx_start_message
                | rewrite rx_data_ubx_parse_message
                | rewrite rx_data_ubx_nav_message
                | rewrite rx_data_propagate_mask
                | rx_data_step ] ]
  end.

Ltac size_step :=
  first
    [ match goal with
      | |- post _ _ (if ?b then _ else _) => destruct b
      | |- post _ _ (match ?x with _ => _ end) => destruct x
      | |- post _ _ (let '(_, _) := ?x in _) => destruct x
      end
    | apply (post_bind (fun d => length (rx_data d) = n)); [|intros ? ?]
    | apply post_ret; solve [size_tac]
    | apply post_emit; [solve [size_tac] | reflexivity]
    | apply post_mark; [solve [size_tac] | intros ?; reflexivity]
    | progress cbv zeta ].

Lemma rx_store_size index value d :
  length (rx_data d) = n ->
  post (fun d' => length (rx_data d') = n) any_event (rx_store index value d).
Proof.
  intros H. unfold rx_store. apply post_emit; [|reflexivity].
  destruct (_ && _); [|exact H]. record_cbn. rewrite length_insert. exact H.
Qed.

Lemma forallb_any t : forallb any_event t = true.
Proof. induction t; simpl; auto. Qed.

Lemma gnss_location_size d :
  length (rx_data d) = n ->
  post (fun d' => length (rx_data d') = n) any_event (gnss_location d).
Proof.
  intros H. split; [exact H | apply forallb_any].
Qed.

Lemma gnss_satellites_size d :
  length (rx_data d) = n ->
  post (fun d' => length (rx_data d') = n) any_event (gnss_satellites d).
Proof.
  intros H. split; [|apply forallb_any].
  unfold gnss_satellites. cbv zeta.
  repeat match goal with |- context [if ?b then _ else _] => destruct b end;
    exact H.
Qed.

Lemma gnss_receive_byte_size d c :
  length (rx_data d) = n ->
  post (fun d' => length (rx_data d') = n) any_event (gnss_receive_byte d c).
Proof.
  intros H.
  unfold gnss_receive_byte, nmea_init_response, ubx_init_response,
    nmea_end_sentence, nmea_end_sequence, nmea_publish_location,
    nmea_publish_satellites, ubx_end_message, ubx_ack_message,
    ubx_publish_location, ubx_publish_satellites, mtk_configure, mtk_send,
    ubx_configure, ubx_send_timed, ubx_send.
  repeat first
    [ apply rx_store_size; solve [size_tac]
    | apply gnss_location_size; solve [size_tac]
    | apply gnss_satellites_size; solve [size_tac]
    | size_step ].
Qed.

Lemma gnss_receive_size data : forall d,
  length (rx_data d) = n -> length (rx_data (fst (gnss_receive d data))) = n.
Proof.
  induction data as [|c rest IH]; intros d H; [exact H|].
  rewrite gnss_receive_cons, bind_fst. apply IH.
  apply (gnss_receive_byte_size d c H).
Qed.

End Rx_size.

(** *** One reply *)

Lemma ubx_command_bytes key :
  0 <= key < 65536 ->
  u16 (Z.lor (Z.shiftl (Z.shiftr key 8) 8) (Z.land key 0xff)) = key.
Proof.
  intros H.
  assert (E : Z.lor (Z.shiftl (Z.shiftr key 8) 8) (Z.land key 0xff) = key).
  { apply Z.bits_inj'. intros i Hi.
    rewrite Z.lor_spec, Z.land_spec.
    change 0xff with (Z.ones 8).
    destruct (Z.lt_ge_cases i 8) as [L|G].
    - rewrite Z.shiftl_spec_low, Z.ones_spec_low by lia.
      rewrite andb_true_r. reflexivity.
    - rewrite Z.shiftl_spec, Z.shiftr_spec, Z.ones_spec_high by lia.
      rewrite andb_false_r, orb_false_r. f_equal. lia. }
  rewrite E. apply u16_small. exact H.
Qed.

(** [ubx_configure] past the baud-rate step: the next command of the
    table is sent, or the table is closed. *)
Lemma ubx_configure_step response key d :
  init d <> GNSS_INIT_UBX_BAUD_RATE ->
  let r := ubx_configure response key d in
  state (fst r) = state d /\ mode (fst r) = mode d
  /\ rx_data (fst r) = rx_data d
  /\ match table d with
     | Some (next :: rest) =>
         sent (snd r) = [next] /\ table (fst r) = Some rest
         /\ command (fst r) = ubx_command next /\ init (fst r) = init d
     | Some [] =>
         sent (snd r) = [] /\ table (fst r) = None
         /\ init (fst r)
            = (if init d =? GNSS_INIT_UBX_INIT_TABLE then GNSS_INIT_DONE
               else init d)
     | None =>
         sent (snd r) = [] /\ table (fst r) = None /\ init (fst r) = init d
     end.
Proof.
  intros Hi. cbv zeta.
  unfold ubx_configure, ubx_send_timed, ubx_send, ubx_command.
  cbn [emit bind]. apply Z.eqb_neq in Hi.
  destruct (table d) as [[|next rest]|] eqn:Et; rewrite ?Hi; record_cbn;
    try destruct (init d =? GNSS_INIT_UBX_INIT_TABLE);
    try destruct (list_Z_eqb next ubx_cfg_rxm_continuous);
    cbn [ret emit bind fst snd app sent]; record_cbn;
    repeat split; first [reflexivity | exact Et].
Qed.

Lemma ubx_publish_step d :
  let r := (if init d =? GNSS_INIT_DONE
            then ubx_publish_location d >>= ubx_publish_satellites
            else ret d) in
  sent (snd r) = [] /\ config_of (fst r) = config_of d
  /\ state (fst r) = state d /\ rx_data (fst r) = rx_data d.
Proof.
  cbv zeta. destruct (init d =? GNSS_INIT_DONE); [|repeat split; reflexivity].
  destruct (ubx_publish_spec d) as (P1 & P2 & P3 & P4).
  split; [apply sent_callbacks, P1 | auto].
Qed.

Lemma ubx_reply_step d cmd nack :
  ubx_driver_ready d -> 0 <= ubx_command cmd < 65536 ->
  let r := gnss_receive d (ubx_reply nack cmd) in
  ubx_driver_ready (fst r)
  /\ if ubx_command cmd =? command d then
       match table d with
       | Some (next :: rest) =>
           sent (snd r) = [next] /\ table (fst r) = Some rest
           /\ command (fst r) = ubx_command next /\ init (fst r) = init d
       | Some [] =>
           sent (snd r) = [] /\ table (fst r) = None
           /\ init (fst r)
              = (if init d =? GNSS_INIT_UBX_INIT_TABLE then GNSS_INIT_DONE
                 else init d)
       | None =>
           sent (snd r) = [] /\ table (fst r) = None /\ init (fst r) = init d
       end
     else
       sent (snd r) = [] /\ table (fst r) = table d
       /\ command (fst r) = command d /\ init (fst r) = init d.
Proof.
  intros (Hs & Hm & Hi & Hd) Hkey. cbv zeta.
  set (key := ubx_command cmd) in *.
  set (k := if nack then 0x00 else 0x01).
  set (payload := [Z.shiftr key 8; Z.land key 0xff]).
  assert (Hk : (ubx_key 0x05 k =? 0x0130) = false)
    by (unfold k; destruct nack; reflexivity).
  assert (Hc : is_byte 0x05 = true) by reflexivity.
  assert (Hl : Z.of_nat (length payload) < 65536) by (simpl; lia).
  assert (Hn : Z.of_nat (length payload) <= GNSS_RX_DATA_SIZE)
    by (unfold GNSS_RX_DATA_SIZE; simpl; lia).
  unfold ubx_reply, ubx_message, ubx_frame. fold key. fold k. fold payload.
  set (sums := fletcher8 (ubx_body 0x05 k payload)).
  rewrite gnss_receive_app.
  pose proof (gnss_receive_size _ (ubx_head 0x05 k payload) d Hd) as Hsize.
  pose proof (ubx_head_data d 0x05 k payload Hs Hm Hc Hk Hd Hn) as Hdata.
  destruct (ubx_head_run (fun _ => True) d 0x05 k payload Hs Hm Hc Hl)
    as (R1 & _ & R3 & R4 & R5 & R6 & R7 & _); [auto | auto |].
  destruct (ubx_plain_staged d 0x05 k payload Hs Hm Hc Hl Hk)
    as (_ & _ & P3 & _ & P5 & _).
  cbv zeta in *.
  set (staged := fst (gnss_receive d (ubx_head 0x05 k payload))) in *.
  destruct (ubx_trailer staged (fst sums) (snd sums) R3) as (d2 & E2 & E).
  rewrite bind_fst, bind_snd, sent_app, (sent_stores _ R1), app_nil_l.
  fold staged. rewrite E. clear E.
  fold sums in R6.
  assert (A : ck_a (ubx staged) = fst sums) by (rewrite <- R6; reflexivity).
  assert (B : ck_b (ubx staged) = snd sums) by (rewrite <- R6; reflexivity).
  rewrite !lxor_zero_eqb, A, B, !Z.eqb_refl. cbn [andb].
  assert (F1 : config_of d2 = config_of d)
    by (rewrite <- R7; unfold payload_of in E2; congruence).
  assert (F2 : rx_data d2 = rx_data staged)
    by (unfold payload_of in E2; congruence).
  assert (F3 : rx_count d2 = 2)
    by (unfold payload_of in E2; change 2 with (Z.of_nat (length payload));
        congruence).
  assert (F4 : message (ubx d2) = ubx_key 0x05 k)
    by (unfold payload_of in E2; congruence).
  assert (F5 : ubx_fits d2 = true).
  { unfold ubx_fits. unfold payload_of in E2.
    replace (rx_offset d2) with (rx_offset staged) by congruence.
    rewrite F3, P3. reflexivity. }
  unfold config_of in F1. injection F1 as G1 G2 G3 G4 G5 G6 G7 G8.
  clear E2 R1 R3 R4 R5 R6 R7 P3 P5 A B.
  assert (Hb : at_ (rx_data d2) 0 = Z.shiftr key 8
               /\ at_ (rx_data d2) 1 = Z.land key 0xff).
  { rewrite F2. destruct (rx_data staged) as [|x [|y l]];
      try discriminate Hdata.
    unfold payload in Hdata. simpl in Hdata. injection Hdata as -> ->.
    split; reflexivity. }
  destruct Hb as [Hb0 Hb1].
  assert (Hsz : length (rx_data d2) = Z.to_nat GNSS_RX_DATA_SIZE)
    by (rewrite F2; exact Hsize).
  clearbody staged. clear Hdata Hsize F2 staged.
  assert (Hir : ubx_init_response d2 = ret d2).
  { unfold ubx_init_response. rewrite G2.
    replace (init d =? GNSS_INIT_UBX_BAUD_RATE) with false
      by (symmetry; apply Z.eqb_neq; exact Hi).
    rewrite andb_false_r. reflexivity. }
  rewrite Hir, bind_ret_l, F5. unfold ubx_end_message.
  rewrite F4, F3.
  assert (Hack :
    (if Z.shiftr (ubx_key 5 k) 8 =? 1
     then ret (ubx_nav_message (ubx_key 5 k) (rx_data d2) d2)
     else if ubx_key 5 k =? 1280
     then ubx_ack_message GNSS_RESPONSE_NACK (rx_data d2) d2
     else if ubx_key 5 k =? 1281
     then ubx_ack_message GNSS_RESPONSE_ACK (rx_data d2) d2
     else ret d2)
    = if key =? command d
      then ubx_configure
             (if nack then GNSS_RESPONSE_NACK else GNSS_RESPONSE_ACK)
             key (set_command 0xffffffff d2)
      else ret d2).
  { unfold k. destruct nack;
      [ change (ubx_key 5 0) with 1280;
        change (Z.shiftr 1280 8 =? 1) with false;
        change (1280 =? 1280) with true
      | change (ubx_key 5 1) with 1281;
        change (Z.shiftr 1281 8 =? 1) with false;
        change (1281 =? 1280) with false;
        change (1281 =? 1281) with true ];
      cbv iota;
      unfold ubx_ack_message, ubx_data_uint8; cbv zeta;
      rewrite Hb0, Hb1, ubx_command_bytes, G6 by exact Hkey;
      reflexivity. }
  rewrite !bind_fst, !bind_snd. cbn [emit fst snd]. rewrite Hack.
  clear Hack.
  set (c := if key =? command d
            then ubx_configure
                   (if nack then GNSS_RESPONSE_NACK else GNSS_RESPONSE_ACK)
                   key (set_command 0xffffffff d2)
            else ret d2).
  assert (C : state (fst c) = state d2 /\ mode (fst c) = mode d
              /\ rx_data (fst c) = rx_data d2
              /\ init (fst c) <> GNSS_INIT_UBX_BAUD_RATE
              /\ if key =? command d then
                   match table d with
                   | Some (next :: rest) =>
                       sent (snd c) = [next] /\ table (fst c) = Some rest
                       /\ command (fst c) = ubx_command next
                       /\ init (fst c) = init d
                   | Some [] =>
                       sent (snd c) = [] /\ table (fst c) = None
                       /\ init (fst c)
                          = (if init d =? GNSS_INIT_UBX_INIT_TABLE
                             then GNSS_INIT_DONE else init d)
                   | None =>
                       sent (snd c) = [] /\ table (fst c) = None
                       /\ init (fst c) = init d
                   end
                 else
                   sent (snd c) = [] /\ table (fst c) = table d
                   /\ command (fst c) = command d /\ init (fst c) = init d).
  { unfold c. destruct (key =? command d).
    - assert (Hi2 : init (set_command 0xffffffff d2)
                    <> GNSS_INIT_UBX_BAUD_RATE)
        by (record_cbn; rewrite G2; exact Hi).
      pose proof (ubx_configure_step
                    (if nack then GNSS_RESPONSE_NACK else GNSS_RESPONSE_ACK)
                    key (set_command 0xffffffff d2) Hi2) as C.
      cbv zeta in C. record_cbn_in C. rewrite G5, G2 in C.
      destruct C as (C1 & C2 & C3 & C4).
      split; [exact C1|]. split; [rewrite C2; exact G1|].
      split; [exact C3|]. split; [|exact C4].
      destruct (table d) as [[|next rest]|].
      + destruct C4 as (_ & _ & ->).
        destruct (Z.eqb_spec (init d) GNSS_INIT_UBX_INIT_TABLE);
          [discriminate | exact Hi].
      + destruct C4 as (_ & _ & _ & ->). exact Hi.
      + destruct C4 as (_ & _ & ->). exact Hi.
    - cbn [ret fst snd sent]. rewrite G2. auto 10. }
  clearbody c. destruct C as (C1 & C2 & C3 & C5 & C4).
  destruct (ubx_publish_step (fst c)) as (P1 & P2 & P3 & P4).
  cbv zeta in *.
  set (p := if init (fst c) =? GNSS_INIT_DONE
            then ubx_publish_location (fst c) >>= ubx_publish_satellites
            else ret (fst c)) in *.
  unfold config_of in P2. injection P2 as Q1 Q2 Q3 Q4 Q5 Q6 Q7 Q8.
  cbn [ret snd]. rewrite app_nil_r.
  change (Ubx_end_message (ubx_key 5 k) (rx_data d2) 2 :: (snd c ++ snd p))
    with ([Ubx_end_message (ubx_key 5 k) (rx_data d2) 2] ++ snd c ++ snd p).
  rewrite !sent_app, P1, app_nil_r. cbn [sent app].
  split.
  - unfold ubx_driver_ready. cbn [ret fst]. record_cbn.
    rewrite Q1, C2, Q2, P4, C3. auto.
  - cbn [ret fst]. record_cbn. rewrite Q5, Q6, Q2. exact C4.
Qed.

Lemma ubx_replies_cons p l :
  ubx_replies (p :: l) = ubx_reply (snd p) (fst p) ++ ubx_replies l.
Proof. reflexivity. Qed.

(** The replies to the command in flight and to the commands of the
    table, in order: the table is worked off. *)
Lemma ubx_table_run l : forall d cmd nack,
  ubx_driver_ready d -> command d = ubx_command cmd ->
  table d = Some (map fst l) \/ (table d = None /\ l = []) ->
  Forall (fun c => 0 <= ubx_command c < 65536) (cmd :: map fst l) ->
  let r := gnss_receive d (ubx_replies ((cmd, nack) :: l)) in
  sent (snd r) = map fst l /\ table (fst r) = None
  /\ ubx_driver_ready (fst r)
  /\ init (fst r)
     = match table d with
       | Some _ =>
           if init d =? GNSS_INIT_UBX_INIT_TABLE then GNSS_INIT_DONE
           else init d
       | None => init d
       end.
Proof.
  induction l as [|[c1 n1] l IH]; intros d cmd nack Hr Hc Ht Hk; cbv zeta.
  - unfold ubx_replies. cbn [map concat fst snd]. rewrite app_nil_r.
    apply Forall_inv in Hk.
    destruct (ubx_reply_step d cmd nack Hr Hk) as (S1 & S2).
    cbv zeta in *.
    replace (ubx_command cmd =? command d) with true in S2
      by (symmetry; apply Z.eqb_eq; congruence).
    destruct Ht as [Ht|[Ht _]]; rewrite Ht in *;
      cbn [map] in S2; destruct S2 as (S2 & S3 & S4); auto.
  - rewrite (ubx_replies_cons (cmd, nack)). cbn [fst snd].
    rewrite gnss_receive_app, bind_fst, bind_snd, sent_app.
    pose proof (Forall_inv Hk) as Hk0. apply Forall_inv_tail in Hk.
    destruct (ubx_reply_step d cmd nack Hr Hk0) as (S1 & S2).
    cbv zeta in *.
    replace (ubx_command cmd =? command d) with true in S2
      by (symmetry; apply Z.eqb_eq; congruence).
    destruct Ht as [Ht|[_ Ht]]; [|discriminate Ht].
    rewrite Ht in *.
    cbn [map fst] in S2. destruct S2 as (S2 & S3 & S4 & S5).
    destruct (IH (fst (gnss_receive d (ubx_reply nack cmd))) c1 n1 S1 S4
                (or_introl S3) Hk)
      as (I1 & I2 & I3 & I4).
    cbv zeta in *. rewrite S2, I1.
    split; [reflexivity|]. split; [exact I2|]. split; [exact I3|].
    rewrite I4, S3, S5. reflexivity.
Qed.

(** ** The checksum of an outgoing frame *)

Lemma fold_left_seq_at {A} (f : A -> Z -> A) (data : list Z) :
  forall m k acc,
  (k + m <= length data)%nat ->
  fold_left (fun a i => f a (at_ data i)) (seq k m) acc
  = fold_left f (take m (drop k data)) acc.
Proof.
  induction m as [|m IH]; intros k acc H; [reflexivity|].
  cbn [seq fold_left].
  destruct (drop k data) as [|x rest] eqn:E.
  { apply (f_equal length) in E. rewrite length_drop in E. simpl in E. lia. }
  cbn [take fold_left].
  assert (Hx : at_ data k = x).
  { unfold at_. rewrite <- (take_drop k data) at 1.
    rewrite app_nth2 by (rewrite length_take; lia).
    rewrite length_take, E. replace (k - k `min` length data)%nat with 0%nat by lia.
    reflexivity. }
  rewrite Hx, IH by lia. f_equal.
  assert (Hd : drop (S k) data = rest).
  { rewrite <- (Nat.add_1_r k), <- drop_drop, E. reflexivity. }
  rewrite Hd. reflexivity.
Qed.

Lemma fold_left_eq {A B} (f g : A -> B -> A) l :
  (forall a b, f a b = g a b) -> forall a, fold_left f l a = fold_left g l a.
Proof.
  intros H. induction l as [|x l IH]; intros a; [reflexivity|].
  simpl. rewrite H. apply IH.
Qed.

(** [ubx_checksum] seals a frame: behind sync bytes, header and payload
    it writes the Fletcher sums of the header and the payload. *)
Lemma ubx_checksum_seals class id payload x y :
  Z.of_nat (length payload) < 65536 ->
  ubx_checksum (ubx_head class id payload ++ [x; y])
  = ubx_message class id payload.
Proof.
  intros Hl. unfold ubx_checksum, ubx_message, ubx_frame.
  set (n := Z.of_nat (length payload)) in *.
  assert (Hh : ubx_head class id payload
               = [0xb5; 0x62; class; id; n mod 256; n / 256] ++ payload)
    by reflexivity.
  assert (H4 : at_ (ubx_head class id payload ++ [x; y]) 4 = n mod 256)
    by reflexivity.
  assert (H5 : at_ (ubx_head class id payload ++ [x; y]) 5 = n / 256)
    by reflexivity.
  rewrite H4, H5.
  assert (Hc : Z.lor (n mod 256) (Z.shiftl (n / 256) 8) = n).
  { pose proof (Z.add_lor_land (n mod 256) (Z.shiftl (n / 256) 8)) as H.
    rewrite land_low_high, Z.add_0_r in H by lia. rewrite H.
    rewrite Z.shiftl_mul_pow2 by lia. change (2 ^ 8) with 256.
    pose proof (Z.div_mod n 256). lia. }
  rewrite Hc. cbv zeta.
  replace (Z.to_nat (n + 8 - 2) - 2)%nat with (4 + length payload)%nat
    by (unfold n; lia).
  replace (Z.to_nat (n + 8 - 1)) with (length (ubx_head class id payload) + 1)%nat
    by (rewrite Hh, length_app; unfold n; simpl; lia).
  replace (Z.to_nat (n + 8 - 2)) with (length (ubx_head class id payload) + 0)%nat
    by (rewrite Hh, length_app; unfold n; simpl; lia).
  match goal with
  | |- context [fold_left ?f (seq 2 (4 + length payload)) (0, 0)] =>
      assert (Hf : fold_left f (seq 2 (4 + length payload)) (0, 0)
                   = fletcher8 (ubx_body class id payload))
  end.
  { transitivity
      (fold_left (fun a i => fletcher8_step a
                    (at_ (ubx_head class id payload ++ [x; y]) i))
         (seq 2 (4 + length payload)) (0, 0)).
    { apply fold_left_eq. intros [a b] i. reflexivity. }
    rewrite fold_left_seq_at
      by (rewrite length_app, Hh, length_app; simpl; lia).
    unfold fletcher8. f_equal.
    rewrite Hh. change (ubx_body class id payload)
      with ([class; id; n mod 256; n / 256] ++ payload).
    cbn [app drop Nat.add take]. do 4 f_equal.
    apply take_app_length. }
  rewrite Hf. destruct (fletcher8 (ubx_body class id payload)) as [a b].
  cbn [fst snd].
  rewrite (insert_app_r (ubx_head class id payload) [x; y] 0).
  rewrite (insert_app_r (ubx_head class id payload) _ 1).
  reflexivity.
Qed.

Lemma shiftr_byte x k :
  0 <= k -> u8 (Z.shiftr x (8 * k)) = (x / 256 ^ k) mod 256.
Proof.
  intros Hk. unfold u8. rewrite Z.shiftr_div_pow2 by lia.
  rewrite Z.pow_mul_r by lia. reflexivity.
Qed.

Lemma le_bytes_4 x :
  le_bytes 4 x
  = [u8 (Z.shiftr x 0); u8 (Z.shiftr x 8); u8 (Z.shiftr x 16);
     u8 (Z.shiftr x 24)].
Proof.
  change 8 with (8 * 1) at 1. change 16 with (8 * 2). change 24 with (8 * 3).
  change 0 with (8 * 0) at 1.
  rewrite !shiftr_byte by lia. cbn [le_bytes].
  rewrite !Z.div_div by lia. rewrite Z.pow_0_r, Z.div_1_r.
  reflexivity.
Qed.

Lemma le_bytes_2 x : le_bytes 2 x = [u8 (Z.shiftr x 0); u8 (Z.shiftr x 8)].
Proof.
  change 8 with (8 * 1) at 1. change 0 with (8 * 0) at 1.
  rewrite !shiftr_byte by lia. cbn [le_bytes].
  rewrite Z.pow_0_r, Z.div_1_r. reflexivity.
Qed.

(** The frame of [gnss_set_periodic] is the sealed CFG-PM2 message. *)
Lemma ubx_cfg_pm2_periodic_frame onTime period force :
  ubx_cfg_pm2_periodic onTime period force
  = ubx_message 0x06 0x3b (pm2_payload onTime period force).
Proof.
  rewrite <- (ubx_checksum_seals 0x06 0x3b _ 0 0)
    by (unfold pm2_payload; cbv zeta; rewrite !length_app; simpl; lia).
  unfold ubx_cfg_pm2_periodic, pm2_payload. cbv zeta. f_equal.
  rewrite le_bytes_4, le_bytes_4, le_bytes_2.
  reflexivity.
Qed.

(** ** The runtime controls *)

Lemma ubx_send_spec data d :
  let r := ubx_send data d in
  sent (snd r) = [data] /\ command (fst r) = ubx_command data
  /\ busy (fst r) = 1 /\ table (fst r) = table d
  /\ state (fst r) = state d /\ mode (fst r) = mode d
  /\ init (fst r) = init d /\ rx_data (fst r) = rx_data d.
Proof.
  cbv zeta. unfold ubx_send, ubx_command.
  destruct (list_Z_eqb data ubx_cfg_rxm_continuous);
    cbn [emit fst snd sent]; record_cbn; repeat split; reflexivity.
Qed.

Lemma ubx_command_pm2_periodic onTime period force :
  ubx_command (ubx_cfg_pm2_periodic onTime period force) = 0x063b.
Proof. rewrite ubx_cfg_pm2_periodic_frame. reflexivity. Qed.

Lemma ubx_control_commands_ok c :
  Forall (fun c => 0 <= ubx_command c < 65536) (ubx_control_commands c).
Proof.
  assert (Hp : forall onTime period force,
             0 <= ubx_command (ubx_cfg_pm2_periodic onTime period force)
             < 65536)
    by (intros; rewrite ubx_command_pm2_periodic; lia).
  destruct c; cbn [ubx_control_commands];
    repeat match goal with
    | |- context [if ?b then _ else _] => destruct b
    end;
    repeat (constructor;
            [lazymatch goal with
             | |- _ <= ubx_command (ubx_cfg_pm2_periodic _ _ _) < _ =>
                 apply Hp
             | |- _ =>
                 vm_compute; split; [intros H; discriminate H | reflexivity]
             end|]);
    constructor.
Qed.

Lemma gnss_done_idle d : gnss_done d = true -> table d = None /\ busy d = 0.
Proof.
  unfold gnss_done. destruct (table d); [discriminate|].
  destruct (Z.eqb_spec (busy d) 0); [auto | discriminate].
Qed.

(** An accepted control on a u-blox device sends its first command; a
    table control leaves the other commands in the table. *)
Lemma ubx_control_start c d :
  gnss_done d = true -> mode d = GNSS_MODE_UBLOX ->
  let r0 := snd (gnss_control c d) in
  fst (gnss_control c d) = true
  /\ exists c0 rest,
       ubx_control_commands c = c0 :: rest
       /\ sent (snd r0) = [c0] /\ command (fst r0) = ubx_command c0
       /\ busy (fst r0) = 1
       /\ table (fst r0) = (if table_control c then Some rest else None)
       /\ (table_control c = false -> rest = [])
       /\ state (fst r0) = state d /\ mode (fst r0) = mode d
       /\ init (fst r0) = init d /\ rx_data (fst r0) = rx_data d.
Proof.
  intros Hd Hm. cbv zeta. destruct (gnss_done_idle d Hd) as [Ht Hb].
  assert (Hk : (mode d =? GNSS_MODE_MEDIATEK) = false)
    by (rewrite Hm; reflexivity).
  assert (Hu : (mode d =? GNSS_MODE_UBLOX) = true)
    by (rewrite Hm; reflexivity).
  destruct c;
    cbn [gnss_control ubx_control_commands table_control];
    unfold gnss_set_external, gnss_set_constellation, gnss_set_sbas,
      gnss_set_qzss, gnss_set_periodic, gnss_sleep, gnss_wakeup;
    rewrite Hd, ?Hk, ?Hu; cbn [negb fst snd]; cbv zeta;
    (split; [reflexivity|]);
    repeat match goal with
    | |- context [if ?b then _ else _] => plain_test b; destruct b
    end;
    unfold ubx_table, ubx_external_enable_table, ubx_external_disable_table,
      ubx_constellation_gps_glonass_table, ubx_constellation_gps_table,
      ubx_sbas_enable_table, ubx_sbas_disable_table, ubx_qzss_enable_table,
      ubx_qzss_disable_table;
    match goal with
    | |- context [ubx_send ?c0 ?d0] =>
        destruct (ubx_send_spec c0 d0)
          as (U1 & U2 & U3 & U4 & U5 & U6 & U7 & U8);
        cbv zeta in *; record_cbn_in U4;
        eexists; eexists; (split; [reflexivity|]);
        rewrite U1, U2, U3, U4, U5, U6, U7, U8;
        repeat split; first [reflexivity | exact Ht | discriminate]
    end.
Qed.

(** *** Start-up of a u-blox receiver *)

(** [ubx_configure] in the baud-rate step: the init table is started. *)
Lemma ubx_configure_baud_rate response key d c0 rest :
  init d = GNSS_INIT_UBX_BAUD_RATE -> table d = Some (c0 :: rest) ->
  let r := ubx_configure response key d in
  sent (snd r) = [c0] /\ table (fst r) = Some rest
  /\ command (fst r) = ubx_command c0
  /\ init (fst r) = GNSS_INIT_UBX_INIT_TABLE
  /\ staging_of (fst r) = staging_of d.
Proof.
  intros Hi Ht. cbv zeta.
  unfold ubx_configure, ubx_send_timed, ubx_send, ubx_command.
  cbn [emit bind]. rewrite Ht. record_cbn. rewrite Hi.
  change (GNSS_INIT_UBX_BAUD_RATE =? GNSS_INIT_UBX_BAUD_RATE) with true.
  cbv iota.
  destruct (list_Z_eqb c0 ubx_cfg_rxm_continuous);
    cbn [ret emit bind fst snd app sent tl]; record_cbn;
    repeat split; reflexivity.
Qed.

Lemma ubx_key_class class id :
  is_byte class = true -> is_byte id = true ->
  Z.shiftr (ubx_key class id) 8 = class.
Proof.
  unfold is_byte, ubx_key. intros Hc Hi.
  apply andb_true_iff in Hc as [C1 C2]. apply andb_true_iff in Hi as [I1 I2].
  apply Z.leb_le in C1, I1. apply Z.ltb_lt in C2, I2.
  rewrite Z.shiftr_lor, Z.shiftr_shiftl_l, Z.sub_diag, Z.shiftl_0_r by lia.
  rewrite (Z.shiftr_div_pow2 id) by lia. change (2 ^ 8) with 256.
  rewrite Z.div_small by lia. apply Z.lor_0_r.
Qed.

(** The first frame of the receiver in the baud-rate step starts the
    init table. *)
Lemma ubx_baud_rate_step d class id payload c0 rest :
  state d = GNSS_STATE_START -> mode d = GNSS_MODE_UBLOX ->
  init d = GNSS_INIT_UBX_BAUD_RATE -> table d = Some (c0 :: rest) ->
  length (rx_data d) = Z.to_nat GNSS_RX_DATA_SIZE ->
  is_byte class = true -> is_byte id = true ->
  class <> 0x01 -> class <> 0x05 ->
  Z.of_nat (length payload) <= GNSS_RX_DATA_SIZE ->
  let r := gnss_receive d (ubx_message class id payload) in
  ubx_driver_ready (fst r) /\ sent (snd r) = [c0]
  /\ table (fst r) = Some rest /\ command (fst r) = ubx_command c0
  /\ init (fst r) = GNSS_INIT_UBX_INIT_TABLE.
Proof.
  intros Hs Hm Hi Ht Hd Hc Hid Hn1 Hn5 Hn. cbv zeta.
  assert (Hcl : Z.shiftr (ubx_key class id) 8 = class)
    by (apply ubx_key_class; assumption).
  assert (Hk : (ubx_key class id =? 0x0130) = false).
  { apply Z.eqb_neq. intros E. rewrite E in Hcl. apply Hn1.
    rewrite <- Hcl. reflexivity. }
  assert (Hl : Z.of_nat (length payload) < 65536)
    by (unfold GNSS_RX_DATA_SIZE in Hn; lia).
  pose proof (gnss_receive_size _ (ubx_message class id payload) d Hd) as Hsize.
  revert Hsize.
  unfold ubx_message, ubx_frame.
  set (sums := fletcher8 (ubx_body class id payload)).
  rewrite gnss_receive_app.
  destruct (ubx_head_run (fun _ => True) d class id payload Hs Hm Hc Hl)
    as (R1 & _ & R3 & R4 & R5 & R6 & R7 & _); [auto | auto |].
  destruct (ubx_plain_staged d class id payload Hs Hm Hc Hl Hk)
    as (_ & _ & P3 & _ & P5 & _).
  cbv zeta in *.
  set (staged := fst (gnss_receive d (ubx_head class id payload))) in *.
  destruct (ubx_trailer staged (fst sums) (snd sums) R3) as (d2 & E2 & E).
  rewrite bind_fst, bind_snd, sent_app, (sent_stores _ R1), app_nil_l.
  fold staged. rewrite E. clear E.
  fold sums in R6.
  assert (A : ck_a (ubx staged) = fst sums) by (rewrite <- R6; reflexivity).
  assert (B : ck_b (ubx staged) = snd sums) by (rewrite <- R6; reflexivity).
  rewrite !lxor_zero_eqb, A, B, !Z.eqb_refl. cbn [andb].
  assert (F1 : config_of d2 = config_of d)
    by (rewrite <- R7; unfold payload_of in E2; congruence).
  assert (F3 : rx_count d2 = Z.of_nat (length payload))
    by (unfold payload_of in E2; congruence).
  assert (F4 : message (ubx d2) = ubx_key class id)
    by (unfold payload_of in E2; congruence).
  assert (F5 : ubx_fits d2 = true).
  { unfold ubx_fits. unfold payload_of in E2.
    replace (rx_offset d2) with (rx_offset staged) by congruence.
    rewrite F3, P3. apply Z.leb_le. lia. }
  unfold config_of in F1. injection F1 as G1 G2 G3 G4 G5 G6 G7 G8.
  clear E2 R1 R3 R4 R5 R6 R7 P3 P5 A B. clearbody staged. clear staged.
  assert (Hir : ubx_init_response d2
                = ubx_configure GNSS_RESPONSE_UBX_MESSAGE 0xffffffff d2).
  { unfold ubx_init_response. rewrite G2, Hi. reflexivity. }
  rewrite Hir. clear Hir.
  destruct (ubx_configure_baud_rate GNSS_RESPONSE_UBX_MESSAGE 0xffffffff d2
              c0 rest) as (C1 & C2 & C3 & C4 & C5);
    [congruence | congruence |].
  cbv zeta in *.
  set (c := ubx_configure GNSS_RESPONSE_UBX_MESSAGE 0xffffffff d2) in *.
  unfold staging_of in C5. injection C5 as S1 S2 S3 S4 S5 S6 S7 S8 S9 S10.
  assert (F5' : ubx_fits (fst c) = true)
    by (unfold ubx_fits in *; rewrite S4, S5; exact F5).
  rewrite !bind_fst, !bind_snd, F5'. unfold ubx_end_message.
  rewrite S9, F4, Hcl.
  replace (class =? 1) with false by (symmetry; apply Z.eqb_neq; exact Hn1).
  replace (ubx_key class id =? 1280) with false.
  2:{ symmetry. apply Z.eqb_neq. intros E. rewrite E in Hcl. apply Hn5.
      rewrite <- Hcl. reflexivity. }
  replace (ubx_key class id =? 1281) with false.
  2:{ symmetry. apply Z.eqb_neq. intros E. rewrite E in Hcl. apply Hn5.
      rewrite <- Hcl. reflexivity. }
  cbn [emit bind ret fst snd app]. rewrite C4.
  change (GNSS_INIT_UBX_INIT_TABLE =? GNSS_INIT_DONE) with false. cbv iota.
  cbn [ret fst snd]. rewrite !app_nil_r, sent_app. cbn [sent].
  rewrite app_nil_r. record_cbn. intros Hsize.
  split.
  - unfold ubx_driver_ready. record_cbn. rewrite S1, G1, C4.
    split; [reflexivity|]. split; [exact Hm|].
    split; [intros Hx; discriminate Hx | exact Hsize].
  - auto.
Qed.
Lemma ubx_init_table_ok rate :
  Forall (fun c => 0 <= ubx_command c < 65536) (ubx_init_table rate)
  /\ ubx_init_table rate <> [].
Proof.
  unfold ubx_init_table.
  destruct (10 <=? rate); [|destruct (5 <=? rate)];
    (split; [|intros Hx; discriminate Hx]);
    repeat (constructor;
              [vm_compute; split; [intros Hx; discriminate Hx | reflexivity]|]);
    constructor.
Qed.

Lemma map_fst_combine {A B} (l : list A) : forall l' : list B,
  length l' = length l -> map fst (combine l l') = l.
Proof.
  induction l as [|x l IH]; intros [|y l'] H; try discriminate H;
    [reflexivity|].
  cbn [combine map fst]. f_equal. apply IH. simpl in H. lia.
Qed.

(** ** The fields of an NMEA sentence *)

Lemma nmea_staging_id d :
  nmea_staging (rx_data d) (rx_count d) (checksum d) d = d.
Proof. destruct d. reflexivity. Qed.

Lemma nmea_staging_twice data1 n1 s1 data2 n2 s2 d :
  nmea_staging data2 n2 s2 (nmea_staging data1 n1 s1 d)
  = nmea_staging data2 n2 s2 d.
Proof. destruct d. reflexivity. Qed.

(** The bytes of a field are stored one behind the other. *)
Lemma nmea_field_run field : forall d,
  state d = 1 -> forallb nmea_field_byte field = true ->
  0 <= rx_count d ->
  rx_count d + Z.of_nat (length field) <= GNSS_RX_DATA_SIZE ->
  length (rx_data d) = Z.to_nat GNSS_RX_DATA_SIZE ->
  let n := Z.to_nat (rx_count d) in
  fst (gnss_receive d field)
  = nmea_staging
      (take n (rx_data d) ++ field ++ drop (n + length field) (rx_data d))
      (rx_count d + Z.of_nat (length field))
      (fold_left Z.lxor field (checksum d)) d
  /\ only_stores (snd (gnss_receive d field)) = true.
Proof.
  unfold GNSS_RX_DATA_SIZE.
  induction field as [|c rest IH]; intros d Hs Hp H0 Hn Hl; cbv zeta.
  - cbn [gnss_receive ret fst snd length fold_left app].
    rewrite Nat.add_0_r, take_drop, Z.add_0_r, nmea_staging_id.
    split; reflexivity.
  - cbn [forallb] in Hp. apply andb_true_iff in Hp as [Hc Hrest].
    pose proof Hc as Hc'.
    unfold nmea_field_byte in Hc'. apply andb_true_iff in Hc' as [Hb Hcomma].
    apply negb_true_iff in Hcomma.
    rewrite length_cons, Nat2Z.inj_succ in *.
    set (d1 := nmea_staging (<[Z.to_nat (rx_count d) := c]> (rx_data d))
                 (rx_count d + 1) (Z.lxor (checksum d) c) d).
    assert (E : gnss_receive_byte d c = (d1, [Store_rx_data (rx_count d)])).
    { rewrite (step_payload_char d c Hs Hb).
      replace (GNSS_RX_DATA_SIZE <=? rx_count d) with false
        by (symmetry; apply Z.leb_gt; unfold GNSS_RX_DATA_SIZE; lia).
      cbv zeta. rewrite Hcomma. unfold rx_store. record_cbn.
      replace ((0 <=? rx_count d) && (rx_count d <? GNSS_RX_DATA_SIZE))
        with true
        by (symmetry; apply andb_true_iff; split;
            [apply Z.leb_le | apply Z.ltb_lt; unfold GNSS_RX_DATA_SIZE]; lia).
      unfold emit, bind, ret. record_cbn. rewrite u16_small by lia.
      unfold d1. destruct d. reflexivity. }
    rewrite (receive_cons_pair _ _ _ _ _ E). cbn [fst snd].
    destruct (IH d1 Hs Hrest) as (I1 & I2);
      [ unfold d1, nmea_staging; record_cbn; lia
      | unfold d1, nmea_staging; record_cbn; lia
      | unfold d1, nmea_staging; record_cbn; rewrite length_insert; exact Hl
      |].
    cbv zeta in I1. rewrite I1, only_stores_app, I2.
    split; [|reflexivity].
    assert (T : forall X Y Z, nmea_staging X Y Z d1 = nmea_staging X Y Z d)
      by (intros; apply nmea_staging_twice).
    rewrite T.
    change (rx_count d1) with (rx_count d + 1).
    change (rx_data d1) with (<[Z.to_nat (rx_count d) := c]> (rx_data d)).
    change (checksum d1) with (Z.lxor (checksum d) c).
    clear T I1 I2 E. clearbody d1.
    cbn [fold_left]. f_equal; [|lia].
    set (n := Z.to_nat (rx_count d)).
    replace (Z.to_nat (rx_count d + 1)) with (S n) by (unfold n; lia).
    assert (Hlt : (n < length (rx_data d))%nat) by (unfold n; lia).
    rewrite drop_insert_lt by lia.
    replace (S n + length rest)%nat with (n + S (length rest))%nat by lia.
    rewrite (take_S_r _ _ c) by (apply list_lookup_insert_eq; exact Hlt).
    rewrite take_insert_ge by lia.
    rewrite <- app_assoc. reflexivity.
Qed.

Lemma nmea_field_payload_byte c :
  nmea_field_byte c = true -> nmea_payload_byte c = true.
Proof. unfold nmea_field_byte. intros H. apply andb_true_iff in H. tauto. Qed.

Lemma nmea_field_image_length field l :
  (length field < length l)%nat ->
  length (nmea_field_image field l) = length l.
Proof.
  intros H. unfold nmea_field_image.
  rewrite length_app, length_cons, length_drop. lia.
Qed.

(** A field closed by a comma: the field is staged with its NUL and
    parsed, and the next field starts at the head of the buffer. *)
Lemma nmea_field_comma field d :
  state d = 1 -> forallb nmea_field_byte field = true ->
  rx_count d = 0 -> Z.of_nat (length field) < GNSS_RX_DATA_SIZE ->
  length (rx_data d) = Z.to_nat GNSS_RX_DATA_SIZE ->
  let data := nmea_field_image field (rx_data d) in
  let r := gnss_receive d (field ++ [chr ","]) in
  fst r
  = set_rx_count 0
      (nmea_parse_sentence
         (nmea_staging data (Z.of_nat (length field))
            (fold_left Z.lxor (field ++ [chr ","]) (checksum d)) d)
         data)
  /\ only_stores (snd r) = true.
Proof.
  intros Hs Hf Hc Hn Hl. cbv zeta.
  rewrite gnss_receive_app, bind_fst, bind_snd, only_stores_app.
  destruct (nmea_field_run field d Hs Hf) as (R1 & R2);
    [lia | lia | exact Hl |].
  cbv zeta in R1. rewrite R1, R2, Hc. clear R1 R2.
  change (Z.to_nat 0) with 0%nat. rewrite take_0, app_nil_l, Z.add_0_l.
  cbn [Nat.add].
  set (d1 := nmea_staging _ _ _ d).
  assert (E : gnss_receive_byte d1 (chr ",")
              = (set_rx_count 0
                   (nmea_parse_sentence
                      (nmea_staging (nmea_field_image field (rx_data d))
                         (Z.of_nat (length field))
                         (fold_left Z.lxor (field ++ [chr ","]) (checksum d))
                         d)
                      (nmea_field_image field (rx_data d))),
                 [Store_rx_data (Z.of_nat (length field))])).
  { rewrite (step_payload_char d1 (chr ",") Hs eq_refl).
    change (rx_count d1) with (Z.of_nat (length field)).
    replace (GNSS_RX_DATA_SIZE <=? Z.of_nat (length field)) with false
      by (symmetry; apply Z.leb_gt; exact Hn).
    cbv zeta. rewrite Z.eqb_refl. unfold rx_store. record_cbn.
    change (rx_count d1) with (Z.of_nat (length field)).
    replace ((0 <=? Z.of_nat (length field))
             && (Z.of_nat (length field) <? GNSS_RX_DATA_SIZE)) with true
      by (symmetry; apply andb_true_iff; split;
          [apply Z.leb_le | apply Z.ltb_lt]; lia).
    unfold emit, bind, ret. record_cbn. rewrite app_nil_r.
    f_equal. f_equal.
    assert (D : <[Z.to_nat (Z.of_nat (length field)) := 0]> (rx_data d1)
                = nmea_field_image field (rx_data d)).
    { unfold d1, nmea_staging. record_cbn. rewrite Nat2Z.id.
      unfold nmea_field_image. unfold GNSS_RX_DATA_SIZE in *.
      rewrite insert_app_r_alt, Nat.sub_diag by lia.
      destruct (drop (length field) (rx_data d)) as [|x tl] eqn:Ed.
      - apply (f_equal length) in Ed. rewrite length_drop in Ed.
        simpl in Ed. lia.
      - cbn [list_insert insert]. f_equal. f_equal.
        replace (S (length field)) with (length field + 1)%nat by lia.
        rewrite <- drop_drop, Ed. reflexivity. }
    rewrite D. unfold d1. rewrite fold_left_app. cbn [fold_left].
    destruct d. reflexivity. }
  rewrite (receive_cons_pair _ _ _ _ _ E). cbn [gnss_receive ret fst snd].
  rewrite app_nil_r. split; reflexivity.
Qed.

(** The last field, closed by the star. *)
Lemma nmea_field_star field d :
  state d = 1 -> forallb nmea_field_byte field = true ->
  rx_count d = 0 -> Z.of_nat (length field) < GNSS_RX_DATA_SIZE ->
  length (rx_data d) = Z.to_nat GNSS_RX_DATA_SIZE ->
  let data := nmea_field_image field (rx_data d) in
  let r := gnss_receive d (field ++ [chr "*"]) in
  fst r
  = set_state GNSS_STATE_NMEA_CHECKSUM_1
      (nmea_parse_sentence
         (nmea_staging data (Z.of_nat (length field))
            (fold_left Z.lxor field (checksum d)) d)
         data)
  /\ only_stores (snd r) = true.
Proof.
  intros Hs Hf Hc Hn Hl. cbv zeta.
  rewrite gnss_receive_app, bind_fst, bind_snd, only_stores_app.
  destruct (nmea_field_run field d Hs Hf) as (R1 & R2);
    [lia | lia | exact Hl |].
  cbv zeta in R1. rewrite R1, R2, Hc. clear R1 R2.
  change (Z.to_nat 0) with 0%nat. rewrite take_0, app_nil_l, Z.add_0_l.
  cbn [Nat.add].
  set (d1 := nmea_staging _ _ _ d).
  assert (E : gnss_receive_byte d1 (chr "*")
              = (set_state GNSS_STATE_NMEA_CHECKSUM_1
                   (nmea_parse_sentence
                      (nmea_staging (nmea_field_image field (rx_data d))
                         (Z.of_nat (length field))
                         (fold_left Z.lxor field (checksum d)) d)
                      (nmea_field_image field (rx_data d))),
                 [Store_rx_data (Z.of_nat (length field))])).
  { rewrite (step_payload_star d1 Hs). unfold rx_store. record_cbn.
    change (rx_count d1) with (Z.of_nat (length field)).
    replace ((0 <=? Z.of_nat (length field))
             && (Z.of_nat (length field) <? GNSS_RX_DATA_SIZE)) with true
      by (symmetry; apply andb_true_iff; split;
          [apply Z.leb_le | apply Z.ltb_lt]; lia).
    unfold emit, bind, ret. record_cbn. rewrite app_nil_r.
    f_equal. f_equal.
    assert (D : <[Z.to_nat (Z.of_nat (length field)) := 0]> (rx_data d1)
                = nmea_field_image field (rx_data d)).
    { unfold d1, nmea_staging. record_cbn. rewrite Nat2Z.id.
      unfold nmea_field_image. unfold GNSS_RX_DATA_SIZE in *.
      rewrite insert_app_r_alt, Nat.sub_diag by lia.
      destruct (drop (length field) (rx_data d)) as [|x tl] eqn:Ed.
      - apply (f_equal length) in Ed. rewrite length_drop in Ed.
        simpl in Ed. lia.
      - cbn [list_insert insert]. f_equal. f_equal.
        replace (S (length field)) with (length field + 1)%nat by lia.
        rewrite <- drop_drop, Ed. reflexivity. }
    rewrite D. unfold d1. destruct d. reflexivity. }
  rewrite (receive_cons_pair _ _ _ _ _ E). cbn [gnss_receive ret fst snd].
  rewrite app_nil_r. split; reflexivity.
Qed.

(** The checksum characters of the running checksum, CR and LF: the
    sentence is handed to [nmea_end_sentence]. *)
Lemma nmea_tail_run d :
  state d = 2 ->
  gnss_receive d [nmea_hex (Z.shiftr (checksum d) 4);
                  nmea_hex (Z.land (checksum d) 0x0f); 13; 10]
  = nmea_init_response (set_state GNSS_STATE_NMEA_END_LF d)
    >>= nmea_end_sentence >>= fun d => ret (set_state GNSS_STATE_START d).
Proof.
  intros Hs.
  rewrite gnss_receive_cons, step_checksum_1;
    [|assumption|apply nmea_hex_not_dollar].
  rewrite Z.eqb_refl, bind_ret_l.
  rewrite gnss_receive_cons, step_checksum_2;
    [|reflexivity|apply nmea_hex_not_dollar].
  cbn [checksum set_state]. rewrite Z.eqb_refl, bind_ret_l.
  rewrite gnss_receive_cons, step_end_cr, bind_ret_l by reflexivity.
  rewrite gnss_receive_cons, step_end_lf by reflexivity.
  cbn [gnss_receive]. rewrite bind_ret_r. reflexivity.
Qed.

(** ** The acknowledge of a MediaTek command *)

Lemma c_string_app field rest :
  forallb (fun c => negb (c =? 0)) field = true ->
  c_string (field ++ 0 :: rest) = field.
Proof.
  induction field as [|c field IH]; intros H; [reflexivity|].
  cbn [forallb] in H. apply andb_true_iff in H as [Hc H].
  apply negb_true_iff in Hc.
  cbn [app c_string]. rewrite Hc. f_equal. apply IH, H.
Qed.

Lemma nmea_parse_sentence_pmtk001 d rest :
  sequence (nmea d) = NMEA_FIELD_SEQUENCE_START ->
  nmea_parse_sentence d (bytes "PMTK001" ++ 0 :: rest)
  = upd_nmea (set_sequence NMEA_FIELD_SEQUENCE_PMTK001_COMMAND) d.
Proof.
  intros H. unfold nmea_parse_sentence. rewrite H. cbv zeta.
  unfold nmea_parse_start, strcmp_eq.
  rewrite c_string_app by reflexivity. reflexivity.
Qed.

Lemma nmea_parse_sentence_command d ds rest :
  sequence (nmea d) = NMEA_FIELD_SEQUENCE_PMTK001_COMMAND ->
  forallb is_digit ds = true -> ds <> [] ->
  nmea_parse_sentence d (ds ++ 0 :: rest)
  = upd_nmea (set_sequence NMEA_FIELD_SEQUENCE_PMTK001_STATUS)
      (upd_nmea (set_mtk_command (u16 (decimal ds mod 4294967296))) d).
Proof.
  intros H Hd Hne. unfold nmea_parse_sentence. rewrite H. cbv zeta.
  unfold unsigned_required.
  assert (H0 : (at_ (ds ++ 0 :: rest) 0 =? 0) = false).
  { destruct ds as [|c ds]; [congruence|]. cbn [forallb] in Hd.
    apply andb_true_iff in Hd as [Hc _]. unfold is_digit in Hc.
    apply andb_true_iff in Hc as [Hc _]. apply Z.leb_le in Hc.
    apply Z.eqb_neq. unfold at_. cbn [app nth].
    change (chr "0") with 48 in Hc. lia. }
  rewrite H0. unfold nmea_parse_unsigned.
  rewrite (scan_digits_run ds (0 :: rest) 0 Hd) by (reflexivity || lia).
  reflexivity.
Qed.

Lemma nmea_parse_sentence_status d ds rest :
  sequence (nmea d) = NMEA_FIELD_SEQUENCE_PMTK001_STATUS ->
  forallb is_digit ds = true -> ds <> [] ->
  nmea_parse_sentence d (ds ++ 0 :: rest)
  = upd_nmea (set_sequence NMEA_FIELD_SEQUENCE_PMTK001_END)
      (upd_nmea (set_mtk_status (u16 (decimal ds mod 4294967296))) d).
Proof.
  intros H Hd Hne. unfold nmea_parse_sentence. rewrite H. cbv zeta.
  unfold unsigned_required.
  assert (H0 : (at_ (ds ++ 0 :: rest) 0 =? 0) = false).
  { destruct ds as [|c ds]; [congruence|]. cbn [forallb] in Hd.
    apply andb_true_iff in Hd as [Hc _]. unfold is_digit in Hc.
    apply andb_true_iff in Hc as [Hc _]. apply Z.leb_le in Hc.
    apply Z.eqb_neq. unfold at_. cbn [app nth].
    change (chr "0") with 48 in Hc. lia. }
  rewrite H0. unfold nmea_parse_unsigned.
  rewrite (scan_digits_run ds (0 :: rest) 0 Hd) by (reflexivity || lia).
  reflexivity.
Qed.

(** [mtk_configure] past the baud-rate step: the next command of the
    table is sent, or the table is closed. *)
Lemma mtk_configure_step response key d :
  init d <> GNSS_INIT_MTK_BAUD_RATE ->
  let r := mtk_configure response key d in
  state (fst r) = state d /\ mode (fst r) = mode d
  /\ rx_data (fst r) = rx_data d
  /\ match table d with
     | Some (next :: rest) =>
         sent (snd r) = [next] /\ table (fst r) = Some rest
         /\ command (fst r) = mtk_command_of next /\ init (fst r) = init d
     | Some [] =>
         sent (snd r) = [] /\ table (fst r) = None
         /\ init (fst r)
            = (if init d =? GNSS_INIT_MTK_INIT_TABLE then GNSS_INIT_DONE
               else init d)
     | None =>
         sent (snd r) = [] /\ table (fst r) = None /\ init (fst r) = init d
     end.
Proof.
  intros Hi. cbv zeta. unfold mtk_configure, mtk_send, mtk_command_of.
  apply Z.eqb_neq in Hi.
  destruct (table d) as [[|next rest]|] eqn:Et; rewrite ?Hi; record_cbn;
    try destruct (init d =? GNSS_INIT_MTK_INIT_TABLE);
    cbn [ret emit bind fst snd app sent]; record_cbn;
    repeat split; first [reflexivity | exact Et].
Qed.

Lemma sent_overrun l : sent (map Info_overrun l) = [].
Proof. induction l as [|n l IH]; [reflexivity | exact IH]. Qed.

(** Publishing leaves the configuration and the framing state alone and
    sends nothing. *)
Lemma nmea_publish_spec d :
  let r := nmea_publish_location d >>= nmea_publish_satellites in
  sent (snd r) = []
  /\ config_of (fst r) = config_of d /\ state (fst r) = state d
  /\ rx_data (fst r) = rx_data d.
Proof.
  cbv zeta. unfold nmea_publish_location, nmea_publish_satellites,
    nmea_mark_navigating, gnss_location, gnss_satellites, location_mask_or.
  cbv zeta.
  repeat match goal with
  | |- context [if ?b then _ else _] => plain_test b; destruct b
  end;
  cbn [bind ret emit fst snd app];
  repeat match goal with
  | |- context [if ?b then _ else _] => plain_test b; destruct b
  end;
  cbn [bind ret emit fst snd app];
  repeat first
    [ rewrite sent_app | rewrite sent_overrun | progress cbn [sent app] ];
  repeat split; reflexivity.
Qed.

Lemma nmea_publish_step d :
  let r := (if init d =? GNSS_INIT_DONE
            then nmea_publish_location d >>= nmea_publish_satellites
            else ret d) in
  sent (snd r) = [] /\ config_of (fst r) = config_of d
  /\ state (fst r) = state d /\ rx_data (fst r) = rx_data d.
Proof.
  cbv zeta. destruct (init d =? GNSS_INIT_DONE); [|repeat split; reflexivity].
  destruct (nmea_publish_spec d) as (P1 & P2 & P3 & P4).
  split; [exact P1 | auto].
Qed.

Lemma nmea_start_sentence_sequence d :
  sequence (nmea (nmea_start_sentence d)) = NMEA_FIELD_SEQUENCE_START.
Proof. reflexivity. Qed.

Lemma digit_field_byte c : is_digit c = true -> nmea_field_byte c = true.
Proof.
  unfold is_digit, nmea_field_byte, nmea_payload_byte. intros H.
  apply andb_true_iff in H as [H1 H2].
  apply Z.leb_le in H1. apply Z.leb_le in H2.
  change (chr "0") with 48 in H1. change (chr "9") with 57 in H2.
  repeat (apply andb_true_iff; split);
    try (apply negb_true_iff; apply Z.eqb_neq);
    try apply Z.leb_le;
    try (change (chr "$") with 36); try (change (chr "*") with 42);
    try (change (chr ",") with 44); lia.
Qed.

(** A field that the parser answers by an update of the NMEA context
    alone: what the field and its comma leave behind. *)
Lemma nmea_field_comma_nmea field f d :
  state d = 1 -> forallb nmea_field_byte field = true ->
  rx_count d = 0 -> Z.of_nat (length field) < GNSS_RX_DATA_SIZE ->
  length (rx_data d) = Z.to_nat GNSS_RX_DATA_SIZE ->
  (forall d' rest,
     nmea d' = nmea d ->
     nmea_parse_sentence d' (field ++ 0 :: rest) = upd_nmea f d') ->
  let r := gnss_receive d (field ++ [chr ","]) in
  only_stores (snd r) = true
  /\ state (fst r) = 1 /\ rx_count (fst r) = 0
  /\ checksum (fst r) = fold_left Z.lxor (field ++ [chr ","]) (checksum d)
  /\ length (rx_data (fst r)) = Z.to_nat GNSS_RX_DATA_SIZE
  /\ config_of (fst r) = config_of d
  /\ nmea (fst r) = f (nmea d).
Proof.
  intros Hs Hf Hc Hn Hl Hp. cbv zeta.
  destruct (nmea_field_comma field d Hs Hf Hc Hn Hl) as (E & T).
  cbv zeta in E. unfold nmea_field_image in E at 2.
  rewrite Hp in E by reflexivity.
  rewrite E, T. unfold nmea_staging, config_of. record_cbn.
  rewrite nmea_field_image_length
    by (rewrite Hl; unfold GNSS_RX_DATA_SIZE in *; lia).
  repeat split; first [reflexivity | assumption].
Qed.

Lemma nmea_field_star_nmea field f d :
  state d = 1 -> forallb nmea_field_byte field = true ->
  rx_count d = 0 -> Z.of_nat (length field) < GNSS_RX_DATA_SIZE ->
  length (rx_data d) = Z.to_nat GNSS_RX_DATA_SIZE ->
  (forall d' rest,
     nmea d' = nmea d ->
     nmea_parse_sentence d' (field ++ 0 :: rest) = upd_nmea f d') ->
  let r := gnss_receive d (field ++ [chr "*"]) in
  only_stores (snd r) = true
  /\ state (fst r) = GNSS_STATE_NMEA_CHECKSUM_1
  /\ checksum (fst r) = fold_left Z.lxor field (checksum d)
  /\ length (rx_data (fst r)) = Z.to_nat GNSS_RX_DATA_SIZE
  /\ config_of (fst r) = config_of d
  /\ nmea (fst r) = f (nmea d).
Proof.
  intros Hs Hf Hc Hn Hl Hp. cbv zeta.
  destruct (nmea_field_star field d Hs Hf Hc Hn Hl) as (E & T).
  cbv zeta in E. unfold nmea_field_image in E at 2.
  rewrite Hp in E by reflexivity.
  rewrite E, T. unfold nmea_staging, config_of. record_cbn.
  rewrite nmea_field_image_length
    by (rewrite Hl; unfold GNSS_RX_DATA_SIZE in *; lia).
  repeat split; first [reflexivity | assumption].
Qed.

(** The dollar starts a sentence. *)
Lemma nmea_dollar_run d rest :
  (state d <=? GNSS_STATE_NMEA_END_LF) = true ->
  exists d0,
    gnss_receive d (chr "$" :: rest) = gnss_receive d0 rest
    /\ state d0 = 1 /\ rx_count d0 = 0 /\ checksum d0 = 0
    /\ rx_data d0 = rx_data d /\ config_of d0 = config_of d
    /\ sequence (nmea d0) = NMEA_FIELD_SEQUENCE_START.
Proof.
  intros Hs. rewrite gnss_receive_cons, step_dollar, bind_ret_l by exact Hs.
  eexists. split; [reflexivity|].
  match goal with |- context [nmea_start_sentence ?x] =>
    destruct (quiet_nmea_start_sentence x) as [Q _] end.
  unfold frame_of in Q. record_cbn_in Q. injection Q. intros.
  unfold config_of. repeat split; try congruence.
Qed.

Lemma mtk_digits_value a b c :
  forallb is_digit [a; b; c] = true ->
  u16 (decimal [a; b; c] mod 4294967296)
  = ((a - chr "0") * 10 + (b - chr "0")) * 10 + (c - chr "0")
  /\ 0 <= ((a - chr "0") * 10 + (b - chr "0")) * 10 + (c - chr "0") < 1000.
Proof.
  intros Hd. cbn [forallb] in Hd.
  apply andb_true_iff in Hd as [Ha Hd]. apply andb_true_iff in Hd as [Hb Hd].
  apply andb_true_iff in Hd as [Hc _].
  unfold is_digit in Ha, Hb, Hc.
  apply andb_true_iff in Ha as [Ha1 Ha2].
  apply andb_true_iff in Hb as [Hb1 Hb2].
  apply andb_true_iff in Hc as [Hc1 Hc2].
  apply Z.leb_le in Ha1, Ha2, Hb1, Hb2, Hc1, Hc2.
  change (chr "0") with 48 in *. change (chr "9") with 57 in *.
  unfold decimal, decimal_from. cbn [fold_left]. change (chr "0") with 48.
  rewrite Z.mod_small by lia. rewrite u16_small by lia. lia.
Qed.

Lemma mtk_flag_value flag :
  0 <= flag <= 9 ->
  is_digit (chr "0" + flag) = true
  /\ u16 (decimal [chr "0" + flag] mod 4294967296) = flag.
Proof.
  intros H. unfold is_digit, decimal, decimal_from. cbn [fold_left].
  change (chr "0") with 48. change (chr "9") with 57. split.
  - apply andb_true_iff. split; apply Z.leb_le; lia.
  - rewrite Z.mod_small by lia. rewrite u16_small by lia. lia.
Qed.

(** What the three fields of the acknowledge leave behind. *)
Lemma mtk_reply_staged d a b c flag :
  mtk_driver_ready d -> forallb is_digit [a; b; c] = true ->
  0 <= flag <= 9 ->
  let payload := bytes "PMTK001," ++ [a; b; c] ++ [chr ","; chr "0" + flag] in
  let r := gnss_receive d ([chr "$"] ++ payload ++ [chr "*"]) in
  only_stores (snd r) = true
  /\ state (fst r) = GNSS_STATE_NMEA_CHECKSUM_1
  /\ checksum (fst r) = nmea_checksum payload
  /\ config_of (fst r) = config_of d
  /\ length (rx_data (fst r)) = Z.to_nat GNSS_RX_DATA_SIZE
  /\ sequence (nmea (fst r)) = NMEA_FIELD_SEQUENCE_PMTK001_END
  /\ mtk_command (nmea (fst r))
     = ((a - chr "0") * 10 + (b - chr "0")) * 10 + (c - chr "0")
  /\ mtk_status (nmea (fst r)) = flag.
Proof.
  intros (Hs & Hi1 & Hi2 & Hl) Hd Hf. cbv zeta.
  destruct (mtk_digits_value a b c Hd) as [Hv _].
  destruct (mtk_flag_value flag Hf) as [Hfd Hfv].
  assert (Habc : forallb nmea_field_byte [a; b; c] = true).
  { cbn [forallb] in *.
    apply andb_true_iff in Hd as [Ha Hd]. apply andb_true_iff in Hd as [Hb Hd].
    apply andb_true_iff in Hd as [Hc _].
    rewrite !digit_field_byte by assumption. reflexivity. }
  assert (Hfl : forallb nmea_field_byte [chr "0" + flag] = true)
    by (cbn [forallb]; rewrite digit_field_byte by assumption; reflexivity).
  change ([chr "$"] ++ (bytes "PMTK001," ++ [a; b; c]
                        ++ [chr ","; chr "0" + flag]) ++ [chr "*"])
    with (chr "$" :: ((bytes "PMTK001" ++ [chr ","])
                      ++ (([a; b; c] ++ [chr ","])
                          ++ ([chr "0" + flag] ++ [chr "*"])))).
  destruct (nmea_dollar_run d
              ((bytes "PMTK001" ++ [chr ","])
               ++ (([a; b; c] ++ [chr ","])
                   ++ ([chr "0" + flag] ++ [chr "*"]))))
    as (d0 & E0 & S0 & C0 & K0 & D0 & F0 & N0);
    [rewrite Hs; reflexivity|].
  rewrite E0. clear E0.
  rewrite (gnss_receive_app d0 (bytes "PMTK001" ++ [chr ","])).
  rewrite bind_fst, bind_snd, only_stores_app.
  (* the sentence id *)
  destruct (nmea_field_comma_nmea (bytes "PMTK001")
              (set_sequence NMEA_FIELD_SEQUENCE_PMTK001_COMMAND) d0
              S0 eq_refl C0)
    as (T1 & S1 & C1 & K1 & D1 & F1 & N1);
    [ reflexivity | rewrite D0; exact Hl
    | intros d' rest Hn; apply nmea_parse_sentence_pmtk001;
      rewrite Hn; exact N0 |].
  cbv zeta in *.
  set (d1 := fst (gnss_receive d0 (bytes "PMTK001" ++ [chr ","]))) in *.
  rewrite T1. clearbody d1.
  rewrite (gnss_receive_app d1 ([a; b; c] ++ [chr ","])).
  rewrite bind_fst, bind_snd, only_stores_app.
  (* the command *)
  destruct (nmea_field_comma_nmea [a; b; c]
              (fun n => set_sequence NMEA_FIELD_SEQUENCE_PMTK001_STATUS
                          (set_mtk_command
                             (u16 (decimal [a; b; c] mod 4294967296)) n))
              d1 S1 Habc C1)
    as (T2 & S2 & C2 & K2 & D2 & F2 & N2);
    [ reflexivity | exact D1
    | intros d' rest Hn;
      rewrite nmea_parse_sentence_command;
      [ destruct d'; reflexivity | rewrite Hn, N1; reflexivity
      | exact Hd | intros Hx; discriminate Hx ] |].
  cbv zeta in *.
  set (d2 := fst (gnss_receive d1 ([a; b; c] ++ [chr ","]))) in *.
  rewrite T2. clearbody d2.
  (* the flag *)
  destruct (nmea_field_star_nmea [chr "0" + flag]
              (fun n => set_sequence NMEA_FIELD_SEQUENCE_PMTK001_END
                          (set_mtk_status
                             (u16 (decimal [chr "0" + flag] mod 4294967296))
                             n))
              d2 S2 Hfl C2)
    as (T3 & S3 & K3 & D3 & F3 & N3);
    [ reflexivity | exact D2
    | intros d' rest Hn;
      rewrite nmea_parse_sentence_status;
      [ destruct d'; reflexivity | rewrite Hn, N2; reflexivity
      | cbn [forallb]; rewrite Hfd; reflexivity
      | intros Hx; discriminate Hx ] |].
  cbv zeta in *.
  set (d3 := fst (gnss_receive d2 ([chr "0" + flag] ++ [chr "*"]))) in *.
  rewrite T3. clearbody d3.
  split; [reflexivity|]. split; [exact S3|].
  split.
  { rewrite K3, K2, K1, K0. unfold nmea_checksum.
    rewrite <- !fold_left_app. reflexivity. }
  split; [congruence|]. split; [exact D3|].
  rewrite N3, N2, N1. record_cbn.
  split; [reflexivity|]. split; [exact Hv | exact Hfv].
Qed.

(** One acknowledge. *)
Lemma mtk_reply_step d cmd flag :
  mtk_driver_ready d -> mtk_command_ok cmd -> 0 <= flag <= 9 ->
  let r := gnss_receive d (mtk_reply flag cmd) in
  mtk_driver_ready (fst r) /\ mode (fst r) = mode d
  /\ if mtk_command_of cmd =? command d then
       match table d with
       | Some (next :: rest) =>
           sent (snd r) = [next] /\ table (fst r) = Some rest
           /\ command (fst r) = mtk_command_of next /\ init (fst r) = init d
       | Some [] =>
           sent (snd r) = [] /\ table (fst r) = None
           /\ init (fst r)
              = (if init d =? GNSS_INIT_MTK_INIT_TABLE then GNSS_INIT_DONE
                 else init d)
       | None =>
           sent (snd r) = [] /\ table (fst r) = None /\ init (fst r) = init d
       end
     else
       sent (snd r) = [] /\ table (fst r) = table d
       /\ command (fst r) = command d /\ init (fst r) = init d.
Proof.
  intros Hr Hd Hf. cbv zeta.
  pose proof Hr as (Hs & Hi1 & Hi2 & Hl).
  unfold mtk_command_ok, mtk_command_digits in Hd.
  destruct (mtk_digits_value _ _ _ Hd) as [_ Hrange].
  replace (mtk_command_of cmd)
    with (((at_ cmd 5 - chr "0") * 10 + (at_ cmd 6 - chr "0")) * 10
          + (at_ cmd 7 - chr "0"))
    by (unfold mtk_command_of; rewrite u32_small by lia; reflexivity).
  unfold mtk_reply, mtk_command_digits, nmea_sentence, nmea_frame.
  set (a := at_ cmd 5) in *. set (b := at_ cmd 6) in *.
  set (c := at_ cmd 7) in *.
  set (v := ((a - chr "0") * 10 + (b - chr "0")) * 10 + (c - chr "0")) in *.
  set (payload := bytes "PMTK001," ++ [a; b; c] ++ [chr ","; chr "0" + flag]).
  change ([chr "$"] ++ payload
          ++ [chr "*"; nmea_hex (Z.shiftr (nmea_checksum payload) 4);
              nmea_hex (Z.land (nmea_checksum payload) 15); 13; 10])
    with (([chr "$"] ++ payload ++ [chr "*"])
          ++ [nmea_hex (Z.shiftr (nmea_checksum payload) 4);
              nmea_hex (Z.land (nmea_checksum payload) 15); 13; 10]).
  rewrite gnss_receive_app, bind_fst, bind_snd, sent_app.
  destruct (mtk_reply_staged d a b c flag Hr Hd Hf)
    as (T & S & K & F & D & N & M1 & M2).
  cbv zeta in *. fold payload in T, S, K, F, D, N, M1, M2. fold v in M1.
  set (dT := fst (gnss_receive d ([chr "$"] ++ payload ++ [chr "*"]))) in *.
  rewrite (sent_stores _ T), app_nil_l. clearbody dT. clear T.
  rewrite <- K, (nmea_tail_run dT S).
  unfold config_of in F. injection F as G1 G2 G3 G4 G5 G6 G7 G8.
  set (d5 := set_state GNSS_STATE_NMEA_END_LF dT).
  assert (Hir : nmea_init_response d5 = ret d5).
  { unfold nmea_init_response.
    change (init d5) with (init dT). rewrite G2.
    apply Z.eqb_neq in Hi1, Hi2.
    destruct (init d =? GNSS_INIT_DONE); [reflexivity|].
    cbn [negb]. rewrite Hi1, bind_ret_l.
    change (init d5) with (init dT). rewrite G2, Hi2. reflexivity. }
  rewrite Hir, bind_ret_l. clear Hir.
  unfold nmea_end_sentence.
  assert (Hseq : nmea_end_sequence d5
                 = if command d =? v
                   then mtk_configure
                          (if flag =? 3 then GNSS_RESPONSE_ACK
                           else GNSS_RESPONSE_NACK)
                          v (set_command 0xffffffff d5)
                   else ret d5).
  { unfold nmea_end_sequence. cbv zeta.
    change (nmea d5) with (nmea dT). rewrite N, M1, M2.
    change (command d5) with (command dT). rewrite G6. reflexivity. }
  assert (He : emit Nmea_end_sentence d5 >>= nmea_end_sequence
               = (fst (nmea_end_sequence d5),
                  Nmea_end_sentence :: snd (nmea_end_sequence d5))).
  { unfold emit, bind. destruct (nmea_end_sequence d5). reflexivity. }
  rewrite He, Hseq. clear He Hseq.
  rewrite (Z.eqb_sym v (command d)). subst d5.
  set (e := if command d =? v
            then mtk_configure
                   (if flag =? 3 then GNSS_RESPONSE_ACK
                    else GNSS_RESPONSE_NACK)
                   v (set_command 0xffffffff
                        (set_state GNSS_STATE_NMEA_END_LF dT))
            else ret (set_state GNSS_STATE_NMEA_END_LF dT)).
  assert (C : state (fst e) = GNSS_STATE_NMEA_END_LF
              /\ mode (fst e) = mode d
              /\ rx_data (fst e) = rx_data dT
              /\ init (fst e) <> GNSS_INIT_MTK_BAUD_RATE
              /\ init (fst e) <> GNSS_INIT_UBX_BAUD_RATE
              /\ if command d =? v then
                   match table d with
                   | Some (next :: rest) =>
                       sent (snd e) = [next] /\ table (fst e) = Some rest
                       /\ command (fst e) = mtk_command_of next
                       /\ init (fst e) = init d
                   | Some [] =>
                       sent (snd e) = [] /\ table (fst e) = None
                       /\ init (fst e)
                          = (if init d =? GNSS_INIT_MTK_INIT_TABLE
                             then GNSS_INIT_DONE else init d)
                   | None =>
                       sent (snd e) = [] /\ table (fst e) = None
                       /\ init (fst e) = init d
                   end
                 else
                   sent (snd e) = [] /\ table (fst e) = table d
                   /\ command (fst e) = command d /\ init (fst e) = init d).
  { unfold e. destruct (command d =? v).
    - assert (Hi : init (set_command 0xffffffff
                            (set_state GNSS_STATE_NMEA_END_LF dT))
                   <> GNSS_INIT_MTK_BAUD_RATE)
        by (record_cbn; rewrite G2; exact Hi1).
      pose proof (mtk_configure_step
                    (if flag =? 3 then GNSS_RESPONSE_ACK
                     else GNSS_RESPONSE_NACK)
                    v (set_command 0xffffffff
                         (set_state GNSS_STATE_NMEA_END_LF dT)) Hi) as C.
      cbv zeta in C. record_cbn_in C. rewrite G5, G2, G1 in C.
      destruct C as (C1 & C2 & C3 & C4).
      split; [exact C1|]. split; [exact C2|]. split; [exact C3|].
      destruct (table d) as [[|next rest]|].
      + destruct C4 as (C4 & C5 & C6).
        split; [|split; [|auto]]; rewrite C6;
          destruct (Z.eqb_spec (init d) GNSS_INIT_MTK_INIT_TABLE);
          first [discriminate | assumption].
      + destruct C4 as (C4 & C5 & C6 & C7).
        split; [rewrite C7; exact Hi1|].
        split; [rewrite C7; exact Hi2 | auto].
      + destruct C4 as (C4 & C5 & C6).
        split; [rewrite C6; exact Hi1|].
        split; [rewrite C6; exact Hi2 | auto].
    - cbn [ret fst snd sent]. record_cbn.
      rewrite G1, G2, G5, G6. auto 10. }
  clearbody e. destruct C as (C1 & C2 & C3 & C5 & C6 & C4).
  rewrite !bind_fst, !bind_snd. cbn [fst snd].
  set (e1 := upd_nmea (set_sequence NMEA_FIELD_SEQUENCE_START) (fst e)).
  destruct (nmea_publish_step e1) as (P1 & P2 & P3 & P4).
  cbv zeta in *.
  set (p := if init e1 =? GNSS_INIT_DONE
            then nmea_publish_location e1 >>= nmea_publish_satellites
            else ret e1) in *.
  unfold config_of in P2. injection P2 as Q1 Q2 Q3 Q4 Q5 Q6 Q7 Q8.
  unfold e1 in Q1, Q2, Q3, Q4, Q5, Q6, Q7, Q8, P3, P4.
  record_cbn_in Q1. record_cbn_in Q2. record_cbn_in Q5. record_cbn_in Q6.
  record_cbn_in P3. record_cbn_in P4.
  cbn [ret snd]. rewrite app_nil_r.
  change (Nmea_end_sentence :: snd e) with ([Nmea_end_sentence] ++ snd e).
  rewrite !sent_app, P1, app_nil_r. cbn [sent app].
  split.
  - unfold mtk_driver_ready. cbn [ret fst]. record_cbn.
    rewrite Q2, P4, C3. auto.
  - cbn [ret fst]. record_cbn. rewrite Q1, Q5, Q6, Q2.
    split; [exact C2 | exact C4].
Qed.

Lemma mtk_replies_cons p l :
  mtk_replies (p :: l) = mtk_reply (snd p) (fst p) ++ mtk_replies l.
Proof. reflexivity. Qed.

(** The acknowledges of the command in flight and of the commands of
    the table, in order: the table is worked off. *)
Lemma mtk_table_run l : forall d cmd flag,
  mtk_driver_ready d -> command d = mtk_command_of cmd ->
  table d = Some (map fst l) ->
  Forall mtk_command_ok (cmd :: map fst l) ->
  Forall (fun f => 0 <= f <= 9) (flag :: map snd l) ->
  let r := gnss_receive d (mtk_replies ((cmd, flag) :: l)) in
  sent (snd r) = map fst l /\ table (fst r) = None
  /\ mtk_driver_ready (fst r) /\ mode (fst r) = mode d
  /\ init (fst r)
     = (if init d =? GNSS_INIT_MTK_INIT_TABLE then GNSS_INIT_DONE
        else init d).
Proof.
  induction l as [|[c1 f1] l IH]; intros d cmd flag Hr Hc Ht Hk Hf; cbv zeta.
  - unfold mtk_replies. cbn [map concat fst snd]. rewrite app_nil_r.
    apply Forall_inv in Hk. apply Forall_inv in Hf.
    destruct (mtk_reply_step d cmd flag Hr Hk Hf) as (S1 & S0 & S2).
    cbv zeta in *.
    replace (mtk_command_of cmd =? command d) with true in S2
      by (symmetry; apply Z.eqb_eq; congruence).
    rewrite Ht in S2. cbn [map] in S2. destruct S2 as (S2 & S3 & S4).
    auto.
  - rewrite (mtk_replies_cons (cmd, flag)). cbn [fst snd].
    rewrite gnss_receive_app, bind_fst, bind_snd, sent_app.
    pose proof (Forall_inv Hk) as Hk0. apply Forall_inv_tail in Hk.
    pose proof (Forall_inv Hf) as Hf0. apply Forall_inv_tail in Hf.
    destruct (mtk_reply_step d cmd flag Hr Hk0 Hf0) as (S1 & S0 & S2).
    cbv zeta in *.
    replace (mtk_command_of cmd =? command d) with true in S2
      by (symmetry; apply Z.eqb_eq; congruence).
    rewrite Ht in S2. cbn [map fst] in S2.
    destruct S2 as (S2 & S3 & S4 & S5).
    destruct (IH (fst (gnss_receive d (mtk_reply flag cmd))) c1 f1 S1 S4 S3
                Hk Hf)
      as (I1 & I2 & I3 & I4 & I5).
    cbv zeta in *. rewrite S2, I1.
    split; [reflexivity|]. split; [exact I2|]. split; [exact I3|].
    split; [congruence|]. rewrite I5, S5. reflexivity.
Qed.

Lemma mtk_send_spec data d :
  let r := mtk_send data d in
  sent (snd r) = [data] /\ command (fst r) = mtk_command_of data
  /\ busy (fst r) = 1 /\ table (fst r) = table d
  /\ state (fst r) = state d /\ mode (fst r) = mode d
  /\ init (fst r) = init d /\ rx_data (fst r) = rx_data d.
Proof.
  cbv zeta. unfold mtk_send, mtk_command_of. cbn [emit fst snd sent].
  record_cbn. repeat split; reflexivity.
Qed.

Lemma mtk_control_commands_ok c :
  Forall mtk_command_ok (mtk_control_commands c).
Proof.
  destruct c; cbn [mtk_control_commands];
    repeat match goal with
    | |- context [if ?b then _ else _] => destruct b
    end;
    repeat (constructor; [reflexivity|]); constructor.
Qed.

(** A control on an idle MediaTek device: the first command of the
    control is sent and the others are left in the table; a control
    without a MediaTek command does nothing. *)
Lemma mtk_control_start c d :
  gnss_done d = true -> mode d = GNSS_MODE_MEDIATEK ->
  let r0 := snd (gnss_control c d) in
  fst (gnss_control c d) = true
  /\ match mtk_control_commands c with
     | [] => r0 = ret d
     | c0 :: rest =>
         sent (snd r0) = [c0] /\ command (fst r0) = mtk_command_of c0
         /\ busy (fst r0) = 1 /\ table (fst r0) = Some rest
         /\ state (fst r0) = state d /\ mode (fst r0) = mode d
         /\ init (fst r0) = init d /\ rx_data (fst r0) = rx_data d
     end.
Proof.
  intros Hd Hm. cbv zeta.
  destruct c; cbn [gnss_control mtk_control_commands];
    unfold gnss_set_external, gnss_set_constellation, gnss_set_sbas,
      gnss_set_qzss, gnss_set_periodic, gnss_sleep, gnss_wakeup;
    rewrite Hd, Hm; cbn [negb fst snd];
    change (GNSS_MODE_MEDIATEK =? GNSS_MODE_UBLOX) with false;
    change (GNSS_MODE_MEDIATEK =? GNSS_MODE_MEDIATEK) with true;
    cbv iota;
    (split; [reflexivity|]);
    repeat match goal with
    | |- context [if ?b then _ else _] => destruct b
    end;
    try reflexivity;
    unfold mtk_table, mtk_constellation_gps_glonass_table,
      mtk_constellation_gps_table, mtk_sbas_enable_table,
      mtk_sbas_disable_table, mtk_qzss_enable_table, mtk_qzss_disable_table;
    cbv iota;
    match goal with
    | |- context [mtk_send ?x ?y] =>
        destruct (mtk_send_spec x y) as (M1 & M2 & M3 & M4 & M5 & M6 & M7 & M8)
    end;
    cbv zeta in *; repeat split; assumption.
Qed.

(** ** An idle driver *)

Lemma u16_range x : 0 <= u16 x < 65536.
Proof. unfold u16. apply Z.mod_pos_bound. lia. Qed.

Lemma mtk_upd_info n f d :
  mtk_command (nmea (upd_info n f d)) = mtk_command (nmea d).
Proof. unfold upd_info. destruct (_ !! _); reflexivity. Qed.

Ltac mtk_step :=
  match goal with
  | |- mtk_command (nmea ?d) = mtk_command (nmea ?d) => reflexivity
  | |- mtk_command (nmea (fst (_, _))) = _ => cbn [fst]
  | |- mtk_command (nmea (upd_info ?n ?f ?d)) = _ =>
      rewrite (mtk_upd_info n f d)
  | |- mtk_command (nmea (fst (if ?b then _ else _))) = _ => destruct b
  | |- mtk_command (nmea (fst (match ?x with _ => _ end))) = _ => destruct x
  | |- mtk_command (nmea (fst (let '(_, _) := ?x in _))) = _ => destruct x
  | |- mtk_command (nmea (if ?b then _ else _)) = _ => destruct b
  | |- mtk_command (nmea (match ?x with _ => _ end)) = _ => destruct x
  | |- mtk_command (nmea (let '(_, _) := ?x in _)) = _ => destruct x
  | |- mtk_command (nmea (?f ?d)) = _ =>
      change (mtk_command (nmea (f d))) with (mtk_command (nmea d))
  end.

Lemma mtk_nmea_parse_start d data :
  mtk_command (nmea (fst (nmea_parse_start d data))) = mtk_command (nmea d).
Proof. unfold nmea_parse_start. cbv zeta. repeat mtk_step. Qed.

Lemma mtk_nmea_parse_field_time d data next :
  mtk_command (nmea (fst (nmea_parse_field_time d data next)))
  = mtk_command (nmea d).
Proof. unfold nmea_parse_field_time. repeat mtk_step. Qed.

Lemma mtk_nmea_parse_gsv_head d data s :
  mtk_command (nmea (fst (nmea_parse_gsv_head d data s)))
  = mtk_command (nmea d).
Proof. unfold nmea_parse_gsv_head, gsv_abort. cbv zeta. repeat mtk_step. Qed.

Lemma mtk_nmea_parse_gsv_sv d data s :
  mtk_command (nmea (fst (nmea_parse_gsv_sv d data s)))
  = mtk_command (nmea d).
Proof. unfold nmea_parse_gsv_sv, gsv_abort. cbv zeta. repeat mtk_step. Qed.

Lemma mtk_nmea_parse_optional d data clear parse store n1 n2 :
  (forall v d, mtk_command (nmea (store v d)) = mtk_command (nmea d)) ->
  mtk_command (nmea (fst (nmea_parse_optional d data clear parse store n1 n2)))
  = mtk_command (nmea d).
Proof.
  intros H. unfold nmea_parse_optional.
  repeat first [ rewrite H | mtk_step ].
Qed.

(** A field leaves [mtk_command] a 16-bit value. *)
Lemma mtk_ok_nmea_parse_sentence d data :
  mtk_ok d -> mtk_ok (nmea_parse_sentence d data).
Proof.
  intros H. unfold nmea_parse_sentence. cbv zeta.
  match goal with
  | |- mtk_ok (let '(d0, n) := ?m in _) =>
      assert (Hm : mtk_ok (fst m)); [| destruct m; exact Hm]
  end.
  unfold mtk_ok in *.
  repeat first
    [ exact H
    | rewrite mtk_nmea_parse_start
    | rewrite mtk_nmea_parse_field_time
    | rewrite mtk_nmea_parse_gsv_head
    | rewrite mtk_nmea_parse_gsv_sv
    | rewrite mtk_nmea_parse_optional by (intros; repeat mtk_step)
    | match goal with
      | |- _ <= mtk_command (nmea (fst (_, _))) < _ => cbn [fst]
      | |- _ <= mtk_command
                  (nmea (upd_nmea (set_mtk_command (u16 _)) _)) < _ =>
          apply u16_range
      | |- _ <= mtk_command (nmea (fst (if ?b then _ else _))) < _ =>
          destruct b
      | |- _ <= mtk_command (nmea (fst (match ?x with _ => _ end))) < _ =>
          destruct x
      | |- _ <= mtk_command (nmea (?f ?d)) < _ =>
          change (mtk_command (nmea (f d))) with (mtk_command (nmea d))
      end ].
Qed.

Lemma driver_nmea_parse_sentence d data :
  driver_of (nmea_parse_sentence d data) = driver_of d.
Proof.
  destruct (quiet_nmea_parse_sentence d data) as [Q _].
  unfold frame_of in Q. injection Q. intros. unfold driver_of. congruence.
Qed.

Lemma driver_nmea_start_sentence d :
  driver_of (nmea_start_sentence d) = driver_of d.
Proof.
  destruct (quiet_nmea_start_sentence d) as [Q _].
  unfold frame_of in Q. injection Q. intros. unfold driver_of. congruence.
Qed.

Lemma mtk_nmea_start_sentence d :
  mtk_command (nmea (nmea_start_sentence d)) = mtk_command (nmea d).
Proof. unfold nmea_start_sentence. cbv zeta. repeat mtk_step. Qed.

Lemma driver_upd_info n f d : driver_of (upd_info n f d) = driver_of d.
Proof. unfold upd_info. destruct (_ !! _); reflexivity. Qed.

Ltac driver_step :=
  match goal with
  | |- driver_of ?d = driver_of ?d => reflexivity
  | |- driver_of (nmea_parse_sentence ?d _) = _ =>
      rewrite (driver_nmea_parse_sentence d)
  | |- driver_of (nmea_start_sentence ?d) = _ =>
      rewrite (driver_nmea_start_sentence d)
  | |- driver_of (upd_info ?n ?f ?d) = _ => rewrite (driver_upd_info n f d)
  | |- driver_of (if ?b then _ else _) = _ => destruct b
  | |- driver_of (match ?x with _ => _ end) = _ => destruct x
  | |- driver_of (let '(_, _) := ?x in _) = _ => destruct x
  | |- driver_of (?f ?d) = _ => change (driver_of (f d)) with (driver_of d)
  end.

Lemma driver_ubx_start_message m l d :
  driver_of (ubx_start_message m l d) = driver_of d.
Proof. unfold ubx_start_message. cbv zeta. repeat driver_step. Qed.

Lemma driver_ubx_parse_message m data cnt d :
  driver_of (ubx_parse_message m data cnt d) = driver_of d.
Proof. unfold ubx_parse_message. cbv zeta. repeat driver_step. Qed.

Lemma driver_ubx_nav_timegps data d :
  driver_of (ubx_nav_timegps data d) = driver_of d.
Proof. unfold ubx_nav_timegps. cbv zeta. repeat driver_step. Qed.

Lemma driver_ubx_nav_message m data d :
  driver_of (ubx_nav_message m data d) = driver_of d.
Proof.
  unfold ubx_nav_message, location_mask_or. cbv zeta.
  repeat first [ rewrite driver_ubx_nav_timegps | driver_step ].
Qed.

Lemma driver_propagate_mask field bit d :
  driver_of (propagate_mask field bit d) = driver_of d.
Proof. unfold propagate_mask, location_mask_or. repeat driver_step. Qed.

Lemma mtk_ubx_start_message m l d :
  mtk_command (nmea (ubx_start_message m l d)) = mtk_command (nmea d).
Proof. unfold ubx_start_message. cbv zeta. repeat mtk_step. Qed.

Lemma mtk_ubx_parse_message m data cnt d :
  mtk_command (nmea (ubx_parse_message m data cnt d)) = mtk_command (nmea d).
Proof. unfold ubx_parse_message. cbv zeta. repeat mtk_step. Qed.

Lemma mtk_ubx_nav_timegps data d :
  mtk_command (nmea (ubx_nav_timegps data d)) = mtk_command (nmea d).
Proof. unfold ubx_nav_timegps. cbv zeta. repeat mtk_step. Qed.

Lemma mtk_ubx_nav_message m data d :
  mtk_command (nmea (ubx_nav_message m data d)) = mtk_command (nmea d).
Proof.
  unfold ubx_nav_message, location_mask_or. cbv zeta.
  repeat first [ rewrite mtk_ubx_nav_timegps | mtk_step ].
Qed.

Lemma mtk_propagate_mask field bit d :
  mtk_command (nmea (propagate_mask field bit d)) = mtk_command (nmea d).
Proof. unfold propagate_mask, location_mask_or. repeat mtk_step. Qed.

(** [e] keeps what [d] has. *)
Ltac idle_tac :=
  match goal with
  | H : idle_at ?K ?d |- idle_at ?K ?e =>
      let H1 := fresh in
      let H2 := fresh in
      destruct H as [H1 H2]; split;
      [ transitivity (driver_of d);
        [ solve [ repeat first
                    [ rewrite driver_ubx_start_message
                    | rewrite driver_ubx_parse_message
                    | rewrite driver_ubx_nav_message
                    | rewrite driver_propagate_mask
                    | driver_step ] ]
        | exact H1 ]
      | first
          [ apply mtk_ok_nmea_parse_sentence; unfold mtk_ok in *;
            replace (mtk_command (nmea _)) with (mtk_command (nmea d));
            [ exact H2
            | symmetry;
              solve [ repeat first
                        [ rewrite mtk_ubx_start_message
                        | rewrite mtk_ubx_parse_message
                        | rewrite mtk_ubx_nav_message
                        | rewrite mtk_propagate_mask
                        | rewrite mtk_nmea_start_sentence
                        | mtk_step ] ] ]
          | unfold mtk_ok in *;
            replace (mtk_command (nmea e)) with (mtk_command (nmea d));
            [ exact H2
            | symmetry;
              solve [ repeat first
                        [ rewrite mtk_ubx_start_message
                        | rewrite mtk_ubx_parse_message
                        | rewrite mtk_ubx_nav_message
                        | rewrite mtk_propagate_mask
                        | rewrite mtk_nmea_start_sentence
                        | mtk_step ] ] ] ] ]
  end.

Ltac idle_step :=
  first
    [ match goal with
      | |- post _ _ (if ?b then _ else _) => destruct b
      | |- post _ _ (match ?x with _ => _ end) => destruct x
      | |- post _ _ (let '(_, _) := ?x in _) => destruct x
      end
    | match goal with
      | |- post (idle_at ?K) _ _ =>
          apply (post_bind (idle_at K)); [|intros ? ?]
      end
    | apply post_ret; solve [idle_tac]
    | apply post_emit; [solve [idle_tac] | reflexivity]
    | apply post_mark; [solve [idle_tac] | intros ?; reflexivity]
    | progress cbv zeta ].

Lemma gnss_location_idle K d :
  idle_at K d -> post (idle_at K) not_driver_event (gnss_location d).
Proof.
  intros H. unfold gnss_location. cbv zeta. split.
  - cbn [fst]. idle_tac.
  - cbn [snd]. destruct (location_callback d); reflexivity.
Qed.

Lemma gnss_satellites_idle K d :
  idle_at K d -> post (idle_at K) not_driver_event (gnss_satellites d).
Proof.
  intros H. unfold gnss_satellites. cbv zeta. split.
  - cbn [fst]. idle_tac.
  - cbn [snd].
    repeat match goal with |- context [if ?b then _ else _] => destruct b end;
      reflexivity.
Qed.

Lemma idle_fields T B d :
  idle_at (idle_key T B) d ->
  init d = GNSS_INIT_DONE /\ command d = 0xffffffff
  /\ 0 <= mtk_command (nmea d) < 65536.
Proof.
  intros [H1 H2]. unfold driver_of, idle_key in H1. injection H1. auto.
Qed.

Lemma nmea_end_sequence_idle T B d :
  idle_at (idle_key T B) d -> post (idle_at (idle_key T B)) not_driver_event (nmea_end_sequence d).
Proof.
  intros H. destruct (idle_fields T B d H) as (Hi & Hc & Hm).
  unfold nmea_end_sequence. cbv zeta.
  replace (command d =? mtk_command (nmea d)) with false
    by (symmetry; apply Z.eqb_neq; lia).
  repeat idle_step.
Qed.

Lemma nmea_end_sentence_idle T B d :
  idle_at (idle_key T B) d -> post (idle_at (idle_key T B)) not_driver_event (nmea_end_sentence d).
Proof.
  intros H.
  unfold nmea_end_sentence, nmea_publish_location, nmea_publish_satellites.
  repeat first
    [ apply nmea_end_sequence_idle; solve [assumption | idle_tac]
    | apply gnss_location_idle; solve [idle_tac]
    | apply gnss_satellites_idle; solve [idle_tac]
    | idle_step ].
Qed.

Lemma ubx_ack_message_idle T B response data d :
  idle_at (idle_key T B) d ->
  post (idle_at (idle_key T B)) not_driver_event (ubx_ack_message response data d).
Proof.
  intros H. destruct (idle_fields T B d H) as (Hi & Hc & Hm).
  unfold ubx_ack_message. cbv zeta.
  match goal with |- context [u16 ?x =? command d] =>
    pose proof (u16_range x) as Hr;
    replace (u16 x =? command d) with false
      by (symmetry; apply Z.eqb_neq; lia)
  end.
  apply post_ret, H.
Qed.

Lemma ubx_end_message_idle T B m data cnt d :
  idle_at (idle_key T B) d ->
  post (idle_at (idle_key T B)) not_driver_event (ubx_end_message m data cnt d).
Proof.
  intros H.
  unfold ubx_end_message, ubx_publish_location, ubx_publish_satellites.
  repeat first
    [ apply ubx_ack_message_idle; solve [assumption | idle_tac]
    | apply gnss_location_idle; solve [idle_tac]
    | apply gnss_satellites_idle; solve [idle_tac]
    | idle_step ].
Qed.

Lemma gnss_receive_byte_idle T B d c :
  idle_at (idle_key T B) d -> post (idle_at (idle_key T B)) not_driver_event (gnss_receive_byte d c).
Proof.
  intros H. destruct (idle_fields T B d H) as (Hi & Hc & Hm).
  assert (Hn : forall e, driver_of e = driver_of d ->
                         nmea_init_response e = ret e).
  { intros e He. unfold nmea_init_response.
    replace (init e) with (init d)
      by (unfold driver_of in He; congruence).
    rewrite Hi. reflexivity. }
  assert (Hu : forall e, driver_of e = driver_of d ->
                         ubx_init_response e = ret e).
  { intros e He. unfold ubx_init_response.
    replace (init e) with (init d)
      by (unfold driver_of in He; congruence).
    rewrite Hi. reflexivity. }
  unfold gnss_receive_byte, rx_store.
  repeat first
    [ rewrite Hn by reflexivity
    | rewrite Hu by (solve [repeat driver_step])
    | rewrite bind_ret_l
    | apply nmea_end_sentence_idle; solve [idle_tac]
    | apply ubx_end_message_idle; solve [idle_tac]
    | idle_step ].
Qed.

Lemma gnss_receive_idle T B data : forall d,
  idle_at (idle_key T B) d -> post (idle_at (idle_key T B)) not_driver_event (gnss_receive d data).
Proof.
  induction data as [|c rest IH]; intros d H; [apply post_ret, H|].
  rewrite gnss_receive_cons. apply (post_bind (idle_at (idle_key T B))).
  - apply gnss_receive_byte_idle, H.
  - intros d1 H1. apply IH, H1.
Qed.

(** ** A navigation cycle of a u-blox receiver *)

Lemma ubx_times_header d class id lo hi :
  state d = GNSS_STATE_START -> mode d = GNSS_MODE_UBLOX ->
  ubx_times (fst (gnss_receive d [0xb5; 0x62; class; id; lo; hi]))
  = ubx_times d.
Proof.
  intros Hs Hm. cbn [gnss_receive].
  rewrite step_ubx_sync_1, bind_ret_l by assumption.
  rewrite step_ubx_sync_2, bind_ret_l by reflexivity.
  rewrite step_ubx_message_1, bind_ret_l by reflexivity.
  rewrite step_ubx_message_2, bind_ret_l by reflexivity.
  rewrite step_ubx_length_1, bind_ret_l by reflexivity.
  rewrite step_ubx_length_2 by reflexivity.
  cbv zeta. unfold ubx_start_message, ubx_ck_add. cbv zeta.
  repeat match goal with
  | |- context [if ?b then _ else _] => plain_test b; destruct b
  end; rewrite ?bind_ret_l; unfold ret; reflexivity.
Qed.

Lemma ubx_times_payload_step d c :
  state d = 11 ->
  ubx_times (fst (gnss_receive_byte d c)) = ubx_times d.
Proof.
  intros Hs. rewrite step_ubx_payload by assumption.
  cbv zeta. unfold ubx_ck_add, ubx_parse_message, upd_info.
  cbv zeta. payload_store_cases.
  all: repeat (record_cbn; split_if).
  all: reflexivity.
Qed.

(** Sync bytes, header and payload leave the GPS time alone. *)
Lemma ubx_times_head d class id payload :
  state d = GNSS_STATE_START -> mode d = GNSS_MODE_UBLOX ->
  is_byte class = true -> Z.of_nat (length payload) < 65536 ->
  ubx_times (fst (gnss_receive d (ubx_head class id payload))) = ubx_times d.
Proof.
  intros Hs Hm Hc Hl.
  set (n := Z.of_nat (length payload)) in *.
  change (ubx_head class id payload)
    with ([0xb5; 0x62; class; id; n mod 256; n / 256] ++ payload).
  rewrite gnss_receive_app, bind_fst.
  pose proof (ubx_times_header d class id (n mod 256) (n / 256) Hs Hm) as Ht.
  destruct (ubx_header_run d class id (n mod 256) (n / 256) Hs Hm Hc)
    as (d1 & E & H1 & H2 & H3 & H4 & H5 & H6 & _).
  rewrite E in *. cbn [fst] in *.
  rewrite ubx_length_bytes in H6 by (unfold n in *; lia).
  destruct (decide (payload = [])) as [Ep|Ep].
  - subst payload. exact Ht.
  - assert (Hn : n <> 0).
    { unfold n. destruct payload; [congruence | rewrite length_cons; lia]. }
    rewrite H6 in H1.
    replace (0 =? n) with false in H1 by (symmetry; apply Z.eqb_neq; lia).
    destruct (ubx_payload_run (fun d1 => ubx_times d1 = ubx_times d) payload)
      with (d := d1) as (_ & R & _);
      first [ assumption | lia | rewrite H6; exact Hl | idtac ].
    intros d0 c S0 P0. rewrite ubx_times_payload_step by exact S0. exact P0.
Qed.

(** A whole frame other than NAV-SVINFO that fits the staging buffer:
    the payload is staged and handed to [ubx_end_message], the rest of
    the device being as it was. *)
Lemma ubx_frame_run d class id payload :
  state d = GNSS_STATE_START -> mode d = GNSS_MODE_UBLOX ->
  init d <> GNSS_INIT_UBX_BAUD_RATE ->
  is_byte class = true -> (ubx_key class id =? 0x0130) = false ->
  length (rx_data d) = Z.to_nat GNSS_RX_DATA_SIZE ->
  Z.of_nat (length payload) <= GNSS_RX_DATA_SIZE ->
  exists d2 stores,
    gnss_receive d (ubx_message class id payload)
    = (set_state GNSS_STATE_START
         (fst (ubx_end_message (ubx_key class id) (rx_data d2)
                 (Z.of_nat (length payload)) d2)),
       stores
       ++ snd (ubx_end_message (ubx_key class id) (rx_data d2)
                 (Z.of_nat (length payload)) d2))
    /\ only_stores stores = true
    /\ config_of d2 = config_of d /\ seen d2 = seen d
    /\ location d2 = location d /\ satellites d2 = satellites d
    /\ nmea d2 = nmea d /\ ubx_times d2 = ubx_times d
    /\ length (rx_data d2) = Z.to_nat GNSS_RX_DATA_SIZE
    /\ take (length payload) (rx_data d2) = payload.
Proof.
  intros Hs Hm Hi Hc Hk Hd Hn.
  assert (Hl : Z.of_nat (length payload) < 65536)
    by (unfold GNSS_RX_DATA_SIZE in Hn; lia).
  unfold ubx_message, ubx_frame.
  set (sums := fletcher8 (ubx_body class id payload)).
  rewrite gnss_receive_app.
  pose proof (gnss_receive_size _ (ubx_head class id payload) d Hd) as Hsize.
  pose proof (ubx_head_data d class id payload Hs Hm Hc Hk Hd Hn) as Hdata.
  pose proof (ubx_times_head d class id payload Hs Hm Hc Hl) as Htimes.
  destruct (ubx_head_run (fun _ => True) d class id payload Hs Hm Hc Hl)
    as (R1 & _ & R3 & R4 & R5 & R6 & R7 & R8 & R9); [auto | auto |].
  destruct (ubx_plain_staged d class id payload Hs Hm Hc Hl Hk)
    as (_ & _ & P3 & _ & P5 & P6 & P7 & P8).
  cbv zeta in *.
  set (staged := fst (gnss_receive d (ubx_head class id payload))) in *.
  destruct (ubx_trailer staged (fst sums) (snd sums) R3) as (d2 & E2 & E).
  fold sums in R6.
  assert (A : ck_a (ubx staged) = fst sums) by (rewrite <- R6; reflexivity).
  assert (B : ck_b (ubx staged) = snd sums) by (rewrite <- R6; reflexivity).
  rewrite !lxor_zero_eqb, A, B, !Z.eqb_refl in E. cbn [andb] in E.
  assert (F1 : config_of d2 = config_of d)
    by (rewrite <- R7; unfold payload_of in E2; congruence).
  assert (F2 : rx_data d2 = rx_data staged)
    by (unfold payload_of in E2; congruence).
  assert (F3 : rx_count d2 = Z.of_nat (length payload))
    by (unfold payload_of in E2; congruence).
  assert (F4 : message (ubx d2) = ubx_key class id)
    by (unfold payload_of in E2; congruence).
  assert (F5 : ubx_fits d2 = true).
  { unfold ubx_fits. unfold payload_of in E2.
    replace (rx_offset d2) with (rx_offset staged) by congruence.
    rewrite F3, P3. apply Z.leb_le. lia. }
  assert (F6 : seen d2 = seen d)
    by (rewrite <- P7; unfold payload_of in E2; congruence).
  assert (F7 : location d2 = location d)
    by (rewrite <- P8; unfold payload_of in E2; congruence).
  assert (F8 : satellites d2 = satellites d)
    by (rewrite <- P6; unfold payload_of in E2; congruence).
  assert (F9 : nmea d2 = nmea d)
    by (rewrite <- R8; unfold payload_of in E2; congruence).
  assert (F10 : ubx_times d2 = ubx_times d)
    by (rewrite <- Htimes; unfold ubx_times, payload_of in *; congruence).
  assert (Hir : ubx_init_response d2 = ret d2).
  { unfold ubx_init_response.
    unfold config_of in F1. injection F1 as G1 G2 _.
    rewrite G2.
    replace (init d =? GNSS_INIT_UBX_BAUD_RATE) with false
      by (symmetry; apply Z.eqb_neq; exact Hi).
    rewrite andb_false_r. reflexivity. }
  rewrite Hir, bind_ret_l, F5, F4, F3 in E.
  exists d2, (snd (gnss_receive d (ubx_head class id payload))).
  split.
  - unfold bind at 1. fold staged.
    destruct (gnss_receive d (ubx_head class id payload)) as [s0 t0] eqn:Eh.
    cbn [fst snd] in *. subst staged. rewrite E.
    unfold bind, ret.
    destruct (ubx_end_message _ _ _ d2) as [e1 t1]. cbn [fst snd].
    rewrite app_nil_r. reflexivity.
  - repeat split; try assumption.
    + rewrite F2. exact Hsize.
    + rewrite F2. exact Hdata.
Qed.

Lemma at_take n data payload i :
  take n data = payload -> (i < n)%nat -> at_ data i = at_ payload i.
Proof.
  intros H Hi. subst payload. unfold at_.
  rewrite !nth_lookup, lookup_take_lt by exact Hi. reflexivity.
Qed.

(** With every field vouched for, the clean-up of [gnss_location]
    changes nothing of a 3D fix. *)
Lemma gnss_location_report_full l :
  type l = GNSS_LOCATION_TYPE_3D -> mask l = GNSS_LOCATION_MASK_ALL ->
  gnss_location_report l = l.
Proof.
  intros Ht Hm. rewrite gnss_location_report_stages. unfold report_stages.
  assert (E1 : clear_by_type l = l)
    by (unfold clear_by_type; rewrite Ht; reflexivity).
  assert (E2 : clear_time l = l)
    by (unfold clear_time; rewrite Hm; reflexivity).
  rewrite E1, E2.
  repeat match goal with
  | |- context [clear_field ?b ?c l] =>
      replace (clear_field b c l) with l
        by (unfold clear_field; rewrite Hm; reflexivity)
  end.
  reflexivity.
Qed.

(** NAV-DOP at the start of a cycle. *)
Lemma ubx_nav_dop_step data n d :
  init d = GNSS_INIT_DONE -> expected d = UBX_EXPECTED ->
  (seen d = 0 /\ mask (location d) = 0)
  \/ (test_mask (seen d) UBX_NAV_MESSAGES = true
      /\ itow (ubx d) <> ubx_data_uint32 data 0) ->
  let e := ubx_end_message 0x0104 data n d in
  snd e = [Ubx_end_message 0x0104 data n]
  /\ config_of (fst e) = config_of d /\ state (fst e) = state d
  /\ rx_data (fst e) = rx_data d
  /\ seen (fst e) = UBX_MESSAGE_MASK_NAV_DOP
  /\ itow (ubx (fst e)) = ubx_data_uint32 data 0
  /\ week (ubx (fst e)) = week (ubx d)
  /\ mask (location (fst e))
     = fold_right Z.lor 0
         [GNSS_LOCATION_MASK_PDOP; GNSS_LOCATION_MASK_HDOP;
          GNSS_LOCATION_MASK_VDOP]
  /\ pdop (location (fst e)) = ubx_data_uint16 data 6
  /\ hdop (location (fst e)) = ubx_data_uint16 data 12
  /\ vdop (location (fst e)) = ubx_data_uint16 data 10.
Proof.
  intros Hi He Hs. cbv zeta. unfold ubx_end_message.
  change (Z.shiftr 260 8 =? 1) with true. cbv iota.
  rewrite !bind_fst, !bind_snd. cbn [emit ret fst snd].
  set (d1 := ubx_nav_message 260 data d).
  assert (F : config_of d1 = config_of d /\ state d1 = state d
              /\ rx_data d1 = rx_data d
              /\ seen d1 = UBX_MESSAGE_MASK_NAV_DOP
              /\ itow (ubx d1) = ubx_data_uint32 data 0
              /\ week (ubx d1) = week (ubx d)
              /\ mask (location d1)
                 = fold_right Z.lor 0
                     [GNSS_LOCATION_MASK_PDOP; GNSS_LOCATION_MASK_HDOP;
                      GNSS_LOCATION_MASK_VDOP]
              /\ pdop (location d1) = ubx_data_uint16 data 6
              /\ hdop (location d1) = ubx_data_uint16 data 12
              /\ vdop (location d1) = ubx_data_uint16 data 10).
  { unfold d1, ubx_nav_message. cbv zeta.
    change (Z.land 260 255) with 4. cbv iota.
    destruct Hs as [[Hs Hm]|[Hs Ht]].
    - rewrite Hs. change (test_mask 0 UBX_NAV_MESSAGES) with false.
      cbn [andb]. unfold config_of, location_mask_or. record_cbn.
      rewrite Hs, Hm. repeat split; reflexivity.
    - rewrite Hs. apply Z.eqb_neq in Ht. rewrite Ht. cbn [andb negb].
      unfold config_of, location_mask_or. record_cbn.
      repeat split; reflexivity. }
  clearbody d1.
  destruct F as (F1 & F2 & F3 & F4 & F5 & F6 & F7 & F8 & F9 & F10).
  assert (Hi1 : init d1 = GNSS_INIT_DONE /\ expected d1 = UBX_EXPECTED).
  { unfold config_of in F1. injection F1. intros. split; congruence. }
  destruct Hi1 as [Hi1 He1]. rewrite Hi1.
  change (GNSS_INIT_DONE =? GNSS_INIT_DONE) with true. cbv iota.
  assert (P : ubx_publish_location d1 >>= ubx_publish_satellites = ret d1).
  { unfold ubx_publish_location. cbv zeta. rewrite F4, He1.
    change (Z.land UBX_MESSAGE_MASK_NAV_DOP
              (Z.land UBX_EXPECTED UBX_LOCATION_MESSAGES)
            =? Z.land UBX_EXPECTED UBX_LOCATION_MESSAGES) with false.
    cbv iota. rewrite bind_ret_l. unfold ubx_publish_satellites. cbv zeta.
    rewrite F4. reflexivity. }
  rewrite P. cbn [ret fst snd]. rewrite app_nil_r.
  repeat split; first [reflexivity | assumption].
Qed.

(** NAV-PVT of the same epoch, with a 3D fix and a valid date and
    time. *)
Lemma ubx_nav_pvt_step data n d :
  init d = GNSS_INIT_DONE -> expected d = UBX_EXPECTED ->
  seen d = UBX_MESSAGE_MASK_NAV_DOP ->
  itow (ubx d) = ubx_data_uint32 data 0 ->
  at_ data 20 = 3 -> Z.land (at_ data 11) 0x03 = 0x03 ->
  mask (location d)
  = fold_right Z.lor 0
      [GNSS_LOCATION_MASK_PDOP; GNSS_LOCATION_MASK_HDOP;
       GNSS_LOCATION_MASK_VDOP] ->
  let e := ubx_end_message 0x0107 data n d in
  snd e = [Ubx_end_message 0x0107 data n]
  /\ config_of (fst e) = config_of d /\ state (fst e) = state d
  /\ rx_data (fst e) = rx_data d
  /\ seen (fst e)
     = Z.lor UBX_MESSAGE_MASK_NAV_DOP UBX_MESSAGE_MASK_NAV_PVT
  /\ itow (ubx (fst e)) = itow (ubx d)
  /\ week (ubx (fst e)) = week (ubx d)
  /\ location (fst e) = ubx_nav_pvt data (location d)
  /\ type (location (fst e)) = GNSS_LOCATION_TYPE_3D
  /\ mask (location (fst e))
     = Z.land GNSS_LOCATION_MASK_ALL
         (Z.lnot (Z.lor GNSS_LOCATION_MASK_TIME GNSS_LOCATION_MASK_CORRECTION))
  /\ year (time (location (fst e))) = u8 (ubx_data_uint16 data 4 - 1980)
  /\ latitude (location (fst e)) = ubx_data_int32 data 28
  /\ longitude (location (fst e)) = ubx_data_int32 data 24
  /\ altitude (location (fst e)) = ubx_data_int32 data 36
  /\ speed (location (fst e)) = ubx_data_int32 data 60
  /\ course (location (fst e)) = ubx_data_int32 data 64
  /\ pdop (location (fst e)) = pdop (location d)
  /\ hdop (location (fst e)) = hdop (location d)
  /\ vdop (location (fst e)) = vdop (location d).
Proof.
  intros Hi He Hs Ht Hfix Hvalid Hm. cbv zeta. unfold ubx_end_message.
  change (Z.shiftr 263 8 =? 1) with true. cbv iota.
  rewrite !bind_fst, !bind_snd. cbn [emit ret fst snd].
  set (d1 := ubx_nav_message 263 data d).
  assert (F : config_of d1 = config_of d /\ state d1 = state d
              /\ rx_data d1 = rx_data d
              /\ seen d1
                 = Z.lor UBX_MESSAGE_MASK_NAV_DOP UBX_MESSAGE_MASK_NAV_PVT
              /\ itow (ubx d1) = itow (ubx d)
              /\ week (ubx d1) = week (ubx d)
              /\ location d1 = ubx_nav_pvt data (location d)).
  { unfold d1, ubx_nav_message. cbv zeta.
    change (Z.land 263 255) with 7. cbv iota.
    rewrite Ht, Z.eqb_refl, andb_false_r.
    unfold config_of. record_cbn. rewrite Hs.
    repeat split; reflexivity. }
  clearbody d1. destruct F as (F1 & F2 & F3 & F4 & F5 & F6 & F7).
  assert (Hi1 : init d1 = GNSS_INIT_DONE /\ expected d1 = UBX_EXPECTED).
  { unfold config_of in F1. injection F1. intros. split; congruence. }
  destruct Hi1 as [Hi1 He1]. rewrite Hi1.
  change (GNSS_INIT_DONE =? GNSS_INIT_DONE) with true. cbv iota.
  assert (P : ubx_publish_location d1 >>= ubx_publish_satellites = ret d1).
  { unfold ubx_publish_location. cbv zeta. rewrite F4, He1.
    change (Z.land (Z.lor UBX_MESSAGE_MASK_NAV_DOP UBX_MESSAGE_MASK_NAV_PVT)
              (Z.land UBX_EXPECTED UBX_LOCATION_MESSAGES)
            =? Z.land UBX_EXPECTED UBX_LOCATION_MESSAGES) with false.
    cbv iota. rewrite bind_ret_l. unfold ubx_publish_satellites. cbv zeta.
    rewrite F4. reflexivity. }
  rewrite P. cbn [ret fst snd]. rewrite app_nil_r.
  split; [reflexivity|]. repeat (split; [assumption|]).
  rewrite F7. unfold ubx_nav_pvt. cbv zeta.
  change (ubx_data_uint8 data 20) with (at_ data 20).
  change (ubx_data_uint8 data 11) with (at_ data 11).
  rewrite Hfix, Hvalid.
  change (3 =? 3) with true. cbv iota. record_cbn. rewrite Hm.
  repeat split; reflexivity.
Qed.

(** The week that NAV-TIMEGPS stores is the week of the message or one
    of its neighbours. *)
Lemma ubx_nav_timegps_week data d :
  Z.land (at_ data 11) 0x03 = 0x03 ->
  2 <= ubx_data_uint16 data 8 < 65535 ->
  let d' := ubx_nav_timegps data d in
  week (ubx d') <> 0
  /\ location d' = set_correction (at_ data 10) (location d)
  /\ config_of d' = config_of d /\ state d' = state d
  /\ rx_data d' = rx_data d /\ seen d' = seen d
  /\ itow (ubx d') = itow (ubx d).
Proof.
  intros Hv Hw. cbv zeta. unfold ubx_nav_timegps.
  change (ubx_data_uint8 data 11) with (at_ data 11). rewrite Hv.
  change (3 =? 3) with true. cbv iota zeta.
  set (w := ubx_data_uint16 data 8) in *.
  repeat (match goal with
          | |- context [if ?b then _ else _] => plain_test b; destruct b
          end; cbv beta iota zeta);
  unfold config_of; record_cbn;
  (split;
   [ rewrite ?(u16_small (w - 1)), ?(u16_small (w + 1)),
       ?(u16_small (w - 1 + 1)) by lia; lia
   | repeat split; reflexivity ]).
Qed.

Lemma bind_pair d t k : (d, t) >>= k = (fst (k d), t ++ snd (k d)).
Proof. unfold bind. destruct (k d). reflexivity. Qed.

(** NAV-TIMEGPS of the same epoch completes the cycle: the location
    is published. *)
Lemma ubx_nav_timegps_step data n d :
  init d = GNSS_INIT_DONE -> expected d = UBX_EXPECTED ->
  location_callback d = true ->
  seen d = Z.lor UBX_MESSAGE_MASK_NAV_DOP UBX_MESSAGE_MASK_NAV_PVT ->
  itow (ubx d) = ubx_data_uint32 data 0 ->
  Z.land (at_ data 11) 0x03 = 0x03 ->
  2 <= ubx_data_uint16 data 8 < 65535 ->
  year (time (location d)) <> 0 ->
  type (location d) = GNSS_LOCATION_TYPE_3D ->
  mask (location d)
  = Z.land GNSS_LOCATION_MASK_ALL
      (Z.lnot (Z.lor GNSS_LOCATION_MASK_TIME GNSS_LOCATION_MASK_CORRECTION)) ->
  let e := ubx_end_message 0x0120 data n d in
  snd e
  = [Ubx_end_message 0x0120 data n;
     Location_callback
       (set_mask GNSS_LOCATION_MASK_ALL
          (set_correction (at_ data 10) (location d)))]
  /\ config_of (fst e) = config_of d /\ state (fst e) = state d
  /\ rx_data (fst e) = rx_data d
  /\ seen (fst e) = UBX_MESSAGE_MASK_SOLUTION.
Proof.
  intros Hi He Hcb Hs Ht Hv Hw Hy Hty Hm. cbv zeta. unfold ubx_end_message.
  change (Z.shiftr 288 8 =? 1) with true. cbv iota.
  rewrite !bind_fst, !bind_snd. cbn [emit ret fst snd].
  set (d1 := ubx_nav_message 288 data d).
  destruct (ubx_nav_timegps_week data
              (upd_ubx (set_itow (ubx_data_uint32 data 0)) d) Hv Hw)
    as (W1 & W2 & W3 & W4 & W5 & W6 & W7).
  cbv zeta in *.
  assert (F : config_of d1 = config_of d /\ state d1 = state d
              /\ rx_data d1 = rx_data d
              /\ seen d1
                 = fold_right Z.lor 0
                     [UBX_MESSAGE_MASK_NAV_DOP; UBX_MESSAGE_MASK_NAV_PVT;
                      UBX_MESSAGE_MASK_NAV_TIMEGPS]
              /\ week (ubx d1) <> 0
              /\ location d1 = set_correction (at_ data 10) (location d)).
  { unfold d1, ubx_nav_message. cbv zeta.
    change (Z.land 288 255) with 32. cbv iota.
    rewrite Ht, Z.eqb_refl, andb_false_r. cbv iota.
    set (d0 := ubx_nav_timegps data _) in *. clearbody d0.
    unfold config_of in *. record_cbn. record_cbn_in W3. record_cbn_in W4.
    record_cbn_in W5. record_cbn_in W6. record_cbn_in W2.
    rewrite W6, Hs.
    repeat split; first [assumption | reflexivity]. }
  clearbody d1. clear W1 W2 W3 W4 W5 W6 W7.
  destruct F as (F1 & F2 & F3 & F4 & F5 & F6).
  assert (Hi1 : init d1 = GNSS_INIT_DONE /\ expected d1 = UBX_EXPECTED
                /\ location_callback d1 = true).
  { unfold config_of in F1. injection F1. intros. repeat split; congruence. }
  destruct Hi1 as (Hi1 & He1 & Hcb1). rewrite Hi1.
  change (GNSS_INIT_DONE =? GNSS_INIT_DONE) with true. cbv iota.
  unfold ubx_publish_location. cbv zeta. rewrite F4, He1.
  match goal with |- context [if ?b then _ else ret d1] =>
    change b with true end.
  cbv iota.
  apply Z.eqb_neq in F5. rewrite F5.
  assert (Hy1 : (year (time (location d1)) =? 0) = false)
    by (rewrite F6; apply Z.eqb_neq; exact Hy).
  rewrite Hy1. cbn [negb andb].
  match goal with |- context [test_mask ?a ?b] =>
    change (test_mask a b) with true end.
  cbn [negb]. cbv iota.
  set (d2 := location_mask_or _ d1).
  assert (G : location d2
              = set_mask GNSS_LOCATION_MASK_ALL
                  (set_correction (at_ data 10) (location d))
              /\ config_of d2 = config_of d1 /\ state d2 = state d1
              /\ rx_data d2 = rx_data d1 /\ seen d2 = seen d1).
  { unfold d2, location_mask_or, config_of. record_cbn. rewrite F6.
    record_cbn. rewrite Hm. repeat split; reflexivity. }
  clearbody d2. destruct G as (G1 & G2 & G3 & G4 & G5).
  unfold gnss_location. cbv zeta. rewrite G1.
  rewrite gnss_location_report_full by (record_cbn; assumption || reflexivity).
  assert (Hcb2 : location_callback d2 = true)
    by (unfold config_of in G2; injection G2; intros; congruence).
  assert (He2 : expected d2 = UBX_EXPECTED)
    by (unfold config_of in G2; injection G2; intros; congruence).
  rewrite Hcb2, bind_pair. cbn [ret fst snd].
  set (d3 := seen_or UBX_MESSAGE_MASK_SOLUTION _).
  assert (H3 : config_of d3 = config_of d /\ state d3 = state d
               /\ rx_data d3 = rx_data d
               /\ seen d3 = UBX_MESSAGE_MASK_SOLUTION).
  { unfold d3, seen_or, seen_clear, config_of in *. record_cbn.
    rewrite G5, F4.
    injection G2 as J1 J2 J3 J4 J5 J6 J7 J8.
    injection F1 as K1 K2 K3 K4 K5 K6 K7 K8.
    repeat split; try reflexivity; congruence. }
  clearbody d3. destruct H3 as (H31 & H32 & H33 & H34).
  rewrite bind_pair.
  assert (P : ubx_publish_satellites d3 = ret d3).
  { unfold ubx_publish_satellites. cbv zeta. rewrite H34.
    replace (expected d3) with UBX_EXPECTED
      by (unfold config_of in H31; injection H31; intros; congruence).
    reflexivity. }
  rewrite P. cbn [ret fst snd]. rewrite !app_nil_r.
  repeat split; first [reflexivity | assumption].
Qed.

Lemma ubx_data_uint16_take n data payload off :
  take n data = payload -> (off + 2 <= n)%nat ->
  ubx_data_uint16 data off = ubx_data_uint16 payload off.
Proof.
  intros H Hn. unfold ubx_data_uint16.
  rewrite !(at_take n data payload) by (assumption || lia). reflexivity.
Qed.

Lemma ubx_data_uint32_take n data payload off :
  take n data = payload -> (off + 4 <= n)%nat ->
  ubx_data_uint32 data off = ubx_data_uint32 payload off.
Proof.
  intros H Hn. unfold ubx_data_uint32.
  rewrite !(at_take n data payload) by (assumption || lia). reflexivity.
Qed.

Lemma ubx_data_int32_take n data payload off :
  take n data = payload -> (off + 4 <= n)%nat ->
  ubx_data_int32 data off = ubx_data_int32 payload off.
Proof.
  intros H Hn. unfold ubx_data_int32.
  rewrite (ubx_data_uint32_take n data payload) by assumption. reflexivity.
Qed.

Lemma callbacks_app t1 t2 : callbacks (t1 ++ t2) = callbacks t1 ++ callbacks t2.
Proof.
  induction t1 as [|e t1 IH]; [reflexivity|].
  cbn [app callbacks]. rewrite IH. destruct (is_callback e); reflexivity.
Qed.

Lemma callbacks_stores t : only_stores t = true -> callbacks t = [].
Proof.
  unfold only_stores. induction t as [|e t IH]; [reflexivity|].
  cbn [forallb]. intros H. apply andb_true_iff in H as [He Ht].
  destruct e; try discriminate He. cbn [callbacks is_callback].
  apply IH, Ht.
Qed.

Lemma ubx_navigating_config d e :
  ubx_navigating d -> config_of e = config_of d ->
  mode e = GNSS_MODE_UBLOX /\ init e = GNSS_INIT_DONE
  /\ expected e = UBX_EXPECTED /\ init e <> GNSS_INIT_UBX_BAUD_RATE
  /\ location_callback e = location_callback d.
Proof.
  intros (_ & Hm & Hi & He & _) H. unfold config_of in H. injection H.
  intros. repeat split; try congruence.
  replace (init e) with GNSS_INIT_DONE by congruence.
  intros Hx. discriminate Hx.
Qed.

(** The NAV-DOP frame at the start of a cycle. *)
Lemma ubx_nav_dop_frame d dop :
  ubx_navigating d ->
  (seen d = 0 /\ mask (location d) = 0)
  \/ (test_mask (seen d) UBX_NAV_MESSAGES = true
      /\ itow (ubx d) <> ubx_data_uint32 dop 0) ->
  length dop = 18%nat ->
  let r := gnss_receive d (ubx_message 0x01 0x04 dop) in
  callbacks (snd r) = [] /\ ubx_navigating (fst r)
  /\ location_callback (fst r) = location_callback d
  /\ seen (fst r) = UBX_MESSAGE_MASK_NAV_DOP
  /\ itow (ubx (fst r)) = ubx_data_uint32 dop 0
  /\ mask (location (fst r))
     = fold_right Z.lor 0
         [GNSS_LOCATION_MASK_PDOP; GNSS_LOCATION_MASK_HDOP;
          GNSS_LOCATION_MASK_VDOP]
  /\ pdop (location (fst r)) = ubx_data_uint16 dop 6
  /\ hdop (location (fst r)) = ubx_data_uint16 dop 12
  /\ vdop (location (fst r)) = ubx_data_uint16 dop 10.
Proof.
  intros Hn Hstart Ldop. cbv zeta.
  pose proof Hn as (Hs & Hm & Hi & He & Hl).
  destruct (ubx_navigating_config d d Hn eq_refl) as (_ & _ & _ & Hi0 & _).
  destruct (ubx_frame_run d 0x01 0x04 dop Hs Hm Hi0 eq_refl eq_refl Hl)
    as (a & t1 & E1 & T1 & C1 & S1 & O1 & _ & _ & U1 & Z1 & K1);
    [rewrite Ldop; vm_compute; intros Hx; discriminate Hx|].
  rewrite Ldop in E1, K1. change (ubx_key 1 4) with 260 in E1.
  destruct (ubx_navigating_config d a Hn C1) as (A0 & A1 & A2 & _ & A3).
  destruct (ubx_nav_dop_step (rx_data a) (Z.of_nat 18) a A1 A2)
    as (D1 & D2 & D3 & D4 & D5 & D6 & D7 & D8 & D9 & D10 & D11).
  { rewrite S1, O1.
    rewrite (ubx_data_uint32_take 18 (rx_data a) dop) by (assumption || lia).
    unfold ubx_times in U1. injection U1 as U1a U1b U1c. rewrite U1c.
    exact Hstart. }
  cbv zeta in *. rewrite E1. cbn [fst snd].
  rewrite callbacks_app, (callbacks_stores _ T1), D1.
  rewrite (ubx_data_uint32_take 18 (rx_data a) dop) in D6
    by (assumption || lia).
  rewrite (ubx_data_uint16_take 18 (rx_data a) dop) in D9, D10, D11
    by (assumption || lia).
  rewrite C1 in D2. rewrite <- D4 in Z1.
  set (x := fst (ubx_end_message 260 (rx_data a) (Z.of_nat 18) a)) in *.
  clearbody x.
  destruct (ubx_navigating_config d x Hn D2) as (X0 & X1 & X2 & _ & X3).
  split; [reflexivity|]. unfold ubx_navigating. record_cbn.
  repeat split; assumption.
Qed.

(** The NAV-PVT frame of the same epoch. *)
Lemma ubx_nav_pvt_frame d pvt :
  ubx_navigating d -> seen d = UBX_MESSAGE_MASK_NAV_DOP ->
  itow (ubx d) = ubx_data_uint32 pvt 0 ->
  mask (location d)
  = fold_right Z.lor 0
      [GNSS_LOCATION_MASK_PDOP; GNSS_LOCATION_MASK_HDOP;
       GNSS_LOCATION_MASK_VDOP] ->
  length pvt = 92%nat ->
  at_ pvt 20 = 3 -> Z.land (at_ pvt 11) 0x03 = 0x03 ->
  let r := gnss_receive d (ubx_message 0x01 0x07 pvt) in
  callbacks (snd r) = [] /\ ubx_navigating (fst r)
  /\ location_callback (fst r) = location_callback d
  /\ seen (fst r)
     = Z.lor UBX_MESSAGE_MASK_NAV_DOP UBX_MESSAGE_MASK_NAV_PVT
  /\ itow (ubx (fst r)) = itow (ubx d)
  /\ type (location (fst r)) = GNSS_LOCATION_TYPE_3D
  /\ mask (location (fst r))
     = Z.land GNSS_LOCATION_MASK_ALL
         (Z.lnot (Z.lor GNSS_LOCATION_MASK_TIME GNSS_LOCATION_MASK_CORRECTION))
  /\ year (time (location (fst r))) = u8 (ubx_data_uint16 pvt 4 - 1980)
  /\ latitude (location (fst r)) = ubx_data_int32 pvt 28
  /\ longitude (location (fst r)) = ubx_data_int32 pvt 24
  /\ altitude (location (fst r)) = ubx_data_int32 pvt 36
  /\ speed (location (fst r)) = ubx_data_int32 pvt 60
  /\ course (location (fst r)) = ubx_data_int32 pvt 64
  /\ pdop (location (fst r)) = pdop (location d)
  /\ hdop (location (fst r)) = hdop (location d)
  /\ vdop (location (fst r)) = vdop (location d).
Proof.
  intros Hn Hseen Hitow Hmask Lpvt Hfix Hvalid. cbv zeta.
  pose proof Hn as (Hs & Hm & Hi & He & Hl).
  destruct (ubx_navigating_config d d Hn eq_refl) as (_ & _ & _ & Hi0 & _).
  destruct (ubx_frame_run d 0x01 0x07 pvt Hs Hm Hi0 eq_refl eq_refl Hl)
    as (a & t1 & E1 & T1 & C1 & S1 & O1 & _ & _ & U1 & Z1 & K1);
    [rewrite Lpvt; vm_compute; intros Hx; discriminate Hx|].
  rewrite Lpvt in E1, K1. change (ubx_key 1 7) with 263 in E1.
  destruct (ubx_navigating_config d a Hn C1) as (A0 & A1 & A2 & _ & A3).
  unfold ubx_times in U1. injection U1 as U1a U1b U1c.
  destruct (ubx_nav_pvt_step (rx_data a) (Z.of_nat 92) a A1 A2)
    as (P1 & P2 & P3 & P4 & P5 & P6 & P7 & P8 & P9 & P10 & P11 & P12 & P13
        & P14 & P15 & P16 & P17 & P18 & P19).
  { rewrite S1. exact Hseen. }
  { rewrite U1c, Hitow.
    rewrite (ubx_data_uint32_take 92 (rx_data a) pvt) by (assumption || lia).
    reflexivity. }
  { rewrite (at_take 92 (rx_data a) pvt) by (assumption || lia). exact Hfix. }
  { rewrite (at_take 92 (rx_data a) pvt) by (assumption || lia).
    exact Hvalid. }
  { rewrite O1. exact Hmask. }
  cbv zeta in *. rewrite E1. cbn [fst snd].
  rewrite callbacks_app, (callbacks_stores _ T1), P1.
  rewrite (ubx_data_uint16_take 92 (rx_data a) pvt) in P11
    by (assumption || lia).
  rewrite (ubx_data_int32_take 92 (rx_data a) pvt) in P12, P13, P14, P15, P16
    by (assumption || lia).
  rewrite O1 in P17, P18, P19. rewrite U1c in P6.
  rewrite C1 in P2. rewrite <- P4 in Z1.
  set (x := fst (ubx_end_message 263 (rx_data a) (Z.of_nat 92) a)) in *.
  clearbody x.
  destruct (ubx_navigating_config d x Hn P2) as (X0 & X1 & X2 & _ & X3).
  split; [reflexivity|]. unfold ubx_navigating. record_cbn.
  repeat split; assumption.
Qed.

(** The NAV-TIMEGPS frame of the same epoch: the location is
    published. *)
Lemma ubx_nav_timegps_frame d tg :
  ubx_navigating d -> location_callback d = true ->
  seen d = Z.lor UBX_MESSAGE_MASK_NAV_DOP UBX_MESSAGE_MASK_NAV_PVT ->
  itow (ubx d) = ubx_data_uint32 tg 0 ->
  year (time (location d)) <> 0 ->
  type (location d) = GNSS_LOCATION_TYPE_3D ->
  mask (location d)
  = Z.land GNSS_LOCATION_MASK_ALL
      (Z.lnot (Z.lor GNSS_LOCATION_MASK_TIME GNSS_LOCATION_MASK_CORRECTION)) ->
  length tg = 16%nat ->
  Z.land (at_ tg 11) 0x03 = 0x03 -> 2 <= ubx_data_uint16 tg 8 < 65535 ->
  let r := gnss_receive d (ubx_message 0x01 0x20 tg) in
  callbacks (snd r)
  = [Location_callback
       (set_mask GNSS_LOCATION_MASK_ALL
          (set_correction (at_ tg 10) (location d)))].
Proof.
  intros Hn Hcb Hseen Hitow Hyear Htype Hmask Ltg Hweek Hw. cbv zeta.
  pose proof Hn as (Hs & Hm & Hi & He & Hl).
  destruct (ubx_navigating_config d d Hn eq_refl) as (_ & _ & _ & Hi0 & _).
  destruct (ubx_frame_run d 0x01 0x20 tg Hs Hm Hi0 eq_refl eq_refl Hl)
    as (a & t1 & E1 & T1 & C1 & S1 & O1 & _ & _ & U1 & Z1 & K1);
    [rewrite Ltg; vm_compute; intros Hx; discriminate Hx|].
  rewrite Ltg in E1, K1. change (ubx_key 1 32) with 288 in E1.
  destruct (ubx_navigating_config d a Hn C1) as (A0 & A1 & A2 & _ & A3).
  unfold ubx_times in U1. injection U1 as U1a U1b U1c.
  destruct (ubx_nav_timegps_step (rx_data a) (Z.of_nat 16) a A1 A2)
    as (G1 & _).
  { rewrite A3. exact Hcb. }
  { rewrite S1. exact Hseen. }
  { rewrite U1c, Hitow.
    rewrite (ubx_data_uint32_take 16 (rx_data a) tg) by (assumption || lia).
    reflexivity. }
  { rewrite (at_take 16 (rx_data a) tg) by (assumption || lia). exact Hweek. }
  { rewrite (ubx_data_uint16_take 16 (rx_data a) tg) by (assumption || lia).
    exact Hw. }
  { rewrite O1. exact Hyear. }
  { rewrite O1. exact Htype. }
  { rewrite O1. exact Hmask. }
  cbv zeta in *. rewrite E1. cbn [fst snd].
  rewrite callbacks_app, (callbacks_stores _ T1), G1.
  cbn [callbacks is_callback app]. rewrite O1.
  rewrite (at_take 16 (rx_data a) tg) by (assumption || lia). reflexivity.
Qed.

(** ** The satellite count of an NMEA report *)

Lemma numsv_report l : numsv l = 0 -> numsv (gnss_location_report l) = 0.
Proof.
  intros H. rewrite gnss_location_report_stages. unfold report_stages.
  repeat (rewrite clear_field_keeps by reflexivity).
  unfold clear_time, clear_by_type.
  repeat match goal with
  | |- context [if ?b then _ else _] => destruct b
  end; cbn; auto.
Qed.

Lemma sv_upd_info n f d :
  sv_used_count (nmea (upd_info n f d)) = sv_used_count (nmea d).
Proof. unfold upd_info. destruct (_ !! _); reflexivity. Qed.

(** [sv_used_count] is kept, or cleared. *)
Ltac sv_step :=
  match goal with
  | H : sv_used_count (nmea ?d) = 0 |- sv_used_count (nmea ?d) = 0 => exact H
  | |- sv_used_count (nmea (fst (_, _))) = 0 => cbn [fst]
  | |- sv_used_count (nmea (upd_info ?n ?f ?d)) = 0 =>
      rewrite (sv_upd_info n f d)
  | |- sv_used_count (nmea (fst (if ?b then _ else _))) = 0 => destruct b
  | |- sv_used_count (nmea (fst (match ?x with _ => _ end))) = 0 => destruct x
  | |- sv_used_count (nmea (fst (let '(_, _) := ?x in _))) = 0 => destruct x
  | |- sv_used_count (nmea (if ?b then _ else _)) = 0 => destruct b
  | |- sv_used_count (nmea (match ?x with _ => _ end)) = 0 => destruct x
  | |- sv_used_count (nmea (let '(_, _) := ?x in _)) = 0 => destruct x
  | |- sv_used_count (nmea (?f ?d)) = 0 =>
      first [ change (sv_used_count (nmea (f d)))
                with (sv_used_count (nmea d))
            | reflexivity ]
  end.

Lemma sv_nmea_parse_start d data :
  sv_used_count (nmea d) = 0 ->
  sv_used_count (nmea (fst (nmea_parse_start d data))) = 0.
Proof. intros H. unfold nmea_parse_start. cbv zeta. repeat sv_step. Qed.

Lemma sv_nmea_parse_field_time d data next :
  sv_used_count (nmea d) = 0 ->
  sv_used_count (nmea (fst (nmea_parse_field_time d data next))) = 0.
Proof. intros H. unfold nmea_parse_field_time. repeat sv_step. Qed.

Lemma sv_nmea_parse_gsv_head d data s :
  sv_used_count (nmea d) = 0 ->
  sv_used_count (nmea (fst (nmea_parse_gsv_head d data s))) = 0.
Proof.
  intros H. unfold nmea_parse_gsv_head, gsv_abort. cbv zeta. repeat sv_step.
Qed.

Lemma sv_nmea_parse_gsv_sv d data s :
  sv_used_count (nmea d) = 0 ->
  sv_used_count (nmea (fst (nmea_parse_gsv_sv d data s))) = 0.
Proof.
  intros H. unfold nmea_parse_gsv_sv, gsv_abort. cbv zeta. repeat sv_step.
Qed.

Lemma sv_nmea_parse_optional d data clear parse store n1 n2 :
  (forall v d, sv_used_count (nmea (store v d)) = sv_used_count (nmea d)) ->
  sv_used_count (nmea d) = 0 ->
  sv_used_count (nmea (fst (nmea_parse_optional d data clear parse store n1 n2)))
  = 0.
Proof.
  intros Hk H. unfold nmea_parse_optional.
  repeat first [ rewrite Hk | sv_step ].
Qed.

(** No field of a sentence counts a satellite: the GSA fields set bits
    of [sv_used_mask] only. *)
Lemma sv_nmea_parse_sentence d data :
  sv_used_count (nmea d) = 0 ->
  sv_used_count (nmea (nmea_parse_sentence d data)) = 0.
Proof.
  intros H. unfold nmea_parse_sentence. cbv zeta.
  match goal with
  | |- sv_used_count (nmea (let '(d0, n) := ?m in _)) = 0 =>
      assert (Hm : sv_used_count (nmea (fst m)) = 0); [| destruct m; exact Hm]
  end.
  repeat first
    [ apply sv_nmea_parse_start
    | apply sv_nmea_parse_field_time
    | apply sv_nmea_parse_gsv_head
    | apply sv_nmea_parse_gsv_sv
    | apply sv_nmea_parse_optional;
      [ intros; cbv beta;
        repeat match goal with
        | |- context [if ?b then _ else _] => destruct b
        end; reflexivity |]
    | sv_step ].
Qed.

Lemma rx_nmea_parse_sentence d data :
  rx_of (nmea_parse_sentence d data) = rx_of d.
Proof.
  destruct (quiet_nmea_parse_sentence d data) as [Q _].
  unfold frame_of in Q. injection Q. intros. unfold rx_of. congruence.
Qed.

Lemma rx_nmea_start_sentence d : rx_of (nmea_start_sentence d) = rx_of d.
Proof.
  destruct (quiet_nmea_start_sentence d) as [Q _].
  unfold frame_of in Q. injection Q. intros. unfold rx_of. congruence.
Qed.

Lemma rx_upd_info n f d : rx_of (upd_info n f d) = rx_of d.
Proof. unfold upd_info. destruct (_ !! _); reflexivity. Qed.

Lemma sv_nmea_start_sentence d :
  sv_used_count (nmea d) = 0 ->
  sv_used_count (nmea (nmea_start_sentence d)) = 0.
Proof. intros H. unfold nmea_start_sentence. cbv zeta. repeat sv_step. Qed.

Ltac rx_step :=
  match goal with
  | |- rx_of ?d = rx_of ?d => reflexivity
  | |- rx_of (nmea_parse_sentence ?d _) = _ =>
      rewrite (rx_nmea_parse_sentence d)
  | |- rx_of (nmea_start_sentence ?d) = _ =>
      rewrite (rx_nmea_start_sentence d)
  | |- rx_of (upd_info ?n ?f ?d) = _ => rewrite (rx_upd_info n f d)
  | |- rx_of (if ?b then _ else _) = _ => destruct b
  | |- rx_of (match ?x with _ => _ end) = _ => destruct x
  | |- rx_of (let '(_, _) := ?x in _) = _ => destruct x
  | |- rx_of (?f ?d) = _ => change (rx_of (f d)) with (rx_of d)
  end.

Lemma rx_propagate_mask field bit d :
  rx_of (propagate_mask field bit d) = rx_of d.
Proof. unfold propagate_mask, location_mask_or. repeat rx_step. Qed.

Lemma sv_propagate_mask field bit d :
  sv_used_count (nmea (propagate_mask field bit d)) = sv_used_count (nmea d).
Proof.
  unfold propagate_mask, location_mask_or.
  repeat match goal with
  | |- context [if ?b then _ else _] => destruct b
  end; reflexivity.
Qed.

(** [e] is in the mode and state of [d] and counts no more than [d]. *)
Ltac uncounted_tac :=
  match goal with
  | H : nmea_uncounted ?M ?d |- nmea_uncounted ?M ?e =>
      let H1 := fresh in
      let H2 := fresh in
      destruct H as [H1 H2]; split;
      [ transitivity (rx_of d);
        [ solve [ repeat first [ rewrite rx_propagate_mask | rx_step ] ]
        | exact H1 ]
      | solve [ repeat first
                  [ apply sv_nmea_start_sentence
                  | apply sv_nmea_parse_sentence
                  | rewrite sv_propagate_mask
                  | sv_step ] ] ]
  end.

Ltac uncounted_step :=
  first
    [ match goal with
      | |- post _ _ (if ?b then _ else _) => destruct b
      | |- post _ _ (match ?x with _ => _ end) => destruct x
      | |- post _ _ (let '(_, _) := ?x in _) => destruct x
      end
    | match goal with
      | |- post (nmea_uncounted ?M) _ _ =>
          apply (post_bind (nmea_uncounted M)); [|intros ? ?]
      end
    | apply post_ret; solve [uncounted_tac]
    | apply post_emit; [solve [uncounted_tac] | reflexivity]
    | apply post_mark; [solve [uncounted_tac] | intros ?; reflexivity]
    | progress cbv zeta ].

Lemma gnss_location_uncounted M d :
  nmea_uncounted M d -> numsv (location d) = 0 ->
  post (nmea_uncounted M) no_numsv (gnss_location d).
Proof.
  intros H Hn. unfold gnss_location. cbv zeta. split.
  - cbn [fst]. uncounted_tac.
  - cbn [snd]. destruct (location_callback d); [|reflexivity].
    cbn [forallb no_numsv]. rewrite (numsv_report _ Hn). reflexivity.
Qed.

Lemma gnss_satellites_uncounted M d :
  nmea_uncounted M d ->
  post (nmea_uncounted M) no_numsv (gnss_satellites d).
Proof.
  intros H. unfold gnss_satellites. cbv zeta. split.
  - cbn [fst]. uncounted_tac.
  - cbn [snd].
    repeat match goal with |- context [if ?b then _ else _] => destruct b end;
      reflexivity.
Qed.

Lemma mtk_configure_uncounted M response command d :
  nmea_uncounted M d ->
  post (nmea_uncounted M) no_numsv (mtk_configure response command d).
Proof.
  intros H. unfold mtk_configure, mtk_send. repeat uncounted_step.
Qed.

Lemma ubx_configure_uncounted M response command d :
  nmea_uncounted M d ->
  post (nmea_uncounted M) no_numsv (ubx_configure response command d).
Proof.
  intros H. unfold ubx_configure, ubx_send_timed, ubx_send.
  repeat uncounted_step.
Qed.

Lemma nmea_init_response_uncounted M d :
  nmea_uncounted M d ->
  post (nmea_uncounted M) no_numsv (nmea_init_response d).
Proof.
  intros H. unfold nmea_init_response.
  repeat first
    [ apply mtk_configure_uncounted; assumption
    | apply ubx_configure_uncounted; assumption
    | uncounted_step ].
Qed.

Lemma nmea_end_sequence_uncounted M d :
  nmea_uncounted M d ->
  post (nmea_uncounted M) no_numsv (nmea_end_sequence d).
Proof.
  intros H. unfold nmea_end_sequence. cbv zeta.
  repeat first
    [ apply mtk_configure_uncounted; solve [assumption | uncounted_tac]
    | uncounted_step ].
Qed.

(** The count that a report takes is the one that nothing increments. *)
Lemma nmea_publish_location_uncounted M d :
  nmea_uncounted M d ->
  post (nmea_uncounted M) no_numsv (nmea_publish_location d).
Proof.
  intros H. pose proof H as [_ Hc].
  unfold nmea_publish_location. cbv zeta. rewrite Hc.
  destruct (_ =? _); [|apply post_ret, H].
  apply (post_bind (nmea_uncounted M)).
  - destruct (_ && _);
      (apply gnss_location_uncounted; [uncounted_tac | reflexivity]).
  - intros e He. apply post_ret. uncounted_tac.
Qed.

Lemma nmea_end_sentence_uncounted M d :
  nmea_uncounted M d ->
  post (nmea_uncounted M) no_numsv (nmea_end_sentence d).
Proof.
  intros H. unfold nmea_end_sentence, nmea_publish_satellites.
  repeat first
    [ apply nmea_end_sequence_uncounted; solve [assumption | uncounted_tac]
    | apply nmea_publish_location_uncounted; solve [assumption | uncounted_tac]
    | apply gnss_satellites_uncounted; solve [uncounted_tac]
    | uncounted_step ].
Qed.

Lemma uncounted_set_state M S k e :
  nmea_uncounted (M, S) e -> nmea_uncounted (M, k) (set_state k e).
Proof.
  intros [H1 H2]. split; [|exact H2].
  unfold rx_of in *. cbn. congruence.
Qed.

Lemma rx_store_uncounted K i v d :
  nmea_uncounted K d -> post (nmea_uncounted K) no_numsv (rx_store i v d).
Proof. intros H. unfold rx_store. repeat uncounted_step. Qed.

(** A byte leaves an NMEA receiver outside the UBX states and reports
    no satellite count. *)
Lemma gnss_receive_byte_uncounted d c :
  nmea_receiving d -> post nmea_receiving no_numsv (gnss_receive_byte d c).
Proof.
  intros (Hm & Hs & Hc).
  assert (U : nmea_uncounted (mode d, state d) d) by (split; [reflexivity | exact Hc]).
  assert (F : forall S r, 0 <= S <= 5 ->
              post (nmea_uncounted (mode d, S)) no_numsv r ->
              post nmea_receiving no_numsv r).
  { intros S r HS [[H1 H2] H3]. split; [|exact H3].
    unfold rx_of in H1. injection H1 as E1 E2.
    split; [congruence|]. split; [lia | exact H2]. }
  assert (G : forall S k e, nmea_uncounted (mode d, S) e -> 0 <= k <= 5 ->
              post nmea_receiving no_numsv (ret (set_state k e))).
  { intros S k e He Hk. apply (F k); [exact Hk|].
    apply post_ret. apply (uncounted_set_state _ S), He. }
  unfold gnss_receive_byte.
  replace (state d <=? 5) with true by (symmetry; apply Z.leb_le; lia).
  cbn [andb].
  destruct (c =? chr "$").
  { apply (F 1); [lia|]. apply post_ret.
    assert (U1 : nmea_uncounted (mode d, 1) (set_state 1 d))
      by (apply (uncounted_set_state _ (state d)), U).
    uncounted_tac. }
  assert (Hx : state d = 0 \/ state d = 1 \/ state d = 2 \/ state d = 3
               \/ state d = 4 \/ state d = 5) by lia.
  destruct Hx as [E|[E|[E|[E|[E|E]]]]]; rewrite E in U |- *; cbv iota.
  - replace (mode d =? GNSS_MODE_UBLOX) with false
      by (symmetry; apply Z.eqb_neq; exact Hm).
    cbn [andb]. apply (F 0); [lia|]. apply post_ret, U.
  - destruct (c =? chr "*").
    { apply (post_bind (nmea_uncounted (mode d, 1)));
        [apply rx_store_uncounted, U|].
      intros e He. apply (G 1); [uncounted_tac | lia]. }
    destruct (_ && _); [|apply (G 1); [exact U | lia]].
    destruct (_ <=? _); [apply (G 1); [exact U | lia]|].
    cbv zeta. apply (F 1); [lia|].
    destruct (c =? chr ",");
      (apply (post_bind (nmea_uncounted (mode d, 1)));
       [ apply rx_store_uncounted; uncounted_tac
       | intros e He; apply post_ret; uncounted_tac ]).
  - destruct (_ =? _); apply (G 2); first [exact U | lia].
  - destruct (_ =? _); apply (G 3); first [exact U | lia].
  - destruct (_ =? _); apply (G 4); first [exact U | lia].
  - apply (post_bind (nmea_uncounted (mode d, 5))).
    + destruct (_ =? _); [|apply post_ret, U].
      apply (post_bind (nmea_uncounted (mode d, 5))).
      * apply nmea_init_response_uncounted, U.
      * intros e He. apply nmea_end_sentence_uncounted, He.
    + intros e He. apply (G 5); [exact He | lia].
Qed.

Lemma gnss_receive_uncounted data : forall d,
  nmea_receiving d -> post nmea_receiving no_numsv (gnss_receive d data).
Proof.
  induction data as [|c rest IH]; intros d H; [apply post_ret, H|].
  rewrite gnss_receive_cons. apply (post_bind nmea_receiving).
  - apply gnss_receive_byte_uncounted, H.
  - intros d1 H1. apply IH, H1.
Qed.

(** ** The set of the satellites in use *)

Lemma test_mask_bit x k :
  0 <= k -> test_mask x (Z.shiftl 1 k) = Z.testbit x k.
Proof.
  intros Hk. unfold test_mask.
  destruct (Z.testbit x k) eqn:E.
  - apply negb_true_iff, Z.eqb_neq. intros H.
    apply (f_equal (fun v => Z.testbit v k)) in H.
    rewrite Z.land_spec, E, Z.shiftl_spec, Z.sub_diag, Z.bits_0 in H by lia.
    discriminate H.
  - apply negb_false_iff, Z.eqb_eq. apply Z.bits_inj'. intros j Hj.
    rewrite Z.land_spec, Z.bits_0, Z.shiftl_spec by lia.
    destruct (Z.eq_dec j k) as [->|Hn]; [rewrite E; reflexivity|].
    replace (Z.testbit 1 (j - k)) with false; [apply andb_false_r|].
    symmetry. destruct (Z_lt_le_dec j k).
    + apply Z.testbit_neg_r. lia.
    + apply (Z.bits_above_log2 1 (j - k)); cbn; lia.
Qed.

Lemma sv_used_place svid :
  1 <= svid <= 96 ->
  0 <= Z.shiftr (svid - 1) 5 < 3
  /\ 0 <= Z.land (svid - 1) 31 < 32
  /\ svid - 1 = 32 * Z.shiftr (svid - 1) 5 + Z.land (svid - 1) 31.
Proof.
  intros H. rewrite Z.shiftr_div_pow2 by lia.
  change 31 with (Z.ones 5). rewrite Z.land_ones by lia.
  change (2 ^ 5) with 32.
  pose proof (Z.div_mod (svid - 1) 32 ltac:(lia)).
  pose proof (Z.mod_pos_bound (svid - 1) 32 ltac:(lia)).
  assert (0 <= (svid - 1) / 32 < 3).
  { split; [apply Z.div_pos; lia | apply Z.div_lt_upper_bound; lia]. }
  lia.
Qed.

(** Marking [svid] adds [svid] and nothing else. *)
Lemma sv_used_test_set n svid svid' :
  length (sv_used_mask n) = 3%nat ->
  1 <= svid <= 96 -> 1 <= svid' <= 96 ->
  sv_used_test (sv_used_set svid n) svid'
  = (svid' =? svid) || sv_used_test n svid'.
Proof.
  intros Hl Hs Hs'.
  destruct (sv_used_place svid Hs) as (Hi & Hb & He).
  destruct (sv_used_place svid' Hs') as (Hi' & Hb' & He').
  unfold sv_used_test, sv_used_set, sv_used_word.
  cbn [sv_used_mask set_sv_used_mask].
  rewrite !test_mask_bit by lia.
  rewrite !nth_lookup.
  destruct (Z.eq_dec (Z.shiftr (svid' - 1) 5) (Z.shiftr (svid - 1) 5)) as [E|E].
  - rewrite E, list_lookup_insert_eq by lia. cbn [default from_option id].
    rewrite Z.lor_spec, Z.shiftl_spec by lia.
    destruct (Z.eq_dec (Z.land (svid' - 1) 31) (Z.land (svid - 1) 31)) as [B|B].
    + rewrite B, Z.sub_diag.
      replace (svid' =? svid) with true by (symmetry; apply Z.eqb_eq; lia).
      cbn. apply orb_true_r.
    + replace (svid' =? svid) with false by (symmetry; apply Z.eqb_neq; lia).
      replace (Z.testbit 1 _) with false; [apply orb_false_r|].
      symmetry.
      destruct (Z_lt_le_dec (Z.land (svid' - 1) 31) (Z.land (svid - 1) 31)).
      * apply Z.testbit_neg_r. lia.
      * apply (Z.bits_above_log2 1); cbn; lia.
  - rewrite list_lookup_insert_ne by lia.
    replace (svid' =? svid) with false
      by (symmetry; apply Z.eqb_neq; intros ->; apply E; reflexivity).
    reflexivity.
Qed.

Lemma sv_used_test_reset d svid' :
  1 <= svid' <= 96 -> sv_used_test (nmea (sv_used_reset d)) svid' = false.
Proof.
  intros Hs'. destruct (sv_used_place svid' Hs') as (Hi' & Hb' & He').
  change (sv_used_test (nmea (sv_used_reset d)) svid')
    with (test_mask (nth (Z.to_nat (Z.shiftr (svid' - 1) 5)) [0; 0; 0] 0)
            (Z.shiftl 1 (Z.land (svid' - 1) 31))).
  rewrite test_mask_bit by lia.
  assert (Hz : nth (Z.to_nat (Z.shiftr (svid' - 1) 5)) [0; 0; 0] 0 = 0).
  { destruct (Z.to_nat _) as [|[|[|[|k]]]]; reflexivity. }
  rewrite Hz. apply Z.bits_0.
Qed.

(** A GSA PRN field, as [nmea_parse_sentence] takes it. *)
Lemma gsa_prn_field_step d data :
  NMEA_FIELD_SEQUENCE_GSA_SV_USED_PRN_1 <= sequence (nmea d)
    <= NMEA_FIELD_SEQUENCE_GSA_SV_USED_PRN_12 ->
  at_ data 0 <> 0 ->
  nmea_parse_sentence d data
  = match nmea_parse_unsigned data with
    | Some svid =>
        upd_nmea (set_sequence (sequence (nmea d) + 1))
          (if (1 <=? svid) && (svid <=? 96)
           then upd_nmea (sv_used_set svid) d else d)
    | None =>
        upd_nmea (set_sequence NMEA_FIELD_SEQUENCE_SKIP) (sv_used_reset d)
    end.
Proof.
  intros Hq Hd.
  assert (Hn : negb (at_ data 0 =? 0) = true)
    by (apply negb_true_iff, Z.eqb_neq, Hd).
  assert (Hx : sequence (nmea d) = 18 \/ sequence (nmea d) = 19
               \/ sequence (nmea d) = 20 \/ sequence (nmea d) = 21
               \/ sequence (nmea d) = 22 \/ sequence (nmea d) = 23
               \/ sequence (nmea d) = 24 \/ sequence (nmea d) = 25
               \/ sequence (nmea d) = 26 \/ sequence (nmea d) = 27
               \/ sequence (nmea d) = 28 \/ sequence (nmea d) = 29) by lia.
  unfold nmea_parse_sentence. cbv zeta.
  repeat (destruct Hx as [E|Hx]; [rewrite E; cbv iota; rewrite Hn;
    destruct (nmea_parse_unsigned data) as [svid|];
    [destruct (_ && _)|]; reflexivity|]).
  rewrite Hx; cbv iota; rewrite Hn.
  destruct (nmea_parse_unsigned data) as [svid|];
    [destruct (_ && _)|]; reflexivity.
Qed.

(** ** The marking loop behind the satellite table *)

Lemma overrun_indices_In count n :
  GNSS_SATELLITES_COUNT_MAX <= n < count -> In n (overrun_indices count).
Proof.
  intros H. unfold overrun_indices. apply in_map_iff.
  exists (Z.to_nat (n - GNSS_SATELLITES_COUNT_MAX)). split; [lia|].
  apply in_seq. lia.
Qed.


(** ** The satellite table over a stream of UBX frames *)

Lemma mode_upd_info n f d : mode (upd_info n f d) = mode d.
Proof. unfold upd_info. destruct (_ !! _); reflexivity. Qed.

Ltac mode_step :=
  match goal with
  | |- mode ?d = mode ?d => reflexivity
  | |- mode (upd_info ?n ?f ?d) = _ => rewrite (mode_upd_info n f d)
  | |- mode (if ?b then _ else _) = _ => destruct b
  | |- mode (match ?x with _ => _ end) = _ => destruct x
  | |- mode (let '(_, _) := ?x in _) = _ => destruct x
  | |- mode (?f ?d) = _ => change (mode (f d)) with (mode d)
  end.

Lemma mode_ubx_nav_message m data d : mode (ubx_nav_message m data d) = mode d.
Proof.
  unfold ubx_nav_message, ubx_nav_timegps, location_mask_or. cbv zeta.
  repeat mode_step.
Qed.

Ltac mode_tac :=
  match goal with
  | H : mode ?d = ?M |- mode _ = ?M =>
      transitivity (mode d);
      [ solve [ repeat first [ rewrite mode_ubx_nav_message | mode_step ] ]
      | exact H ]
  end.

Ltac mode_post :=
  first
    [ match goal with
      | |- post _ _ (if ?b then _ else _) => destruct b
      | |- post _ _ (match ?x with _ => _ end) => destruct x
      | |- post _ _ (let '(_, _) := ?x in _) => destruct x
      end
    | match goal with
      | |- post (fun e => mode e = ?M) _ _ =>
          apply (post_bind (fun e => mode e = M)); [|intros ? ?]
      end
    | apply post_ret; solve [mode_tac]
    | apply post_emit; [solve [mode_tac] | reflexivity]
    | progress cbv zeta ].

Lemma gnss_location_mode M d :
  mode d = M -> post (fun e => mode e = M) any_event (gnss_location d).
Proof.
  intros H. unfold gnss_location. cbv zeta. split; [exact H|].
  cbn [snd]. destruct (location_callback d); reflexivity.
Qed.

Lemma gnss_satellites_mode M d :
  mode d = M -> post (fun e => mode e = M) any_event (gnss_satellites d).
Proof.
  intros H. unfold gnss_satellites. cbv zeta. split.
  - cbn [fst]. destruct (_ <? _); exact H.
  - cbn [snd]. destruct (satellites_callback _); reflexivity.
Qed.

Lemma ubx_configure_mode M response key d :
  mode d = M ->
  post (fun e => mode e = M) any_event (ubx_configure response key d).
Proof.
  intros H. unfold ubx_configure, ubx_send_timed, ubx_send.
  repeat mode_post.
Qed.

Lemma ubx_end_message_mode M m data cnt d :
  mode d = M ->
  post (fun e => mode e = M) any_event (ubx_end_message m data cnt d).
Proof.
  intros H.
  unfold ubx_end_message, ubx_ack_message, ubx_publish_location,
    ubx_publish_satellites, location_mask_or.
  repeat first
    [ apply ubx_configure_mode; solve [mode_tac]
    | apply gnss_location_mode; solve [mode_tac]
    | apply gnss_satellites_mode; solve [mode_tac]
    | mode_post ].
Qed.

Lemma keeps_bind_at r k :
  keeps_table r -> keeps_table (k (fst r)) -> keeps_table (r >>= k).
Proof.
  intros [H1 H2] [H3 H4]. split; [now rewrite bind_fst|].
  rewrite bind_snd. apply Forall_app. now split.
Qed.

(** One frame, received from the Start state by a device whose table
    holds remapped PRNs: the table stays such a table, so is every
    snapshot published meanwhile, and the device is back in the Start
    state in u-blox mode. *)
Lemma ubx_frame_keeps d class id payload a b :
  state d = GNSS_STATE_START -> mode d = GNSS_MODE_UBLOX ->
  is_byte class = true -> Z.of_nat (length payload) < 65536 ->
  ubx_table_ok (satellites d) ->
  let r := gnss_receive d (ubx_frame class id payload a b) in
  keeps_table r /\ state (fst r) = GNSS_STATE_START
  /\ mode (fst r) = GNSS_MODE_UBLOX.
Proof.
  intros Hs Hm Hc Hl Ht. cbv zeta.
  destruct (ubx_frame_delivery d class id payload a b Hs Hm Hc Hl)
    as (Hst & _). cbv zeta in Hst.
  split; [|split; [exact Hst|]]; unfold ubx_frame; rewrite gnss_receive_app.
  - destruct (ubx_head_run (fun d => ubx_table_ok (satellites d))
                d class id payload Hs Hm Hc Hl)
      as (Ho & HP & Hst1 & _).
    { intros d1 _ _ _ Hi H0.
      destruct (ubx_key class id =? 0x0130).
      - split; [rewrite H0; unfold GNSS_SATELLITES_COUNT_MAX; lia|].
        unfold listed. rewrite H0. constructor.
      - destruct H0 as [-> _]. exact Ht. }
    { intros d1 c. apply ubx_payload_step_table. }
    set (r1 := gnss_receive d (ubx_head class id payload)) in *.
    apply keeps_bind_at.
    + split; [exact HP|]. apply List.Forall_forall. intros e He.
      pose proof (only_stores_In _ _ Ho He). destruct e; try discriminate.
      exact I.
    + destruct (ubx_trailer (fst r1) a b Hst1) as (d2 & E2 & ->).
      assert (H2 : ubx_table_ok (satellites d2)).
      { replace (satellites d2) with (satellites (fst r1)); [exact HP|].
        unfold payload_of in E2. congruence. }
      apply keeps_bind; [|intros d3 H3; apply keeps_ret; same_table].
      repeat first
        [ apply ubx_init_response_keeps; assumption
        | apply ubx_end_message_keeps; assumption
        | match goal with
          | |- keeps_table (if ubx_fits ?d then _ else _) =>
              destruct (ubx_fits d)
          end
        | keeps_step ].
  - destruct (ubx_head_run (fun _ => True) d class id payload Hs Hm Hc Hl)
      as (_ & _ & Hst1 & _ & _ & _ & Hcfg & _); [auto | auto |].
    set (r1 := gnss_receive d (ubx_head class id payload)) in *.
    rewrite bind_fst.
    destruct (ubx_trailer (fst r1) a b Hst1) as (d2 & E2 & ->).
    assert (M2 : mode d2 = GNSS_MODE_UBLOX).
    { rewrite <- Hm. unfold payload_of, config_of in E2, Hcfg. congruence. }
    assert (P : post (fun e => mode e = GNSS_MODE_UBLOX) any_event
                  ((if (Z.lxor (ck_a (ubx (fst r1))) a =? 0)
                       && (Z.lxor (ck_b (ubx (fst r1))) b =? 0)
                    then
                      ubx_init_response d2 >>= fun d =>
                      if ubx_fits d
                      then ubx_end_message (message (ubx d)) (rx_data d)
                             (rx_count d) d
                      else ret d
                    else ret d2) >>= fun d => ret (set_state GNSS_STATE_START d))).
    { unfold ubx_init_response.
      repeat first
        [ apply ubx_configure_mode; solve [mode_tac]
        | apply ubx_end_message_mode; solve [mode_tac]
        | mode_post ]. }
    exact (proj1 P).
Qed.

(** A stream of frames. *)
Lemma ubx_stream_keeps frames : forall d,
  Forall ubx_frame_ok frames ->
  state d = GNSS_STATE_START -> mode d = GNSS_MODE_UBLOX ->
  ubx_table_ok (satellites d) ->
  keeps_table (gnss_receive d (ubx_stream frames)).
Proof.
  induction frames as [|[[[[class id] payload] a] b] frames IH];
    intros d Hf Hs Hm Ht.
  - apply keeps_ret, Ht.
  - apply Forall_cons_1 in Hf. destruct Hf as [[Hc Hl] Hf].
    change (ubx_stream ((class, id, payload, a, b) :: frames))
      with (ubx_frame class id payload a b ++ ubx_stream frames).
    rewrite gnss_receive_app.
    destruct (ubx_frame_keeps d class id payload a b Hs Hm Hc Hl Ht)
      as (K & S1 & M1).
    apply keeps_bind_at; [exact K|]. apply IH; [exact Hf | exact S1 | exact M1|].
    exact (proj1 K).
Qed.

(** The PRN field of a GSV sentence: the number is stored as it is
    received, on 8 bits, in the next entry of the table. *)
Lemma nmea_gsv_prn_stored d data svid :
  sequence (nmea d) = NMEA_FIELD_SEQUENCE_GSV_SV_IN_VIEW_ID ->
  at_ data 0 <> 0 -> nmea_parse_unsigned data = Some svid ->
  0 <= count (satellites d) < GNSS_SATELLITES_COUNT_MAX ->
  (Z.to_nat (count (satellites d)) < length (info (satellites d)))%nat ->
  exists e,
    info (satellites (nmea_parse_sentence d data))
      !! Z.to_nat (count (satellites d)) = Some e
    /\ prn e = u8 svid.
Proof.
  intros Hseq Hz Hp Hn Hlen.
  unfold nmea_parse_sentence. rewrite Hseq. cbv beta iota zeta.
  unfold nmea_parse_gsv_sv, unsigned_or. cbv beta iota zeta.
  apply Z.eqb_neq in Hz. rewrite Hz, Hp.
  replace (count (satellites d) <? GNSS_SATELLITES_COUNT_MAX) with true
    by (symmetry; apply Z.ltb_lt; lia).
  unfold upd_info.
  destruct (lookup_lt_is_Some_2 _ _ Hlen) as [e0 He0]. rewrite He0.
  eexists. split; [apply list_lookup_insert_eq; exact Hlen | reflexivity].
Qed.

(** * The claims of the specification *)

(** ** Frames with a bad checksum *)




(** ** The room of the staging buffer *)

(** C2 (as the code has it): the 96 bytes bound a field, not the
    payload.  The byte count restarts at every comma, and a byte is
    refused when it finds 96 bytes staged in its field.  A sentence is
    handed to the sentence finalizer exactly when every byte of its
    payload found room and the checksum characters are right; otherwise
    the state machine is back in the Start state with nothing delivered
    and no callback invoked.  So a payload of at most 96 bytes is
    accepted, a comma-free payload is accepted up to 96 bytes and aborted
    from 97 bytes on, and a field closed by a comma may hold 95 bytes. *)
Theorem nmea_field_limit :
  (forall d payload h1 h2,
     (state d <=? GNSS_STATE_NMEA_END_LF) = true ->
     forallb nmea_payload_byte payload = true ->
     is_hex_digit h1 = true -> is_hex_digit h2 = true ->
     let r := gnss_receive d (nmea_frame payload h1 h2) in
     state (fst r) = GNSS_STATE_START
     /\ existsb is_nmea_end_sentence (snd r)
        = nmea_fits payload && nmea_checksum_ok payload h1 h2
     /\ (nmea_fits payload && nmea_checksum_ok payload h1 h2 = false ->
         no_callback (snd r) = true))
  /\ (forall payload,
        Z.of_nat (length payload) <= GNSS_RX_DATA_SIZE ->
        nmea_fits payload = true)
  /\ (forall field,
        forallb nmea_field_byte field = true ->
        nmea_fits field = (Z.of_nat (length field) <=? GNSS_RX_DATA_SIZE))
  /\ (forall field rest,
        forallb nmea_field_byte field = true ->
        nmea_fits (field ++ chr "," :: rest)
        = (Z.of_nat (length field) <? GNSS_RX_DATA_SIZE) && nmea_fits rest).
Proof.
  split; [|split; [|split]].
  - intros d payload h1 h2 Hs Hp H1 H2.
    destruct (nmea_frame_delivery d payload h1 h2 Hs Hp H1 H2)
      as (Hst & Hend & Hquiet).
    split; [exact Hst|]. split; [exact Hend|].
    intros H. now apply only_stores_no_callback, Hquiet.
  - intros payload Hn. unfold nmea_fits.
    destruct (nmea_staged_short payload 0) as [m ->]; [lia | lia | reflexivity].
  - intros field Hf. unfold nmea_fits.
    rewrite nmea_staged_field by (assumption || (unfold GNSS_RX_DATA_SIZE; lia)).
    rewrite Z.add_0_l. now destruct (_ <=? _).
  - intros field rest Hf. unfold nmea_fits.
    rewrite nmea_staged_comma by assumption. rewrite Z.add_0_l.
    now destruct (_ <? _).
Qed.

(** The GLL sentence with its checksum [*31], and the room of 96 and 97
    bytes without a comma and of 95 bytes before a comma. *)
Lemma nmea_field_limit_witness :
  (let r := gnss_receive nmea_receiver
              (nmea_frame (bytes "GPGLL,4916.45,N,12311.12,W,225444,A")
                 (chr "3") (chr "1")) in
   state (fst r) = GNSS_STATE_START
   /\ existsb is_nmea_end_sentence (snd r)
      = nmea_fits (bytes "GPGLL,4916.45,N,12311.12,W,225444,A")
        && nmea_checksum_ok (bytes "GPGLL,4916.45,N,12311.12,W,225444,A")
             (chr "3") (chr "1")
   /\ (nmea_fits (bytes "GPGLL,4916.45,N,12311.12,W,225444,A")
       && nmea_checksum_ok (bytes "GPGLL,4916.45,N,12311.12,W,225444,A")
            (chr "3") (chr "1") = false ->
       no_callback (snd r) = true))
  /\ nmea_fits (repeat (chr "A") 96) = true
  /\ nmea_fits (repeat (chr "A") 97)
     = (Z.of_nat (length (repeat (chr "A") 97)) <=? GNSS_RX_DATA_SIZE)
  /\ nmea_fits (repeat (chr "A") 95 ++ chr "," :: [chr "B"])
     = (Z.of_nat (length (repeat (chr "A") 95)) <? GNSS_RX_DATA_SIZE)
       && nmea_fits [chr "B"].
Proof.
  split; [|split; [|split]].
  - apply (proj1 nmea_field_limit); reflexivity.
  - apply (proj1 (proj2 nmea_field_limit)). simpl. unfold GNSS_RX_DATA_SIZE. lia.
  - apply (proj1 (proj2 (proj2 nmea_field_limit))). reflexivity.
  - apply (proj2 (proj2 (proj2 nmea_field_limit))). reflexivity.
Defined.

(** C2, the claim as stated fails: a payload of 97 bytes, here a field of
    five bytes, a comma and a field of 91 bytes, is accepted and reaches
    the sentence finalizer. *)
Lemma nmea_payload_97_accepted :
  Z.of_nat (length long_payload) = 97
  /\ forallb nmea_payload_byte long_payload = true
  /\ state (fst (gnss_receive nmea_receiver (nmea_sentence long_payload)))
     = GNSS_STATE_START
  /\ existsb is_nmea_end_sentence
       (snd (gnss_receive nmea_receiver (nmea_sentence long_payload))) = true.
Proof. vm_compute. repeat split. Qed.

(** ** Delivery of a binary frame *)

(** C3 (as the code has it): the Fletcher sums run over class, id, length
    and payload; the two trailing bytes are folded in with XOR, and both
    sums are zero exactly when the trailing bytes equal the computed
    sums.  The end-of-message handler is invoked exactly when the sums
    match and the staged bytes fit the hand-over, [rx_count - rx_offset
    <= 96]; for a message other than NAV-SVINFO that is a payload of at
    most 96 bytes.  Either way the state machine is back in the Start
    state. *)
Theorem ubx_end_message_iff_checksum_and_fit d class id payload a b :
  state d = GNSS_STATE_START -> mode d = GNSS_MODE_UBLOX ->
  is_byte class = true -> Z.of_nat (length payload) < 65536 ->
  let staged := fst (gnss_receive d (ubx_head class id payload)) in
  let r := gnss_receive d (ubx_frame class id payload a b) in
  (ck_a (ubx staged), ck_b (ubx staged))
  = fletcher8 (ubx_body class id payload)
  /\ (Z.lxor (ck_a (ubx staged)) a =? 0) && (Z.lxor (ck_b (ubx staged)) b =? 0)
     = ubx_checksum_ok class id payload a b
  /\ existsb is_ubx_end_message (snd r)
     = ubx_checksum_ok class id payload a b && ubx_fits staged
  /\ ((ubx_key class id =? 0x0130) = false ->
      ubx_fits staged = (Z.of_nat (length payload) <=? GNSS_RX_DATA_SIZE))
  /\ state (fst r) = GNSS_STATE_START.
Proof.
  intros Hs Hm Hc Hl. cbv zeta.
  destruct (ubx_frame_delivery d class id payload a b Hs Hm Hc Hl)
    as (Hst & Hend & _).
  destruct (ubx_head_run (fun _ => True) d class id payload Hs Hm Hc Hl)
    as (_ & _ & _ & _ & _ & Hsum & _); [auto | auto |].
  split; [exact Hsum|]. split.
  - rewrite !lxor_zero_eqb. unfold ubx_checksum_ok. rewrite <- Hsum.
    reflexivity.
  - split; [exact Hend|]. split; [|exact Hst].
    intros Hk.
    destruct (ubx_plain_staged d class id payload Hs Hm Hc Hl Hk)
      as (_ & _ & _ & _ & Hfit & _).
    exact Hfit.
Qed.

(** A NAV-DOP frame of four payload bytes with its Fletcher sums 19 and
    80. *)
Lemma ubx_end_message_iff_checksum_and_fit_witness :
  let staged := fst (gnss_receive ublox_running (ubx_head 0x01 0x04 [1; 2; 3; 4])) in
  let r := gnss_receive ublox_running (ubx_frame 0x01 0x04 [1; 2; 3; 4] 19 80) in
  (ck_a (ubx staged), ck_b (ubx staged))
  = fletcher8 (ubx_body 0x01 0x04 [1; 2; 3; 4])
  /\ (Z.lxor (ck_a (ubx staged)) 19 =? 0) && (Z.lxor (ck_b (ubx staged)) 80 =? 0)
     = ubx_checksum_ok 0x01 0x04 [1; 2; 3; 4] 19 80
  /\ existsb is_ubx_end_message (snd r)
     = ubx_checksum_ok 0x01 0x04 [1; 2; 3; 4] 19 80 && ubx_fits staged
  /\ ((ubx_key 0x01 0x04 =? 0x0130) = false ->
      ubx_fits staged
      = (Z.of_nat (length [1; 2; 3; 4]) <=? GNSS_RX_DATA_SIZE))
  /\ state (fst r) = GNSS_STATE_START.
Proof.
  apply (ubx_end_message_iff_checksum_and_fit ublox_running 0x01 0x04
           [1; 2; 3; 4] 19 80); [reflexivity.. | simpl; lia].
Defined.

(** C3, the claim as stated fails: the trailing bytes of this NAV-DOP
    frame with a payload of 97 bytes match the Fletcher sums of its body,
    and the end-of-message handler is not invoked. *)
Lemma ubx_valid_checksum_not_delivered :
  ubx_checksum_ok 0x01 0x04 oversize_payload 102 120 = true
  /\ Z.of_nat (length oversize_payload) = 97
  /\ existsb is_ubx_end_message
       (snd (gnss_receive ublox_running
               (ubx_frame 0x01 0x04 oversize_payload 102 120))) = false
  /\ state (fst (gnss_receive ublox_running
                   (ubx_frame 0x01 0x04 oversize_payload 102 120)))
     = GNSS_STATE_START.
Proof. vm_compute. repeat split. Qed.

(** ** Payloads longer than the staging buffer *)

(** C5 (as the code has it): a frame other than NAV-SVINFO whose payload
    is longer than the 96 bytes of the staging buffer is followed to its
    end, every byte counted and folded into the Fletcher sums, and then
    dropped: whatever the trailing bytes, the end-of-message handler is
    not invoked, no callback is invoked, and the state machine is back
    in the Start state. *)
Theorem ubx_oversize_frame_dropped d class id payload a b :
  state d = GNSS_STATE_START -> mode d = GNSS_MODE_UBLOX ->
  is_byte class = true ->
  GNSS_RX_DATA_SIZE < Z.of_nat (length payload) < 65536 ->
  (ubx_key class id =? 0x0130) = false ->
  let staged := fst (gnss_receive d (ubx_head class id payload)) in
  let r := gnss_receive d (ubx_frame class id payload a b) in
  state staged = GNSS_STATE_UBX_CK_A
  /\ rx_count staged = Z.of_nat (length payload)
  /\ (ck_a (ubx staged), ck_b (ubx staged))
     = fletcher8 (ubx_body class id payload)
  /\ state (fst r) = GNSS_STATE_START
  /\ existsb is_ubx_end_message (snd r) = false
  /\ no_callback (snd r) = true.
Proof.
  intros Hs Hm Hc [Hlong Hl] Hk. cbv zeta.
  destruct (ubx_plain_staged d class id payload Hs Hm Hc Hl Hk)
    as (S1 & S2 & _ & S4 & S5 & _).
  destruct (ubx_frame_delivery d class id payload a b Hs Hm Hc Hl)
    as (Hst & Hend & Hquiet).
  assert (Hfit : ubx_fits (fst (gnss_receive d (ubx_head class id payload)))
                 = false).
  { rewrite S5. apply Z.leb_gt. exact Hlong. }
  rewrite Hfit, andb_false_r in Hend, Hquiet.
  repeat (split; [assumption|]). auto.
Qed.

(** A NAV-PVT frame with a payload of 100 bytes and the right sums. *)
Lemma ubx_oversize_frame_dropped_witness :
  let staged := fst (gnss_receive ublox_running
                       (ubx_head 0x01 0x07 (repeat 7 100))) in
  let r := gnss_receive ublox_running
             (ubx_message 0x01 0x07 (repeat 7 100)) in
  state staged = GNSS_STATE_UBX_CK_A
  /\ rx_count staged = Z.of_nat (length (repeat 7 100))
  /\ (ck_a (ubx staged), ck_b (ubx staged))
     = fletcher8 (ubx_body 0x01 0x07 (repeat 7 100))
  /\ state (fst r) = GNSS_STATE_START
  /\ existsb is_ubx_end_message (snd r) = false
  /\ no_callback (snd r) = true.
Proof.
  apply (ubx_oversize_frame_dropped ublox_running 0x01 0x07 (repeat 7 100));
    [reflexivity.. | unfold GNSS_RX_DATA_SIZE; simpl; lia | reflexivity].
Defined.

(** C5, the claim as stated fails: this NAV-PVT frame with a payload of
    100 bytes carries the right Fletcher sums, and nothing of it reaches
    the message processor: the handler is never invoked. *)
Lemma ubx_oversize_not_available :
  ubx_checksum_ok 0x01 0x07 (repeat 7 100)
    (fst (fletcher8 (ubx_body 0x01 0x07 (repeat 7 100))))
    (snd (fletcher8 (ubx_body 0x01 0x07 (repeat 7 100)))) = true
  /\ only_stores
       (snd (gnss_receive ublox_running
               (ubx_message 0x01 0x07 (repeat 7 100)))) = true.
Proof. vm_compute. split; reflexivity. Qed.

(** ** The SOLUTION interlock *)

(** C4 (as the code has it): the satellites are published after the
    location.  With the location callback installed and the SOLUTION bit
    clear, on a stream on which the marking loop stays inside the
    satellite table, no satellites callback is invoked before a location
    callback has been; the satellite table is handed over only with the
    SOLUTION bit set, in the NMEA and in the binary path; a byte after
    which the bit is set, when it was not before, is one on which the
    location callback was invoked; and the bit is cleared by the first
    field and at the end of a GGA, GST or RMC sentence, by NAV-PVT and
    NAV-TIMEGPS, and by a navigation message whose time of week is not
    the one of the cycle.  The location callback is optional: without
    it the location is published to nobody, and the satellites callback
    is invoked with no location callback before it. *)
Theorem satellites_after_location :
  (forall d data,
     location_callback d = true -> solution d = false ->
     info_in_bounds (snd (gnss_receive d data)) = true ->
     sat_after_loc false (snd (gnss_receive d data)) = true)
  /\ (forall d s,
        In (Satellites_callback s) (snd (nmea_publish_satellites d))
        \/ In (Satellites_callback s) (snd (ubx_publish_satellites d)) ->
        solution d = true)
  /\ (forall d c,
        location_callback d = true -> solution d = false ->
        info_in_bounds (snd (gnss_receive_byte d c)) = true ->
        solution (fst (gnss_receive_byte d c)) = true ->
        existsb is_location (snd (gnss_receive_byte d c)) = true)
  /\ (forall d talker id,
        In talker [chr "P"; chr "L"; chr "N"] ->
        In id ["GGA"; "GST"; "RMC"] ->
        solution (fst (nmea_parse_start d (chr "G" :: talker :: bytes id)))
        = false)
  /\ (forall d,
        In (sequence (nmea d))
           [NMEA_FIELD_SEQUENCE_GGA_END; NMEA_FIELD_SEQUENCE_GST_END;
            NMEA_FIELD_SEQUENCE_RMC_END] ->
        solution (fst (nmea_end_sequence d)) = false)
  /\ (forall m data d,
        In (Z.land m 0xff) [0x07; 0x20]
        \/ (test_mask (seen d) UBX_NAV_MESSAGES = true
            /\ itow (ubx d) <> ubx_data_uint32 data 0) ->
        solution (ubx_nav_message m data d) = false).
Proof.
  split; [|split; [|split; [|split; [|split]]]].
  - intros d data Hc Hs _.
    destruct (gnss_receive_interlocked data d Hc) as [_ H].
    apply (H false). congruence.
  - intros d s H.
    unfold nmea_publish_satellites, ubx_publish_satellites in H.
    cbv zeta in H. revert H. unfold solution.
    change UBX_MESSAGE_MASK_SOLUTION with NMEA_SENTENCE_MASK_SOLUTION.
    destruct (test_mask (seen d) NMEA_SENTENCE_MASK_SOLUTION);
      [reflexivity|].
    cbn [andb snd ret In]. intros [[]|[]].
  - intros d c Hc Hs _ Hs'.
    destruct (gnss_receive_byte_interlocked d c Hc) as [_ H].
    destruct (H false) as [_ Hl]; [congruence|]. exact (Hl Hs').
  - exact nmea_parse_start_clears.
  - exact nmea_end_sequence_clears.
  - exact ubx_nav_message_clears.
Qed.

(** One cycle of GGA, GSA, RMC and GSV: the location callback comes
    first. *)
Lemma satellites_after_location_witness :
  sat_after_loc false (snd (gnss_receive nmea_receiver nmea_cycle)) = true.
Proof.
  apply (proj1 satellites_after_location nmea_receiver nmea_cycle);
    [reflexivity | reflexivity | vm_compute; reflexivity].
Defined.

(** C4, the claim as stated fails: with the satellites callback alone
    installed, the same cycle hands its satellites to the satellites
    callback and no location callback was invoked before, or at all. *)
Lemma satellites_without_location_callback :
  sat_after_loc false
    (snd (gnss_receive nmea_receiver_satellites_only nmea_cycle)) = false
  /\ existsb is_location
       (snd (gnss_receive nmea_receiver_satellites_only nmea_cycle)) = false
  /\ flat_map (fun e => match e with
                        | Satellites_callback s => map prn (listed s)
                        | _ => []
                        end)
       (snd (gnss_receive nmea_receiver_satellites_only nmea_cycle))
     = [4; 40; 5].
Proof. vm_compute. repeat split. Qed.

(** ** The latitude field *)

(** C6 (as the code has it): the latitude parser.  It accepts exactly
    the fields made of two degree digits with a value of at most 89 and
    a non-empty minutes part, up to the terminator, that is a run of
    digits or digits, a point and digits (the integer digits need not be
    two, and none is needed before a point), whose value with scale 7,
    taken on 32 bits, is below 600000000; it returns
    degrees * 10^7 + (minutes + 30) / 60.  With an integer part of at
    most 428 the 32 bits hold the minutes as written.  Degrees 89 are
    accepted, degrees 90 are rejected. *)
Theorem nmea_parse_latitude_correct :
  (forall data v,
     nmea_parse_latitude data = Some v <->
     exists d1 d2 ints frac,
       latitude_field data d1 d2 ints frac
       /\ (d1 - 48) * 10 + (d2 - 48) <= 89
       /\ minutes_of ints frac < 600000000
       /\ v = ((d1 - 48) * 10 + (d2 - 48)) * 10000000
              + (minutes_of ints frac + 30) / 60)
  /\ (forall ints frac,
        forallb is_digit ints = true -> forallb is_digit frac = true ->
        decimal ints <= 428 ->
        minutes_of ints frac
        = decimal ints * 10 ^ 7
          + decimal (take 7 frac)
            * 10 ^ (7 - Z.of_nat (length (take 7 frac))))
  /\ (forall ints frac rest,
        forallb is_digit ints = true -> forallb is_digit frac = true ->
        at_ rest 0 = 0 -> minutes_of ints frac < 600000000 ->
        nmea_parse_latitude (bytes "89" ++ ints ++ chr "." :: frac ++ rest)
        = Some (890000000 + (minutes_of ints frac + 30) / 60))
  /\ (forall rest, nmea_parse_latitude (bytes "90" ++ rest) = None).
Proof.
  split; [exact nmea_parse_latitude_fields|].
  split; [exact minutes_of_exact|].
  split; [|exact nmea_parse_latitude_90].
  intros ints frac rest Hi Hf Hz Hm.
  apply nmea_parse_latitude_fields.
  exists 56, 57, ints, frac. split; [|repeat split; [lia | exact Hm]].
  split; [reflexivity|]. split; [reflexivity|]. split; [exact Hi|].
  split; [exact Hf|]. exists rest. split; [exact Hz|]. right. reflexivity.
Qed.

(** The latitudes 8959.9999 and 4807.038. *)
Lemma nmea_parse_latitude_correct_witness :
  nmea_parse_latitude (bytes "89" ++ bytes "59" ++ chr "." :: bytes "9999" ++ [])
  = Some (890000000 + (minutes_of (bytes "59") (bytes "9999") + 30) / 60)
  /\ minutes_of (bytes "07") (bytes "038")
     = decimal (bytes "07") * 10 ^ 7
       + decimal (take 7 (bytes "038"))
         * 10 ^ (7 - Z.of_nat (length (take 7 (bytes "038")))).
Proof.
  split.
  - apply (proj1 (proj2 (proj2 nmea_parse_latitude_correct)));
      [reflexivity | reflexivity | reflexivity | vm_compute; reflexivity].
  - apply (proj1 (proj2 nmea_parse_latitude_correct));
      [reflexivity | reflexivity | vm_compute; intros Hx; discriminate Hx].
Defined.

(** The field 12430.0 has the minutes 430.0, far above 60: their
    scaled value 4300000000 does not fit 32 bits, wraps to 5032704 and
    passes the test, and the field is read as 12.0083878 degrees.  The
    fields 48.5 and 4807 are not of the form DDMM.MMMM and are accepted
    as well. *)
Lemma nmea_latitude_wrapped_minutes_accepted :
  nmea_parse_latitude (bytes "12430.0") = Some 120083878
  /\ 600000000 <= decimal (bytes "430") * 10 ^ 7
  /\ nmea_parse_latitude (bytes "48.5") = Some 480083333
  /\ nmea_parse_latitude (bytes "4807") = Some 481166667.
Proof.
  split; [reflexivity|]. split; [vm_compute; intros Hx; discriminate Hx|].
  split; reflexivity.
Qed.

(** ** NAV-SVINFO records *)

(** C7 (as the code has it): one NAV-SVINFO record.  The satellite id at
    offset 9 is remapped: GPS 1..32, GLONASS 65..96 and 255, SBAS
    152..158 and QZSS 193..200 keep their id, SBAS 120..151 is stored as
    33..64, BeiDou 33..64 as 206..237 and BeiDou 159..163 as 201..205;
    any other id drops the record, and so does a full table.  A stored
    record takes the next entry of the table: the signal strength from
    offset 12, the elevation from offset 13 and the azimuth from offset
    14 when the elevation is positive (both zero otherwise), Tracking or
    Searching from the quality at offset 11, and, for a tracked
    satellite only, Navigating and Correction from bits 0 and 1 of the
    byte at offset 10. *)
Theorem ubx_svinfo_record_stored d data cnt :
  let svid := at_ data 9 in
  let n := count (satellites d) in
  let d' := ubx_parse_message 0x0130 data cnt d in
  (1 <= svid <= 32 \/ 65 <= svid <= 96 \/ 152 <= svid <= 158
   \/ 193 <= svid <= 200 \/ svid = 255 -> ubx_svid_remap svid = svid)
  /\ (120 <= svid <= 151 -> ubx_svid_remap svid = svid - 87)
  /\ (33 <= svid <= 64 -> ubx_svid_remap svid = svid + 173)
  /\ (159 <= svid <= 163 -> ubx_svid_remap svid = svid + 42)
  /\ (svid < 1 \/ 96 < svid < 120 \/ 163 < svid < 193 \/ 200 < svid < 255
      \/ 255 < svid -> ubx_svid_remap svid = 0)
  /\ (ubx_svid_remap svid = 0 \/ GNSS_SATELLITES_COUNT_MAX <= n ->
      satellites d' = satellites d)
  /\ (ubx_svid_remap svid <> 0 -> 0 <= n < GNSS_SATELLITES_COUNT_MAX ->
      (Z.to_nat n < length (info (satellites d)))%nat ->
      count (satellites d') = n + 1
      /\ exists e,
           info (satellites d') !! Z.to_nat n = Some e
           /\ prn e = ubx_svid_remap svid
           /\ snr e = at_ data 12
           /\ elevation e
              = (if 0 <? s8 (at_ data 13) then s8 (at_ data 13) else 0)
           /\ azimuth e
              = (if 0 <? s8 (at_ data 13)
                 then u16 (s16 (Z.lor (at_ data 14)
                                  (Z.shiftl (at_ data 15) 8)))
                 else 0)
           /\ test_mask (sat_state e) GNSS_SATELLITES_STATE_TRACKING
              = ubx_tracking data
           /\ test_mask (sat_state e) GNSS_SATELLITES_STATE_SEARCHING
              = negb (ubx_tracking data)
           /\ test_mask (sat_state e) GNSS_SATELLITES_STATE_NAVIGATING
              = ubx_tracking data && test_mask (at_ data 10) 0x01
           /\ test_mask (sat_state e) GNSS_SATELLITES_STATE_CORRECTION
              = ubx_tracking data && test_mask (at_ data 10) 0x02).
Proof.
  cbv zeta.
  destruct (ubx_svid_remap_ranges (at_ data 9)) as (R1 & R2 & R3 & R4).
  destruct (ubx_parse_message_satellites d data cnt) as [Hstore Hdrop].
  cbv zeta in Hstore, Hdrop.
  split; [exact R1|]. split; [exact R2|]. split; [exact R3|].
  split; [exact R4|]. split; [apply ubx_svid_remap_dropped|].
  split; [exact Hdrop|].
  intros Hz [H0 Hn] Hlen. destruct (Hstore Hz Hn) as [Hc Hi].
  split; [rewrite Hc; apply u32_small; unfold GNSS_SATELLITES_COUNT_MAX in Hn; lia|].
  destruct (lookup_lt_is_Some_2 _ _ Hlen) as [e0 He0].
  rewrite He0 in Hi. rewrite Hi.
  exists (ubx_svinfo_entry data (ubx_svid_remap (at_ data 9)) e0).
  split; [apply list_lookup_insert_eq; exact Hlen|].
  apply ubx_svinfo_entry_spec. apply ubx_svid_remap_byte.
Qed.

(** The record of GPS satellite 5, tracked, used and corrected, 40 dBHz
    at 30 degrees of elevation and 180 degrees of azimuth. *)
Lemma ubx_svinfo_record_stored_witness :
  let d' := ubx_parse_message 0x0130 (svinfo_record 5) 20 ublox_running in
  count (satellites d') = 0 + 1
  /\ exists e,
       info (satellites d') !! Z.to_nat 0 = Some e
       /\ prn e = ubx_svid_remap 5
       /\ snr e = 40
       /\ elevation e = 30
       /\ azimuth e = 180
       /\ test_mask (sat_state e) GNSS_SATELLITES_STATE_TRACKING = true
       /\ test_mask (sat_state e) GNSS_SATELLITES_STATE_SEARCHING = false
       /\ test_mask (sat_state e) GNSS_SATELLITES_STATE_NAVIGATING = true
       /\ test_mask (sat_state e) GNSS_SATELLITES_STATE_CORRECTION = true.
Proof.
  apply (proj2 (proj2 (proj2 (proj2 (proj2 (proj2
           (ubx_svinfo_record_stored ublox_running (svinfo_record 5) 20))))))).
  - vm_compute. intros H. discriminate H.
  - vm_compute. split; [intros H; discriminate H | reflexivity].
  - vm_compute. lia.
Defined.

(** C7, the claim as stated fails: the SBAS satellite id 120 is stored
    as PRN 33, outside the documented range 120..158. *)
Lemma ubx_sbas_120_stored_as_33 :
  map prn (listed (satellites
                     (ubx_parse_message 0x0130 (svinfo_record 120) 20
                        ublox_running))) = [33]
  /\ documented_prn 33 = false.
Proof. vm_compute. split; reflexivity. Qed.

(** ** The published satellites *)

(** C8 (as the code has it): a snapshot handed to the satellites
    callback lists at most 32 satellites, on every stream on which the
    marking loop stays inside the satellite table (no NMEA cycle comes to
    list more than 32 satellites).  In the binary path a NAV-SVINFO
    record that finds the 32 entries used is dropped, and over a stream
    of UBX frames, received from the Start state by a device whose table
    holds remapped PRNs (the empty table of [gnss_initialize] is one),
    the table and every published snapshot list at most 32 satellites
    with the PRNs that the records are remapped to: 1..32, 33..64,
    65..96, 152..158, 193..200, 201..237 or 255.  The GSV path stores the
    satellite number of the sentence as it is received, on 8 bits, so no
    range holds there. *)
Theorem satellites_snapshot_bounds :
  (forall d data,
     info_in_bounds (snd (gnss_receive d data)) = true ->
     trace_all snapshot_capped (gnss_receive d data))
  /\ (forall d data cnt,
        GNSS_SATELLITES_COUNT_MAX <= count (satellites d) ->
        satellites (ubx_parse_message 0x0130 data cnt d) = satellites d)
  /\ (forall d frames,
        Forall ubx_frame_ok frames ->
        state d = GNSS_STATE_START -> mode d = GNSS_MODE_UBLOX ->
        ubx_table_ok (satellites d) ->
        ubx_table_ok (satellites (fst (gnss_receive d (ubx_stream frames))))
        /\ forall s,
             In (Satellites_callback s)
                (snd (gnss_receive d (ubx_stream frames))) ->
             0 <= count s <= GNSS_SATELLITES_COUNT_MAX
             /\ Forall (fun e => ubx_prn_ok (prn e) = true) (listed s))
  /\ (forall d data svid,
        sequence (nmea d) = NMEA_FIELD_SEQUENCE_GSV_SV_IN_VIEW_ID ->
        at_ data 0 <> 0 -> nmea_parse_unsigned data = Some svid ->
        0 <= count (satellites d) < GNSS_SATELLITES_COUNT_MAX ->
        (Z.to_nat (count (satellites d)) < length (info (satellites d)))%nat ->
        exists e,
          info (satellites (nmea_parse_sentence d data))
            !! Z.to_nat (count (satellites d)) = Some e
          /\ prn e = u8 svid).
Proof.
  split; [|split; [|split]].
  - intros d data _. apply gnss_receive_capped.
  - intros d data cnt Hn.
    destruct (ubx_parse_message_satellites d data cnt) as [_ Hdrop].
    cbv zeta in Hdrop. apply Hdrop. right. exact Hn.
  - intros d frames Hf Hs Hm Ht.
    destruct (ubx_stream_keeps frames d Hf Hs Hm Ht) as [K1 K2].
    split; [exact K1|]. intros s Hin.
    rewrite List.Forall_forall in K2. exact (K2 _ Hin).
  - exact nmea_gsv_prn_stored.
Qed.

(** One NMEA cycle, and a NAV-SVINFO frame with the record of SBAS
    satellite 120 received after a location has been published. *)
Lemma satellites_snapshot_bounds_witness :
  trace_all snapshot_capped (gnss_receive nmea_receiver nmea_cycle)
  /\ ubx_table_ok
       (satellites
          (fst (gnss_receive ublox_solved
                  (ubx_stream
                     [(0x01, 0x30, svinfo_record 120,
                       fst (fletcher8 (ubx_body 0x01 0x30 (svinfo_record 120))),
                       snd (fletcher8 (ubx_body 0x01 0x30 (svinfo_record 120))))])))).
Proof.
  split.
  - apply (proj1 satellites_snapshot_bounds). vm_compute. reflexivity.
  - apply (proj1 (proj2 (proj2 satellites_snapshot_bounds)) ublox_solved).
    + constructor; [|constructor]. split; [reflexivity | simpl; lia].
    + reflexivity.
    + reflexivity.
    + split; [vm_compute; split; intros Hx; discriminate Hx|].
      vm_compute. constructor.
Defined.

(** C8, the claim as stated fails: the GSV sentence of this cycle lists
    PRN 40, which the satellites callback receives as it is; and the
    SBAS satellite 120 of a NAV-SVINFO frame is published as PRN 33.
    Neither lies in a documented range. *)
Lemma nmea_gsv_prn_40_published :
  existsb lists_undocumented_prn (snd (gnss_receive nmea_receiver nmea_cycle))
  = true
  /\ flat_map (fun e => match e with
                        | Satellites_callback s => map prn (listed s)
                        | _ => []
                        end)
       (snd (gnss_receive nmea_receiver nmea_cycle)) = [4; 40; 5]
  /\ existsb lists_undocumented_prn
       (snd (gnss_receive ublox_solved
               (ubx_message 0x01 0x30 (svinfo_record 120)))) = true.
Proof. vm_compute. repeat split. Qed.

(** ** The speed of an RMC sentence *)

(** C9 (as the code has it): the speed field of an RMC sentence is read
    in thousandths of a knot and stored as (value * 1852 + 1800) / 3600
    millimetres per second, computed on 32 bits; the quotient is the
    exact one as long as value * 1852 + 1800 stays below 2^32.  The field
    022.4 is read as 22400, and the sentence of the specification stores
    a speed of 11524 mm/s; a cycle with this speed hands 11524 to the
    location callback. *)
Theorem rmc_speed_conversion :
  (forall d data v,
     sequence (nmea d) = NMEA_FIELD_SEQUENCE_RMC_SPEED ->
     at_ data 0 <> 0 ->
     nmea_parse_fixed data 3 = Some v ->
     speed (location (nmea_parse_sentence d data))
     = s32 (u32 (v * 1852 + 1800) / 3600)
     /\ (v * 1852 + 1800 < 4294967296 ->
         speed (location (nmea_parse_sentence d data))
         = (v * 1852 + 1800) / 3600))
  /\ nmea_parse_fixed (bytes "022.4") 3 = Some 22400
  /\ speed (location (fst (gnss_receive nmea_receiver rmc_example))) = 11524
  /\ published_speeds (snd (gnss_receive nmea_receiver nmea_cycle)) = [11524].
Proof.
  split; [exact nmea_parse_sentence_rmc_speed|].
  vm_compute. repeat split.
Qed.

(** The speed field 022.4 of the RMC sentence of the specification. *)
Lemma rmc_speed_conversion_witness :
  let d := fst (gnss_receive nmea_receiver rmc_before_speed) in
  speed (location (nmea_parse_sentence d (bytes "022.4")))
  = s32 (u32 (22400 * 1852 + 1800) / 3600)
  /\ (22400 * 1852 + 1800 < 4294967296 ->
      speed (location (nmea_parse_sentence d (bytes "022.4")))
      = (22400 * 1852 + 1800) / 3600).
Proof.
  apply (proj1 rmc_speed_conversion
           (fst (gnss_receive nmea_receiver rmc_before_speed))
           (bytes "022.4") 22400).
  - reflexivity.
  - vm_compute. intros H. discriminate H.
  - reflexivity.
Defined.

(** C9, the claim as stated fails: the sentence of the specification
    stores a speed of 11524 mm/s, not 1152, and on its own it invokes no
    callback: nothing is published. *)
Lemma rmc_example_speed_11524 :
  speed (location (fst (gnss_receive nmea_receiver rmc_example))) = 11524
  /\ (22400 * 1852 + 1800) / 3600 = 11524
  /\ no_callback (snd (gnss_receive nmea_receiver rmc_example)) = true.
Proof. vm_compute. repeat split. Qed.

(** ** The stores into the staging buffer *)

(** C10 fails on the code: a field of 96 bytes fills [rx_data], and the
    '*' that closes it writes its terminator at index 96, one past the
    end of the array.  The stores of the other payload bytes, the comma
    included, stay below 96. *)
Theorem nmea_terminator_store_out_of_bounds :
  (forall d field,
     (state d <=? GNSS_STATE_NMEA_END_LF) = true ->
     forallb nmea_field_byte field = true ->
     Z.of_nat (length field) = GNSS_RX_DATA_SIZE ->
     In (Store_rx_data GNSS_RX_DATA_SIZE)
        (snd (gnss_receive d (chr "$" :: field ++ [chr "*"]))))
  /\ (forall d c i,
        state d = GNSS_STATE_NMEA_PAYLOAD -> nmea_payload_byte c = true ->
        In (Store_rx_data i) (snd (gnss_receive_byte d c)) ->
        i < GNSS_RX_DATA_SIZE).
Proof.
  split; [exact nmea_star_store_past_end | exact payload_char_store_bound].
Qed.

(** A field of 96 times the letter A, closed by '*'. *)
Lemma nmea_terminator_store_out_of_bounds_witness :
  In (Store_rx_data GNSS_RX_DATA_SIZE)
     (snd (gnss_receive nmea_receiver
             (chr "$" :: repeat (chr "A") 96 ++ [chr "*"]))).
Proof.
  apply (proj1 nmea_terminator_store_out_of_bounds nmea_receiver
           (repeat (chr "A") 96)); reflexivity.
Defined.

(** * Further properties of the code *)

(** X1: [nmea_isqrt] returns the integer square root of every 32-bit
    value [n]: the one [r] with [r * r <= n < (r + 1) * (r + 1)]; the
    squares of the sixteen trial values never wrap around. *)
Theorem nmea_isqrt_floor n :
  0 <= n < 4294967296 ->
  nmea_isqrt n = Z.sqrt n
  /\ nmea_isqrt n * nmea_isqrt n <= n
     < (nmea_isqrt n + 1) * (nmea_isqrt n + 1).
Proof.
  intros Hn.
  pose proof (nmea_isqrt_loop_spec 15 n 0) as H. cbv zeta in H.
  change (2 ^ (Z.of_nat 15 + 1) * 0 + 2 ^ Z.of_nat 15) with 0x8000 in H.
  change (2 ^ Z.of_nat 15) with 0x8000 in H.
  assert (Hr : nmea_isqrt n * nmea_isqrt n <= n
               < (nmea_isqrt n + 1) * (nmea_isqrt n + 1))
    by (apply H; simpl; lia).
  split; [|exact Hr].
  symmetry. apply Z.sqrt_unique. exact Hr.
Qed.

(** The largest 32-bit value has the root 65535. *)
Lemma nmea_isqrt_floor_witness :
  nmea_isqrt 4294967295 = Z.sqrt 4294967295
  /\ nmea_isqrt 4294967295 * nmea_isqrt 4294967295 <= 4294967295
     < (nmea_isqrt 4294967295 + 1) * (nmea_isqrt 4294967295 + 1).
Proof. apply (nmea_isqrt_floor 4294967295). lia. Defined.

(** X2: [nmea_parse_unsigned] reads a run of decimal digits closed by the
    terminator as its decimal value modulo 2^32 (a value that does not
    fit wraps around, it is not refused), an empty field as 0, and
    refuses a field in which another byte follows the digits. *)
Theorem nmea_parse_unsigned_decimal ds rest :
  forallb is_digit ds = true ->
  (at_ rest 0 = 0 ->
   nmea_parse_unsigned (ds ++ rest) = Some (decimal ds mod 4294967296))
  /\ (is_digit (at_ rest 0) = false -> at_ rest 0 <> 0 ->
      nmea_parse_unsigned (ds ++ rest) = None).
Proof.
  intros Hd. unfold nmea_parse_unsigned. split.
  - intros Hz.
    assert (Hn : is_digit (at_ rest 0) = false) by (rewrite Hz; reflexivity).
    rewrite (scan_digits_run ds rest 0 Hd Hn) by lia.
    rewrite Hz. reflexivity.
  - intros Hn Hz. rewrite (scan_digits_run ds rest 0 Hd Hn) by lia.
    apply Z.eqb_neq in Hz. rewrite Hz. reflexivity.
Qed.

(** The fields 4294967295 and 4294967296, and a field with a letter. *)
Lemma nmea_parse_unsigned_decimal_witness :
  nmea_parse_unsigned (bytes "4294967295" ++ [])
  = Some (decimal (bytes "4294967295") mod 4294967296)
  /\ nmea_parse_unsigned (bytes "4294967296" ++ [0; 65])
     = Some (decimal (bytes "4294967296") mod 4294967296)
  /\ nmea_parse_unsigned (bytes "12" ++ bytes "a3") = None.
Proof.
  split; [|split].
  - apply (proj1 (nmea_parse_unsigned_decimal (bytes "4294967295") []
                    eq_refl)). reflexivity.
  - apply (proj1 (nmea_parse_unsigned_decimal (bytes "4294967296") [0; 65]
                    eq_refl)). reflexivity.
  - apply (proj2 (nmea_parse_unsigned_decimal (bytes "12") (bytes "a3")
                    eq_refl)); [reflexivity | discriminate].
Defined.

(** X3: [nmea_parse_fixed] reads [digits], [digits.] and
    [digits.digits] closed by the terminator as a fixed-point value with
    [scale] decimals: the fraction digits beyond the scale are dropped
    (not rounded), missing ones count as zeros.  A byte other than a
    digit in the integer part (the dot apart) or in the fraction refuses
    the field. *)
Theorem nmea_parse_fixed_decimal ints frac rest scale :
  forallb is_digit ints = true -> forallb is_digit frac = true ->
  0 <= scale <= 9 ->
  let kept := take (Z.to_nat scale) frac in
  let value := decimal ints * 10 ^ scale
               + decimal kept * 10 ^ (scale - Z.of_nat (length kept)) in
  (at_ rest 0 = 0 -> decimal ints * 10 ^ scale < 4294967296 ->
   nmea_parse_fixed (ints ++ rest) scale = Some (decimal ints * 10 ^ scale))
  /\ (at_ rest 0 = 0 -> value < 4294967296 ->
      nmea_parse_fixed (ints ++ chr "." :: frac ++ rest) scale = Some value)
  /\ (is_digit (at_ rest 0) = false -> at_ rest 0 <> 0 ->
      at_ rest 0 <> chr "." ->
      nmea_parse_fixed (ints ++ rest) scale = None)
  /\ (is_digit (at_ rest 0) = false -> at_ rest 0 <> 0 ->
      nmea_parse_fixed (ints ++ chr "." :: frac ++ rest) scale = None).
Proof.
  intros Hi Hf Hs. cbv zeta.
  assert (Hdot : is_digit (at_ (chr "." :: frac ++ rest) 0) = false)
    by reflexivity.
  assert (Hk : forallb is_digit (take (Z.to_nat scale) frac) = true).
  { now apply forallb_take. }
  assert (Hlen : Z.of_nat (length (take (Z.to_nat scale) frac)) <= scale).
  { rewrite length_take. lia. }
  pose proof (decimal_from_nonneg ints 0 Hi (Z.le_refl 0)) as Hi0.
  pose proof (decimal_from_nonneg _ 0 Hk (Z.le_refl 0)) as Hk0.
  fold (decimal ints) in Hi0. fold (decimal (take (Z.to_nat scale) frac)) in Hk0.
  assert (Hp : 0 < 10 ^ scale) by (apply Z.pow_pos_nonneg; lia).
  assert (Hfrac : forall z, scan_fraction (frac ++ rest) 0 0 scale = z ->
            is_digit (at_ rest 0) = false ->
            z = (u32 (decimal (take (Z.to_nat scale) frac)),
                 Z.of_nat (length (take (Z.to_nat scale) frac)), rest)).
  { intros z <- Hn. rewrite (scan_fraction_run frac rest 0 0 scale Hf Hn) by lia.
    rewrite Z.sub_0_r, Z.add_0_l. reflexivity. }
  split; [|split; [|split]].
  - intros Hz Hsmall.
    assert (Hn : is_digit (at_ rest 0) = false) by (rewrite Hz; reflexivity).
    unfold nmea_parse_fixed.
    rewrite (scan_digits_run ints rest 0 Hi Hn) by lia.
    fold (decimal ints).
    replace (at_ rest 0 =? chr ".") with false by (rewrite Hz; reflexivity).
    rewrite Hz. cbn [Z.eqb]. rewrite nmea_scale_pow by lia.
    assert (decimal ints <= decimal ints * 10 ^ scale) by nia.
    rewrite (u32_small (decimal ints)) by lia.
    rewrite Z.add_0_r, u32_small by lia. reflexivity.
  - intros Hz Hsmall.
    assert (Hn : is_digit (at_ rest 0) = false) by (rewrite Hz; reflexivity).
    unfold nmea_parse_fixed.
    rewrite (scan_digits_run ints _ 0 Hi Hdot) by lia.
    fold (decimal ints). unfold at_ at 1. cbn [nth tl].
    change (chr "." =? chr ".") with true. cbv iota.
    rewrite (Hfrac _ eq_refl Hn). rewrite Hz. cbn [Z.eqb andb].
    set (kept := take (Z.to_nat scale) frac) in *.
    set (n := Z.of_nat (length kept)) in *.
    assert (Hn0 : 0 <= n) by (unfold n; lia).
    assert (Hq : 0 < 10 ^ (scale - n)) by (apply Z.pow_pos_nonneg; lia).
    assert (decimal ints <= decimal ints * 10 ^ scale) by nia.
    assert (decimal kept <= decimal kept * 10 ^ (scale - n)) by nia.
    assert (0 <= decimal ints * 10 ^ scale) by nia.
    rewrite (u32_small (decimal ints)), (u32_small (decimal kept)) by lia.
    rewrite !nmea_scale_pow by lia.
    destruct (Z.ltb_spec n scale) as [Hlt|Hge].
    + rewrite Hz. cbn [Z.eqb].
      rewrite (u32_small (decimal kept * _)) by lia.
      rewrite u32_small by lia. reflexivity.
    + replace (scale - n) with 0 in * by lia. change (10 ^ 0) with 1 in *.
      rewrite Z.mul_1_r in *. rewrite Hz. cbn [Z.eqb].
      rewrite u32_small by lia. reflexivity.
  - intros Hn Hz Hd.
    unfold nmea_parse_fixed.
    rewrite (scan_digits_run ints rest 0 Hi Hn) by lia.
    apply Z.eqb_neq in Hz, Hd. rewrite Hd, Hz. reflexivity.
  - intros Hn Hz.
    unfold nmea_parse_fixed.
    rewrite (scan_digits_run ints _ 0 Hi Hdot) by lia.
    unfold at_ at 1. cbn [nth tl].
    change (chr "." =? chr ".") with true. cbv iota.
    rewrite (Hfrac _ eq_refl Hn).
    apply Z.eqb_neq in Hz. rewrite Hz. cbn [andb]. rewrite Hz. reflexivity.
Qed.

(** The speed field 022.4 with three decimals, and the minutes 07.0385
    cut after two. *)
Lemma nmea_parse_fixed_decimal_witness :
  nmea_parse_fixed (bytes "022" ++ chr "." :: bytes "4" ++ []) 3 = Some 22400
  /\ nmea_parse_fixed (bytes "07" ++ chr "." :: bytes "0385" ++ [0]) 2
     = Some 703
  /\ nmea_parse_fixed (bytes "12" ++ chr "." :: bytes "5" ++ bytes "x") 3
     = None.
Proof.
  split; [|split].
  - apply (proj1 (proj2 (nmea_parse_fixed_decimal (bytes "022") (bytes "4") []
                           3 eq_refl eq_refl ltac:(lia))));
      [reflexivity | reflexivity].
  - apply (proj1 (proj2 (nmea_parse_fixed_decimal (bytes "07") (bytes "0385")
                           [0] 2 eq_refl eq_refl ltac:(lia))));
      [reflexivity | reflexivity].
  - apply (proj2 (proj2 (proj2 (nmea_parse_fixed_decimal (bytes "12")
                                  (bytes "5") (bytes "x") 3 eq_refl eq_refl
                                  ltac:(lia)))));
      [reflexivity | discriminate].
Defined.

(** X4: the longitude parser accepts exactly the fields of three degree
    digits with a value of at most 179 followed by a non-empty minutes
    part that [nmea_parse_fixed] reads, with scale 7, as a value below
    600000000, and returns degrees * 10^7 + (minutes + 30) / 60, which
    is at most 1800000000.  Degrees 179 are accepted, degrees 180 are
    rejected. *)
Theorem nmea_parse_longitude_correct :
  (forall data v,
     nmea_parse_longitude data = Some v <->
     exists d1 d2 d3 rest minutes,
       data = d1 :: d2 :: d3 :: rest
       /\ is_digit d1 = true /\ is_digit d2 = true /\ is_digit d3 = true
       /\ (d1 - 48) * 100 + (d2 - 48) * 10 + (d3 - 48) <= 179
       /\ at_ rest 0 <> 0
       /\ nmea_parse_fixed rest 7 = Some minutes
       /\ minutes < 600000000
       /\ v = ((d1 - 48) * 100 + (d2 - 48) * 10 + (d3 - 48)) * 10000000
              + (minutes + 30) / 60)
  /\ (forall data v,
        nmea_parse_longitude data = Some v -> 0 <= v <= 1800000000)
  /\ (forall rest, nmea_parse_longitude (bytes "180" ++ rest) = None).
Proof.
  assert (Hspec : forall data v,
     nmea_parse_longitude data = Some v <->
     exists d1 d2 d3 rest minutes,
       data = d1 :: d2 :: d3 :: rest
       /\ is_digit d1 = true /\ is_digit d2 = true /\ is_digit d3 = true
       /\ (d1 - 48) * 100 + (d2 - 48) * 10 + (d3 - 48) <= 179
       /\ at_ rest 0 <> 0
       /\ nmea_parse_fixed rest 7 = Some minutes
       /\ minutes < 600000000
       /\ v = ((d1 - 48) * 100 + (d2 - 48) * 10 + (d3 - 48)) * 10000000
              + (minutes + 30) / 60).
  { intros data v. unfold nmea_parse_longitude. split.
    - destruct data as [|d1 [|d2 [|d3 rest]]];
        try (unfold at_; cbn [nth];
             rewrite ?andb_false_l, ?andb_false_r; discriminate).
      change (at_ (d1 :: d2 :: d3 :: rest) 0) with d1.
      change (at_ (d1 :: d2 :: d3 :: rest) 1) with d2.
      change (at_ (d1 :: d2 :: d3 :: rest) 2) with d3.
      destruct (is_digit d1) eqn:H1; [|discriminate].
      destruct (is_digit d2) eqn:H2; [|discriminate].
      destruct (is_digit d3) eqn:H3; [|discriminate].
      cbn [andb]. cbv zeta.
      pose proof H1 as R1. pose proof H2 as R2. pose proof H3 as R3.
      apply is_digit_range in R1, R2, R3.
      change (chr "0") with 48.
      rewrite (u32_small (_ + _)) by lia.
      change (drop 3 (d1 :: d2 :: d3 :: rest)) with rest.
      destruct (Z.ltb_spec ((d1 - 48) * 100 + (d2 - 48) * 10 + (d3 - 48)) 180)
        as [Hd|Hd]; [|discriminate].
      destruct (Z.eqb_spec (at_ rest 0) 0) as [Hz|Hz]; [discriminate|].
      cbn [andb negb].
      destruct (nmea_parse_fixed rest 7) as [minutes|] eqn:Hf; [|discriminate].
      pose proof (nmea_parse_fixed_range _ _ _ Hf) as Hm.
      destruct (Z.ltb_spec minutes 600000000) as [Hlt|Hge]; [|discriminate].
      intros H. inversion H as [Hv]. clear H.
      exists d1, d2, d3, rest, minutes.
      repeat split; try assumption; try lia.
      assert (0 <= (minutes + 30) / 60 < 10000001).
      { split; [apply Z.div_pos; lia | apply Z.div_lt_upper_bound; lia]. }
      rewrite (u32_small (_ * _)), (u32_small (_ / _)), u32_small by lia.
      reflexivity.
    - intros (d1 & d2 & d3 & rest & minutes & -> & H1 & H2 & H3 & Hd & Hz
              & Hf & Hlt & ->).
      change (at_ (d1 :: d2 :: d3 :: rest) 0) with d1.
      change (at_ (d1 :: d2 :: d3 :: rest) 1) with d2.
      change (at_ (d1 :: d2 :: d3 :: rest) 2) with d3. rewrite H1, H2, H3.
      cbn [andb]. cbv zeta.
      apply is_digit_range in H1, H2, H3. change (chr "0") with 48.
      rewrite (u32_small (_ + _)) by lia.
      change (drop 3 (d1 :: d2 :: d3 :: rest)) with rest.
      pose proof (nmea_parse_fixed_range _ _ _ Hf) as Hm.
      destruct (Z.ltb_spec ((d1 - 48) * 100 + (d2 - 48) * 10 + (d3 - 48)) 180)
        as [_|]; [|lia].
      destruct (Z.eqb_spec (at_ rest 0) 0) as [|_]; [contradiction|].
      cbn [andb negb]. rewrite Hf.
      destruct (Z.ltb_spec minutes 600000000) as [_|]; [|lia].
      assert (0 <= (minutes + 30) / 60 < 10000001).
      { split; [apply Z.div_pos; lia | apply Z.div_lt_upper_bound; lia]. }
      rewrite (u32_small (_ * _)), (u32_small (_ / _)), u32_small by lia.
      reflexivity. }
  split; [exact Hspec|]. split.
  - intros data v H. apply Hspec in H.
    destruct H as (d1 & d2 & d3 & rest & minutes & _ & H1 & H2 & H3 & Hd & _
                   & Hf & Hlt & ->).
    apply is_digit_range in H1, H2, H3.
    pose proof (nmea_parse_fixed_range _ _ _ Hf) as Hm.
    assert (0 <= (minutes + 30) / 60 < 10000001).
    { split; [apply Z.div_pos; lia | apply Z.div_lt_upper_bound; lia]. }
    lia.
  - intros rest.
    destruct (nmea_parse_longitude (bytes "180" ++ rest)) as [v|] eqn:E;
      [|reflexivity].
    apply Hspec in E.
    destruct E as (d1 & d2 & d3 & r & m & Hd & _ & _ & _ & Hle & _).
    change (bytes "180" ++ rest) with (49 :: 56 :: 48 :: rest) in Hd.
    inversion Hd; subst. lia.
Qed.

(** The longitudes 01131.000 and 17959.9999. *)
Lemma nmea_parse_longitude_correct_witness :
  nmea_parse_longitude (bytes "01131.000") = Some 115166667
  /\ 0 <= 1799999983 <= 1800000000.
Proof.
  split.
  - apply (proj1 nmea_parse_longitude_correct).
    exists (chr "0"), (chr "1"), (chr "1"), (bytes "31.000"), 310000000.
    split; [reflexivity|]. split; [reflexivity|]. split; [reflexivity|].
    split; [reflexivity|].
    split; [vm_compute; discriminate|]. split; [vm_compute; discriminate|].
    split; [reflexivity|]. split; reflexivity.
  - apply (proj1 (proj2 nmea_parse_longitude_correct)
             (bytes "17959.9999")). reflexivity.
Defined.

(** X5: [nmea_parse_time] reads hhmmss and hhmmss.fff closed by the
    terminator: hours up to 23, minutes up to 59, seconds up to 60 (a
    leap second), and the fraction as milliseconds, its digits beyond
    the third dropped and missing ones counted as zeros.  An hour of 24,
    a minute of 60 or a second of 61 refuses the field. *)
Theorem nmea_parse_time_fields h1 h2 m1 m2 s1 s2 frac rest :
  forallb is_digit [h1; h2; m1; m2; s1; s2] = true ->
  forallb is_digit frac = true -> at_ rest 0 = 0 ->
  let hour := (h1 - 48) * 10 + (h2 - 48) in
  let minute := (m1 - 48) * 10 + (m2 - 48) in
  let second := (s1 - 48) * 10 + (s2 - 48) in
  let kept := take 3 frac in
  (hour < 24 /\ minute < 60 /\ second <= 60 ->
   nmea_parse_time ([h1; h2; m1; m2; s1; s2] ++ rest)
   = Some (hour, minute, second, 0)
   /\ nmea_parse_time ([h1; h2; m1; m2; s1; s2] ++ chr "." :: frac ++ rest)
      = Some (hour, minute, second,
              decimal kept * 10 ^ (3 - Z.of_nat (length kept))))
  /\ (24 <= hour \/ 60 <= minute \/ 61 <= second ->
      nmea_parse_time ([h1; h2; m1; m2; s1; s2] ++ rest) = None
      /\ nmea_parse_time ([h1; h2; m1; m2; s1; s2] ++ chr "." :: frac ++ rest)
         = None).
Proof.
  intros Hd Hf Hz. cbv zeta. simpl in Hd.
  repeat (apply andb_true_iff in Hd as [? Hd]). clear Hd.
  assert (Hn : is_digit (at_ rest 0) = false) by (rewrite Hz; reflexivity).
  destruct (two_digits_value h1 h2 (m1 :: m2 :: s1 :: s2 :: rest))
    as [Eh Rh]; [assumption..|].
  destruct (two_digits_value m1 m2 (s1 :: s2 :: rest))
    as [Em Rm]; [assumption..|].
  destruct (two_digits_value s1 s2 rest) as [Es Rs]; [assumption..|].
  destruct (two_digits_value h1 h2
              (m1 :: m2 :: s1 :: s2 :: chr "." :: frac ++ rest))
    as [Eh' _]; [assumption..|].
  destruct (two_digits_value m1 m2 (s1 :: s2 :: chr "." :: frac ++ rest))
    as [Em' _]; [assumption..|].
  destruct (two_digits_value s1 s2 (chr "." :: frac ++ rest))
    as [Es' _]; [assumption..|].
  assert (Hk : forallb is_digit (take 3 frac) = true)
    by now apply forallb_take.
  assert (Hlen : Z.of_nat (length (take 3 frac)) <= 3)
    by (rewrite length_take; lia).
  pose proof (decimal_from_nonneg _ 0 Hk (Z.le_refl 0)) as Hk0.
  pose proof (decimal_from_bound _ 0 Hk (Z.le_refl 0)) as Hk1.
  fold (decimal (take 3 frac)) in Hk0, Hk1.
  assert (Hms : 0 <= decimal (take 3 frac)
                     * 10 ^ (3 - Z.of_nat (length (take 3 frac))) < 1000).
  { set (n := Z.of_nat (length (take 3 frac))) in *.
    assert (0 < 10 ^ (3 - n)) by (apply Z.pow_pos_nonneg; lia).
    assert (10 ^ n * 10 ^ (3 - n) = 1000).
    { rewrite <- Z.pow_add_r by lia. replace (n + (3 - n)) with 3 by lia.
      reflexivity. }
    nia. }
  assert (Hms' : 0 <= decimal (take 3 frac) < 1000).
  { set (n := Z.of_nat (length (take 3 frac))) in *.
    assert (10 ^ n <= 10 ^ 3) by (apply Z.pow_le_mono_r; lia).
    change (10 ^ 3) with 1000 in *. lia. }
  unfold nmea_parse_time.
  change (at_ ([h1; h2; m1; m2; s1; s2] ++ rest) 0) with h1.
  change (at_ ([h1; h2; m1; m2; s1; s2] ++ rest) 1) with h2.
  change (at_ ([h1; h2; m1; m2; s1; s2] ++ chr "." :: frac ++ rest) 0) with h1.
  change (at_ ([h1; h2; m1; m2; s1; s2] ++ chr "." :: frac ++ rest) 1) with h2.
  replace (is_digit h1) with true by auto.
  replace (is_digit h2) with true by auto. cbn [andb]. cbv zeta.
  change (drop 2 ([h1; h2; m1; m2; s1; s2] ++ rest))
    with (m1 :: m2 :: s1 :: s2 :: rest).
  change (drop 2 ([h1; h2; m1; m2; s1; s2] ++ chr "." :: frac ++ rest))
    with (m1 :: m2 :: s1 :: s2 :: chr "." :: frac ++ rest).
  change (two_digits ([h1; h2; m1; m2; s1; s2] ++ rest))
    with (two_digits (h1 :: h2 :: m1 :: m2 :: s1 :: s2 :: rest)).
  change (two_digits ([h1; h2; m1; m2; s1; s2] ++ chr "." :: frac ++ rest))
    with (two_digits
            (h1 :: h2 :: m1 :: m2 :: s1 :: s2 :: chr "." :: frac ++ rest)).
  rewrite Eh, Eh'.
  change (at_ (m1 :: m2 :: s1 :: s2 :: rest) 0) with m1.
  change (at_ (m1 :: m2 :: s1 :: s2 :: rest) 1) with m2.
  change (at_ (m1 :: m2 :: s1 :: s2 :: chr "." :: frac ++ rest) 0) with m1.
  change (at_ (m1 :: m2 :: s1 :: s2 :: chr "." :: frac ++ rest) 1) with m2.
  replace (is_digit m1) with true by auto.
  replace (is_digit m2) with true by auto.
  change (drop 2 (m1 :: m2 :: s1 :: s2 :: rest)) with (s1 :: s2 :: rest).
  change (drop 2 (m1 :: m2 :: s1 :: s2 :: chr "." :: frac ++ rest))
    with (s1 :: s2 :: chr "." :: frac ++ rest).
  rewrite Em, Em'.
  change (at_ (s1 :: s2 :: rest) 0) with s1.
  change (at_ (s1 :: s2 :: rest) 1) with s2.
  change (at_ (s1 :: s2 :: chr "." :: frac ++ rest) 0) with s1.
  change (at_ (s1 :: s2 :: chr "." :: frac ++ rest) 1) with s2.
  replace (is_digit s1) with true by auto.
  replace (is_digit s2) with true by auto.
  change (drop 2 (s1 :: s2 :: rest)) with rest.
  change (drop 2 (s1 :: s2 :: chr "." :: frac ++ rest))
    with (chr "." :: frac ++ rest).
  rewrite Es, Es'. rewrite !andb_true_r.
  change (at_ (chr "." :: frac ++ rest) 0 =? chr ".") with true.
  replace (at_ rest 0 =? chr ".") with false by (rewrite Hz; reflexivity).
  cbv iota. cbn [tl].
  rewrite (scan_fraction_run frac rest 0 0 3 Hf Hn) by lia.
  rewrite Z.sub_0_r, Z.add_0_l. change (Z.to_nat 3) with 3%nat.
  fold (decimal (take 3 frac)). rewrite Hz. cbn [Z.eqb andb].
  rewrite (u32_small (decimal _)) by lia.
  assert (Hfin :
    (let '(millis, data) :=
       if Z.of_nat (length (take 3 frac)) <? 3
       then (u32 (decimal (take 3 frac)
                  * nmea_scale (3 - Z.of_nat (length (take 3 frac)))), rest)
       else (decimal (take 3 frac), rest) in
     if at_ data 0 =? 0
     then Some ((h1 - 48) * 10 + (h2 - 48), (m1 - 48) * 10 + (m2 - 48),
                (s1 - 48) * 10 + (s2 - 48), millis)
     else None)
    = Some ((h1 - 48) * 10 + (h2 - 48), (m1 - 48) * 10 + (m2 - 48),
            (s1 - 48) * 10 + (s2 - 48),
            decimal (take 3 frac)
            * 10 ^ (3 - Z.of_nat (length (take 3 frac))))).
  { destruct (Z.ltb_spec (Z.of_nat (length (take 3 frac))) 3) as [Hlt|Hge].
    - rewrite nmea_scale_pow, Hz by lia. cbn [Z.eqb].
      rewrite u32_small by lia. reflexivity.
    - rewrite Hz. cbn [Z.eqb].
      replace (3 - Z.of_nat (length (take 3 frac))) with 0 by lia.
      change (10 ^ 0) with 1. rewrite Z.mul_1_r. reflexivity. }
  split.
  - intros (Hh & Hm & Hs).
    destruct (Z.ltb_spec ((h1 - 48) * 10 + (h2 - 48)) 24); [|lia].
    destruct (Z.ltb_spec ((m1 - 48) * 10 + (m2 - 48)) 60); [|lia].
    destruct (Z.leb_spec ((s1 - 48) * 10 + (s2 - 48)) 60); [|lia].
    split; [reflexivity | exact Hfin].
  - intros Hbad.
    destruct (Z.ltb_spec ((h1 - 48) * 10 + (h2 - 48)) 24);
      [|split; reflexivity].
    destruct (Z.ltb_spec ((m1 - 48) * 10 + (m2 - 48)) 60);
      [|split; reflexivity].
    destruct (Z.leb_spec ((s1 - 48) * 10 + (s2 - 48)) 60);
      [lia | split; reflexivity].
Qed.

(** The times 123519, 235960.5 and 240000. *)
Lemma nmea_parse_time_fields_witness :
  nmea_parse_time (bytes "123519" ++ []) = Some (12, 35, 19, 0)
  /\ nmea_parse_time (bytes "235960" ++ chr "." :: bytes "5" ++ [])
     = Some (23, 59, 60, 500)
  /\ nmea_parse_time (bytes "240000" ++ []) = None.
Proof.
  split; [|split].
  - apply (proj1 (nmea_parse_time_fields (chr "1") (chr "2") (chr "3")
                    (chr "5") (chr "1") (chr "9") [] [] eq_refl eq_refl
                    eq_refl)).
    vm_compute. repeat split; discriminate.
  - apply (proj1 (nmea_parse_time_fields (chr "2") (chr "3") (chr "5")
                    (chr "9") (chr "6") (chr "0") (bytes "5") [] eq_refl
                    eq_refl eq_refl)).
    vm_compute. repeat split; discriminate.
  - apply (proj2 (nmea_parse_time_fields (chr "2") (chr "4") (chr "0")
                    (chr "0") (chr "0") (chr "0") [] [] eq_refl eq_refl
                    eq_refl)).
    left. vm_compute. discriminate.
Defined.

(** X6: a location handed to the location callback has been cleaned:
    each field whose mask bit is clear reads zero (9999 for PDOP, HDOP
    and VDOP), a location without the TIME bit carries the GPS epoch
    (1980-01-06 00:00:00.000), no satellites and an empty mask, and a fix
    of type NONE has an empty mask.  This holds for every device and
    every stream on which the NMEA marking loop stays inside the
    satellite table (no cycle lists more than 32 satellites). *)
Theorem published_location_cleared d data :
  info_in_bounds (snd (gnss_receive d data)) = true ->
  trace_all location_reported (gnss_receive d data).
Proof.
  intros _. apply gnss_receive_every.
  - intros d0. unfold trace_all, gnss_location. cbv zeta. cbn [snd].
    destruct (location_callback d0); [|reflexivity].
    cbn [forallb location_reported].
    rewrite gnss_location_report_cleared. reflexivity.
  - intros d0. unfold trace_all, gnss_satellites. cbv zeta. cbn [snd].
    destruct (satellites_callback _); reflexivity.
  - intros e He. destruct e; try reflexivity; discriminate.
  - reflexivity.
  - reflexivity.
  - reflexivity.
  - reflexivity.
Qed.

(** One cycle of GGA, GSA, RMC and GSV. *)
Lemma published_location_cleared_witness :
  trace_all location_reported (gnss_receive nmea_receiver nmea_cycle).
Proof.
  apply (published_location_cleared nmea_receiver nmea_cycle).
  vm_compute. reflexivity.
Defined.

(** X7: the host's callbacks wait for the configuration.  When
    [device->init] has not reached GNSS_INIT_DONE by the end of a
    stream, no location and no satellites callback was made on it, and
    none is made by the byte that follows either, also when that byte
    completes the configuration: the first callback comes after the byte
    that sets GNSS_INIT_DONE.  Once GNSS_INIT_DONE is reached, no
    received byte leaves it. *)
Theorem callbacks_wait_for_init d data c :
  (init (fst (gnss_receive d data)) <> GNSS_INIT_DONE ->
   no_callback (snd (gnss_receive d (data ++ [c]))) = true)
  /\ (init d = GNSS_INIT_DONE ->
      init (fst (gnss_receive d data)) = GNSS_INIT_DONE).
Proof.
  split; [|apply gnss_receive_done].
  intros H. rewrite gnss_receive_app, bind_snd.
  unfold no_callback. rewrite forallb_app.
  change (fun e => negb (is_callback e)) with not_callback.
  rewrite (gnss_receive_wait data d H).
  change (gnss_receive (fst (gnss_receive d data)) [c])
    with (gnss_receive_byte (fst (gnss_receive d data)) c
          >>= fun d1 => gnss_receive d1 []).
  rewrite bind_snd, forallb_app.
  rewrite (proj2 (gnss_receive_byte_wait _ c H)). reflexivity.
Qed.

(** A u-blox receiver that is sent an RMC sentence right after
    [gnss_initialize], and an NMEA receiver, which needs no
    configuration. *)
Lemma callbacks_wait_for_init_witness :
  no_callback (snd (gnss_receive ublox_receiver (rmc_example ++ [10])))
  = true
  /\ init (fst (gnss_receive nmea_receiver nmea_cycle)) = GNSS_INIT_DONE.
Proof.
  split.
  - apply (proj1 (callbacks_wait_for_init ublox_receiver rmc_example 10)).
    vm_compute. intros H. discriminate H.
  - apply (proj2 (callbacks_wait_for_init nmea_receiver nmea_cycle 10)).
    reflexivity.
Defined.

(** X8: the stores into the 96-byte staging buffer.  From a device
    whose staging counters fit its framing state, as they do in the
    Start state, every store made while a stream is received has an
    index of at least 0 and at most 96, at most 95 when the stream holds
    no asterisk, and the counters fit the framing state again at the
    end of the stream. *)
Theorem rx_store_bounds d data :
  rx_inv d ->
  rx_inv (fst (gnss_receive d data))
  /\ trace_all (store_within 96) (gnss_receive d data)
  /\ (forallb (fun c => negb (c =? chr "*")) data = true ->
      trace_all (store_within 95) (gnss_receive d data)).
Proof.
  intros H. split; [apply (gnss_receive_staging data d H)|].
  split; [apply (gnss_receive_staging data d H)|].
  intros Hd. apply (gnss_receive_staging_plain data d Hd H).
Qed.

(** An NMEA receiver that is sent the RMC sentence of the
    specification. *)
Lemma rx_store_bounds_witness :
  rx_inv (fst (gnss_receive nmea_receiver rmc_example))
  /\ trace_all (store_within 96) (gnss_receive nmea_receiver rmc_example)
  /\ (forallb (fun c => negb (c =? chr "*")) rmc_example = true ->
      trace_all (store_within 95) (gnss_receive nmea_receiver rmc_example)).
Proof. apply (rx_store_bounds nmea_receiver rmc_example). exact I. Defined.

(** X9: the checksum characters of a sentence are compared with the
    uppercase digits of "0123456789ABCDEF": a sentence whose checksum is
    spelled with a lowercase letter never reaches the sentence
    finalizer, whatever its payload; the frame is dropped and the
    machine is back in the Start state. *)
Theorem nmea_lowercase_checksum_dropped d payload h1 h2 :
  (state d <=? GNSS_STATE_NMEA_END_LF) = true ->
  forallb nmea_payload_byte payload = true ->
  is_hex_digit h1 = true -> is_hex_digit h2 = true ->
  is_lower_hex h1 || is_lower_hex h2 = true ->
  let r := gnss_receive d (nmea_frame payload h1 h2) in
  nmea_checksum_ok payload h1 h2 = false
  /\ existsb is_nmea_end_sentence (snd r) = false
  /\ only_stores (snd r) = true
  /\ state (fst r) = GNSS_STATE_START.
Proof.
  intros Hs Hp H1 H2 Hl. cbv zeta.
  assert (Hok : nmea_checksum_ok payload h1 h2 = false).
  { unfold nmea_checksum_ok. apply andb_false_iff.
    apply orb_true_iff in Hl as [Hl|Hl]; [left | right];
      apply Z.eqb_neq; intros E; rewrite E, nmea_hex_not_lower in Hl;
      discriminate Hl. }
  destruct (nmea_frame_delivery d payload h1 h2 Hs Hp H1 H2) as (D1 & D2 & D3).
  rewrite Hok, andb_false_r in D2, D3.
  split; [exact Hok|]. split; [exact D2|]. split; [apply D3; reflexivity|].
  exact D1.
Qed.

(** The RMC sentence of the specification, its checksum 0x6A spelled
    6a. *)
Lemma nmea_lowercase_checksum_dropped_witness :
  nmea_checksum_ok
    (bytes "GPRMC,123519,A,4807.038,N,01131.000,E,022.4,084.4,230394,003.1,W")
    (chr "6") (chr "a") = false
  /\ existsb is_nmea_end_sentence
       (snd (gnss_receive nmea_receiver
          (nmea_frame
             (bytes "GPRMC,123519,A,4807.038,N,01131.000,E,022.4,084.4,230394,003.1,W")
             (chr "6") (chr "a")))) = false
  /\ only_stores
       (snd (gnss_receive nmea_receiver
          (nmea_frame
             (bytes "GPRMC,123519,A,4807.038,N,01131.000,E,022.4,084.4,230394,003.1,W")
             (chr "6") (chr "a")))) = true
  /\ state
       (fst (gnss_receive nmea_receiver
          (nmea_frame
             (bytes "GPRMC,123519,A,4807.038,N,01131.000,E,022.4,084.4,230394,003.1,W")
             (chr "6") (chr "a")))) = GNSS_STATE_START.
Proof.
  apply (nmea_lowercase_checksum_dropped nmea_receiver
           (bytes "GPRMC,123519,A,4807.038,N,01131.000,E,022.4,084.4,230394,003.1,W")
           (chr "6") (chr "a")); reflexivity.
Defined.

(** X10: the payload of a UBX message reaches its handler intact.  For
    a message other than NAV-SVINFO with at most 96 payload bytes,
    received from the Start state into the 96-byte staging buffer,
    every entry into [ubx_end_message] made while the frame is received
    carries the key of the message, the payload length as the count,
    and a buffer that starts with the payload bytes in order. *)
Theorem ubx_payload_handed_over d class id payload a b :
  state d = GNSS_STATE_START -> mode d = GNSS_MODE_UBLOX ->
  is_byte class = true -> (ubx_key class id =? 0x0130) = false ->
  length (rx_data d) = Z.to_nat GNSS_RX_DATA_SIZE ->
  Z.of_nat (length payload) <= GNSS_RX_DATA_SIZE ->
  Forall (ubx_delivery (ubx_key class id) payload)
    (snd (gnss_receive d (ubx_frame class id payload a b))).
Proof.
  intros Hs Hm Hc Hk Hd Hn.
  assert (Hl : Z.of_nat (length payload) < 65536)
    by (unfold GNSS_RX_DATA_SIZE in Hn; lia).
  unfold ubx_frame. rewrite gnss_receive_app, bind_snd.
  destruct (ubx_head_run (fun _ => True) d class id payload Hs Hm Hc Hl)
    as (R1 & _ & R3 & R4 & R5 & _); [auto | auto |].
  apply Forall_app. split.
  { apply ubx_delivery_quiet, stores_no_end_message, R1. }
  pose proof (ubx_head_data d class id payload Hs Hm Hc Hk Hd Hn) as Hdata.
  set (staged := fst (gnss_receive d (ubx_head class id payload))) in *.
  destruct (ubx_trailer staged a b R3) as (d2 & E2 & ->).
  rewrite bind_snd. apply Forall_app. split; [|constructor].
  destruct (_ && _); [|constructor].
  rewrite bind_snd. apply Forall_app.
  destruct (ubx_init_response_spec d2) as (D1 & D2 & _).
  split; [apply ubx_delivery_quiet, driver_no_end_message, D1|].
  set (d3 := fst (ubx_init_response d2)) in *.
  destruct (ubx_fits d3); [|constructor].
  assert (F : message (ubx d3) = ubx_key class id
              /\ rx_count d3 = Z.of_nat (length payload)
              /\ rx_data d3 = rx_data staged).
  { unfold staging_of in D2. unfold payload_of in E2.
    injection D2. injection E2. intros. repeat split; congruence. }
  destruct F as (F1 & F2 & F3).
  unfold ubx_end_message. rewrite bind_snd. cbn [emit fst snd app].
  constructor.
  - cbn [ubx_delivery]. rewrite F1, F2, F3. auto.
  - apply (trace_all_Forall _ _ _ (ubx_message_body_quiet _ _ _)).
    intros e He. apply ubx_delivery_other.
    apply negb_true_iff in He. exact He.
Qed.

(** A NAV-DOP message with the payload bytes 1 to 18, received by a
    running u-blox device. *)
Lemma ubx_payload_handed_over_witness :
  Forall (ubx_delivery (ubx_key 0x01 0x04) (map Z.of_nat (seq 1 18)))
    (snd (gnss_receive ublox_running
            (ubx_message 0x01 0x04 (map Z.of_nat (seq 1 18))))).
Proof.
  apply (ubx_payload_handed_over ublox_running 0x01 0x04
           (map Z.of_nat (seq 1 18))); try reflexivity.
  vm_compute. intros H. discriminate H.
Defined.

(** X11: the configuration driver works a command table off.  A
    u-blox device between two frames, past the baud-rate step, that
    waits for the reply to the command [cmd] with the commands of [l]
    still in its table, sends exactly these commands, in order, when the
    receiver answers [cmd] and each of them in turn; a UBX-ACK-NACK
    advances the table like a UBX-ACK-ACK.  After the last reply the
    table pointer is NULL, and a configuration in the init-table step
    is done. *)
Theorem ubx_replies_run_table l d cmd nack :
  ubx_driver_ready d -> command d = ubx_command cmd ->
  table d = Some (map fst l) ->
  Forall (fun c => 0 <= ubx_command c < 65536) (cmd :: map fst l) ->
  let r := gnss_receive d (ubx_replies ((cmd, nack) :: l)) in
  sent (snd r) = map fst l /\ table (fst r) = None
  /\ ubx_driver_ready (fst r)
  /\ init (fst r)
     = (if init d =? GNSS_INIT_UBX_INIT_TABLE then GNSS_INIT_DONE
        else init d).
Proof.
  intros Hr Hc Ht Hk.
  pose proof (ubx_table_run l d cmd nack Hr Hc (or_introl Ht) Hk) as H.
  cbv zeta in *. rewrite Ht in H. exact H.
Qed.

(** The SBAS table of [gnss_set_sbas], its first command in flight;
    every reply is an acknowledge but the second. *)
Lemma ubx_replies_run_table_witness :
  sent (snd (gnss_receive
               (ublox_configuring ubx_cfg_rxm_continuous
                  (tl ubx_sbas_enable_table))
               (ubx_replies
                  (combine ubx_sbas_enable_table
                     [false; true; false; false; false]))))
  = tl ubx_sbas_enable_table
  /\ table (fst (gnss_receive
                   (ublox_configuring ubx_cfg_rxm_continuous
                      (tl ubx_sbas_enable_table))
                   (ubx_replies
                      (combine ubx_sbas_enable_table
                         [false; true; false; false; false]))))
     = None.
Proof.
  assert (Hr : ubx_driver_ready
                 (ublox_configuring ubx_cfg_rxm_continuous
                    (tl ubx_sbas_enable_table))).
  { split; [reflexivity|]. split; [reflexivity|].
    split; [vm_compute; intros H; discriminate H | reflexivity]. }
  assert (Hk : Forall (fun c => 0 <= ubx_command c < 65536)
                 ubx_sbas_enable_table).
  { repeat (constructor;
              [vm_compute; split; [intros H; discriminate H | reflexivity]|]).
    constructor. }
  destruct (ubx_replies_run_table
              (combine (tl ubx_sbas_enable_table) [true; false; false; false])
              (ublox_configuring ubx_cfg_rxm_continuous
                 (tl ubx_sbas_enable_table))
              ubx_cfg_rxm_continuous false Hr eq_refl eq_refl Hk)
    as (H1 & H2 & _).
  split; [exact H1 | exact H2].
Defined.

(** X12: a reply to another command than the one in flight changes
    nothing: no command is sent, the table pointer, the command in
    flight and the init step stay as they are. *)
Theorem ubx_stray_reply_ignored d cmd nack :
  ubx_driver_ready d -> 0 <= ubx_command cmd < 65536 ->
  ubx_command cmd <> command d ->
  let r := gnss_receive d (ubx_reply nack cmd) in
  sent (snd r) = [] /\ table (fst r) = table d
  /\ command (fst r) = command d /\ init (fst r) = init d.
Proof.
  intros Hr Hk Hne. cbv zeta.
  destruct (ubx_reply_step d cmd nack Hr Hk) as (_ & S).
  cbv zeta in S. apply Z.eqb_neq in Hne. rewrite Hne in S. exact S.
Qed.

(** The device waits for the reply to CFG-PM2 and is sent the
    acknowledge of CFG-SAVE. *)
Lemma ubx_stray_reply_ignored_witness :
  sent (snd (gnss_receive (ublox_configuring ubx_cfg_pm2 [ubx_cfg_save])
               (ubx_reply false ubx_cfg_save))) = []
  /\ table (fst (gnss_receive (ublox_configuring ubx_cfg_pm2 [ubx_cfg_save])
                   (ubx_reply false ubx_cfg_save)))
     = table (ublox_configuring ubx_cfg_pm2 [ubx_cfg_save])
  /\ command (fst (gnss_receive (ublox_configuring ubx_cfg_pm2 [ubx_cfg_save])
                     (ubx_reply false ubx_cfg_save)))
     = command (ublox_configuring ubx_cfg_pm2 [ubx_cfg_save])
  /\ init (fst (gnss_receive (ublox_configuring ubx_cfg_pm2 [ubx_cfg_save])
                  (ubx_reply false ubx_cfg_save)))
     = init (ublox_configuring ubx_cfg_pm2 [ubx_cfg_save]).
Proof.
  apply (ubx_stray_reply_ignored
           (ublox_configuring ubx_cfg_pm2 [ubx_cfg_save]) ubx_cfg_save false).
  - split; [reflexivity|]. split; [reflexivity|].
    split; [vm_compute; intros H; discriminate H | reflexivity].
  - vm_compute. split; [intros H; discriminate H | reflexivity].
  - vm_compute. intros H. discriminate H.
Defined.

(** X13: one control at a time.  A control called while a command table
    is being worked off or a command is with the transport returns false
    and does nothing.  On an idle device in NMEA mode every control
    returns true and does nothing.  On an idle u-blox device every
    control returns true and sends the first of its commands, and the
    control called next is refused. *)
Theorem controls_one_at_a_time c c' d :
  (gnss_done d = false -> gnss_control c d = (false, ret d))
  /\ (gnss_done d = true -> mode d = GNSS_MODE_NMEA ->
      gnss_control c d = (true, ret d))
  /\ (gnss_done d = true -> mode d = GNSS_MODE_UBLOX ->
      fst (gnss_control c d) = true
      /\ sent (snd (snd (gnss_control c d)))
         = [hd [] (ubx_control_commands c)]
      /\ gnss_control c' (fst (snd (gnss_control c d)))
         = (false, ret (fst (snd (gnss_control c d))))).
Proof.
  assert (Hno : forall c0 d0,
             gnss_done d0 = false -> gnss_control c0 d0 = (false, ret d0)).
  { intros c0 d0 H. destruct c0; cbn [gnss_control];
      unfold gnss_set_external, gnss_set_constellation, gnss_set_sbas,
        gnss_set_qzss, gnss_set_periodic, gnss_sleep, gnss_wakeup;
      rewrite H; reflexivity. }
  split; [apply Hno|]. split.
  - intros Hd Hm. destruct c; cbn [gnss_control];
      unfold gnss_set_external, gnss_set_constellation, gnss_set_sbas,
        gnss_set_qzss, gnss_set_periodic, gnss_sleep, gnss_wakeup;
      rewrite Hd, Hm; reflexivity.
  - intros Hd Hm.
    destruct (ubx_control_start c d Hd Hm)
      as (H1 & c0 & rest & E & H2 & _ & H3 & _).
    cbv zeta in *. rewrite E. cbn [hd].
    split; [exact H1|]. split; [exact H2|].
    apply Hno. unfold gnss_done.
    destruct (table _); [reflexivity|]. rewrite H3. reflexivity.
Qed.

(** A u-blox device that is working its init table off, and an idle
    one, which is asked to sleep and then to wake up. *)
Lemma controls_one_at_a_time_witness :
  gnss_control (Set_sbas true) ublox_receiver = (false, ret ublox_receiver)
  /\ gnss_control Wakeup (fst (snd (gnss_control Sleep ublox_running)))
     = (false, ret (fst (snd (gnss_control Sleep ublox_running)))).
Proof.
  split.
  - apply (proj1 (controls_one_at_a_time (Set_sbas true) Sleep ublox_receiver)).
    reflexivity.
  - apply (proj2 (proj2 (controls_one_at_a_time Sleep Wakeup ublox_running)));
      reflexivity.
Defined.

(** X14: an accepted control runs to completion.  On an idle u-blox
    device between two frames, a control sends the first of its
    commands; when the receiver answers each command in turn, with an
    acknowledge or not, the others are sent in order, and once the
    transport is done with the last one the device is idle again.  A
    table control keeps the device busy until then, also while the
    transport is idle. *)
Theorem control_completes c nacks d :
  ubx_driver_ready d -> gnss_done d = true ->
  length nacks = length (ubx_control_commands c) ->
  let r0 := snd (gnss_control c d) in
  let r := gnss_receive (fst r0)
             (ubx_replies (combine (ubx_control_commands c) nacks)) in
  sent (snd r0) ++ sent (snd r) = ubx_control_commands c
  /\ gnss_done (gnss_send_callback (fst r)) = true
  /\ (table_control c = true ->
      gnss_done (gnss_send_callback (fst r0)) = false).
Proof.
  intros Hr Hd Hn. cbv zeta.
  destruct Hr as (Hs & Hm & Hi & Hz).
  destruct (ubx_control_start c d Hd Hm)
    as (_ & c0 & rest & E & H2 & H3 & H4 & H5 & H6 & H7 & H8 & H9 & H10).
  cbv zeta in *.
  set (d0 := fst (snd (gnss_control c d))) in *.
  pose proof (ubx_control_commands_ok c) as Hok. rewrite E in *.
  destruct nacks as [|n0 nacks]; [discriminate Hn|].
  cbn [length] in Hn. injection Hn as Hn.
  cbn [combine].
  assert (Hmap : map fst (combine rest nacks) = rest).
  { clear -Hn. revert nacks Hn.
    induction rest as [|x rest IH]; intros [|n nacks] Hn;
      try discriminate Hn; [reflexivity|].
    cbn [combine map fst]. f_equal. apply IH. simpl in Hn. lia. }
  assert (Hr0 : ubx_driver_ready d0).
  { unfold ubx_driver_ready. rewrite H7, H8, H9, H10. auto. }
  assert (Ht : table d0 = Some (map fst (combine rest nacks))
               \/ (table d0 = None /\ combine rest nacks = [])).
  { rewrite H5, Hmap. destruct (table_control c); [left; reflexivity|].
    right. rewrite (H6 eq_refl). auto. }
  rewrite <- Hmap in Hok.
  destruct (ubx_table_run (combine rest nacks) d0 c0 n0 Hr0 H3 Ht Hok)
    as (R1 & R2 & _).
  cbv zeta in *. rewrite H2, R1, Hmap.
  split; [reflexivity|]. split.
  - unfold gnss_done, gnss_send_callback. record_cbn. rewrite R2. reflexivity.
  - intros Htc. unfold gnss_done, gnss_send_callback. record_cbn.
    rewrite H5, Htc. reflexivity.
Qed.

(** [gnss_set_sbas(true)] on a running u-blox device; the receiver
    acknowledges the five commands. *)
Lemma control_completes_witness :
  sent (snd (snd (gnss_control (Set_sbas true) ublox_running)))
  ++ sent (snd (gnss_receive
                  (fst (snd (gnss_control (Set_sbas true) ublox_running)))
                  (ubx_replies
                     (combine (ubx_control_commands (Set_sbas true))
                        [false; false; false; false; false]))))
  = ubx_control_commands (Set_sbas true)
  /\ gnss_done
       (gnss_send_callback
          (fst (gnss_receive
                  (fst (snd (gnss_control (Set_sbas true) ublox_running)))
                  (ubx_replies
                     (combine (ubx_control_commands (Set_sbas true))
                        [false; false; false; false; false]))))) = true.
Proof.
  assert (Hr : ubx_driver_ready ublox_running).
  { split; [reflexivity|]. split; [reflexivity|].
    split; [vm_compute; intros H; discriminate H | reflexivity]. }
  destruct (control_completes (Set_sbas true)
              [false; false; false; false; false] ublox_running
              Hr eq_refl eq_refl) as (H1 & H2 & _).
  split; [exact H1 | exact H2].
Defined.

(** X15: a frame sealed by [ubx_checksum] passes the receiver.  Behind
    sync bytes, header and a payload shorter than 65536 bytes,
    [ubx_checksum] writes the Fletcher sums that the receiving side of
    the same file computes; and the sealed frame, received from the Start
    state in u-blox mode, is handed to [ubx_end_message] when it is no
    NAV-SVINFO and its payload has at most 96 bytes. *)
Theorem ubx_checksum_round_trip d class id payload x y :
  let frame := ubx_checksum (ubx_head class id payload ++ [x; y]) in
  (Z.of_nat (length payload) < 65536 ->
   frame = ubx_message class id payload)
  /\ (state d = GNSS_STATE_START -> mode d = GNSS_MODE_UBLOX ->
      is_byte class = true -> (ubx_key class id =? 0x0130) = false ->
      Z.of_nat (length payload) <= GNSS_RX_DATA_SIZE ->
      existsb is_ubx_end_message (snd (gnss_receive d frame)) = true).
Proof.
  cbv zeta. split; [intros Hl; apply ubx_checksum_seals, Hl|].
  intros Hs Hm Hc Hk Hn.
  assert (Hl : Z.of_nat (length payload) < 65536)
    by (unfold GNSS_RX_DATA_SIZE in Hn; lia).
  rewrite ubx_checksum_seals by exact Hl.
  unfold ubx_message.
  destruct (ubx_frame_delivery d class id payload
              (fst (fletcher8 (ubx_body class id payload)))
              (snd (fletcher8 (ubx_body class id payload))) Hs Hm Hc Hl)
    as (_ & D & _).
  destruct (ubx_plain_staged d class id payload Hs Hm Hc Hl Hk)
    as (_ & _ & _ & _ & P & _).
  cbv zeta in *. rewrite D, P. unfold ubx_checksum_ok.
  rewrite !Z.eqb_refl. apply Z.leb_le in Hn. rewrite Hn. reflexivity.
Qed.

(** The CFG-RXM frame of [ubx_cfg_rxm_powersave], its checksum bytes
    not yet written. *)
Lemma ubx_checksum_round_trip_witness :
  ubx_checksum (ubx_head 0x06 0x11 [0x00; 0x01] ++ [0; 0])
  = ubx_cfg_rxm_powersave
  /\ existsb is_ubx_end_message
       (snd (gnss_receive ublox_running
               (ubx_checksum (ubx_head 0x06 0x11 [0x00; 0x01] ++ [0; 0]))))
     = true.
Proof.
  destruct (ubx_checksum_round_trip ublox_running 0x06 0x11 [0x00; 0x01] 0 0)
    as (H1 & H2).
  split.
  - rewrite H1; [reflexivity | simpl; lia].
  - apply H2; try reflexivity. vm_compute. intros H. discriminate H.
Defined.

(** X16: the frame that [gnss_set_periodic] builds is, for every
    on-time, period and force flag, the UBX-CFG-PM2 message (class 0x06,
    id 0x3B, 44 payload bytes) with version 1, the update and the search
    period in little-endian milliseconds at payload offsets 8 and 12,
    the on-time at offset 20, and the Fletcher sums behind it; its
    command key is 0x063B. *)
Theorem gnss_set_periodic_frame onTime period force :
  ubx_cfg_pm2_periodic onTime period force
  = ubx_message 0x06 0x3b (pm2_payload onTime period force)
  /\ length (pm2_payload onTime period force) = 44%nat
  /\ ubx_command (ubx_cfg_pm2_periodic onTime period force) = 0x063b.
Proof.
  split; [apply ubx_cfg_pm2_periodic_frame|]. split.
  - unfold pm2_payload. cbv zeta. rewrite !length_app. reflexivity.
  - apply ubx_command_pm2_periodic.
Qed.

(** X17: start-up of a u-blox receiver.  [gnss_initialize] in u-blox
    mode sends the baud-rate sentence and nothing else.  The first UBX
    frame that arrives then (of a class other than NAV and ACK, with at
    most 96 payload bytes) makes the driver send the first command of
    the init table for the rate; when the receiver answers each command
    in turn, with an acknowledge or not, the whole table is sent, in
    order and nothing else, after which the init step is DONE and the
    table pointer NULL. *)
Theorem ublox_start_up rate speed lc sc d0 class id payload nacks :
  length (rx_data d0) = Z.to_nat GNSS_RX_DATA_SIZE ->
  is_byte class = true -> is_byte id = true ->
  class <> 0x01 -> class <> 0x05 ->
  Z.of_nat (length payload) <= GNSS_RX_DATA_SIZE ->
  length nacks = length (ubx_init_table rate) ->
  let r0 := gnss_initialize GNSS_MODE_UBLOX rate speed lc sc d0 in
  let r1 := gnss_receive (fst r0) (ubx_message class id payload) in
  let r2 := gnss_receive (fst r1)
              (ubx_replies (combine (ubx_init_table rate) nacks)) in
  sent (snd r0) = [ubx_uart_data speed]
  /\ init (fst r0) = GNSS_INIT_UBX_BAUD_RATE
  /\ sent (snd r1) = [hd [] (ubx_init_table rate)]
  /\ init (fst r1) = GNSS_INIT_UBX_INIT_TABLE
  /\ sent (snd r1) ++ sent (snd r2) = ubx_init_table rate
  /\ init (fst r2) = GNSS_INIT_DONE /\ table (fst r2) = None.
Proof.
  intros Hd Hc Hid Hn1 Hn5 Hn Hl. cbv zeta.
  destruct (ubx_init_table_ok rate) as [Hok Hne].
  set (r0 := gnss_initialize GNSS_MODE_UBLOX rate speed lc sc d0).
  assert (I : sent (snd r0) = [ubx_uart_data speed]
              /\ state (fst r0) = GNSS_STATE_START
              /\ mode (fst r0) = GNSS_MODE_UBLOX
              /\ init (fst r0) = GNSS_INIT_UBX_BAUD_RATE
              /\ table (fst r0) = Some (ubx_init_table rate)
              /\ rx_data (fst r0) = rx_data d0).
  { unfold r0, gnss_initialize, ubx_init_table. cbv zeta.
    change (GNSS_MODE_UBLOX =? GNSS_MODE_UBLOX) with true. cbv iota.
    cbn [emit fst snd sent]. record_cbn. repeat split; reflexivity. }
  destruct I as (I1 & I2 & I3 & I4 & I5 & I6).
  clearbody r0.
  destruct (ubx_init_table rate) as [|c0 rest] eqn:ET; [congruence|].
  destruct nacks as [|n0 nacks]; [discriminate Hl|].
  cbn [length] in Hl. injection Hl as Hl.
  destruct (ubx_baud_rate_step (fst r0) class id payload c0 rest
              I2 I3 I4 I5) as (B1 & B2 & B3 & B4 & B5); try assumption.
  { rewrite I6. exact Hd. }
  cbv zeta in *.
  set (r1 := gnss_receive (fst r0) (ubx_message class id payload)) in *.
  clearbody r1. cbn [combine hd].
  pose proof (map_fst_combine rest nacks Hl) as Hmap.
  rewrite <- Hmap in Hok, B3.
  destruct (ubx_table_run (combine rest nacks) (fst r1) c0 n0 B1 B4
              (or_introl B3) Hok) as (R1 & R2 & _ & R4).
  cbv zeta in *. rewrite B3, B5 in R4.
  rewrite I1, B2, R1, Hmap.
  repeat split; try reflexivity; assumption.
Qed.

(** Start-up at 1 Hz and 9600 baud; the first frame is a UBX-MON-VER
    without payload, and the receiver acknowledges the 19 commands. *)
Lemma ublox_start_up_witness :
  sent (snd (gnss_receive
               (fst (gnss_initialize GNSS_MODE_UBLOX 1 9600 true true
                       gnss_device))
               (ubx_message 0x0a 0x04 [])))
  ++ sent (snd (gnss_receive
               (fst (gnss_receive
                       (fst (gnss_initialize GNSS_MODE_UBLOX 1 9600 true true
                               gnss_device))
                       (ubx_message 0x0a 0x04 [])))
               (ubx_replies (combine (ubx_init_table 1) (repeat false 19)))))
  = ubx_init_table 1
  /\ init (fst (gnss_receive
               (fst (gnss_receive
                       (fst (gnss_initialize GNSS_MODE_UBLOX 1 9600 true true
                               gnss_device))
                       (ubx_message 0x0a 0x04 [])))
               (ubx_replies (combine (ubx_init_table 1) (repeat false 19)))))
     = GNSS_INIT_DONE.
Proof.
  assert (Hn : Z.of_nat (length (@nil Z)) <= GNSS_RX_DATA_SIZE)
    by (vm_compute; intros Hx; discriminate Hx).
  assert (H1 : (10 : Z) <> 0x01) by (intros Hx; discriminate Hx).
  assert (H5 : (10 : Z) <> 0x05) by (intros Hx; discriminate Hx).
  pose proof (ublox_start_up 1 9600 true true gnss_device 0x0a 0x04 []
              (repeat false 19) eq_refl eq_refl eq_refl H1 H5 Hn eq_refl)
    as (_ & _ & _ & _ & E2 & E3 & _).
  split; [exact E2 | exact E3].
Defined.

(** X18: a control runs to completion on a MediaTek receiver.  On an
    idle device in MediaTek mode between two frames, every control
    returns true; [gnss_set_constellation], [gnss_set_sbas] and
    [gnss_set_qzss] send the first command of their table, and when the
    receiver acknowledges each command in turn with a $PMTK001 sentence,
    whatever its flag, the others are sent in order; the other controls
    send nothing.  Once the transport is done with the last command the
    device is idle again. *)
Theorem mtk_control_completes c flags d :
  mtk_driver_ready d -> mode d = GNSS_MODE_MEDIATEK -> gnss_done d = true ->
  length flags = length (mtk_control_commands c) ->
  Forall (fun f => 0 <= f <= 9) flags ->
  let r0 := snd (gnss_control c d) in
  let r := gnss_receive (fst r0)
             (mtk_replies (combine (mtk_control_commands c) flags)) in
  fst (gnss_control c d) = true
  /\ sent (snd r0) ++ sent (snd r) = mtk_control_commands c
  /\ gnss_done (gnss_send_callback (fst r)) = true.
Proof.
  intros Hr Hm Hd Hn Hf. cbv zeta.
  destruct (mtk_control_start c d Hd Hm) as (H1 & H2). cbv zeta in H2.
  split; [exact H1|].
  pose proof (mtk_control_commands_ok c) as Hok.
  destruct (mtk_control_commands c) as [|c0 rest].
  - rewrite H2. cbn [combine mtk_replies map concat gnss_receive ret fst snd].
    split; [reflexivity|].
    destruct (gnss_done_idle d Hd) as [Ht Hb].
    unfold gnss_done, gnss_send_callback. record_cbn. rewrite Ht. reflexivity.
  - destruct H2 as (M1 & M2 & M3 & M4 & M5 & M6 & M7 & M8).
    destruct flags as [|f0 flags]; [discriminate Hn|].
    cbn [length] in Hn. injection Hn as Hn. cbn [combine].
    set (d0 := fst (snd (gnss_control c d))) in *.
    destruct Hr as (Hs & Hi1 & Hi2 & Hl).
    assert (Hr0 : mtk_driver_ready d0).
    { unfold mtk_driver_ready. rewrite M5, M7, M8. auto. }
    pose proof (map_fst_combine rest flags Hn) as Hmap.
    assert (Hmap2 : map snd (combine rest flags) = flags).
    { clear -Hn. revert flags Hn.
      induction rest as [|x rest IH]; intros [|y flags] Hn;
        try discriminate Hn; [reflexivity|].
      cbn [combine map snd]. f_equal. apply IH. simpl in Hn. lia. }
    rewrite <- Hmap in Hok, M4. rewrite <- Hmap2 in Hf.
    destruct (mtk_table_run (combine rest flags) d0 c0 f0 Hr0 M2 M4 Hok Hf)
      as (R1 & R2 & _).
    cbv zeta in *. rewrite M1, R1, Hmap.
    split; [reflexivity|].
    unfold gnss_done, gnss_send_callback. record_cbn. rewrite R2. reflexivity.
Qed.

(** [gnss_set_sbas(true)] on a MediaTek receiver; the first command is
    answered with the flag 3 (success), the second with 2 (failed). *)
Lemma mtk_control_completes_witness :
  sent (snd (snd (gnss_control (Set_sbas true) mtk_running)))
  ++ sent (snd (gnss_receive
                  (fst (snd (gnss_control (Set_sbas true) mtk_running)))
                  (mtk_replies
                     (combine (mtk_control_commands (Set_sbas true)) [3; 2]))))
  = mtk_control_commands (Set_sbas true).
Proof.
  assert (Hr : mtk_driver_ready mtk_running).
  { split; [reflexivity|].
    split; [vm_compute; intros Hx; discriminate Hx|].
    split; [vm_compute; intros Hx; discriminate Hx | reflexivity]. }
  assert (Hf : Forall (fun f => 0 <= f <= 9) [3; 2]).
  { repeat (constructor;
              [split; vm_compute; intros Hx; discriminate Hx|]).
    constructor. }
  destruct (mtk_control_completes (Set_sbas true) [3; 2] mtk_running
              Hr eq_refl eq_refl eq_refl Hf) as (_ & H2 & _).
  exact H2.
Defined.



(** X20: an idle driver never transmits.  Once the configuration is
    over and no command is in flight ([device->command] is ~0), a
    received byte stream on which the NMEA marking loop stays inside the
    satellite table (no cycle lists more than 32 satellites) does not
    make the driver call the send routine or touch its timer, and does
    not change the table pointer, the busy flag, the init step or the
    command in flight: an acknowledge that nobody waits for is
    ignored. *)
Theorem idle_driver_silent d data :
  driver_idle d ->
  info_in_bounds (snd (gnss_receive d data)) = true ->
  let r := gnss_receive d data in
  forallb not_driver_event (snd r) = true
  /\ driver_idle (fst r)
  /\ table (fst r) = table d /\ busy (fst r) = busy d.
Proof.
  intros (Hi & Hc & Hm) _. cbv zeta.
  assert (H : idle_at (idle_key (table d) (busy d)) d).
  { split; [|exact Hm]. unfold driver_of, idle_key. congruence. }
  destruct (gnss_receive_idle _ _ data d H) as [[H1 H2] H3].
  unfold driver_of, idle_key in H1. injection H1 as E1 E2 E3 E4.
  split; [exact H3|]. split; [|auto].
  split; [exact E1|]. split; [exact E2 | exact H2].
Qed.

(** A running u-blox device is sent the acknowledge of a command that
    it did not send, and an RMC sentence. *)
Lemma idle_driver_silent_witness :
  forallb not_driver_event
    (snd (gnss_receive ublox_running
            (ubx_reply false ubx_cfg_save ++ rmc_example))) = true
  /\ table (fst (gnss_receive ublox_running
                   (ubx_reply false ubx_cfg_save ++ rmc_example)))
     = table ublox_running.
Proof.
  assert (H : driver_idle ublox_running).
  { split; [reflexivity|]. split; [reflexivity|].
    split; vm_compute; [intros Hx; discriminate Hx | reflexivity]. }
  assert (Hb : info_in_bounds
                 (snd (gnss_receive ublox_running
                         (ubx_reply false ubx_cfg_save ++ rmc_example)))
               = true) by (vm_compute; reflexivity).
  destruct (idle_driver_silent ublox_running
              (ubx_reply false ubx_cfg_save ++ rmc_example) H Hb)
    as (H1 & _ & H2 & _).
  split; [exact H1 | exact H2].
Defined.

(** X21: a navigation cycle of a u-blox receiver.  A configured device
    at the start of a cycle that receives NAV-DOP, NAV-PVT and
    NAV-TIMEGPS of one epoch (the same iTOW), the NAV-PVT with a 3D fix
    and a valid date and time, the NAV-TIMEGPS with a valid week, makes
    exactly one callback: the location callback, with a 3D fix, every
    field marked valid, the position, altitude, speed and course of the
    NAV-PVT payload and the dilutions of precision of the NAV-DOP
    payload.  No satellites callback is made: NAV-SVINFO is still
    waited for. *)
Theorem ubx_nav_cycle_published d dop pvt tg :
  ubx_navigating d -> location_callback d = true ->
  (seen d = 0 /\ mask (location d) = 0)
  \/ (test_mask (seen d) UBX_NAV_MESSAGES = true
      /\ itow (ubx d) <> ubx_data_uint32 dop 0) ->
  length dop = 18%nat -> length pvt = 92%nat -> length tg = 16%nat ->
  ubx_data_uint32 pvt 0 = ubx_data_uint32 dop 0 ->
  ubx_data_uint32 tg 0 = ubx_data_uint32 dop 0 ->
  at_ pvt 20 = 3 -> Z.land (at_ pvt 11) 0x03 = 0x03 ->
  u8 (ubx_data_uint16 pvt 4 - 1980) <> 0 ->
  Z.land (at_ tg 11) 0x03 = 0x03 ->
  2 <= ubx_data_uint16 tg 8 < 65535 ->
  let r := gnss_receive d
             (ubx_message 0x01 0x04 dop ++ ubx_message 0x01 0x07 pvt
              ++ ubx_message 0x01 0x20 tg) in
  exists l,
    callbacks (snd r) = [Location_callback l]
    /\ type l = GNSS_LOCATION_TYPE_3D /\ mask l = GNSS_LOCATION_MASK_ALL
    /\ latitude l = ubx_data_int32 pvt 28
    /\ longitude l = ubx_data_int32 pvt 24
    /\ altitude l = ubx_data_int32 pvt 36
    /\ speed l = ubx_data_int32 pvt 60
    /\ course l = ubx_data_int32 pvt 64
    /\ pdop l = ubx_data_uint16 dop 6
    /\ hdop l = ubx_data_uint16 dop 12
    /\ vdop l = ubx_data_uint16 dop 10.
Proof.
  intros Hn Hcb Hstart Ldop Lpvt Ltg Ipvt Itg Hfix Hvalid Hyear Hweek Hw.
  cbv zeta.
  rewrite gnss_receive_app, bind_snd, callbacks_app.
  destruct (ubx_nav_dop_frame d dop Hn Hstart Ldop)
    as (D1 & D2 & D3 & D4 & D5 & D6 & D7 & D8 & D9).
  cbv zeta in *.
  set (d1 := fst (gnss_receive d (ubx_message 1 4 dop))) in *.
  rewrite D1. clearbody d1. clear D1.
  rewrite gnss_receive_app, bind_snd, callbacks_app.
  destruct (ubx_nav_pvt_frame d1 pvt D2 D4) as
    (P1 & P2 & P3 & P4 & P5 & P6 & P7 & P8 & P9 & P10 & P11 & P12 & P13
     & P14 & P15 & P16); try assumption.
  { rewrite D5. symmetry. exact Ipvt. }
  cbv zeta in *.
  set (d2 := fst (gnss_receive d1 (ubx_message 1 7 pvt))) in *.
  rewrite P1. clearbody d2. clear P1.
  rewrite (ubx_nav_timegps_frame d2 tg P2); try assumption.
  - cbn [app]. eexists. split; [reflexivity|]. record_cbn.
    repeat split; try assumption; try reflexivity; congruence.
  - rewrite P3, D3. exact Hcb.
  - rewrite P5, D5. symmetry. exact Itg.
  - rewrite P8. exact Hyear.
Qed.

(** A running u-blox device receives the three example frames; the
    position handed to the host is the one of the NAV-PVT payload. *)
Lemma ubx_nav_cycle_published_witness :
  published_positions
    (callbacks
       (snd (gnss_receive ublox_running
               (ubx_message 0x01 0x04 nav_dop_example
                ++ ubx_message 0x01 0x07 nav_pvt_example
                ++ ubx_message 0x01 0x20 nav_timegps_example))))
  = [(0x1c9c3800, 0x06de8a80)].
Proof.
  assert (Hn : ubx_navigating ublox_running)
    by (repeat split; reflexivity).
  assert (Hy : u8 (ubx_data_uint16 nav_pvt_example 4 - 1980) <> 0)
    by (vm_compute; intros Hx; discriminate Hx).
  assert (Hw : 2 <= ubx_data_uint16 nav_timegps_example 8 < 65535)
    by (vm_compute; split; [intros Hx; discriminate Hx | reflexivity]).
  destruct (ubx_nav_cycle_published ublox_running nav_dop_example
              nav_pvt_example nav_timegps_example Hn eq_refl
              (or_introl (conj eq_refl eq_refl)) eq_refl eq_refl eq_refl
              eq_refl eq_refl eq_refl eq_refl Hy eq_refl Hw)
    as (l & H1 & _ & _ & H2 & H3 & _).
  rewrite H1. cbn [published_positions flat_map app].
  rewrite H2, H3. reflexivity.
Defined.

(** X22: an NMEA receiver reports no satellite count.  In the NMEA and
    MediaTek modes, outside a UBX frame and with [sv_used_count] at 0 (as
    [gnss_initialize] leaves it), every location that a received byte
    stream hands to the location callback has [numsv] 0, whatever the GSA
    sentences list: [numsv] is taken from [sv_used_count], which the
    sentence handlers clear and never increment.  The receiver stays in
    that condition.  The streams are those on which the marking loop
    stays inside the satellite table (no cycle lists more than 32
    satellites). *)
Theorem nmea_numsv_never_counted d data :
  nmea_receiving d ->
  info_in_bounds (snd (gnss_receive d data)) = true ->
  let r := gnss_receive d data in
  forallb no_numsv (snd r) = true /\ nmea_receiving (fst r).
Proof.
  intros H _. cbv zeta.
  destruct (gnss_receive_uncounted data d H) as [H1 H2].
  split; [exact H2 | exact H1].
Qed.

(** The GSA sentence of the cycle lists five satellites; the fix is
    published with a count of 0. *)
Lemma nmea_numsv_never_counted_witness :
  published_numsv (snd (gnss_receive nmea_receiver nmea_cycle)) = [0]
  /\ forallb no_numsv (snd (gnss_receive nmea_receiver nmea_cycle)) = true.
Proof.
  split; [vm_compute; reflexivity|].
  apply (nmea_numsv_never_counted nmea_receiver nmea_cycle);
    [|vm_compute; reflexivity].
  split; [intros Hx; discriminate Hx|].
  split; [|reflexivity].
  split; intros Hx; discriminate Hx.
Defined.

(** X23: a GSA PRN field adds its satellite to the set of the satellites
    in use, and nothing else.  When the field parses as [svid], the test
    that the GSV marking loop makes for an id [svid'] of 1..96 answers as
    before, except that it now holds for [svid] itself if [svid] is in
    1..96 (an id outside 1..96 is dropped); when the field does not parse,
    the set is cleared and the rest of the sentence is skipped.  The three
    words of [sv_used_mask] stay three. *)
Theorem gsa_prn_field_marks d data svid' :
  NMEA_FIELD_SEQUENCE_GSA_SV_USED_PRN_1 <= sequence (nmea d)
    <= NMEA_FIELD_SEQUENCE_GSA_SV_USED_PRN_12 ->
  length (sv_used_mask (nmea d)) = 3%nat ->
  at_ data 0 <> 0 -> 1 <= svid' <= 96 ->
  let d' := nmea_parse_sentence d data in
  length (sv_used_mask (nmea d')) = 3%nat
  /\ match nmea_parse_unsigned data with
     | Some svid =>
         sv_used_test (nmea d') svid'
         = ((1 <=? svid) && (svid <=? 96) && (svid' =? svid))
           || sv_used_test (nmea d) svid'
         /\ sequence (nmea d') = sequence (nmea d) + 1
     | None =>
         sv_used_test (nmea d') svid' = false
         /\ sequence (nmea d') = NMEA_FIELD_SEQUENCE_SKIP
     end.
Proof.
  intros Hq Hl Hd Hs'. cbv zeta.
  rewrite (gsa_prn_field_step d data Hq Hd).
  destruct (nmea_parse_unsigned data) as [svid|].
  - destruct ((1 <=? svid) && (svid <=? 96)) eqn:Hr.
    + apply andb_true_iff in Hr. destruct Hr as [H1 H2].
      apply Z.leb_le in H1. apply Z.leb_le in H2.
      split; [|split].
      * change (length (<[Z.to_nat (Z.shiftr (svid - 1) 5) :=
                  Z.lor (nth (Z.to_nat (Z.shiftr (svid - 1) 5))
                           (sv_used_mask (nmea d)) 0)
                        (Z.shiftl 1 (Z.land (svid - 1) 31))]>
                  (sv_used_mask (nmea d))) = 3%nat).
        rewrite length_insert. exact Hl.
      * change (sv_used_test (sv_used_set svid (nmea d)) svid'
                = true && (svid' =? svid) || sv_used_test (nmea d) svid').
        apply sv_used_test_set; [exact Hl | lia | exact Hs'].
      * reflexivity.
    + split; [exact Hl|]. split; reflexivity.
  - split; [reflexivity|]. split; [|reflexivity].
    apply (sv_used_test_reset d svid' Hs').
Qed.

(** Ids 5 and 37 share a bit position in different words: the field
    "37" does not mark 5. *)
Lemma gsa_prn_field_marks_witness :
  sv_used_test
    (nmea (nmea_parse_sentence
             (upd_nmea (set_sequence NMEA_FIELD_SEQUENCE_GSA_SV_USED_PRN_1)
                nmea_receiver) (bytes "37"))) 5
  = false.
Proof.
  assert (Hq : NMEA_FIELD_SEQUENCE_GSA_SV_USED_PRN_1
               <= sequence (nmea (upd_nmea
                    (set_sequence NMEA_FIELD_SEQUENCE_GSA_SV_USED_PRN_1)
                    nmea_receiver))
               <= NMEA_FIELD_SEQUENCE_GSA_SV_USED_PRN_12)
    by (split; intros Hx; discriminate Hx).
  assert (Hd : at_ (bytes "37") 0 <> 0) by (intros Hx; discriminate Hx).
  assert (Hs : 1 <= 5 <= 96) by lia.
  exact (proj1 (proj2 (gsa_prn_field_marks _ (bytes "37") 5 Hq eq_refl Hd Hs))).
Defined.

(** X24: the satellite count of the GSV path is not bounded by the
    table.  The SNR field that closes the record of a satellite
    increments [satellites.count] also when the 32 entries are used (the
    record itself is not stored then), and when the satellites are
    published with a count above 32, the marking loop of
    [nmea_end_sentence] accesses [info[n]] for every [n] from 32 up to
    the count, behind the table. *)
Theorem nmea_marking_loop_overrun :
  (forall d data snr,
     sequence (nmea d) = NMEA_FIELD_SEQUENCE_GSV_SV_IN_VIEW_SNR ->
     unsigned_or 0 data = Some snr ->
     GNSS_SATELLITES_COUNT_MAX <= count (satellites d) ->
     count (satellites (nmea_parse_sentence d data))
     = u32 (count (satellites d) + 1)
     /\ info (satellites (nmea_parse_sentence d data)) = info (satellites d))
  /\ (forall d n,
        solution d = true ->
        Z.land (seen d) (Z.land (expected d) NMEA_SATELLITES_SENTENCES)
        = Z.land (expected d) NMEA_SATELLITES_SENTENCES ->
        GNSS_SATELLITES_COUNT_MAX <= n < count (satellites d) ->
        In (Info_overrun n) (snd (nmea_publish_satellites d))).
Proof.
  split.
  - intros d data snr Hseq Hp Hn.
    unfold nmea_parse_sentence. rewrite Hseq. cbv beta iota zeta.
    unfold nmea_parse_gsv_sv. cbv beta iota zeta. rewrite Hp.
    replace (count (satellites d) <? GNSS_SATELLITES_COUNT_MAX) with false
      by (symmetry; apply Z.ltb_ge; exact Hn).
    cbn [andb]. destruct (_ || _); split; reflexivity.
  - intros d n Hs He Hn. unfold nmea_publish_satellites. cbv zeta.
    unfold solution in Hs. rewrite Hs. apply Z.eqb_eq in He. rewrite He.
    cbn [andb]. rewrite bind_assoc, nmea_mark_navigating_bind. cbn [snd].
    apply in_or_app. left. apply in_map, overrun_indices_In, Hn.
Qed.

(** A table that counts 33 satellites when they are published, and the
    cycle that lists 33 satellites: the loop accesses [info[32]]. *)
Lemma nmea_marking_loop_overrun_witness :
  In (Info_overrun 32)
     (snd (nmea_publish_satellites
             (upd_satellites (set_count 33)
                (set_seen (Z.lor NMEA_SENTENCE_MASK_SOLUTION
                                 NMEA_SENTENCE_MASK_GPGSV) nmea_receiver))))
  /\ filter is_info_overrun
       (snd (gnss_receive nmea_receiver
               (nmea_fix_sentences ++ gsv_33_satellites)))
     = [Info_overrun 32].
Proof.
  split; [|vm_compute; reflexivity].
  apply (proj2 nmea_marking_loop_overrun); [reflexivity | reflexivity |].
  vm_compute. split; [intros Hx; discriminate Hx | reflexivity].
Defined.
